(** * CACTUS-tools: structured wake-field data and its statistics

    A shallow embedding of [pyCactus/CactusField.py] and [pyCactusWake.py]:
    grid reconstruction from flat tables, spatial and temporal slicing,
    time averaging, nearest-point extraction, turbulent kinetic energy and
    momentum deficit.

    Numbers are IEEE 754 binary floating-point values ([spec_float] of the
    standard library, with NumPy's two dtypes [float64] and [float32]);
    Python exceptions are the errors of a [result] monad; NumPy arrays are
    nested lists in C (row-major) order. *)

From Stdlib Require Import ZArith Lia Bool String Ascii.
From Stdlib Require Import Floats.SpecFloat.
From stdpp Require Import base option list gmap strings.

Local Open Scope string_scope.
Local Open Scope list_scope.

(** ** Python exceptions and results *)

Inductive pykey : Type :=
  | KStr (s : string)
  | KFloat (x : spec_float).

Inductive exception : Type :=
  | KeyError (key : pykey)
  | IndexError
  | ValueError
  | UnboundLocalError (name : string)
  | IOError (path : string)
  | ZeroDivisionError
  | ImportError (module : string)
  | OtherError (cls : string).

Inductive result (A : Type) : Type :=
  | Ok (a : A)
  | Raise (e : exception).
Arguments Ok {A} a.
Arguments Raise {A} e.

#[global] Instance result_ret : MRet result := @Ok.
#[global] Instance result_bind : MBind result :=
  fun A B (f : A -> result B) (r : result A) =>
    match r with
    | Ok a => f a
    | Raise e => Raise e
    end.
#[global] Instance result_fmap : FMap result :=
  fun A B (f : A -> B) (r : result A) =>
    match r with
    | Ok a => Ok (f a)
    | Raise e => Raise e
    end.

Definition is_Ok {A} (r : result A) : bool :=
  match r with Ok _ => true | Raise _ => false end.

(** [for x in l: ...] over a fallible body, collecting the results. *)
Fixpoint traverse {A B} (f : A -> result B) (l : list A) : result (list B) :=
  match l with
  | [] => Ok []
  | x :: l' => y ← f x; ys ← traverse f l'; Ok (y :: ys)
  end.

(** ** Python sequence indexing and slicing *)

(** [a[i]] for an integer [i]: negative indices count from the end,
    anything outside [-n <= i < n] raises IndexError. *)
Definition norm_index (i : Z) (n : nat) : result nat :=
  if decide (0 <= i < Z.of_nat n)%Z then Ok (Z.to_nat i)
  else if decide (- Z.of_nat n <= i < 0)%Z then Ok (Z.to_nat (i + Z.of_nat n))
  else Raise IndexError.

Definition getitem {A} (l : list A) (i : Z) : result A :=
  k ← norm_index i (length l);
  match l !! k with
  | Some x => Ok x
  | None => Raise IndexError
  end.

(** A slice bound: negative bounds count from the end, and every bound is
    clipped to [0 .. n] (slices never raise). *)
Definition slice_bound (i : Z) (n : nat) : nat :=
  if (i <? 0)%Z then Z.to_nat (Z.max (i + Z.of_nat n) 0)
  else Z.to_nat (Z.min i (Z.of_nat n)).

(** [l[start:stop]] *)
Definition py_slice {A} (start stop : Z) (l : list A) : list A :=
  let s := slice_bound start (length l) in
  let e := slice_bound stop (length l) in
  take (e - s) (drop s l).

Fixpoint index_of (name : string) (names : list string) : option nat :=
  match names with
  | [] => None
  | n :: rest =>
      if String.eqb n name then Some 0
      else S <$> index_of name rest
  end.

(** [str.strip()] *)
Definition is_space (c : ascii) : bool :=
  match nat_of_ascii c with
  | 9 | 10 | 11 | 12 | 13 | 32 => true
  | _ => false
  end.

Fixpoint lstrip_chars (l : list ascii) : list ascii :=
  match l with
  | [] => []
  | c :: l' => if is_space c then lstrip_chars l' else l
  end.

Definition strip (s : string) : string :=
  string_of_list_ascii
    (rev (lstrip_chars (rev (lstrip_chars (list_ascii_of_string s))))).

(** ** IEEE 754 numbers and NumPy dtypes *)

Abbreviation float := spec_float.

Inductive dtype : Type := float32 | float64.

Definition prec (d : dtype) : Z :=
  match d with float32 => 24 | float64 => 53 end.
Definition emax (d : dtype) : Z :=
  match d with float32 => 128 | float64 => 1024 end.

Definition NaN : float := S754_nan.
Definition fzero : float := S754_zero false.

Definition fadd (d : dtype) : float -> float -> float := SFadd (prec d) (emax d).
Definition fsub (d : dtype) : float -> float -> float := SFsub (prec d) (emax d).
Definition fmul (d : dtype) : float -> float -> float := SFmul (prec d) (emax d).
Definition fdiv (d : dtype) : float -> float -> float := SFdiv (prec d) (emax d).
Definition fsqrt (d : dtype) : float -> float := SFsqrt (prec d) (emax d).
Definition fabs : float -> float := SFabs.

(** Conversion of a Python int. *)
Definition of_int (d : dtype) (z : Z) : float :=
  binary_normalize (prec d) (emax d) z 0 false.

(** Conversion between dtypes, rounding to nearest even. *)
Definition astype (d : dtype) (x : float) : float :=
  match x with
  | S754_finite s m e => binary_round (prec d) (emax d) s m e
  | _ => x
  end.

Definition isnan (x : float) : bool :=
  match x with S754_nan => true | _ => false end.

(** Not NaN and not an infinity. *)
Definition isfinite (x : float) : bool :=
  match x with
  | S754_zero _ | S754_finite _ _ _ => true
  | _ => false
  end.

(** Well-formed value of a dtype: the mantissa is normalised for the format
    and the exponent is in range. *)
Definition valid (d : dtype) (x : float) : bool := valid_binary (prec d) (emax d) x.

(** [x == 0.0] *)
Definition is_zero (x : float) : bool := SFeqb x fzero.

(** ** NumPy arrays: nested lists in row-major order *)

Abbreviation arr1 := (list float).
Abbreviation arr2 := (list (list float)).
Abbreviation arr3 := (list (list (list float))).
Abbreviation arr4 := (list (list (list (list float)))).

(** [count] consecutive blocks of [size] elements. *)
Fixpoint split_n {A} (count size : nat) (l : list A) : list (list A) :=
  match count with
  | O => []
  | S c => take size l :: split_n c size (drop size l)
  end.

(** [np.reshape(l, [nz, ny, nx])]: the last index changes fastest. *)
Definition reshape3 (l : list float) (nz ny nx : nat) : result arr3 :=
  if decide (length l = nz * ny * nx)
  then Ok (map (split_n ny nx) (split_n nz (ny * nx) l))
  else Raise ValueError.

(** [np.reshape(l, [nt, nz, ny, nx])] *)
Definition reshape4 (l : list float) (nt nz ny nx : nat) : result arr4 :=
  if decide (length l = nt * nz * ny * nx)
  then Ok (map (fun b => map (split_n ny nx) (split_n nz (ny * nx) b))
               (split_n nt (nz * ny * nx) l))
  else Raise ValueError.

(** [a.ravel()] in C order. *)
Definition ravel2 (a : arr2) : arr1 := concat a.
Definition ravel3 (a : arr3) : arr1 := concat (concat a).
Definition ravel4 (a : arr4) : arr1 := concat (concat (concat a)).

(** [np.float32(a)] on a 3-D array. *)
Definition np_float32 (a : arr3) : arr3 := map (map (map (astype float32))) a.

(** [a[k, j, i]] *)
Definition getitem3 (a : arr3) (kji : Z * Z * Z) : result float :=
  let '(k, j, i) := kji in
  plane ← getitem a k;
  row ← getitem plane j;
  getitem row i.

(** Sorting as [np.sort]: ascending, NaN last. *)
Definition sort_le (a b : float) : bool := isnan b || SFleb a b.

Fixpoint insert_sorted (x : float) (l : list float) : list float :=
  match l with
  | [] => [x]
  | y :: l' => if sort_le x y then x :: l else y :: insert_sorted x l'
  end.

Definition np_sort (l : list float) : list float := foldr insert_sorted [] l.

(** [np.unique]: sort, then keep every element that differs ([!=]) from its
    predecessor.  NaN differs from everything, itself included. *)
Fixpoint drop_repeats (prev : float) (l : list float) : list float :=
  match l with
  | [] => []
  | x :: l' =>
      if SFeqb x prev then drop_repeats x l' else x :: drop_repeats x l'
  end.

Definition np_unique (l : list float) : list float :=
  match np_sort l with
  | [] => []
  | x :: rest => x :: drop_repeats x rest
  end.

(** [pandas.Series.unique]: values in order of first appearance; the hash
    table treats all NaN as one value. *)
Definition pd_eqb (a b : float) : bool := SFeqb a b || (isnan a && isnan b).

Fixpoint pd_unique_aux (seen : list float) (l : list float) : list float :=
  match l with
  | [] => []
  | x :: l' =>
      if existsb (pd_eqb x) seen then pd_unique_aux seen l'
      else x :: pd_unique_aux (x :: seen) l'
  end.

Definition pd_unique (l : list float) : list float := pd_unique_aux [] l.

(** [np.minimum] and [np.maximum] as the reduction loops apply them: the
    accumulator is kept when it compares [<=] ([>=]) or is NaN, so NaN
    propagates. *)
Definition np_minimum (acc x : float) : float :=
  if SFleb acc x || isnan acc then acc else x.
Definition np_maximum (acc x : float) : float :=
  if SFleb x acc || isnan acc then acc else x.

(** [a.min()], [a.max()] of a 1-D ndarray; an empty array raises. *)
Definition ndarray_min (a : arr1) : result float :=
  match a with
  | [] => Raise ValueError
  | x :: rest => Ok (foldl np_minimum x rest)
  end.
Definition ndarray_max (a : arr1) : result float :=
  match a with
  | [] => Raise ValueError
  | x :: rest => Ok (foldl np_maximum x rest)
  end.

(** [Series.min()], [Series.max()]: NaN entries are skipped; NaN when
    nothing is left. *)
Definition series_min (a : arr1) : float :=
  match filter (fun x => isnan x = false) a with
  | [] => NaN
  | x :: rest => foldl np_minimum x rest
  end.
Definition series_max (a : arr1) : float :=
  match filter (fun x => isnan x = false) a with
  | [] => NaN
  | x :: rest => foldl np_maximum x rest
  end.

(** [a.argmin()]: index of the first minimum; the first NaN wins. *)
Fixpoint argmin_from (mp : float) (mi i : nat) (l : list float) : nat :=
  match l with
  | [] => mi
  | x :: l' =>
      if isnan mp then mi
      else if negb (SFleb mp x) then argmin_from x i (S i) l'
      else argmin_from mp mi (S i) l'
  end.

Definition argmin (a : arr1) : result nat :=
  match a with
  | [] => Raise ValueError
  | x :: rest => Ok (argmin_from x 0 1 rest)
  end.

(** Summation as the [add] loop of NumPy 1.x performs it on [n] contiguous
    values ([pairwise_sum] in umath): fewer than 8 values are added in order
    to 0.0; up to 128 values go through eight accumulators, combined as a
    tree, the remainder added in order; longer runs are split in two at a
    multiple of 8 near the middle. *)
Fixpoint unrolled_sum (d : dtype) (r0 r1 r2 r3 r4 r5 r6 r7 : float) (l : list float) : float :=
  match l with
  | a0 :: a1 :: a2 :: a3 :: a4 :: a5 :: a6 :: a7 :: l' =>
      unrolled_sum d (fadd d r0 a0) (fadd d r1 a1) (fadd d r2 a2) (fadd d r3 a3)
                     (fadd d r4 a4) (fadd d r5 a5) (fadd d r6 a6) (fadd d r7 a7) l'
  | _ =>
      foldl (fadd d)
            (fadd d (fadd d (fadd d r0 r1) (fadd d r2 r3))
                    (fadd d (fadd d r4 r5) (fadd d r6 r7)))
            l
  end.

Definition block_sum (d : dtype) (l : list float) : float :=
  match l with
  | a0 :: a1 :: a2 :: a3 :: a4 :: a5 :: a6 :: a7 :: l' =>
      unrolled_sum d a0 a1 a2 a3 a4 a5 a6 a7 l'
  | _ => foldl (fadd d) fzero l
  end.

(** The recursion halves the run, so [fuel] = its length is never used up
    (lemma [pairwise_sum_fuel]). *)
Fixpoint pairwise_sum_rec (fuel : nat) (d : dtype) (l : list float) : float :=
  match fuel with
  | O => block_sum d l
  | S fuel' =>
      let n := length l in
      if decide (n <= 128) then block_sum d l
      else
        let n2 := n / 2 - (n / 2) mod 8 in
        fadd d (pairwise_sum_rec fuel' d (take n2 l))
               (pairwise_sum_rec fuel' d (drop n2 l))
  end.

Definition pairwise_sum (d : dtype) (l : list float) : float :=
  pairwise_sum_rec (length l) d l.

(** [np.add.reduce] of a contiguous 1-D array: the result starts as the
    identity 0.0, to which the loop adds the pairwise sum of the data. *)
Definition add_reduce (d : dtype) (l : list float) : float :=
  fadd d fzero (pairwise_sum d l).

(** Element-wise binary operation with NumPy broadcasting along one axis:
    equal lengths pair up, a length-1 operand is repeated, anything else
    raises ValueError. *)
Definition broadcast2 {A} (f : A -> A -> result A) (a b : list A) : result (list A) :=
  if decide (length a = length b) then traverse (fun p => f p.1 p.2) (zip a b)
  else match a, b with
       | [x], _ => traverse (f x) b
       | _, [y] => traverse (fun x => f x y) a
       | _, _ => Raise ValueError
       end.

(** [a + b] and [a / n] on float32 3-D arrays. *)
Definition add3 (a b : arr3) : result arr3 :=
  broadcast2 (broadcast2 (broadcast2 (fun x y => Ok (fadd float32 x y)))) a b.

Definition div3 (a : arr3) (n : nat) : arr3 :=
  map (map (map (fun x => fdiv float32 x (of_int float32 (Z.of_nat n))))) a.

(** ** Tables and files *)

(** A pandas DataFrame: named columns over a sequence of records.  A record
    shorter than the header reads as NaN in the missing columns. *)
Record DataFrame : Type := {
  df_columns : list string;
  df_rows : list (list float)
}.

(** [df.loc[:, name]] *)
Definition df_loc (df : DataFrame) (name : string) : result arr1 :=
  match index_of name (df_columns df) with
  | Some j => Ok (map (fun r => default NaN (r !! j)) (df_rows df))
  | None => Raise (KeyError (KStr name))
  end.

(** [name in df] *)
Definition df_contains (df : DataFrame) (name : string) : bool :=
  bool_decide (is_Some (index_of name (df_columns df))).

(** A number in a text file is read by two parsers: Python's [float] in
    [get_file_time] and the C parser of [pandas.read_csv] in [load_data],
    whose result can differ from [float]'s in the last bit. *)
Record csv_number : Type := {
  float_of : float;
  read_csv_of : float
}.

(** A delimited text file of numbers that pandas parses: the fields of the
    header line as [header.split(',')] gives them (not stripped, the last
    one with the line end) and the data rows. *)
Record csv_file : Type := {
  header : list string;
  body : list (list csv_number)
}.

Abbreviation filesystem := (gmap string csv_file).

Definition time_col_name : string := "Normalized Time (-)".
Definition x_col_name : string := "X/R (-)".
Definition y_col_name : string := "Y/R (-)".
Definition z_col_name : string := "Z/R (-)".
Definition u_col_name : string := "U/Uinf (-)".
Definition v_col_name : string := "V/Uinf (-)".
Definition w_col_name : string := "W/Uinf (-)".
Definition ufs_col_name : string := "Ufs/Uinf (-)".
Definition vfs_col_name : string := "Vfs/Uinf (-)".
Definition wfs_col_name : string := "Wfs/Uinf (-)".

(** [load_data]: reads the whole file and strips the column names. *)
Definition load_data (fs : filesystem) (data_filename : string) : result DataFrame :=
  match fs !! data_filename with
  | Some f => Ok {| df_columns := map strip (header f);
                    df_rows := map (map read_csv_of) (body f) |}
  | None => Raise (IOError data_filename)
  end.

(** [get_file_time]: the time of a file from its header and first data row;
    the header fields are matched as they stand (not stripped). *)
Definition get_file_time (fs : filesystem) (data_filename time_col : string) : result float :=
  match fs !! data_filename with
  | None => Raise (IOError data_filename)
  | Some f =>
      match index_of time_col (header f) with
      | None => Raise ValueError
      | Some time_col_num =>
          match body f with
          | [] => if decide (time_col_num = 0) then Raise ValueError else Raise IndexError
          | row1 :: _ =>
              match row1 !! time_col_num with
              | Some time => Ok (float_of time)
              | None => Raise IndexError
              end
          end
      end
  end.

(** ** [class CactusField] *)

Record grid_dims : Type := {
  nx : nat; ny : nat; nz : nat;
  dx : float; dy : float; dz : float;
  xlim : float * float; ylim : float * float; zlim : float * float
}.

(** [d[key]] on a dict keyed by strings. *)
Definition dict_getitem {V} (d : gmap string V) (key : string) : result V :=
  match d !! key with
  | Some v => Ok v
  | None => Raise (KeyError (KStr key))
  end.

(** The freestream test of [fielddata_from_df]: all three columns are in
    the table. *)
Definition has_vel_fs (df : DataFrame) : bool :=
  df_contains df ufs_col_name && df_contains df vfs_col_name
  && df_contains df wfs_col_name.

(** [fielddata_from_df] *)
Definition fielddata_from_df (df : DataFrame) : result (gmap string arr3 * grid_dims) :=
  x ← df_loc df x_col_name;
  y ← df_loc df y_col_name;
  z ← df_loc df z_col_name;
  u ← df_loc df u_col_name;
  v ← df_loc df v_col_name;
  w ← df_loc df w_col_name;
  fs ← (if has_vel_fs df then
          ufs ← df_loc df ufs_col_name;
          vfs ← df_loc df vfs_col_name;
          wfs ← df_loc df wfs_col_name;
          Ok (Some (ufs, vfs, wfs))
        else Ok None);
  let xmin := series_min x in
  let xmax := series_max x in
  ymin ← ndarray_min y;
  ymax ← ndarray_max y;
  zmin ← ndarray_min z;
  zmax ← ndarray_max z;
  let nx := length (np_unique x) in
  let ny := length (np_unique y) in
  let nz := length (np_unique z) in
  let dx := fdiv float64 (fsub float64 xmax xmin) (of_int float64 (Z.of_nat nx)) in
  let dy := fdiv float64 (fsub float64 ymax ymin) (of_int float64 (Z.of_nat ny)) in
  let dz := fdiv float64 (fsub float64 zmax zmin) (of_int float64 (Z.of_nat nz)) in
  X ← np_float32 <$> reshape3 x nz ny nx;
  Y ← np_float32 <$> reshape3 y nz ny nx;
  Z ← np_float32 <$> reshape3 z nz ny nx;
  U ← np_float32 <$> reshape3 u nz ny nx;
  V ← np_float32 <$> reshape3 v nz ny nx;
  W ← np_float32 <$> reshape3 w nz ny nx;
  FS ← match fs with
       | Some (ufs, vfs, wfs) =>
           Ufs ← np_float32 <$> reshape3 ufs nz ny nx;
           Vfs ← np_float32 <$> reshape3 vfs nz ny nx;
           Wfs ← np_float32 <$> reshape3 wfs nz ny nx;
           Ok (Some (Ufs, Vfs, Wfs))
       | None => Ok None
       end;
  let grid_data : gmap string arr3 :=
    <["W" := W]> (<["V" := V]> (<["U" := U]>
      (<["Z" := Z]> (<["Y" := Y]> (<["X" := X]> ∅))))) in
  let grid_data :=
    match FS with
    | Some (Ufs, Vfs, Wfs) =>
        <["Wfs" := Wfs]> (<["Vfs" := Vfs]> (<["Ufs" := Ufs]> grid_data))
    | None => grid_data
    end in
  Ok (grid_data,
      {| nx := nx; ny := ny; nz := nz; dx := dx; dy := dy; dz := dz;
         xlim := (xmin, xmax); ylim := (ymin, ymax); zlim := (zmin, zmax) |}).

(** The [{time : filename}] dict.  Keys are floats compared with [==]: an
    equal key overwrites the stored file name, and NaN equals no key. *)
Abbreviation fdict_t := (list (float * string)).

Fixpoint fdict_set (d : fdict_t) (time : float) (fname : string) : fdict_t :=
  match d with
  | [] => [(time, fname)]
  | (k, f) :: d' =>
      if SFeqb k time then (k, fname) :: d'
      else (k, f) :: fdict_set d' time fname
  end.

Fixpoint fdict_lookup (d : fdict_t) (time : float) : option string :=
  match d with
  | [] => None
  | (k, f) :: d' => if SFeqb k time then Some f else fdict_lookup d' time
  end.

Definition fdict_getitem (d : fdict_t) (time : float) : result string :=
  match fdict_lookup d time with
  | Some f => Ok f
  | None => Raise (KeyError (KFloat time))
  end.

Record CactusField : Type := {
  filenames : list string;
  num_times : nat;
  times : list float;
  fdict : fdict_t;
  cf_grid_dims : grid_dims
}.

(** The loop of [__init__] over the file names. *)
Fixpoint read_times (fs : filesystem) (fnames : list string)
    (times : list float) (fd : fdict_t) : result (list float * fdict_t) :=
  match fnames with
  | [] => Ok (times, fd)
  | fname :: rest =>
      time ← get_file_time fs fname time_col_name;
      read_times fs rest (times ++ [time]) (fdict_set fd time fname)
  end.

(** [CactusField.__init__] *)
Definition CactusField_init (fs : filesystem) (filenames : list string) : result CactusField :=
  '(times, fd) ← read_times fs filenames [] [];
  let times := np_sort times in
  fname0 ← getitem filenames 0;
  df ← load_data fs fname0;
  '(_, grid_dims) ← fielddata_from_df df;
  Ok {| filenames := filenames; num_times := length filenames;
        times := times; fdict := fd; cf_grid_dims := grid_dims |}.

(** [get_df_inst]: with neither argument the message is printed and
    the read of a missing file name fails. *)
Definition get_df_inst (fs : filesystem) (self : CactusField)
    (time : option float) (fname : option string) : result DataFrame :=
  fname ← match time with
          | Some t => Some <$> fdict_getitem (fdict self) t
          | None => Ok fname
          end;
  match fname with
  | Some f => load_data fs f
  | None => Raise ValueError
  end.

(** The arrays a time average carries from one timestep to the next. *)
Record mean_fields : Type := {
  mX : arr3; mY : arr3; mZ : arr3;
  mU : arr3; mV : arr3; mW : arr3;
  mUfs : arr3; mVfs : arr3; mWfs : arr3
}.

(** One pass of the summing loop of [field_time_average]; [acc] is [None]
    while the local variables are still unbound. *)
Definition average_step (fs : filesystem) (self : CactusField)
    (acc : option mean_fields) (ti : nat) (time : float) : result (option mean_fields) :=
  df_inst ← get_df_inst fs self (Some time) None;
  '(grid_data, _) ← fielddata_from_df df_inst;
  if decide (ti = 0) then
    X ← dict_getitem grid_data "X";
    Y ← dict_getitem grid_data "Y";
    Z ← dict_getitem grid_data "Z";
    U ← dict_getitem grid_data "U";
    V ← dict_getitem grid_data "V";
    W ← dict_getitem grid_data "W";
    Ufs ← dict_getitem grid_data "Ufs";
    Vfs ← dict_getitem grid_data "Vfs";
    Wfs ← dict_getitem grid_data "Wfs";
    Ok (Some {| mX := X; mY := Y; mZ := Z; mU := U; mV := V; mW := W;
                mUfs := Ufs; mVfs := Vfs; mWfs := Wfs |})
  else
    match acc with
    | None => Raise (UnboundLocalError "U")
    | Some a =>
        U ← (g ← dict_getitem grid_data "U"; add3 (mU a) g);
        V ← (g ← dict_getitem grid_data "V"; add3 (mV a) g);
        W ← (g ← dict_getitem grid_data "W"; add3 (mW a) g);
        Ufs ← (g ← dict_getitem grid_data "Ufs"; add3 (mUfs a) g);
        Vfs ← (g ← dict_getitem grid_data "Vfs"; add3 (mVfs a) g);
        Wfs ← (g ← dict_getitem grid_data "Wfs"; add3 (mWfs a) g);
        Ok (Some {| mX := mX a; mY := mY a; mZ := mZ a; mU := U; mV := V; mW := W;
                    mUfs := Ufs; mVfs := Vfs; mWfs := Wfs |})
    end.

Fixpoint average_loop (fs : filesystem) (self : CactusField)
    (acc : option mean_fields) (ti : nat) (window : list float) : result (option mean_fields) :=
  match window with
  | [] => Ok acc
  | time :: rest =>
      acc' ← average_step fs self acc ti time;
      average_loop fs self acc' (S ti) rest
  end.

(** [field_time_average]: the returned dict as the window's times and the
    nine arrays. *)
Definition field_time_average (fs : filesystem) (self : CactusField)
    (ti_start ti_end : Z) : result (list float * mean_fields) :=
  let window := py_slice ti_start ti_end (times self) in
  let num_times := length window in
  acc ← average_loop fs self None 0 window;
  match acc with
  | None => Raise (UnboundLocalError "U")
  | Some a =>
      Ok (window,
          {| mX := mX a; mY := mY a; mZ := mZ a;
             mU := div3 (mU a) num_times;
             mV := div3 (mV a) num_times;
             mW := div3 (mW a) num_times;
             mUfs := div3 (mUfs a) num_times;
             mVfs := div3 (mVfs a) num_times;
             mWfs := div3 (mWfs a) num_times |})
  end.

(** The dict returned by [pointdata_time_series]. *)
Record point_series : Type := {
  ps_t : list float;
  ps_u : arr2; ps_v : arr2; ps_w : arr2;
  ps_ufs : arr2; ps_vfs : arr2; ps_wfs : arr2
}.

(** [np.zeros([n, m])] *)
Definition np_zeros2 (n m : nat) : arr2 := replicate n (replicate m fzero).

(** [a[i, j] = x] on a float64 array, for indices in range. *)
Definition setitem2 (a : arr2) (i j : nat) (x : float) : arr2 :=
  alter (fun row => <[j := astype float64 x]> row) i a.

(** The double nearest to the literal [3.4e38] of NumPy's
    [min_scalar_type]. *)
Definition float32_bound : float := S754_finite false 8999725064576941 75.

(** NumPy 1.x casts a Python float by value: it counts as single precision
    when it is not finite or lies strictly between [-3.4e38] and
    [3.4e38]. *)
Definition fits_float32 (p : float) : bool :=
  negb (isfinite p) || SFltb (fabs p) float32_bound.

(** [np.abs(grid - p).argmin()] on a float32 grid axis and a Python float
    [p]: the difference is taken in single precision, with [p] rounded to
    it, when [p] counts as single precision, and in double precision
    otherwise. *)
Definition nearest_index (grid : arr1) (p : float) : result nat :=
  if fits_float32 p
  then argmin (map (fun g => fabs (fsub float32 g (astype float32 p))) grid)
  else argmin (map (fun g => fabs (fsub float64 g p)) grid).

Definition nearest_kji (x y z : arr1) (p : float * float * float) : result (Z * Z * Z) :=
  let '(xp, yp, zp) := p in
  xi ← nearest_index x xp;
  yi ← nearest_index y yp;
  zi ← nearest_index z zp;
  Ok (Z.of_nat zi, Z.of_nat yi, Z.of_nat xi).

(** The six stores of the inner loop for point [pi] at timestep [ti]. *)
Definition extract_point (grid_data : gmap string arr3) (ti : nat)
    (acc : point_series) (pi : nat) (coords : Z * Z * Z) : result point_series :=
  u ← (F ← dict_getitem grid_data "U"; getitem3 F coords);
  let acc_u := setitem2 (ps_u acc) pi ti u in
  v ← (F ← dict_getitem grid_data "V"; getitem3 F coords);
  let acc_v := setitem2 (ps_v acc) pi ti v in
  w ← (F ← dict_getitem grid_data "W"; getitem3 F coords);
  let acc_w := setitem2 (ps_w acc) pi ti w in
  ufs ← (F ← dict_getitem grid_data "Ufs"; getitem3 F coords);
  let acc_ufs := setitem2 (ps_ufs acc) pi ti ufs in
  vfs ← (F ← dict_getitem grid_data "Vfs"; getitem3 F coords);
  let acc_vfs := setitem2 (ps_vfs acc) pi ti vfs in
  wfs ← (F ← dict_getitem grid_data "Wfs"; getitem3 F coords);
  let acc_wfs := setitem2 (ps_wfs acc) pi ti wfs in
  Ok {| ps_t := ps_t acc; ps_u := acc_u; ps_v := acc_v; ps_w := acc_w;
        ps_ufs := acc_ufs; ps_vfs := acc_vfs; ps_wfs := acc_wfs |}.

Fixpoint extract_points (grid_data : gmap string arr3) (ti : nat)
    (acc : point_series) (pi : nat) (kji_nearest : list (Z * Z * Z)) : result point_series :=
  match kji_nearest with
  | [] => Ok acc
  | coords :: rest =>
      acc' ← extract_point grid_data ti acc pi coords;
      extract_points grid_data ti acc' (S pi) rest
  end.

Fixpoint extract_times (fs : filesystem) (self : CactusField)
    (kji_nearest : list (Z * Z * Z)) (acc : point_series)
    (ti : nat) (window : list float) : result point_series :=
  match window with
  | [] => Ok acc
  | time :: rest =>
      df_inst ← get_df_inst fs self (Some time) None;
      '(grid_data, _) ← fielddata_from_df df_inst;
      acc' ← extract_points grid_data ti acc 0 kji_nearest;
      extract_times fs self kji_nearest acc' (S ti) rest
  end.

(** The first part of [pointdata_time_series]: the grid of the first
    timestep and, for each point, the indices [(zi, yi, xi)] of the nearest
    node. *)
Definition nearest_nodes (fs : filesystem) (self : CactusField)
    (p_list : list (float * float * float)) : result (list (Z * Z * Z)) :=
  time0 ← getitem (times self) 0;
  df_inst ← get_df_inst fs self (Some time0) None;
  '(grid_data, _) ← fielddata_from_df df_inst;
  x ← (np_unique ∘ ravel3) <$> dict_getitem grid_data "X";
  y ← (np_unique ∘ ravel3) <$> dict_getitem grid_data "Y";
  z ← (np_unique ∘ ravel3) <$> dict_getitem grid_data "Z";
  traverse (nearest_kji x y z) p_list.

(** [pointdata_time_series] *)
Definition pointdata_time_series (fs : filesystem) (self : CactusField)
    (p_list : list (float * float * float)) (ti_start ti_end : Z) : result point_series :=
  kji_nearest ← nearest_nodes fs self p_list;
  let window := py_slice ti_start ti_end (times self) in
  let num_times := length window in
  let num_points := length p_list in
  let zeros := np_zeros2 num_points num_times in
  extract_times fs self kji_nearest
    {| ps_t := window; ps_u := zeros; ps_v := zeros; ps_w := zeros;
       ps_ufs := zeros; ps_vfs := zeros; ps_wfs := zeros |}
    0 window.

(** A dataset whose source tables lack the freestream columns: no file of
    the time-to-file dict loads to a table with all three of them. *)
Definition lacks_freestream (fs : filesystem) (self : CactusField) : bool :=
  forallb (fun p : float * string =>
             match load_data fs p.2 with
             | Ok df => negb (has_vel_fs df)
             | Raise _ => true
             end)
          (fdict self).

(** ** [pyCactusWake.py] *)

Module Wake.

(** A velocity field of the grid: 4-D [t, z, y, x] as built, 3-D once an
    in-place slice has overwritten it. *)
Inductive field : Type :=
  | Field4 (a : arr4)
  | Field3 (a : arr3).

(** [(col.max() - col.min())/n] on a pandas column: the extrema of an empty
    column are the Python float nan, whose division by the int 0 raises;
    a column with an entry has [n >= 1]. *)
Definition series_spacing (col : arr1) (n : nat) : result float :=
  match col, n with
  | [], O => Raise ZeroDivisionError
  | _, _ =>
      Ok (fdiv float64 (fsub float64 (series_max col) (series_min col))
            (of_int float64 (Z.of_nat n)))
  end.

Record CactusWakeGrid : Type := {
  times : list float;
  num_times : nat;
  nt : nat; nx : nat; ny : nat; nz : nat;
  dx : float; dy : float; dz : float;
  X_ : arr3; Y_ : arr3; Z_ : arr3;
  U : field; V : field; W : field
}.

(** [CactusWakeGrid.__init__] *)
Definition CactusWakeGrid_init (df : DataFrame) : result CactusWakeGrid :=
  t ← df_loc df time_col_name;
  let times := pd_unique t in
  let num_times := length times in
  x ← df_loc df x_col_name;
  y ← df_loc df y_col_name;
  z ← df_loc df z_col_name;
  u ← df_loc df u_col_name;
  v ← df_loc df v_col_name;
  w ← df_loc df w_col_name;
  let nt := num_times in
  let nx := length (pd_unique x) in
  let ny := length (pd_unique y) in
  let nz := length (pd_unique z) in
  dx ← series_spacing x nx;
  dy ← series_spacing y ny;
  dz ← series_spacing z nz;
  X ← reshape4 x nt nz ny nx;
  Y ← reshape4 y nt nz ny nx;
  Z ← reshape4 z nt nz ny nx;
  X0 ← (a ← getitem X 0; reshape3 (ravel3 a) nz ny nx);
  Y0 ← (a ← getitem Y 0; reshape3 (ravel3 a) nz ny nx);
  Z0 ← (a ← getitem Z 0; reshape3 (ravel3 a) nz ny nx);
  U ← reshape4 u nt nz ny nx;
  V ← reshape4 v nt nz ny nx;
  W ← reshape4 w nt nz ny nx;
  Ok {| times := times; num_times := num_times;
        nt := nt; nx := nx; ny := ny; nz := nz;
        dx := dx; dy := dy; dz := dz;
        X_ := X0; Y_ := Y0; Z_ := Z0;
        U := Field4 U; V := Field4 V; W := Field4 W |}.

(** The inner function of [slice_in_space].  An index into a 4-D array is
    checked on every row it selects from; a 3-D field has too few axes. *)
Definition slice_reshape (axis : string) (F : field) (i : Z) (nt n1 n2 : nat) : result field :=
  if decide (axis = "x") then
    match F with
    | Field4 a =>
        s ← traverse (traverse (traverse (fun row => getitem row i))) a;
        Field3 <$> reshape3 (ravel3 s) nt n2 n1
    | Field3 _ => Raise IndexError
    end
  else if decide (axis = "y") then
    match F with
    | Field4 a =>
        s ← traverse (traverse (fun plane => getitem plane i)) a;
        Field3 <$> reshape3 (ravel3 s) nt n2 n1
    | Field3 _ => Raise IndexError
    end
  else if decide (axis = "z") then
    match F with
    | Field4 a =>
        s ← traverse (fun vol => getitem vol i) a;
        Field3 <$> reshape3 (ravel3 s) nt n2 n1
    | Field3 _ => Raise IndexError
    end
  else Ok F.

(** [slice_in_space]: the three sliced fields and the grid afterwards. *)
Definition slice_in_space (self : CactusWakeGrid) (axis : string) (i : Z) (inplace : bool)
    : result (field * field * field * CactusWakeGrid) :=
  let nt := nt self in
  let n1 :=
    if decide (axis = "z") then Some (nx self)
    else if decide (axis = "y") then Some (nx self)
    else if decide (axis = "x") then Some (ny self)
    else None in
  let n2 :=
    if decide (axis = "z") then Some (ny self)
    else if decide (axis = "y") then Some (nz self)
    else if decide (axis = "x") then Some (nz self)
    else None in
  n1 ← match n1 with Some n => Ok n | None => Raise (UnboundLocalError "n1") end;
  n2 ← match n2 with Some n => Ok n | None => Raise (UnboundLocalError "n2") end;
  U' ← slice_reshape axis (U self) i nt n1 n2;
  V' ← slice_reshape axis (V self) i nt n1 n2;
  W' ← slice_reshape axis (W self) i nt n1 n2;
  let self' :=
    if inplace
    then {| times := times self; num_times := num_times self;
            nt := nt; nx := nx self; ny := ny self; nz := nz self;
            dx := dx self; dy := dy self; dz := dz self;
            X_ := X_ self; Y_ := Y_ self; Z_ := Z_ self;
            U := U'; V := V'; W := W' |}
    else self in
  Ok (U', V', W', self').

(** [find_nearest]: the value and index of the entry nearest to [value]. *)
Definition find_nearest (array : arr1) (value : float) : result (float * nat) :=
  index ← argmin (map (fun a => fabs (fsub float64 a value)) array);
  nearest_value ← getitem array (Z.of_nat index);
  Ok (nearest_value, index).

(** Reductions along the leading (time) axis.  A field of any dimension
    with time first is held as one flat row of points per time sample, in C
    order.  With two or more points per sample the rows are added to a row
    of 0.0 one after the other, in increasing time order; with one point
    per sample the time axis is the contiguous one and the samples are
    summed as a 1-D array.  (For an empty stack the points are unknown here
    and the result is empty; [field_time_stats] then raises at [np.min], as
    NumPy does.) *)
Definition np_sum0 (a : arr2) : arr1 :=
  match a with
  | [] => []
  | row :: _ =>
      if decide (length row = 1) then [add_reduce float64 (concat a)]
      else foldl (zip_with (fadd float64)) (replicate (length row) fzero) a
  end.

Definition np_mean0 (a : arr2) : arr1 :=
  map (fun s => fdiv float64 s (of_int float64 (Z.of_nat (length a)))) (np_sum0 a).

Definition np_std0 (a : arr2) : arr1 :=
  let arrmean := np_mean0 a in
  let x := map (fun row => zip_with (fsub float64) row arrmean) a in
  let x := map (map (fun d => fmul float64 d d)) x in
  map (fsqrt float64) (np_mean0 x).

Definition np_min0 (a : arr2) : result arr1 :=
  match a with
  | [] => Raise ValueError
  | row :: rest => Ok (foldl (zip_with np_minimum) row rest)
  end.

Definition np_max0 (a : arr2) : result arr1 :=
  match a with
  | [] => Raise ValueError
  | row :: rest => Ok (foldl (zip_with np_maximum) row rest)
  end.

(** The two warnings [field_time_stats] issues with [warn].  (The
    RuntimeWarning NumPy gives for the mean of an empty slice is not
    recorded; the call then raises at [np.min].) *)
Inductive warning : Type :=
  | StartOutOfRange (t_start : float)
  | EndOutOfRange (t_end : float).

(** The first [if] of [field_time_stats]: the start index and its warning. *)
Definition resolve_start (times : arr1) (t_start : float) : result (list warning * Z) :=
  first ← getitem times 0;
  if SFltb t_start first then Ok ([StartOutOfRange t_start], 0%Z)
  else
    '(_, index_start) ← find_nearest times t_start;
    Ok ([], Z.of_nat index_start).

(** The second [if]: the end index and its warning. *)
Definition resolve_end (times : arr1) (t_end : float) : result (list warning * Z) :=
  last ← getitem times (-1);
  if SFltb last t_end then Ok ([EndOutOfRange t_end], (-1)%Z)
  else if SFeqb t_end (of_int float64 (-1)) then Ok ([], (-1)%Z)
  else
    '(_, index_end) ← find_nearest times t_end;
    Ok ([], Z.of_nat index_end).

(** The four reductions over [field[index_start:index_end, ...]]. *)
Definition window_stats (field : arr2) (index_start index_end : Z)
    : result (arr1 * arr1 * arr1 * arr1) :=
  let window := py_slice index_start index_end field in
  let mean := np_mean0 window in
  let stdf := np_std0 window in
  minf ← np_min0 window;
  maxf ← np_max0 window;
  Ok (mean, stdf, minf, maxf).

(** [field_time_stats]: the warnings issued, in order, and the outcome. *)
Definition field_time_stats (field : arr2) (times : arr1) (t_start t_end : float)
    : list warning * result (arr1 * arr1 * arr1 * arr1) :=
  match resolve_start times t_start with
  | Raise e => ([], Raise e)
  | Ok (w1, index_start) =>
      match resolve_end times t_end with
      | Raise e => (w1, Raise e)
      | Ok (w2, index_end) => (w1 ++ w2, window_stats field index_start index_end)
      end
  end.

(** [a[:, idx]] on a 2-D array. *)
Definition column (a : arr2) (idx : nat) : result arr1 :=
  traverse (fun row => getitem row (Z.of_nat idx)) a.

(** [get_line_quantity] *)
Definition get_line_quantity (x_loc : float) (X Y U : arr2) : result (arr1 * float * nat) :=
  let x_grid := np_unique (ravel2 X) in
  '(x_nearest, idx_nearest) ← find_nearest x_grid x_loc;
  U_line ← column U idx_nearest;
  Ok (U_line, x_nearest, idx_nearest).

(** [np.diff] *)
Definition np_diff (x : arr1) : arr1 :=
  zip_with (fsub float64) (drop 1 x) x.

(** [a.sum()] of a 1-D array. *)
Definition np_sum1 (a : arr1) : float := add_reduce float64 a.

(** [scipy.integrate.trapz(y, x)]:
    [(diff(x) * (y[1:] + y[:-1]) / 2.0).sum()]. *)
Definition trapz (y x : arr1) : result float :=
  let d := np_diff x in
  let ysum := zip_with (fadd float64) (drop 1 y) (take (length y - 1) y) in
  prod ← broadcast2 (fun a b => Ok (fmul float64 a b)) d ysum;
  Ok (np_sum1 (map (fun p => fdiv float64 p (of_int float64 2)) prod)).

(** [calc_momentum_def] *)
Definition calc_momentum_def (x_loc : float) (X Y U : arr2) : result float :=
  '(U_line, x_line, x_idx_line) ← get_line_quantity x_loc X Y U;
  y_line ← column Y x_idx_line;
  let integrand :=
    map (fun u => fmul float64 u (fsub float64 (of_int float64 1) u)) U_line in
  trapz integrand y_line.

(** [0.5] *)
Definition half : float := fdiv float64 (of_int float64 1) (of_int float64 2).

(** [np.mean(np.power(mean - F, 2), axis=0)]: the mean is broadcast
    against every time sample of [F]. *)
Definition mean_square_fluc (F_mean : arr1) (F : arr2) : arr1 :=
  let F_fluc := map (fun row => zip_with (fsub float64) F_mean row) F in
  np_mean0 (map (map (fun d => fmul float64 d d)) F_fluc).

Definition badd (a b : arr1) : result arr1 :=
  broadcast2 (fun x y => Ok (fadd float64 x y)) a b.

(** [calc_tke] *)
Definition calc_tke (U V W : arr2) (times : arr1) (t_start t_end : float)
    : list warning * result arr1 :=
  let '(w1, rU) := field_time_stats U times t_start t_end in
  match rU with
  | Raise e => (w1, Raise e)
  | Ok (U_mean, _, _, _) =>
      let '(w2, rV) := field_time_stats V times t_start t_end in
      match rV with
      | Raise e => (w1 ++ w2, Raise e)
      | Ok (V_mean, _, _, _) =>
          let '(w3, rW) := field_time_stats W times t_start t_end in
          match rW with
          | Raise e => (w1 ++ w2 ++ w3, Raise e)
          | Ok (W_mean, _, _, _) =>
              (w1 ++ w2 ++ w3,
               uv ← badd (mean_square_fluc U_mean U) (mean_square_fluc V_mean V);
               uvw ← badd uv (mean_square_fluc W_mean W);
               Ok (map (fmul float64 half) uvw))
          end
      end
  end.

End Wake.

(** ** Example tables and files *)

Definition f64 (z : Z) : float := of_int float64 z.

(** [0.1] *)
Definition tenth : float := fdiv float64 (f64 1) (f64 10).

Definition field_columns : list string :=
  [x_col_name; y_col_name; z_col_name; u_col_name; v_col_name; w_col_name].

Definition freestream_columns : list string :=
  [ufs_col_name; vfs_col_name; wfs_col_name].

(** A grid node with [U = V = W = 1.0]. *)
Definition node (x y z : Z) : list float :=
  [f64 x; f64 y; f64 z; f64 1; f64 1; f64 1].

(** The 2 x 2 x 2 grid on the corners of the unit cube, x fastest. *)
Definition df_cube : DataFrame :=
  {| df_columns := field_columns;
     df_rows := [node 0 0 0; node 1 0 0; node 0 1 0; node 1 1 0;
                 node 0 0 1; node 1 0 1; node 0 1 1; node 1 1 1] |}.


(** One node at two times. *)
Definition df_two_times : DataFrame :=
  {| df_columns := time_col_name :: field_columns;
     df_rows := [f64 0 :: node 0 0 0; f64 1 :: node 0 0 0] |}.

(** The all-ones float32 array of shape 2 x 2 x 2. *)
Definition ones222 : arr3 :=
  replicate 2 (replicate 2 (replicate 2 (of_int float32 1))).

(** ** Point-wise reference definitions for the statistics

    These follow the specification's wording, one grid point at a time;
    the theorems below relate them to the array code of [Wake]. *)

(** The time series of a field at point [j]: [F[:, j]]. *)
Definition sample (F : arr2) (j : nat) : list float :=
  map (fun row => default NaN (row !! j)) F.

(** The sum of the time series of one point of a field with [npts] points
    per sample, in the order NumPy adds along the time axis: in time order
    from 0.0, or as a 1-D array when the field has a single point. *)
Definition time_sum (npts : nat) (l : list float) : float :=
  if decide (npts = 1) then add_reduce float64 l
  else foldl (fadd float64) fzero l.

(** Its mean: the sum divided by the number of samples. *)
Definition time_mean (npts : nat) (l : list float) : float :=
  fdiv float64 (time_sum npts l) (of_int float64 (Z.of_nat (length l))).

(** Mean over ALL samples of the squared fluctuation about the mean of the
    samples with index in [index_start, index_end). *)
Definition mean_square_about_window_mean (npts : nat) (F : arr2)
    (index_start index_end : Z) (j : nat) : float :=
  let window_mean := time_mean npts (py_slice index_start index_end (sample F j)) in
  time_mean npts
    (map (fun f => let d := fsub float64 window_mean f in fmul float64 d d)
         (sample F j)).

(** Turbulent kinetic energy at point [j]. *)
Definition tke_at_point (npts : nat) (U V W : arr2) (index_start index_end : Z) (j : nat) : float :=
  fmul float64 Wake.half
    (fadd float64
       (fadd float64 (mean_square_about_window_mean npts U index_start index_end j)
                     (mean_square_about_window_mean npts V index_start index_end j))
       (mean_square_about_window_mean npts W index_start index_end j)).

(** Three samples of a field on two points, and their times. *)
Definition field_3x2 : arr2 := [[f64 1; f64 2]; [f64 3; f64 4]; [f64 5; f64 9]].
Definition times_012 : arr1 := [f64 0; f64 1; f64 2].

(** ** Shapes of nested arrays *)

Definition shape2 {A} (n1 n0 : nat) (a : list (list A)) : Prop :=
  length a = n1 /\ Forall (fun row => length row = n0) a.

Definition shape3 {A} (n2 n1 n0 : nat) (a : list (list (list A))) : Prop :=
  length a = n2 /\ Forall (shape2 n1 n0) a.

Definition shape4 {A} (n3 n2 n1 n0 : nat) (a : list (list (list (list A)))) : Prop :=
  length a = n3 /\ Forall (shape3 n2 n1 n0) a.

(** [+0.0] or [-0.0]. *)
Definition zero_val (x : float) : Prop := exists s, x = S754_zero s.

(** Two nodes on a line in x at two times; U is 10, 11 at the first time and
    20, 21 at the second. *)
Definition line_row (t x u : Z) : list float :=
  [f64 t; f64 x; f64 0; f64 0; f64 u; f64 0; f64 0].

Definition df_line : DataFrame :=
  {| df_columns := time_col_name :: field_columns;
     df_rows := [line_row 0 0 10; line_row 0 1 11; line_row 1 0 20; line_row 1 1 21] |}.

(** Four records on the same line: three at time 0 (the node x = 0 twice)
    and one at time 1. *)
Definition df_uneven : DataFrame :=
  {| df_columns := time_col_name :: field_columns;
     df_rows := [line_row 0 0 10; line_row 0 1 11; line_row 0 0 12; line_row 1 1 21] |}.

(** A 2 x 2 plane: X varies along a row, Y from row to row. *)
Definition X_2x2 : arr2 := [[f64 0; f64 1]; [f64 0; f64 1]].
Definition Y_2x2 : arr2 := [[f64 0; f64 0]; [f64 1; f64 1]].
Definition ones_2x2 : arr2 := [[f64 1; f64 1]; [f64 1; f64 1]].

(** [2^1023] *)
Definition two_pow_1023 : float := S754_finite false 4503599627370496 971.

(** One vertical line of two nodes, at Y = -2^1023 and Y = 2^1023, with
    U = 1.0 at both. *)
Definition X_col : arr2 := [[f64 0]; [f64 0]].
Definition Y_far : arr2 := [[SFopp two_pow_1023]; [two_pow_1023]].
Definition ones_col : arr2 := [[f64 1]; [f64 1]].

(** The [{time : filename}] dict after storing a sequence of
    (file name, time) pairs in order, as the loop of [__init__] does. *)
Definition fdict_of (fd : fdict_t) (pairs : list (string * float)) : fdict_t :=
  foldl (fun d p => fdict_set d p.2 p.1) fd pairs.

(** Files of one node at the origin: at time [t] with [U = u], without and
    with the freestream columns. *)
Definition csv_header : list string := time_col_name :: field_columns.

(** The line end left on the last field of [header.split(',')]. *)
Definition line_end : string := String (ascii_of_nat 10) EmptyString.

(** The fields of a header line. *)
Definition header_line (names : list string) : list string :=
  match reverse names with
  | [] => []
  | name :: rest => reverse ((name +:+ line_end) :: rest)
  end.

(** A number both parsers read alike. *)
Definition num (x : float) : csv_number := {| float_of := x; read_csv_of := x |}.

Definition file_at (t u : Z) : csv_file :=
  {| header := header_line csv_header;
     body := [map num [f64 t; f64 0; f64 0; f64 0; f64 u; f64 0; f64 0]] |}.

Definition file_fs_at (t u : Z) : csv_file :=
  {| header := header_line (csv_header ++ freestream_columns);
     body := [map num [f64 t; f64 0; f64 0; f64 0; f64 u; f64 0; f64 0;
                       f64 1; f64 0; f64 0]] |}.

Definition fs_example : filesystem :=
  <["a.csv" := file_at 1 10]> (<["b.csv" := file_at 1 20]>
    (<["c.csv" := file_at 2 30]> (<["d.csv" := file_fs_at 3 40]> ∅))).

(** A stack of time samples with [n] points each. *)
Abbreviation rect n F := (Forall (fun row : list float => length row = n) F).


(** * Further definitions *)

(** ** Order and sign of IEEE values *)

(** [x < 0.0] is false: a NaN, a zero or a positive value. *)
Definition not_negative (x : float) : bool := negb (SFltb x fzero).

(** The sign bit is clear (NaN has none). *)
Definition sign_clear (x : float) : Prop :=
  match x with
  | S754_nan => True
  | S754_zero s | S754_infinity s | S754_finite s _ _ => s = false
  end.

(** Ascending in the order of [np.sort], every earlier entry before every
    later one. *)
Definition ascending (l : list float) : Prop :=
  forall i j a b, i < j -> l !! i = Some a -> l !! j = Some b -> sort_le a b = true.

(** The same, by recursion on the list. *)
Fixpoint sorted_from (l : list float) : Prop :=
  match l with
  | [] => True
  | x :: l' => Forall (fun y => sort_le x y = true) l' /\ sorted_from l'
  end.

(** ** Arrays of one shape *)

(** [a[k][j][i]] by position. *)
Definition at3 (a : arr3) (k j i : nat) : option float :=
  plane ← a !! k; row ← plane !! j; row !! i.

(** An element-wise operation on two arrays of one shape. *)
Definition zip3 (f : float -> float -> float) (a b : arr3) : arr3 :=
  zip_with (zip_with (zip_with f)) a b.

(** The sum of a sequence, accumulated in order. *)
Definition sum_in_order (d : dtype) (l : list float) : float :=
  match l with
  | [] => fzero
  | x :: rest => foldl (fadd d) x rest
  end.

(** The array a grid dict holds under a name. *)
Definition grid_field (name : string) (gd : gmap string arr3) : arr3 :=
  default [] (gd !! name).

(** Files of one node with the freestream columns, at times 3 and 4. *)
Definition fs_freestream : filesystem :=
  <["d.csv" := file_fs_at 3 40]> (<["e.csv" := file_fs_at 4 50]> ∅).

(** A grid dict that holds all nine arrays, each of shape [n2, n1, n0]. *)
Definition full_grid (n2 n1 n0 : nat) (gd : gmap string arr3) : Prop :=
  forall name, name ∈ ["X"; "Y"; "Z"; "U"; "V"; "W"; "Ufs"; "Vfs"; "Wfs"] ->
    exists F, gd !! name = Some F /\ shape3 n2 n1 n0 F.

(** The six velocity arrays of an average. *)
Definition velocity_fields (m : mean_fields) : list arr3 :=
  [mU m; mV m; mW m; mUfs m; mVfs m; mWfs m].

(** ** Nearest entries *)

(** Entry [n] of [axis] is nearest to [p] in the arithmetic of [d]: it is
    there, and when every distance is a number its distance is the smallest
    and strictly smaller than the distance of every earlier entry. *)
Definition nearest_to (d : dtype) (axis : arr1) (p : float) (n : nat) : Prop :=
  exists g, axis !! n = Some g /\
    (Forall (fun a => isnan (fsub d a p) = false) axis ->
       (forall a, a ∈ axis ->
          SFleb (fabs (fsub d g p)) (fabs (fsub d a p)) = true) /\
       (forall j a, j < n -> axis !! j = Some a ->
          SFleb (fabs (fsub d a p)) (fabs (fsub d g p)) = false)).

(** A point coordinate that is not finite or lies strictly between -3.4e38
    and 3.4e38. *)
Definition single_precision_scalar (p : float) : Prop :=
  isfinite p = false \/ SFltb (fabs p) float32_bound = true.

(** The axis node nearest to a point coordinate, as NumPy 1.x measures the
    distance: in single precision, with the coordinate rounded to it, for a
    coordinate that is not finite or lies strictly between -3.4e38 and
    3.4e38, and in double precision for a coordinate beyond that. *)
Definition nearest_node (axis : arr1) (p : float) (n : nat) : Prop :=
  (single_precision_scalar p /\ nearest_to float32 axis (astype float32 p) n) \/
  (~ single_precision_scalar p /\ nearest_to float64 axis p n).

(** ** Point series *)

(** [a[pi][ti]] by position. *)
Definition at2 (a : arr2) (pi ti : nat) : option float :=
  row ← a !! pi; row !! ti.

(** The value a field holds at an index triple. *)
Definition node_value (F : arr3) (c : Z * Z * Z) : float :=
  match getitem3 F c with
  | Ok v => v
  | Raise _ => NaN
  end.

(** The stores of one timestep into one array of the series, point after
    point. *)
Fixpoint store_points (F : arr3) (ti : nat) (a : arr2) (pi : nat)
    (kji : list (Z * Z * Z)) : arr2 :=
  match kji with
  | [] => a
  | c :: rest => store_points F ti (setitem2 a pi ti (node_value F c)) (S pi) rest
  end.

(** The stores of all timesteps into the array of one field. *)
Fixpoint store_times (name : string) (kji : list (Z * Z * Z)) (a : arr2) (ti : nat)
    (grids : list (gmap string arr3)) : arr2 :=
  match grids with
  | [] => a
  | gd :: rest =>
      store_times name kji (store_points (grid_field name gd) ti a 0 kji) (S ti) rest
  end.

(** An index triple inside an array of shape [n2, n1, n0]. *)
Definition inside (n2 n1 n0 : nat) (c : Z * Z * Z) : Prop :=
  (0 <= c.1.1 < Z.of_nat n2)%Z /\ (0 <= c.1.2 < Z.of_nat n1)%Z /\
  (0 <= c.2 < Z.of_nat n0)%Z.

(** ** The time window of the statistics *)

(** The start index asked of [field_time_stats]: 0 when [t_start] precedes
    the first time, else the index of the time nearest to [t_start]. *)
Definition start_index_of (times : arr1) (t_start : float) (i : Z) : Prop :=
  exists first, times !! 0 = Some first /\
    if SFltb t_start first then i = 0%Z
    else exists k, i = Z.of_nat k /\ k < length times /\ nearest_to float64 times t_start k.

(** The end index: -1 when [t_end] is beyond the last time or equals -1,
    else the index of the time nearest to [t_end]. *)
Definition end_index_of (times : arr1) (t_end : float) (i : Z) : Prop :=
  exists last, times !! (length times - 1) = Some last /\
    if SFltb last t_end || SFeqb t_end (of_int float64 (-1)) then i = (-1)%Z
    else exists k, i = Z.of_nat k /\ k < length times /\ nearest_to float64 times t_end k.

(** The warnings due for a request. *)
Definition start_warning (times : arr1) (t_start : float) : list Wake.warning :=
  match times !! 0 with
  | Some first => if SFltb t_start first then [Wake.StartOutOfRange t_start] else []
  | None => []
  end.

Definition end_warning (times : arr1) (t_end : float) : list Wake.warning :=
  match times !! (length times - 1) with
  | Some last => if SFltb last t_end then [Wake.EndOutOfRange t_end] else []
  | None => []
  end.

(** ** Extrema and distinct values of a column *)

(** [lo] and [hi] are the least and the greatest of the numbers in [col]. *)
Definition extrema_of (col : list float) (lo hi : float) : Prop :=
  lo ∈ col /\ hi ∈ col /\ isnan lo = false /\ isnan hi = false /\
  forall c, c ∈ col -> isnan c = false -> SFleb lo c = true /\ SFleb c hi = true.

(** [ds] holds the distinct values of [col], each once: every entry of
    [col] equals ([eqb]) an entry of [ds], which are entries of [col] no two
    of which are equal. *)
Definition distinct_values (eqb : float -> float -> bool) (col ds : list float) : Prop :=
  (forall d, d ∈ ds -> d ∈ col) /\
  (forall c, c ∈ col -> exists d, d ∈ ds /\ eqb c d = true) /\
  (forall i j a b, i < j -> ds !! i = Some a -> ds !! j = Some b -> eqb a b = false).

(** ** [write_vtk_series]: the calls to the external writer

    The VTK files are written by [gridToVTK] of the pyevtk library and the
    collection file by the XML library.  The export is modelled by what the
    function hands to them and by what they answer: the imports at the top
    of the function, the writer and the write of the collection file may
    each raise; [str] on the loop counter, [os.path.basename] and
    [os.path.abspath] are functions on strings.  All of them are
    parameters.  The outcome is the sequence of [gridToVTK] calls made (the
    last one may have raised) and the (timestep, file) entries written to
    the collection. *)

(** The arguments of one [gridToVTK] call; [pointData] in insertion order. *)
Record vtk_grid : Type := {
  vtk_path : string;
  vtk_X : arr3; vtk_Y : arr3; vtk_Z : arr3;
  vtk_point_data : list (string * (arr3 * arr3 * arr3))
}.

Definition dict_contains {V} (d : gmap string V) (key : string) : bool :=
  bool_decide (is_Some (d !! key)).

Section Vtk.
Variable import_writer : result unit.
Variable gridToVTK : vtk_grid -> result string.
Variable str_int : nat -> string.
Variable basename : string -> string.
Variable abspath : string -> string.
Variable tree_write : string -> list (float * string) -> result unit.

(** One pass of the loop of [write_vtk_series], up to the call of the
    writer: the call made, and the collection entry if the writer returns. *)
Definition vtk_step (fs : filesystem) (self : CactusField) (path name : string)
    (i : nat) (time : float) : result (vtk_grid * result (float * string)) :=
  fname ← fdict_getitem (fdict self) time;
  let vtk_name := name +:+ "_" +:+ str_int i in
  df_inst ← get_df_inst fs self (Some time) None;
  '(grid_data, grid_dims) ← fielddata_from_df df_inst;
  X ← dict_getitem grid_data "X";
  Y ← dict_getitem grid_data "Y";
  Z ← dict_getitem grid_data "Z";
  U ← dict_getitem grid_data "U";
  V ← dict_getitem grid_data "V";
  W ← dict_getitem grid_data "W";
  let velocity := (U, V, W) in
  let pointData := [("velocity", velocity)] in
  pointData ← (if dict_contains grid_data "Ufs" && dict_contains grid_data "Vfs"
                  && dict_contains grid_data "Wfs"
               then
                 Ufs ← dict_getitem grid_data "Ufs";
                 Vfs ← dict_getitem grid_data "Vfs";
                 Wfs ← dict_getitem grid_data "Wfs";
                 Ok (pointData ++ [("velocity_fs", (Ufs, Vfs, Wfs))])
               else Ok pointData);
  let call := {| vtk_path := path +:+ "/" +:+ vtk_name;
                 vtk_X := X; vtk_Y := Y; vtk_Z := Z;
                 vtk_point_data := pointData |} in
  Ok (call,
      data_filename ← gridToVTK call;
      Ok (time, basename data_filename)).

Fixpoint vtk_loop (fs : filesystem) (self : CactusField) (path name : string)
    (i : nat) (times : list float) : list vtk_grid * result (list (float * string)) :=
  match times with
  | [] => ([], Ok [])
  | time :: rest =>
      match vtk_step fs self path name i time with
      | Raise e => ([], Raise e)
      | Ok (call, Raise e) => ([call], Raise e)
      | Ok (call, Ok dataset) =>
          let '(calls, r) := vtk_loop fs self path name (S i) rest in
          (call :: calls, cons dataset <$> r)
      end
  end.

(** [write_vtk_series] *)
Definition write_vtk_series (fs : filesystem) (self : CactusField) (path name : string)
    : list vtk_grid * result (list (float * string)) :=
  match import_writer with
  | Raise e => ([], Raise e)
  | Ok _ =>
      let collection_fname := name +:+ ".pvd" in
      let '(calls, r) := vtk_loop fs self path name 0 (np_sort (times self)) in
      (calls,
       datasets ← r;
       let pvd_filename := abspath (path +:+ "/" +:+ collection_fname) in
       _ ← tree_write pvd_filename datasets;
       Ok datasets)
  end.

End Vtk.

(** ** [CactusWakeGrid.write_vtk]: the calls to the external writer *)

(** A velocity component handed to the writer: [F[ti, ...]] is a 3-D array
    of a 4-D field, and the 2-D array left of a field sliced in place. *)
Inductive vtk_component : Type :=
  | Volume (a : arr3)
  | Plane (a : arr2).

Record wake_vtk_grid : Type := {
  wvtk_path : string;
  wvtk_X : arr3; wvtk_Y : arr3; wvtk_Z : arr3;
  wvtk_velocity : vtk_component * vtk_component * vtk_component
}.

Section WakeVtk.
Variable import_writer : result unit.
Variable gridToVTK : wake_vtk_grid -> result string.
Variable str_int : nat -> string.
Variable basename : string -> string.
Variable tree_write : string -> list (float * string) -> result unit.

(** [F[ti, Ellipsis]] *)
Definition field_at (F : Wake.field) (ti : nat) : result vtk_component :=
  match F with
  | Wake.Field4 a => Volume <$> getitem a (Z.of_nat ti)
  | Wake.Field3 a => Plane <$> getitem a (Z.of_nat ti)
  end.

(** The time block [ti] of a field, as a velocity component. *)
Definition block_at (F : Wake.field) (ti : nat) : option vtk_component :=
  match F with
  | Wake.Field4 a => Volume <$> a !! ti
  | Wake.Field3 a => Plane <$> a !! ti
  end.

(** One pass of the loop of [write_vtk], up to the call of the writer. *)
Definition wake_vtk_step (self : Wake.CactusWakeGrid) (path name : string)
    (ti : nat) (time : float) : result (wake_vtk_grid * result (float * string)) :=
  let vtk_name := name +:+ "_" +:+ str_int ti in
  u ← field_at (Wake.U self) ti;
  v ← field_at (Wake.V self) ti;
  w ← field_at (Wake.W self) ti;
  let velocity := (u, v, w) in
  let call := {| wvtk_path := path +:+ "/" +:+ vtk_name;
                 wvtk_X := Wake.X_ self; wvtk_Y := Wake.Y_ self; wvtk_Z := Wake.Z_ self;
                 wvtk_velocity := velocity |} in
  Ok (call,
      data_filename ← gridToVTK call;
      Ok (time, basename data_filename)).

Fixpoint wake_vtk_loop (self : Wake.CactusWakeGrid) (path name : string)
    (ti : nat) (times : list float)
    : list wake_vtk_grid * result (list (float * string)) :=
  match times with
  | [] => ([], Ok [])
  | time :: rest =>
      match wake_vtk_step self path name ti time with
      | Raise e => ([], Raise e)
      | Ok (call, Raise e) => ([call], Raise e)
      | Ok (call, Ok dataset) =>
          let '(calls, r) := wake_vtk_loop self path name (S ti) rest in
          (call :: calls, cons dataset <$> r)
      end
  end.

(** [CactusWakeGrid.write_vtk] *)
Definition Wake_write_vtk (self : Wake.CactusWakeGrid) (path name : string)
    : list wake_vtk_grid * result (list (float * string)) :=
  match import_writer with
  | Raise e => ([], Raise e)
  | Ok _ =>
      let collection_fname := name +:+ ".pvd" in
      let '(calls, r) := wake_vtk_loop self path name 0 (Wake.times self) in
      (calls,
       datasets ← r;
       _ ← tree_write (path +:+ "/" +:+ collection_fname) datasets;
       Ok datasets)
  end.

End WakeVtk.


(** * Properties *)

(** ** The result monad *)

Lemma bind_Ok {A B} (m : result A) (k : A -> result B) (b : B) :
  m ≫= k = Ok b -> exists a, m = Ok a /\ k a = Ok b.
Proof. destruct m as [a|e]; simpl; [eauto | discriminate]. Qed.

Lemma fmap_Ok {A B} (f : A -> B) (m : result A) (b : B) :
  f <$> m = Ok b -> exists a, m = Ok a /\ b = f a.
Proof. destruct m as [a|e]; simpl; intros H; [injection H as <-; eauto | discriminate]. Qed.

Tactic Notation "bind_inv" hyp(H) "as" ident(a) ident(Ha) :=
  apply bind_Ok in H; destruct H as (a & Ha & H).

Tactic Notation "fmap_inv" hyp(H) "as" ident(a) ident(Ha) :=
  apply fmap_Ok in H; destruct H as (a & Ha & H).

(** ** Blocks and reshaping *)

Lemma length_split_n {A} (c s : nat) (l : list A) : length (split_n c s l) = c.
Proof. revert l; induction c as [|c IH]; intros l; simpl; [done | by rewrite IH]. Qed.

Lemma concat_split_n {A} (c s : nat) (l : list A) :
  length l = c * s -> concat (split_n c s l) = l.
Proof.
  revert l; induction c as [|c IH]; intros l Hl; simpl in *.
  - by destruct l.
  - rewrite IH; [apply take_drop |]. rewrite length_drop. lia.
Qed.

Lemma Forall_length_split_n {A} (c s : nat) (l : list A) :
  length l = c * s -> Forall (fun b => length b = s) (split_n c s l).
Proof.
  revert l; induction c as [|c IH]; intros l Hl; simpl in *; constructor.
  - rewrite length_take. lia.
  - apply IH. rewrite length_drop. lia.
Qed.

Lemma concat_map_split_n {A} (c s k : nat) (l : list A) :
  length l = c * (s * k) ->
  concat (concat (map (split_n s k) (split_n c (s * k) l))) = l.
Proof.
  intros Hl.
  assert (Hb : Forall (fun b => length b = s * k) (split_n c (s * k) l))
    by by apply Forall_length_split_n.
  rewrite <- (concat_split_n c (s * k) l) at 2 by done.
  induction Hb as [|b bs Hb _ IH]; simpl; [done |].
  by rewrite concat_app, IH, concat_split_n.
Qed.

Lemma ravel3_map (f : float -> float) (a : arr3) :
  ravel3 (map (map (map f)) a) = map f (ravel3 a).
Proof.
  unfold ravel3. by rewrite !List.concat_map.
Qed.

Lemma reshape3_Ok (l : list float) (nz ny nx : nat) (a : arr3) :
  reshape3 l nz ny nx = Ok a ->
  length l = nz * ny * nx /\ a = map (split_n ny nx) (split_n nz (ny * nx) l).
Proof. unfold reshape3. case_decide; intros Heq; [by injection Heq as <- | discriminate]. Qed.

Lemma reshape3_intro (l : list float) (nz ny nx : nat) :
  length l = nz * ny * nx ->
  reshape3 l nz ny nx = Ok (map (split_n ny nx) (split_n nz (ny * nx) l)).
Proof. intros H. unfold reshape3. by rewrite decide_True. Qed.

Lemma ravel3_reshape3 (l : list float) (nz ny nx : nat) (a : arr3) :
  reshape3 l nz ny nx = Ok a -> ravel3 a = l.
Proof.
  intros [Hl ->]%reshape3_Ok. apply concat_map_split_n. lia.
Qed.

(** ** Tables *)

Lemma length_df_loc (df : DataFrame) (name : string) (c : arr1) :
  df_loc df name = Ok c -> length c = length (df_rows df).
Proof.
  unfold df_loc. destruct (index_of _ _); [|discriminate].
  intros H; injection H as <-. by rewrite length_map.
Qed.

Lemma df_contains_loc (df : DataFrame) (name : string) :
  df_contains df name = true -> exists c, df_loc df name = Ok c.
Proof.
  unfold df_contains, df_loc. intros H%bool_decide_eq_true.
  destruct H as [j ->]. eauto.
Qed.

Lemma df_loc_contains (df : DataFrame) (name : string) (c : arr1) :
  df_loc df name = Ok c -> df_contains df name = true.
Proof.
  unfold df_contains, df_loc. destruct (index_of _ _) eqn:E; [|discriminate].
  intros _. apply bool_decide_eq_true. eauto.
Qed.

(** ** Pairwise summation *)

Lemma pairwise_sum_rec_S (d : dtype) (fuel : nat) (l : list float) :
  pairwise_sum_rec (S fuel) d l
  = if decide (length l <= 128) then block_sum d l
    else fadd d (pairwise_sum_rec fuel d (take (length l / 2 - (length l / 2) mod 8) l))
                (pairwise_sum_rec fuel d (drop (length l / 2 - (length l / 2) mod 8) l)).
Proof. done. Qed.

Lemma split_point (n : nat) :
  128 < n -> 0 < n / 2 - (n / 2) mod 8 < n.
Proof.
  intros Hn. pose proof (Nat.div_mod_eq n 2) as E2.
  pose proof (Nat.mod_upper_bound n 2 ltac:(lia)).
  pose proof (Nat.mod_upper_bound (n / 2) 8 ltac:(lia)). lia.
Qed.

(** The fuel of [pairwise_sum] suffices: more of it changes nothing. *)
Lemma pairwise_sum_fuel (d : dtype) (fuel : nat) (l : list float) :
  length l <= fuel -> pairwise_sum_rec fuel d l = pairwise_sum d l.
Proof.
  unfold pairwise_sum. revert l.
  induction fuel as [fuel IH] using lt_wf_ind. intros l Hl.
  destruct fuel as [|fuel].
  - by replace (length l) with 0 by lia.
  - destruct (length l) as [|n] eqn:En.
    + rewrite pairwise_sum_rec_S, decide_True by lia. done.
    + rewrite !pairwise_sum_rec_S, En. case_decide as Hn; [done |].
      pose proof (split_point (S n) ltac:(lia)) as H2.
      set (n2 := S n / 2 - (S n / 2) mod 8) in *.
      assert (Lt : length (take n2 l) <= n) by (rewrite length_take; lia).
      assert (Ld : length (drop n2 l) <= n) by (rewrite length_drop; lia).
      rewrite (IH fuel) by lia. rewrite (IH fuel (ltac:(lia)) (drop n2 l)) by lia.
      rewrite (IH n) by lia. rewrite (IH n (ltac:(lia)) (drop n2 l)) by lia.
      done.
Qed.

(** Up to seven values are added in order to 0.0. *)
Lemma add_reduce_short (d : dtype) (l : list float) :
  length l < 8 -> add_reduce d l = fadd d fzero (foldl (fadd d) fzero l).
Proof.
  intros Hl. unfold add_reduce, pairwise_sum. f_equal.
  assert (Hb : block_sum d l = foldl (fadd d) fzero l).
  { do 8 (destruct l as [|? l]; [done |]). simpl in Hl. lia. }
  destruct (length l) eqn:E; [done |]. rewrite pairwise_sum_rec_S, decide_True by lia. done.
Qed.

(** A property of numbers that 0.0 has and addition keeps is kept by every
    sum. *)
Section SumClosure.
Variable d : dtype.
Variable P : float -> Prop.
Hypothesis P_zero : P fzero.
Hypothesis P_add : forall x y, P x -> P y -> P (fadd d x y).

Lemma foldl_fadd_closed (acc : float) (l : list float) :
  P acc -> Forall P l -> P (foldl (fadd d) acc l).
Proof.
  intros Hacc Hl. revert acc Hacc.
  induction Hl as [|x l Hx _ IH]; intros acc Hacc; simpl; [done |].
  apply IH. by apply P_add.
Qed.

Lemma unrolled_sum_closed (r0 r1 r2 r3 r4 r5 r6 r7 : float) (l : list float) :
  P r0 -> P r1 -> P r2 -> P r3 -> P r4 -> P r5 -> P r6 -> P r7 -> Forall P l ->
  P (unrolled_sum d r0 r1 r2 r3 r4 r5 r6 r7 l).
Proof.
  remember (length l) as n eqn:Hn. revert l Hn r0 r1 r2 r3 r4 r5 r6 r7.
  induction n as [n IH] using lt_wf_ind.
  intros l Hn r0 r1 r2 r3 r4 r5 r6 r7 H0 H1 H2 H3 H4 H5 H6 H7 Hl.
  assert (Htree : P (fadd d (fadd d (fadd d r0 r1) (fadd d r2 r3))
                            (fadd d (fadd d r4 r5) (fadd d r6 r7))))
    by (repeat apply P_add; done).
  do 8 (destruct l as [|? l]; [by apply foldl_fadd_closed |]).
  simpl. repeat (apply Forall_cons in Hl as [? Hl]).
  apply (IH (length l)); [simpl in Hn; lia | done | try (by apply P_add) ..]. done.
Qed.

Lemma block_sum_closed (l : list float) : Forall P l -> P (block_sum d l).
Proof.
  intros Hl.
  do 8 (destruct l as [|? l]; [by apply foldl_fadd_closed |]).
  simpl. repeat (apply Forall_cons in Hl as [? Hl]). by apply unrolled_sum_closed.
Qed.

Lemma pairwise_sum_rec_closed (fuel : nat) (l : list float) :
  Forall P l -> P (pairwise_sum_rec fuel d l).
Proof.
  revert l. induction fuel as [|fuel IH]; intros l Hl;
    [by apply block_sum_closed |].
  rewrite pairwise_sum_rec_S. case_decide; [by apply block_sum_closed |].
  apply P_add; apply IH; [by apply Forall_take | by apply Forall_drop].
Qed.

Lemma add_reduce_closed (l : list float) : Forall P l -> P (add_reduce d l).
Proof.
  intros Hl. unfold add_reduce, pairwise_sum.
  apply P_add; [done | by apply pairwise_sum_rec_closed].
Qed.

End SumClosure.

(** ** Grid reconstruction *)

(** What a successful [fielddata_from_df] has computed. *)
Lemma fielddata_from_df_Ok (df : DataFrame) (gd : gmap string arr3) (dims : grid_dims) :
  fielddata_from_df df = Ok (gd, dims) ->
  exists x y z u v w ymin ymax zmin zmax X Y Z U V W,
    df_loc df x_col_name = Ok x /\ df_loc df y_col_name = Ok y /\
    df_loc df z_col_name = Ok z /\ df_loc df u_col_name = Ok u /\
    df_loc df v_col_name = Ok v /\ df_loc df w_col_name = Ok w /\
    ndarray_min y = Ok ymin /\ ndarray_max y = Ok ymax /\
    ndarray_min z = Ok zmin /\ ndarray_max z = Ok zmax /\
    reshape3 x (nz dims) (ny dims) (nx dims) = Ok X /\
    reshape3 y (nz dims) (ny dims) (nx dims) = Ok Y /\
    reshape3 z (nz dims) (ny dims) (nx dims) = Ok Z /\
    reshape3 u (nz dims) (ny dims) (nx dims) = Ok U /\
    reshape3 v (nz dims) (ny dims) (nx dims) = Ok V /\
    reshape3 w (nz dims) (ny dims) (nx dims) = Ok W /\
    dims = {| nx := length (np_unique x); ny := length (np_unique y);
              nz := length (np_unique z);
              dx := fdiv float64 (fsub float64 (series_max x) (series_min x))
                      (of_int float64 (Z.of_nat (length (np_unique x))));
              dy := fdiv float64 (fsub float64 ymax ymin)
                      (of_int float64 (Z.of_nat (length (np_unique y))));
              dz := fdiv float64 (fsub float64 zmax zmin)
                      (of_int float64 (Z.of_nat (length (np_unique z))));
              xlim := (series_min x, series_max x);
              ylim := (ymin, ymax); zlim := (zmin, zmax) |} /\
    gd !! "X" = Some (np_float32 X) /\ gd !! "Y" = Some (np_float32 Y) /\
    gd !! "Z" = Some (np_float32 Z) /\ gd !! "U" = Some (np_float32 U) /\
    gd !! "V" = Some (np_float32 V) /\ gd !! "W" = Some (np_float32 W) /\
    (if has_vel_fs df then
       exists ufs vfs wfs Ufs Vfs Wfs,
         df_loc df ufs_col_name = Ok ufs /\ df_loc df vfs_col_name = Ok vfs /\
         df_loc df wfs_col_name = Ok wfs /\
         reshape3 ufs (nz dims) (ny dims) (nx dims) = Ok Ufs /\
         reshape3 vfs (nz dims) (ny dims) (nx dims) = Ok Vfs /\
         reshape3 wfs (nz dims) (ny dims) (nx dims) = Ok Wfs /\
         gd !! "Ufs" = Some (np_float32 Ufs) /\ gd !! "Vfs" = Some (np_float32 Vfs) /\
         gd !! "Wfs" = Some (np_float32 Wfs)
     else gd !! "Ufs" = None /\ gd !! "Vfs" = None /\ gd !! "Wfs" = None).
Proof.
  unfold fielddata_from_df. intros H.
  bind_inv H as x Hx; bind_inv H as y Hy; bind_inv H as z Hz.
  bind_inv H as u Hu; bind_inv H as v Hv; bind_inv H as w Hw.
  bind_inv H as fs Hfs.
  bind_inv H as ymin Hymin; bind_inv H as ymax Hymax.
  bind_inv H as zmin Hzmin; bind_inv H as zmax Hzmax.
  cbv zeta in H.
  bind_inv H as X' HX; fmap_inv HX as X HX'; subst X'.
  bind_inv H as Y' HY; fmap_inv HY as Y HY'; subst Y'.
  bind_inv H as Z' HZ; fmap_inv HZ as Z HZ'; subst Z'.
  bind_inv H as U' HU; fmap_inv HU as U HU'; subst U'.
  bind_inv H as V' HV; fmap_inv HV as V HV'; subst V'.
  bind_inv H as W' HW; fmap_inv HW as W HW'; subst W'.
  bind_inv H as FS HFS.
  exists x, y, z, u, v, w, ymin, ymax, zmin, zmax, X, Y, Z, U, V, W.
  destruct (has_vel_fs df).
  - bind_inv Hfs as ufs Hufs; bind_inv Hfs as vfs Hvfs; bind_inv Hfs as wfs Hwfs.
    injection Hfs as <-.
    bind_inv HFS as Ufs' HUfs; fmap_inv HUfs as Ufs HUfs'; subst Ufs'.
    bind_inv HFS as Vfs' HVfs; fmap_inv HVfs as Vfs HVfs'; subst Vfs'.
    bind_inv HFS as Wfs' HWfs; fmap_inv HWfs as Wfs HWfs'; subst Wfs'.
    injection HFS as <-. injection H as <- <-. simpl.
    repeat split; try done.
    exists ufs, vfs, wfs, Ufs, Vfs, Wfs. repeat split; done.
  - injection Hfs as <-. injection HFS as <-. injection H as <- <-. simpl.
    repeat split; done.
Qed.

Lemma ndarray_min_Ok (a : arr1) : a <> [] -> exists m, ndarray_min a = Ok m.
Proof. destruct a; [done | simpl; eauto]. Qed.

Lemma ndarray_max_Ok (a : arr1) : a <> [] -> exists m, ndarray_max a = Ok m.
Proof. destruct a; [done | simpl; eauto]. Qed.

Lemma df_loc_nonempty (df : DataFrame) (name : string) (c : arr1) :
  df_loc df name = Ok c -> df_rows df <> [] -> c <> [].
Proof.
  intros Hc%length_df_loc Hr ->. destruct (df_rows df); [done | discriminate].
Qed.

(** A non-empty table with the six columns whose row count is the product
    of the distinct-coordinate counts is reconstructed. *)
Lemma fielddata_from_df_intro (df : DataFrame) (x y z u v w : arr1) :
  df_loc df x_col_name = Ok x -> df_loc df y_col_name = Ok y ->
  df_loc df z_col_name = Ok z -> df_loc df u_col_name = Ok u ->
  df_loc df v_col_name = Ok v -> df_loc df w_col_name = Ok w ->
  df_rows df <> [] ->
  length (df_rows df)
    = length (np_unique z) * length (np_unique y) * length (np_unique x) ->
  exists gd dims, fielddata_from_df df = Ok (gd, dims).
Proof.
  intros Hx Hy Hz Hu Hv Hw Hne Hlen.
  destruct (ndarray_min_Ok y) as [ymin Hymin]; [by eapply df_loc_nonempty |].
  destruct (ndarray_max_Ok y) as [ymax Hymax]; [by eapply df_loc_nonempty |].
  destruct (ndarray_min_Ok z) as [zmin Hzmin]; [by eapply df_loc_nonempty |].
  destruct (ndarray_max_Ok z) as [zmax Hzmax]; [by eapply df_loc_nonempty |].
  assert (Hfs : exists fs,
    (if has_vel_fs df
     then ufs ← df_loc df ufs_col_name; vfs ← df_loc df vfs_col_name;
          wfs ← df_loc df wfs_col_name; Ok (Some (ufs, vfs, wfs))
     else Ok None) = Ok fs /\
    match fs with
    | Some (ufs, vfs, wfs) =>
        length ufs = length (df_rows df) /\ length vfs = length (df_rows df)
        /\ length wfs = length (df_rows df)
    | None => True
    end).
  { destruct (has_vel_fs df) eqn:E; [| by exists None].
    unfold has_vel_fs in E. apply andb_true_iff in E as [[E1 E2]%andb_true_iff E3].
    apply df_contains_loc in E1 as [ufs E1], E2 as [vfs E2], E3 as [wfs E3].
    exists (Some (ufs, vfs, wfs)). rewrite E1, E2, E3. simpl.
    split; [done |]. repeat split; by eapply length_df_loc. }
  destruct Hfs as (fs & Hfs & Hfslen).
  unfold fielddata_from_df.
  rewrite Hx, Hy, Hz, Hu, Hv, Hw. simpl. rewrite Hfs. simpl.
  rewrite Hymin, Hymax, Hzmin, Hzmax. simpl.
  apply length_df_loc in Hx, Hy, Hz, Hu, Hv, Hw.
  rewrite !reshape3_intro by congruence. simpl.
  destruct fs as [[[ufs vfs] wfs]|].
  - destruct Hfslen as (H1 & H2 & H3).
    rewrite !reshape3_intro by congruence. simpl. eauto.
  - simpl. eauto.
Qed.

Lemma reshape4_Ok (l : list float) (nt nz ny nx : nat) (a : arr4) :
  reshape4 l nt nz ny nx = Ok a ->
  length l = nt * nz * ny * nx /\
  a = map (fun b => map (split_n ny nx) (split_n nz (ny * nx) b))
          (split_n nt (nz * ny * nx) l).
Proof. unfold reshape4. case_decide; intros Heq; [by injection Heq as <- | discriminate]. Qed.

Lemma getitem_0_Ok {A} (l : list A) (x : A) : getitem l 0 = Ok x -> l <> [].
Proof. by destruct l. Qed.

Lemma series_spacing_Ok (col : arr1) (n : nat) (d : float) :
  Wake.series_spacing col n = Ok d ->
  d = fdiv float64 (fsub float64 (series_max col) (series_min col))
        (of_int float64 (Z.of_nat n)).
Proof. unfold Wake.series_spacing. by destruct col, n; intros [= <-]. Qed.

(** What a successful [CactusWakeGrid.__init__] has computed. *)
Lemma CactusWakeGrid_init_Ok (df : DataFrame) (g : Wake.CactusWakeGrid) :
  Wake.CactusWakeGrid_init df = Ok g ->
  exists t x y z u v w U V W,
    df_loc df time_col_name = Ok t /\
    df_loc df x_col_name = Ok x /\ df_loc df y_col_name = Ok y /\
    df_loc df z_col_name = Ok z /\ df_loc df u_col_name = Ok u /\
    df_loc df v_col_name = Ok v /\ df_loc df w_col_name = Ok w /\
    Wake.times g = pd_unique t /\ Wake.num_times g = length (pd_unique t) /\
    Wake.nt g = length (pd_unique t) /\
    Wake.nx g = length (pd_unique x) /\ Wake.ny g = length (pd_unique y) /\
    Wake.nz g = length (pd_unique z) /\
    Wake.dx g = fdiv float64 (fsub float64 (series_max x) (series_min x))
                  (of_int float64 (Z.of_nat (Wake.nx g))) /\
    Wake.dy g = fdiv float64 (fsub float64 (series_max y) (series_min y))
                  (of_int float64 (Z.of_nat (Wake.ny g))) /\
    Wake.dz g = fdiv float64 (fsub float64 (series_max z) (series_min z))
                  (of_int float64 (Z.of_nat (Wake.nz g))) /\
    reshape4 u (Wake.nt g) (Wake.nz g) (Wake.ny g) (Wake.nx g) = Ok U /\
    reshape4 v (Wake.nt g) (Wake.nz g) (Wake.ny g) (Wake.nx g) = Ok V /\
    reshape4 w (Wake.nt g) (Wake.nz g) (Wake.ny g) (Wake.nx g) = Ok W /\
    Wake.U g = Wake.Field4 U /\ Wake.V g = Wake.Field4 V /\ Wake.W g = Wake.Field4 W /\
    Wake.nt g <> 0.
Proof.
  unfold Wake.CactusWakeGrid_init. intros H.
  bind_inv H as t Ht. cbv zeta in H.
  bind_inv H as x Hx; bind_inv H as y Hy; bind_inv H as z Hz.
  bind_inv H as u Hu; bind_inv H as v Hv; bind_inv H as w Hw.
  bind_inv H as dx Hdx; bind_inv H as dy Hdy; bind_inv H as dz Hdz.
  apply series_spacing_Ok in Hdx, Hdy, Hdz.
  bind_inv H as X HX; bind_inv H as Y HY; bind_inv H as Z HZ.
  bind_inv H as X0 HX0; bind_inv H as Y0 HY0; bind_inv H as Z0 HZ0.
  bind_inv H as U HU; bind_inv H as V HV; bind_inv H as W HW.
  injection H as <-. simpl.
  exists t, x, y, z, u, v, w, U, V, W. repeat split; try done.
  bind_inv HX0 as a Ha. apply getitem_0_Ok in Ha.
  apply reshape4_Ok in HX as [_ ->]. intros E. rewrite E in Ha. done.
Qed.

(** ** C1: round trip of reconstruction *)


Lemma getitem_lookup {A} (l : list A) (k : nat) (x : A) :
  l !! k = Some x -> getitem l (Z.of_nat k) = Ok x.
Proof.
  intros Hk. pose proof (lookup_lt_Some _ _ _ Hk).
  unfold getitem, norm_index. rewrite decide_True by lia. simpl.
  by rewrite Nat2Z.id, Hk.
Qed.






(** ** C2: the grid dimensions account for every row *)

(** C2 (as amended).  Whenever reconstruction returns, the grid dimensions
    account for the rows of the whole input table: nx*ny*nz is the number
    of rows for [fielddata_from_df], whose table is one timestep, and
    nt*(nx*ny*nz) is the number of rows for [CactusWakeGrid], nt being the
    number of distinct times.  (How many rows each time has is not
    checked.) *)
Theorem grid_dimensions_cover_rows (df : DataFrame) :
  (forall gd dims, fielddata_from_df df = Ok (gd, dims) ->
     nx dims * ny dims * nz dims = length (df_rows df)) /\
  (forall g, Wake.CactusWakeGrid_init df = Ok g ->
     Wake.nt g * (Wake.nx g * Wake.ny g * Wake.nz g) = length (df_rows df)).
Proof.
  split.
  - intros gd dims Hok.
    destruct (fielddata_from_df_Ok _ _ _ Hok)
      as (x & y & z & u & v & w & ymin & ymax & zmin & zmax
          & X & Y & Z & U & V & W & Hx & _ & _ & _ & _ & _ & _ & _ & _ & _
          & HX & _).
    apply reshape3_Ok in HX as [HX _]. apply length_df_loc in Hx. lia.
  - intros g Hok.
    destruct (CactusWakeGrid_init_Ok _ _ Hok)
      as (t & x & y & z & u & v & w & U & V & W & _ & _ & _ & _ & Hu & _ & _
          & _ & _ & _ & _ & _ & _ & _ & _ & _ & HU & _).
    apply reshape4_Ok in HU as [HU _]. apply length_df_loc in Hu. lia.
Qed.

(** The unit cube has 2*2*2 = 8 rows; one node at two times has 2*1 rows. *)
Lemma grid_dimensions_cover_rows_witness :
  (exists gd dims, fielddata_from_df df_cube = Ok (gd, dims) /\
     nx dims * ny dims * nz dims = 8) /\
  (exists g, Wake.CactusWakeGrid_init df_two_times = Ok g /\
     Wake.nt g * (Wake.nx g * Wake.ny g * Wake.nz g) = 2).
Proof.
  split.
  - destruct (fielddata_from_df_intro df_cube
      [f64 0; f64 1; f64 0; f64 1; f64 0; f64 1; f64 0; f64 1]
      [f64 0; f64 0; f64 1; f64 1; f64 0; f64 0; f64 1; f64 1]
      [f64 0; f64 0; f64 0; f64 0; f64 1; f64 1; f64 1; f64 1]
      (replicate 8 (f64 1)) (replicate 8 (f64 1)) (replicate 8 (f64 1)))
      as (gd & dims & Hok); try (vm_compute; reflexivity); [discriminate |].
    exists gd, dims. split; [exact Hok |].
    exact (proj1 (grid_dimensions_cover_rows df_cube) gd dims Hok).
  - eexists. split; [vm_compute; reflexivity |].
    refine (proj2 (grid_dimensions_cover_rows df_two_times) _ _).
    vm_compute; reflexivity.
Defined.

(** C2 (counterexample).  The table of four records, three at time 0 and
    one at time 1, on a line of two nodes is reconstructed by
    [CactusWakeGrid] with nt = 2 and nx*ny*nz = 2: the product is neither
    the number of rows of the table (4) nor the number of records of a
    timestep (3 at time 0, 1 at time 1). *)
Lemma grid_product_is_not_row_count :
  exists g t,
    Wake.CactusWakeGrid_init df_uneven = Ok g /\
    df_loc df_uneven time_col_name = Ok t /\
    length (df_rows df_uneven) = 4 /\
    Wake.nt g = 2 /\ Wake.nx g * Wake.ny g * Wake.nz g = 2 /\
    length (filter (fun v => SFeqb v (f64 0) = true) t) = 3 /\
    length (filter (fun v => SFeqb v (f64 1) = true) t) = 1.
Proof.
  eexists _, _. split; [vm_compute; reflexivity |].
  split; [vm_compute; reflexivity |]. repeat split; vm_compute; reflexivity.
Qed.

Lemma Forall_eq_replicate {A} (a : A) (l : list A) :
  Forall (fun c => c = a) l -> l = replicate (length l) a.
Proof. induction 1 as [|c l -> _ IH]; simpl; [done | by rewrite <- IH]. Qed.

(** ** Slices and nearest indices *)

Lemma slice_bound_le (i : Z) (n : nat) : slice_bound i n <= n.
Proof. unfold slice_bound. destruct (i <? 0)%Z eqn:E; lia. Qed.

Lemma py_slice_from_0 {A} (stop : Z) (l : list A) :
  py_slice 0 stop l = take (slice_bound stop (length l)) l.
Proof.
  unfold py_slice. replace (slice_bound 0 (length l)) with 0.
  - by rewrite Nat.sub_0_r.
  - unfold slice_bound. simpl. lia.
Qed.

Lemma py_slice_map {A B} (f : A -> B) (start stop : Z) (l : list A) :
  py_slice start stop (map f l) = map f (py_slice start stop l).
Proof. unfold py_slice. by rewrite length_map, List.skipn_map, List.firstn_map. Qed.

Lemma argmin_from_bound (mp : float) (mi i : nat) (l : list float) :
  mi < i -> argmin_from mp mi i l < i + length l.
Proof.
  revert mp mi i; induction l as [|x l IH]; intros mp mi i Hmi; simpl; [lia |].
  destruct (isnan mp); [lia |].
  destruct (negb (SFleb mp x)).
  - specialize (IH x i (S i)). lia.
  - specialize (IH mp mi (S i)). lia.
Qed.

Lemma argmin_Ok (a : arr1) :
  a <> [] -> exists k, argmin a = Ok k /\ k < length a.
Proof.
  destruct a as [|x rest]; [done |]. intros _. simpl. eexists; split; [done |].
  pose proof (argmin_from_bound x 0 1 rest). lia.
Qed.

Lemma getitem_nat_Ok {A} (l : list A) (k : nat) :
  k < length l -> exists x, getitem l (Z.of_nat k) = Ok x /\ l !! k = Some x.
Proof.
  intros Hk. unfold getitem, norm_index.
  rewrite decide_True by lia. simpl. rewrite Nat2Z.id.
  destruct (lookup_lt_is_Some_2 l k Hk) as [x Hx]. rewrite Hx. eauto.
Qed.

Lemma find_nearest_Ok (array : arr1) (value : float) :
  array <> [] ->
  exists v k, Wake.find_nearest array value = Ok (v, k) /\ k < length array.
Proof.
  intros Hne. unfold Wake.find_nearest.
  destruct (argmin_Ok (map (fun a => fabs (fsub float64 a value)) array))
    as (k & -> & Hk); [by destruct array |].
  rewrite length_map in Hk. simpl.
  destruct (getitem_nat_Ok array k Hk) as (v & -> & _). simpl. eauto.
Qed.

Lemma getitem_last_Ok {A} (l : list A) : l <> [] -> exists x, getitem l (-1) = Ok x.
Proof.
  intros Hne. unfold getitem, norm_index.
  assert (0 < length l) by (destruct l; [done | simpl; lia]).
  rewrite decide_False by lia. rewrite decide_True by lia. simpl.
  destruct (lookup_lt_is_Some_2 l (Z.to_nat (-1 + Z.of_nat (length l)))) as [x Hx]; [lia |].
  rewrite Hx. eauto.
Qed.

Lemma resolve_end_Ok (times : arr1) (t_end : float) :
  times <> [] -> exists w index_end, Wake.resolve_end times t_end = Ok (w, index_end).
Proof.
  intros Hne. unfold Wake.resolve_end.
  destruct (getitem_last_Ok times Hne) as [last ->]. simpl.
  destruct (SFltb last t_end); [eauto |].
  destruct (SFeqb t_end _); [eauto |].
  destruct (find_nearest_Ok times t_end Hne) as (v & k & -> & _). simpl. eauto.
Qed.

(** ** Reductions along the time axis, point by point *)

Lemma sample_cons (row : arr1) (F : arr2) (j : nat) :
  sample (row :: F) j = default NaN (row !! j) :: sample F j.
Proof. done. Qed.

Lemma length_sample (F : arr2) (j : nat) : length (sample F j) = length F.
Proof. unfold sample. by rewrite length_map. Qed.

Lemma length_foldl_zip_with (f : float -> float -> float) (n : nat) (row : arr1) (rest : arr2) :
  length row = n -> rect n rest -> length (foldl (zip_with f) row rest) = n.
Proof.
  intros Hrow Hrest. revert row Hrow.
  induction Hrest as [|r rest Hr _ IH]; intros row Hrow; simpl; [done |].
  apply IH. rewrite length_zip_with. lia.
Qed.

Lemma lookup_foldl_zip_with (f : float -> float -> float) (n j : nat)
    (row : arr1) (rest : arr2) (x : float) :
  length row = n -> rect n rest -> row !! j = Some x ->
  foldl (zip_with f) row rest !! j = Some (foldl f x (sample rest j)).
Proof.
  intros Hrow Hrest. revert row x Hrow.
  induction Hrest as [|r rest Hr _ IH]; intros row x Hrow Hx; simpl; [done |].
  assert (Hj : j < n) by (rewrite <- Hrow; by eapply lookup_lt_Some).
  destruct (lookup_lt_is_Some_2 r j) as [y Hy]; [lia |].
  rewrite Hy. simpl. apply IH.
  - rewrite length_zip_with. lia.
  - rewrite lookup_zip_with, Hx. simpl. by rewrite Hy.
Qed.

Lemma sample_single (F : arr2) : rect 1 F -> sample F 0 = concat F.
Proof.
  induction 1 as [|row F Hrow _ IH]; [done |].
  rewrite sample_cons, IH. by destruct row as [|x [|? ?]].
Qed.

Lemma length_np_sum0 (n : nat) (F : arr2) :
  rect n F -> F <> [] -> length (Wake.np_sum0 F) = n.
Proof.
  intros HF Hne. destruct F as [|row rest]; [done |].
  unfold Wake.np_sum0. pose proof HF as HF'.
  inversion HF as [|? ? Hrow Hrest]; subst.
  case_decide; [done |].
  apply length_foldl_zip_with; [by rewrite length_replicate | done].
Qed.

Lemma lookup_np_sum0 (n j : nat) (F : arr2) :
  rect n F -> F <> [] -> j < n ->
  Wake.np_sum0 F !! j = Some (time_sum n (sample F j)).
Proof.
  intros HF Hne Hj. destruct F as [|row rest]; [done |].
  unfold Wake.np_sum0, time_sum. pose proof HF as HF'.
  inversion HF as [|? ? Hrow Hrest]; subst.
  case_decide as Hone.
  - rewrite Hone in Hj, HF'. assert (j = 0) as -> by lia.
    by rewrite (sample_single _ HF').
  - apply lookup_foldl_zip_with with (n := length row);
      [by rewrite length_replicate | done | by apply lookup_replicate_2].
Qed.

Lemma length_np_mean0 (n : nat) (F : arr2) :
  rect n F -> F <> [] -> length (Wake.np_mean0 F) = n.
Proof. intros. unfold Wake.np_mean0. rewrite length_map. by apply length_np_sum0. Qed.

Lemma lookup_np_mean0 (n j : nat) (F : arr2) :
  rect n F -> F <> [] -> j < n ->
  Wake.np_mean0 F !! j = Some (time_mean n (sample F j)).
Proof.
  intros HF Hne Hj. unfold Wake.np_mean0, time_mean.
  rewrite list_lookup_fmap, (lookup_np_sum0 n) by done. simpl.
  by rewrite length_sample.
Qed.

Lemma rect_py_slice (n : nat) (start stop : Z) (F : arr2) :
  rect n F -> rect n (py_slice start stop F).
Proof. intros HF. unfold py_slice. by apply Forall_take, Forall_drop. Qed.

Lemma sample_py_slice (start stop : Z) (F : arr2) (j : nat) :
  sample (py_slice start stop F) j = py_slice start stop (sample F j).
Proof. unfold sample. by rewrite py_slice_map. Qed.

Lemma py_slice_nonempty {A} (start stop : Z) (l : list A) :
  py_slice start stop l <> [] -> l <> [].
Proof. intros H ->. apply H. unfold py_slice. by rewrite drop_nil, take_nil. Qed.

(** The fluctuation about a broadcast mean, squared, at point [j]. *)
Lemma sample_square_fluc (n j : nat) (F_mean : arr1) (F : arr2) (m : float) :
  rect n F -> length F_mean = n -> F_mean !! j = Some m ->
  sample (map (map (fun d => fmul float64 d d))
              (map (fun row => zip_with (fsub float64) F_mean row) F)) j
  = map (fun f => let d := fsub float64 m f in fmul float64 d d) (sample F j).
Proof.
  intros HF Hlen Hm.
  assert (Hj : j < n) by (rewrite <- Hlen; by eapply lookup_lt_Some).
  induction HF as [|row F Hrow _ IH]; [done |].
  unfold sample in *. simpl. f_equal; [| exact IH].
  destruct (lookup_lt_is_Some_2 row j) as [x Hx]; [lia |].
  rewrite list_lookup_fmap, lookup_zip_with, Hm, Hx. done.
Qed.

Lemma rect_square_fluc (n : nat) (F_mean : arr1) (F : arr2) :
  rect n F -> length F_mean = n ->
  rect n (map (map (fun d => fmul float64 d d))
              (map (fun row => zip_with (fsub float64) F_mean row) F)).
Proof.
  intros HF Hlen. induction HF as [|row F Hrow _ IH]; simpl; constructor; [| done].
  rewrite length_map, length_zip_with. lia.
Qed.

Lemma length_mean_square_fluc (n : nat) (F_mean : arr1) (F : arr2) :
  rect n F -> F <> [] -> length F_mean = n ->
  length (Wake.mean_square_fluc F_mean F) = n.
Proof.
  intros HF Hne Hlen. unfold Wake.mean_square_fluc.
  apply length_np_mean0; [by apply rect_square_fluc | by destruct F].
Qed.

Lemma traverse_Ok_map {A B} (f : A -> B) (l : list A) :
  traverse (fun x => Ok (f x)) l = Ok (map f l).
Proof. induction l as [|x l IH]; simpl; [done | by rewrite IH]. Qed.

Lemma badd_same_length (a b : arr1) :
  length a = length b -> Wake.badd a b = Ok (zip_with (fadd float64) a b).
Proof.
  intros Hlen. unfold Wake.badd, broadcast2. rewrite decide_True by done.
  rewrite (traverse_Ok_map (fun p => fadd float64 p.1 p.2)).
  f_equal. revert b Hlen; induction a as [|x a IH]; intros [|y b] Hlen; simpl in *; try done.
  f_equal. apply IH. lia.
Qed.

Lemma field_time_stats_Ok (field : arr2) (times : arr1) (t_start t_end : float)
    (ws : list Wake.warning) (mean stdf minf maxf : arr1) :
  Wake.field_time_stats field times t_start t_end = (ws, Ok (mean, stdf, minf, maxf)) ->
  exists w1 w2 index_start index_end,
    Wake.resolve_start times t_start = Ok (w1, index_start) /\
    Wake.resolve_end times t_end = Ok (w2, index_end) /\
    ws = w1 ++ w2 /\
    py_slice index_start index_end field <> [] /\
    mean = Wake.np_mean0 (py_slice index_start index_end field).
Proof.
  unfold Wake.field_time_stats.
  destruct (Wake.resolve_start times t_start) as [[w1 index_start]|]; [| by intros [=]].
  destruct (Wake.resolve_end times t_end) as [[w2 index_end]|]; [| by intros [=]].
  intros [= <- H]. unfold Wake.window_stats in H.
  bind_inv H as mn Hmn. bind_inv H as mx Hmx. injection H as <- <- <- <-.
  exists w1, w2, index_start, index_end. repeat split; try done.
  intros E. rewrite E in Hmn. done.
Qed.

Lemma field_time_stats_intro (field : arr2) (times : arr1) (t_start t_end : float)
    (w1 w2 : list Wake.warning) (index_start index_end : Z) :
  Wake.resolve_start times t_start = Ok (w1, index_start) ->
  Wake.resolve_end times t_end = Ok (w2, index_end) ->
  py_slice index_start index_end field <> [] ->
  exists stdf minf maxf,
    Wake.field_time_stats field times t_start t_end
    = (w1 ++ w2,
       Ok (Wake.np_mean0 (py_slice index_start index_end field), stdf, minf, maxf)).
Proof.
  intros Hs He Hne. unfold Wake.field_time_stats, Wake.window_stats.
  rewrite Hs, He. destruct (py_slice index_start index_end field); [done |].
  simpl. eauto.
Qed.

(** The window mean of one component, point by point. *)
Lemma mean_square_fluc_at (n j : nat) (F : arr2) (index_start index_end : Z) :
  rect n F -> py_slice index_start index_end F <> [] -> j < n ->
  Wake.mean_square_fluc (Wake.np_mean0 (py_slice index_start index_end F)) F !! j
  = Some (mean_square_about_window_mean n F index_start index_end j).
Proof.
  intros HF Hne Hj.
  assert (HFne : F <> []) by by eapply py_slice_nonempty.
  assert (Hwin : rect n (py_slice index_start index_end F)) by by apply rect_py_slice.
  pose proof (length_np_mean0 n _ Hwin Hne) as Hlen.
  pose proof (lookup_np_mean0 n j _ Hwin Hne Hj) as Hm.
  unfold Wake.mean_square_fluc, mean_square_about_window_mean.
  rewrite (lookup_np_mean0 n); [| by apply rect_square_fluc | by destruct F | done].
  rewrite (sample_square_fluc n j _ F _ HF Hlen Hm).
  by rewrite sample_py_slice.
Qed.

(** ** Signed zeros *)


Lemma zero_val_is_zero (x : float) : zero_val x -> is_zero x = true.
Proof. by intros [s ->]. Qed.

Lemma fadd_zero_val (d : dtype) (x y : float) :
  zero_val x -> zero_val y -> zero_val (fadd d x y).
Proof. intros [[] ->] [[] ->]; by eexists. Qed.

Lemma fmul_zero_val (d : dtype) (x y : float) :
  isfinite x = true -> zero_val y -> zero_val (fmul d x y).
Proof. intros Hx [s ->]. destruct x; try done; by eexists. Qed.

Lemma fdiv_two_zero_val (x : float) :
  zero_val x -> zero_val (fdiv float64 x (of_int float64 2)).
Proof. intros [s ->]. by eexists. Qed.

Lemma unit_integrand :
  fmul float64 (f64 1) (fsub float64 (of_int float64 1) (f64 1)) = fzero.
Proof. reflexivity. Qed.

Lemma Forall_zip_with {A} (P Q R : A -> Prop) (f : A -> A -> A) (a b : list A) :
  (forall x y, P x -> Q y -> R (f x y)) ->
  Forall P a -> Forall Q b -> Forall R (zip_with f a b).
Proof.
  intros Hf Ha. revert b. induction Ha as [|x a Hx _ IH]; intros b Hb; simpl; [done |].
  destruct Hb as [|y b Hy Hb]; [done |]. constructor; auto.
Qed.

Lemma np_sum1_zero_val (l : list float) :
  Forall zero_val l -> zero_val (Wake.np_sum1 l).
Proof.
  apply add_reduce_closed; [by exists false | apply fadd_zero_val].
Qed.

Lemma length_traverse {A B} (f : A -> result B) (l : list A) (l' : list B) :
  traverse f l = Ok l' -> length l' = length l.
Proof.
  revert l'; induction l as [|x l IH]; intros l' H; simpl in *.
  - by injection H as <-.
  - bind_inv H as y Hy. bind_inv H as ys Hys. injection H as <-.
    simpl. by rewrite (IH ys).
Qed.

(** The trapezoid rule over a vanishing integrand. *)
Lemma trapz_zero (y x : arr1) :
  Forall zero_val y -> length y = length x ->
  Forall (fun d => isfinite d = true) (Wake.np_diff x) ->
  exists r, Wake.trapz y x = Ok r /\ zero_val r.
Proof.
  intros Hy Hlen Hd. unfold Wake.trapz.
  set (ysum := zip_with (fadd float64) (drop 1 y) (take (length y - 1) y)).
  assert (Hysum : Forall zero_val ysum).
  { apply (Forall_zip_with zero_val zero_val); [apply fadd_zero_val | |].
    - by apply Forall_drop.
    - by apply Forall_take. }
  assert (Hl : length (Wake.np_diff x) = length ysum).
  { unfold Wake.np_diff, ysum.
    rewrite !length_zip_with, !length_drop, length_take. lia. }
  unfold broadcast2. rewrite decide_True by done.
  rewrite (traverse_Ok_map (fun p => fmul float64 p.1 p.2)). simpl.
  eexists. split; [done |].
  apply np_sum1_zero_val.
  apply Forall_forall. intros q Hq.
  apply list_elem_of_In, in_map_iff in Hq as (p & <- & Hp).
  apply fdiv_two_zero_val.
  apply in_map_iff in Hp as ([d s] & <- & Hp). simpl.
  apply list_elem_of_In in Hp. apply fmul_zero_val.
  - eapply (proj1 (Forall_forall _ _) Hd). by eapply elem_of_zip_l.
  - eapply (proj1 (Forall_forall _ _) Hysum). by eapply elem_of_zip_r.
Qed.

(** ** C9: momentum deficit of a unit field *)

(** C9 (as amended).  When the line selected by [calc_momentum_def]
    carries U = 1.0 at every node, and Y and U have the same number of rows
    with finite steps between consecutive Y coordinates on that line, the
    momentum deficit is returned and is zero: the integrand U*(1-U) is 0.0
    at every node. *)
Theorem momentum_deficit_of_unit_line
    (x_loc : float) (X Y U : arr2) (U_line y_line : arr1)
    (x_nearest : float) (idx_nearest : nat) :
  Wake.get_line_quantity x_loc X Y U = Ok (U_line, x_nearest, idx_nearest) ->
  Wake.column Y idx_nearest = Ok y_line ->
  length Y = length U ->
  Forall (fun u => u = f64 1) U_line ->
  Forall (fun d => isfinite d = true) (Wake.np_diff y_line) ->
  Forall (fun f => f = fzero)
         (map (fun u => fmul float64 u (fsub float64 (of_int float64 1) u)) U_line) /\
  exists r, Wake.calc_momentum_def x_loc X Y U = Ok r /\ is_zero r = true.
Proof.
  intros Hline Hy Hrows Hone Hfin.
  assert (Hint : Forall (fun f => f = fzero)
    (map (fun u => fmul float64 u (fsub float64 (of_int float64 1) u)) U_line)).
  { clear -Hone.
    induction Hone as [|u l -> _ IH]; simpl; constructor; [apply unit_integrand | done]. }
  split; [done |].
  unfold Wake.calc_momentum_def. rewrite Hline. simpl. rewrite Hy. simpl.
  destruct (trapz_zero
    (map (fun u => fmul float64 u (fsub float64 (of_int float64 1) u)) U_line) y_line)
    as (r & Hr & Hz); [| | done |].
  - eapply Forall_impl; [exact Hint |]. intros f ->. by exists false.
  - rewrite length_map. unfold Wake.get_line_quantity in Hline.
    bind_inv Hline as p Hp. destruct p as [xn i].
    bind_inv Hline as line Hl. injection Hline as -> _ ->.
    apply length_traverse in Hl, Hy. lia.
  - exists r. split; [done | by apply zero_val_is_zero].
Qed.

(** C9 (counterexample).  On the line of two nodes at Y = -2^1023 and
    Y = 2^1023 the field U is 1.0 at both nodes, the integrand is 0.0 at
    both, but the step between the nodes overflows to infinity and the
    momentum deficit returned is NaN, not 0. *)
Lemma unit_line_far_apart_is_nan :
  Wake.get_line_quantity (f64 0) X_col Y_far ones_col = Ok ([f64 1; f64 1], f64 0, 0) /\
  Wake.column Y_far 0 = Ok [SFopp two_pow_1023; two_pow_1023] /\
  valid float64 two_pow_1023 = true /\
  map (fun u => fmul float64 u (fsub float64 (of_int float64 1) u)) [f64 1; f64 1]
    = [fzero; fzero] /\
  Wake.np_diff [SFopp two_pow_1023; two_pow_1023] = [S754_infinity false] /\
  Wake.calc_momentum_def (f64 0) X_col Y_far ones_col = Ok NaN.
Proof. repeat split; vm_compute; reflexivity. Qed.

Lemma momentum_deficit_of_unit_line_witness :
  exists r, Wake.calc_momentum_def (f64 0) X_2x2 Y_2x2 ones_2x2 = Ok r /\ is_zero r = true.
Proof.
  destruct (momentum_deficit_of_unit_line (f64 0) X_2x2 Y_2x2 ones_2x2
              [f64 1; f64 1] [f64 0; f64 1] (f64 0) 0) as [_ H];
    [vm_compute; reflexivity | vm_compute; reflexivity | reflexivity
    | repeat constructor | repeat constructor | exact H].
Defined.

(** Files a.csv and b.csv both report time 1; c.csv reports time 2. *)

(** ** Shapes *)

Lemma split_n_shape2 {A} (c s : nat) (l : list A) :
  length l = c * s -> shape2 c s (split_n c s l).
Proof. intros Hl. split; [apply length_split_n | by apply Forall_length_split_n]. Qed.

Lemma reshape3_shape3 (l : list float) (n2 n1 n0 : nat) (a : arr3) :
  reshape3 l n2 n1 n0 = Ok a -> shape3 n2 n1 n0 a.
Proof.
  intros [Hl ->]%reshape3_Ok. split.
  - by rewrite length_map, length_split_n.
  - apply Forall_forall. intros p Hp.
    apply list_elem_of_In, in_map_iff in Hp as (b & <- & Hb).
    apply split_n_shape2.
    assert (Hall : Forall (fun b => length b = n1 * n0) (split_n n2 (n1 * n0) l))
      by (apply Forall_length_split_n; lia).
    apply list_elem_of_In in Hb. by apply (proj1 (Forall_forall _ _) Hall).
Qed.

Lemma reshape4_shape4 (l : list float) (n3 n2 n1 n0 : nat) (a : arr4) :
  reshape4 l n3 n2 n1 n0 = Ok a -> shape4 n3 n2 n1 n0 a.
Proof.
  intros [Hl ->]%reshape4_Ok. split.
  - by rewrite length_map, length_split_n.
  - apply Forall_forall. intros v Hv.
    apply list_elem_of_In, in_map_iff in Hv as (b & <- & Hb).
    assert (Hall : Forall (fun b => length b = n2 * n1 * n0) (split_n n3 (n2 * n1 * n0) l))
      by (apply Forall_length_split_n; lia).
    apply list_elem_of_In in Hb. apply (proj1 (Forall_forall _ _) Hall) in Hb.
    apply (reshape3_shape3 b). apply reshape3_intro. lia.
Qed.

Lemma length_concat_shape2 {A} (n1 n0 : nat) (a : list (list A)) :
  shape2 n1 n0 a -> length (concat a) = n1 * n0.
Proof.
  intros [<- Ha]. induction Ha as [|r a Hr _ IH]; simpl; [done |].
  rewrite length_app. lia.
Qed.

Lemma length_ravel3_shape3 (n2 n1 n0 : nat) (a : arr3) :
  shape3 n2 n1 n0 a -> length (ravel3 a) = n2 * n1 * n0.
Proof.
  intros [<- Ha]. unfold ravel3. induction Ha as [|p a Hp _ IH]; simpl; [done |].
  rewrite concat_app, length_app, IH, (length_concat_shape2 n1 n0) by done. lia.
Qed.

(** ** Traversals *)

Lemma traverse_ext_Forall {A B} (f g : A -> result B) (l : list A) :
  Forall (fun x => f x = g x) l -> traverse f l = traverse g l.
Proof. induction 1 as [|x l Hx _ IH]; simpl; [done | by rewrite Hx, IH]. Qed.

Lemma traverse_Forall_Ok {A B} (f : A -> result B) (P : B -> Prop) (l : list A) :
  Forall (fun x => exists y, f x = Ok y /\ P y) l ->
  exists l', traverse f l = Ok l' /\ length l' = length l /\ Forall P l'.
Proof.
  induction 1 as [|x l (y & Hy & HP) _ (l' & Hl' & Hlen & HPl')]; simpl.
  - exists []. done.
  - exists (y :: l'). rewrite Hy, Hl'. simpl. split; [done |]. split; [lia | by constructor].
Qed.

Lemma traverse_head_Raise {A B} (f : A -> result B) (x : A) (l : list A) (e : exception) :
  f x = Raise e -> traverse f (x :: l) = Raise e.
Proof. intros H. simpl. by rewrite H. Qed.

(** ** Integer indices *)

Lemma getitem_negative {A} (l : list A) (i : Z) :
  (- Z.of_nat (length l) <= i < 0)%Z -> getitem l i = getitem l (i + Z.of_nat (length l)).
Proof.
  intros Hi. unfold getitem, norm_index.
  rewrite (decide_False (P := (0 <= i < _)%Z)) by lia.
  rewrite (decide_True (P := (- _ <= i < 0)%Z)) by lia.
  rewrite (decide_True (P := (0 <= i + _ < _)%Z)) by lia. done.
Qed.

Lemma getitem_in_range {A} (l : list A) (i : Z) :
  (0 <= i < Z.of_nat (length l))%Z -> exists x, getitem l i = Ok x /\ x ∈ l.
Proof.
  intros Hi. destruct (getitem_nat_Ok l (Z.to_nat i)) as (x & Hx & Hl); [lia |].
  rewrite Z2Nat.id in Hx by lia. exists x. split; [done |]. by eapply list_elem_of_lookup_2.
Qed.

Lemma getitem_out_of_range {A} (l : list A) (i : Z) :
  (Z.of_nat (length l) <= i \/ i < - Z.of_nat (length l))%Z ->
  getitem l i = Raise IndexError.
Proof.
  intros Hi. unfold getitem, norm_index.
  rewrite decide_False by lia. rewrite decide_False by lia. done.
Qed.

Lemma traverse_shape {A B} (f : A -> result B) (P : A -> Prop) (Q : B -> Prop)
    (l : list A) (n : nat) :
  length l = n -> Forall P l ->
  (forall x, P x -> exists y, f x = Ok y /\ Q y) ->
  exists l', traverse f l = Ok l' /\ length l' = n /\ Forall Q l'.
Proof.
  intros <- HP Hf.
  destruct (traverse_Forall_Ok f Q l) as (l' & ? & ? & ?); [| by exists l'].
  eapply Forall_impl; [exact HP | exact Hf].
Qed.

Lemma pd_unique_nonempty (l : list float) : l <> [] -> pd_unique l <> [].
Proof. by destruct l. Qed.

(** The grid of a successful [CactusWakeGrid.__init__]: the velocity fields
    are 4-D of shape [nt, nz, ny, nx] and no dimension is zero. *)
Lemma CactusWakeGrid_init_shape (df : DataFrame) (g : Wake.CactusWakeGrid) :
  Wake.CactusWakeGrid_init df = Ok g ->
  exists U V W,
    Wake.U g = Wake.Field4 U /\ Wake.V g = Wake.Field4 V /\ Wake.W g = Wake.Field4 W /\
    shape4 (Wake.nt g) (Wake.nz g) (Wake.ny g) (Wake.nx g) U /\
    shape4 (Wake.nt g) (Wake.nz g) (Wake.ny g) (Wake.nx g) V /\
    shape4 (Wake.nt g) (Wake.nz g) (Wake.ny g) (Wake.nx g) W /\
    Wake.nt g <> 0 /\ Wake.nz g <> 0 /\ Wake.ny g <> 0 /\ Wake.nx g <> 0.
Proof.
  intros Hok.
  destruct (CactusWakeGrid_init_Ok _ _ Hok)
    as (t & x & y & z & u & v & w & U & V & W & Ht & Hx & Hy & Hz & _ & _ & _
        & _ & _ & Hnt & Hnx & Hny & Hnz & _ & _ & _ & HU & HV & HW & GU & GV & GW & Hnt0).
  exists U, V, W. repeat split; try done; try by eapply reshape4_shape4.
  all: assert (Hrows : df_rows df <> []) by
    (intros E; apply length_df_loc in Ht; rewrite E in Ht;
     destruct t; [by rewrite Hnt in Hnt0 | done]).
  - rewrite Hnz. intros E%length_zero_iff_nil. revert E.
    apply pd_unique_nonempty. by eapply df_loc_nonempty.
  - rewrite Hny. intros E%length_zero_iff_nil. revert E.
    apply pd_unique_nonempty. by eapply df_loc_nonempty.
  - rewrite Hnx. intros E%length_zero_iff_nil. revert E.
    apply pd_unique_nonempty. by eapply df_loc_nonempty.
Qed.

(** ** Slicing a 4-D field along one axis *)

Lemma slice_reshape_index (axis : string) (a : arr4) (i : Z) (n nt nz ny nx n1 n2 : nat) :
  shape4 nt nz ny nx a -> nt <> 0 -> nz <> 0 -> ny <> 0 ->
  (axis, n, n1, n2) ∈ [("x", nx, ny, nz); ("y", ny, nx, nz); ("z", nz, nx, ny)] ->
  ((Z.of_nat n <= i \/ i < - Z.of_nat n)%Z ->
     Wake.slice_reshape axis (Wake.Field4 a) i nt n1 n2 = Raise IndexError) /\
  ((- Z.of_nat n <= i < 0)%Z ->
     Wake.slice_reshape axis (Wake.Field4 a) i nt n1 n2
     = Wake.slice_reshape axis (Wake.Field4 a) (i + Z.of_nat n) nt n1 n2) /\
  ((0 <= i < Z.of_nat n)%Z ->
     exists s, Wake.slice_reshape axis (Wake.Field4 a) i nt n1 n2 = Ok (Wake.Field3 s)).
Proof.
  intros [Hlen Ha] Hnt Hnz Hny Hin.
  rewrite !elem_of_cons, elem_of_nil in Hin.
  destruct Hin as [Hin|[Hin|[Hin|[]]]]; injection Hin as -> -> -> ->;
    unfold Wake.slice_reshape; simpl.
  - (* x *)
    split; [| split].
    + intros Hi.
      destruct a as [|v a]; [simpl in Hlen; lia |]. inversion Ha as [|? ? [Hv Hvs] _]; subst.
      destruct v as [|p v]; [simpl in Hnz; lia |]. inversion Hvs as [|? ? [Hp Hps] _]; subst.
      destruct p as [|row p]; [simpl in Hny; lia |]. inversion Hps as [|? ? Hrow _]; subst.
      simpl. rewrite getitem_out_of_range by lia. done.
    + intros Hi. f_equal. apply traverse_ext_Forall.
      eapply Forall_impl; [exact Ha |]. intros v [_ Hv]. apply traverse_ext_Forall.
      eapply Forall_impl; [exact Hv |]. intros p [_ Hp]. apply traverse_ext_Forall.
      eapply Forall_impl; [exact Hp |]. intros row Hrow. simpl in Hrow.
      rewrite <- Hrow. apply getitem_negative. lia.
    + intros Hi.
      destruct (traverse_shape (traverse (traverse (fun row : list float => getitem row i)))
                  (shape3 nz ny nx) (shape2 nz ny) a nt Hlen Ha) as (s & Hs & Hslen & Hsall).
      { intros v [Hvlen Hv].
        destruct (traverse_shape (traverse (fun row : list float => getitem row i))
                    (shape2 ny nx) (fun r => length r = ny) v nz Hvlen Hv)
          as (s & Hs & Hslen & Hsall); [| by exists s].
        intros p [Hplen Hp].
        destruct (traverse_shape (fun row : list float => getitem row i)
                    (fun row => length row = nx) (fun _ => True) p ny Hplen Hp)
          as (s & Hs & Hslen & _); [| by exists s].
        intros row Hrow. destruct (getitem_in_range row i) as (x & Hx & _); [lia | eauto]. }
      rewrite Hs. simpl. rewrite reshape3_intro; [simpl; eauto |].
      by apply length_ravel3_shape3.
  - (* y *)
    split; [| split].
    + intros Hi.
      destruct a as [|v a]; [simpl in Hlen; lia |]. inversion Ha as [|? ? [Hv Hvs] _]; subst.
      destruct v as [|p v]; [simpl in Hnz; lia |]. inversion Hvs as [|? ? [Hp Hps] _]; subst.
      simpl. rewrite getitem_out_of_range by lia. done.
    + intros Hi. f_equal. apply traverse_ext_Forall.
      eapply Forall_impl; [exact Ha |]. intros v [_ Hv]. apply traverse_ext_Forall.
      eapply Forall_impl; [exact Hv |]. intros p [Hp _]. simpl.
      rewrite <- Hp. apply getitem_negative. lia.
    + intros Hi.
      destruct (traverse_shape (traverse (fun plane : list (list float) => getitem plane i))
                  (shape3 nz ny nx) (shape2 nz nx) a nt Hlen Ha) as (s & Hs & Hslen & Hsall).
      { intros v [Hvlen Hv].
        destruct (traverse_shape (fun plane : list (list float) => getitem plane i)
                    (shape2 ny nx) (fun r => length r = nx) v nz Hvlen Hv)
          as (s & Hs & Hslen & Hsall); [| by exists s].
        intros p [Hplen Hp]. destruct (getitem_in_range p i) as (x & Hx & Hxin); [lia |].
        exists x. split; [done |]. by apply (proj1 (Forall_forall _ _) Hp). }
      rewrite Hs. simpl. rewrite reshape3_intro; [simpl; eauto |].
      by apply length_ravel3_shape3.
  - (* z *)
    split; [| split].
    + intros Hi.
      destruct a as [|v a]; [simpl in Hlen; lia |]. inversion Ha as [|? ? [Hv Hvs] _]; subst.
      simpl. rewrite getitem_out_of_range by lia. done.
    + intros Hi. f_equal. apply traverse_ext_Forall.
      eapply Forall_impl; [exact Ha |]. intros v [Hv _]. simpl.
      rewrite <- Hv. apply getitem_negative. lia.
    + intros Hi.
      destruct (traverse_shape (fun vol : list (list (list float)) => getitem vol i)
                  (shape3 nz ny nx) (shape2 ny nx) a nt Hlen Ha) as (s & Hs & Hslen & Hsall).
      { intros v [Hvlen Hv]. destruct (getitem_in_range v i) as (x & Hx & Hxin); [lia |].
        exists x. split; [done |]. by apply (proj1 (Forall_forall _ _) Hv). }
      rewrite Hs. simpl. rewrite reshape3_intro; [simpl; eauto |].
      by apply length_ravel3_shape3.
Qed.

(** ** C6: the index of a spatial slice *)

(** C6 (as amended).  On a reconstructed grid with [n] nodes along [axis],
    [slice_in_space(axis, i)] raises IndexError when [i >= n] or [i < -n];
    an index [-n <= i < 0] counts from the end and gives exactly the slice
    at [i + n]; an index [0 <= i < n] gives a slice. *)
Theorem slice_in_space_index_range
    (df : DataFrame) (g : Wake.CactusWakeGrid) (axis : string) (n : nat)
    (i : Z) (inplace : bool) :
  Wake.CactusWakeGrid_init df = Ok g ->
  (axis, n) ∈ [("x", Wake.nx g); ("y", Wake.ny g); ("z", Wake.nz g)] ->
  ((Z.of_nat n <= i \/ i < - Z.of_nat n)%Z ->
     Wake.slice_in_space g axis i inplace = Raise IndexError) /\
  ((- Z.of_nat n <= i < 0)%Z ->
     Wake.slice_in_space g axis i inplace
     = Wake.slice_in_space g axis (i + Z.of_nat n) inplace) /\
  ((0 <= i < Z.of_nat n)%Z ->
     exists U' V' W' g',
       Wake.slice_in_space g axis i inplace
       = Ok (Wake.Field3 U', Wake.Field3 V', Wake.Field3 W', g')).
Proof.
  intros Hok Hax.
  destruct (CactusWakeGrid_init_shape _ _ Hok)
    as (U & V & W & GU & GV & GW & SU & SV & SW & Hnt & Hnz & Hny & Hnx).
  assert (Hn12 : exists n1 n2,
    (axis, n, n1, n2) ∈ [("x", Wake.nx g, Wake.ny g, Wake.nz g);
                          ("y", Wake.ny g, Wake.nx g, Wake.nz g);
                          ("z", Wake.nz g, Wake.nx g, Wake.ny g)] /\
    forall j, Wake.slice_in_space g axis j inplace =
      (U' ← Wake.slice_reshape axis (Wake.Field4 U) j (Wake.nt g) n1 n2;
       V' ← Wake.slice_reshape axis (Wake.Field4 V) j (Wake.nt g) n1 n2;
       W' ← Wake.slice_reshape axis (Wake.Field4 W) j (Wake.nt g) n1 n2;
       Ok (U', V', W',
           if inplace
           then {| Wake.times := Wake.times g; Wake.num_times := Wake.num_times g;
                   Wake.nt := Wake.nt g; Wake.nx := Wake.nx g; Wake.ny := Wake.ny g;
                   Wake.nz := Wake.nz g; Wake.dx := Wake.dx g; Wake.dy := Wake.dy g;
                   Wake.dz := Wake.dz g; Wake.X_ := Wake.X_ g; Wake.Y_ := Wake.Y_ g;
                   Wake.Z_ := Wake.Z_ g; Wake.U := U'; Wake.V := V'; Wake.W := W' |}
           else g))).
  { rewrite !elem_of_cons, elem_of_nil in Hax.
    destruct Hax as [Hax|[Hax|[Hax|[]]]]; injection Hax as -> ->.
    - exists (Wake.ny g), (Wake.nz g). split; [set_solver |].
      intros j. unfold Wake.slice_in_space. rewrite GU, GV, GW. done.
    - exists (Wake.nx g), (Wake.nz g). split; [set_solver |].
      intros j. unfold Wake.slice_in_space. rewrite GU, GV, GW. done.
    - exists (Wake.nx g), (Wake.ny g). split; [set_solver |].
      intros j. unfold Wake.slice_in_space. rewrite GU, GV, GW. done. }
  destruct Hn12 as (n1 & n2 & Hcase & Hslice).
  destruct (slice_reshape_index axis U i n _ _ _ _ n1 n2 SU Hnt Hnz Hny Hcase)
    as (UF & UN & UO).
  destruct (slice_reshape_index axis V i n _ _ _ _ n1 n2 SV Hnt Hnz Hny Hcase)
    as (VF & VN & VO).
  destruct (slice_reshape_index axis W i n _ _ _ _ n1 n2 SW Hnt Hnz Hny Hcase)
    as (WF & WN & WO).
  split; [| split].
  - intros Hi. rewrite Hslice, UF by done. done.
  - intros Hi. rewrite !Hslice, UN, VN, WN by done. done.
  - intros Hi. destruct (UO Hi) as [U' HU'], (VO Hi) as [V' HV'], (WO Hi) as [W' HW'].
    rewrite Hslice, HU', HV', HW'. simpl. eauto.
Qed.

(** Two nodes along x: indices 2 and -3 are rejected, -1 is index 1. *)
Lemma slice_in_space_index_range_witness :
  exists g,
    Wake.CactusWakeGrid_init df_line = Ok g /\
    Wake.slice_in_space g "x" 2 false = Raise IndexError /\
    Wake.slice_in_space g "x" (-3) false = Raise IndexError /\
    Wake.slice_in_space g "x" (-1) false = Wake.slice_in_space g "x" 1 false.
Proof.
  eexists. split; [vm_compute; reflexivity |].
  match goal with
  | |- Wake.slice_in_space ?g _ _ _ = _ /\ _ =>
      assert (Hok : Wake.CactusWakeGrid_init df_line = Ok g) by (vm_compute; reflexivity);
      assert (Hax : ("x", 2) ∈ [("x", Wake.nx g); ("y", Wake.ny g); ("z", Wake.nz g)])
        by constructor
  end.
  split; [| split].
  - apply (proj1 (slice_in_space_index_range df_line _ "x" 2 2 false Hok Hax)). lia.
  - apply (proj1 (slice_in_space_index_range df_line _ "x" 2 (-3) false Hok Hax)). lia.
  - apply (proj1 (proj2 (slice_in_space_index_range df_line _ "x" 2 (-1) false Hok Hax))). lia.
Defined.

(** C6 (counterexample).  On the grid of two nodes along x at two times,
    index -1 is outside [0 <= i < 2], yet [slice_in_space('x', -1)] returns
    data: the plane of the last node, U = 11 and 21. *)
Lemma slice_in_space_negative_index_returns :
  exists g V' W',
    Wake.CactusWakeGrid_init df_line = Ok g /\
    Wake.nx g = 2 /\
    ~ (0 <= -1 < Z.of_nat (Wake.nx g))%Z /\
    Wake.slice_in_space g "x" (-1) false
      = Ok (Wake.Field3 [[[f64 11]]; [[f64 21]]], V', W', g).
Proof.
  eexists _, _, _. split; [vm_compute; reflexivity |].
  split; [reflexivity |]. split; [simpl; lia |]. vm_compute. reflexivity.
Qed.

(** ** Float equality [==] as dict-key equality *)

Lemma SFeqb_true_cases (a b : float) :
  SFeqb a b = true ->
  (zero_val a /\ zero_val b) \/ (a = b /\ isnan a = false).
Proof.
  unfold SFeqb, SFcompare.
  destruct a as [sa|sa| |sa ma ea], b as [sb|sb| |sb mb eb]; try discriminate;
    try (destruct sa; discriminate); try (destruct sb; discriminate).
  - intros _. left. split; eexists; reflexivity.
  - destruct sa, sb; try discriminate; intros _; right; done.
  - destruct sa, sb; try discriminate.
    + destruct (Z.compare ea eb) eqn:E; try discriminate.
      apply Z.compare_eq in E as ->.
      destruct (Pos.compare_cont Eq ma mb) eqn:E'; try discriminate.
      apply Pos.compare_eq in E' as ->. intros _. by right.
    + destruct (Z.compare ea eb) eqn:E; try discriminate.
      apply Z.compare_eq in E as ->.
      destruct (Pos.compare_cont Eq ma mb) eqn:E'; try discriminate.
      apply Pos.compare_eq in E' as ->. intros _. by right.
Qed.

Lemma SFeqb_zero_val (a b : float) : zero_val a -> zero_val b -> SFeqb a b = true.
Proof. by intros [sa ->] [sb ->]. Qed.

Lemma SFeqb_refl (a : float) : isnan a = false -> SFeqb a a = true.
Proof.
  unfold SFeqb, SFcompare. destruct a as [s|s| |s m e]; try done.
  - by destruct s.
  - intros _. destruct s; rewrite Z.compare_refl, Pos.compare_cont_refl; done.
Qed.

Lemma SFeqb_sym (a b : float) : SFeqb a b = true -> SFeqb b a = true.
Proof.
  intros [[Ha Hb]|[-> Hn]]%SFeqb_true_cases.
  - by apply SFeqb_zero_val.
  - by apply SFeqb_refl.
Qed.

Lemma SFeqb_zero_val_l (a b : float) : zero_val a -> SFeqb a b = true -> zero_val b.
Proof.
  intros Ha [[_ Hb]|[<- _]]%SFeqb_true_cases; done.
Qed.

Lemma SFeqb_trans (a b c : float) :
  SFeqb a b = true -> SFeqb b c = true -> SFeqb a c = true.
Proof.
  intros Hab Hbc.
  destruct (SFeqb_true_cases _ _ Hab) as [[Ha Hb]|[-> Hn]]; [| done].
  apply SFeqb_zero_val; [done |]. by eapply SFeqb_zero_val_l.
Qed.

Lemma SFeqb_congr_l (a b c : float) :
  SFeqb a b = true -> SFeqb a c = SFeqb b c.
Proof.
  intros Hab. destruct (SFeqb b c) eqn:E.
  - by eapply SFeqb_trans.
  - destruct (SFeqb a c) eqn:E'; [| done].
    rewrite <- E. symmetry. eapply SFeqb_trans; [by apply SFeqb_sym | done].
Qed.

Lemma SFeqb_congr_r (a b c : float) :
  SFeqb a b = true -> SFeqb c a = SFeqb c b.
Proof.
  intros Hab. destruct (SFeqb c b) eqn:E.
  - eapply SFeqb_trans; [done | by apply SFeqb_sym].
  - destruct (SFeqb c a) eqn:E'; [| done].
    rewrite <- E. symmetry. by eapply SFeqb_trans.
Qed.

(** ** The time-to-file dict *)

Lemma fdict_lookup_set (fd : fdict_t) (k : float) (f : string) (t : float) :
  fdict_lookup (fdict_set fd k f) t
  = if SFeqb k t then Some f else fdict_lookup fd t.
Proof.
  induction fd as [|[k' f'] fd IH]; simpl; [done |].
  destruct (SFeqb k' k) eqn:E; simpl.
  - rewrite (SFeqb_congr_l k' k t E). by destruct (SFeqb k t).
  - rewrite IH. destruct (SFeqb k' t) eqn:E1, (SFeqb k t) eqn:E2; try done.
    assert (SFeqb k' k = true); [| congruence].
    eapply SFeqb_trans; [exact E1 | by apply SFeqb_sym].
Qed.

Lemma length_fdict_set (fd : fdict_t) (k : float) (f : string) :
  length (fdict_set fd k f)
  = match fdict_lookup fd k with
    | Some _ => length fd
    | None => S (length fd)
    end.
Proof.
  induction fd as [|[k' f'] fd IH]; simpl; [done |].
  destruct (SFeqb k' k); simpl; [done |]. rewrite IH. by destruct (fdict_lookup fd k).
Qed.

Lemma fdict_of_app (fd : fdict_t) (p q : list (string * float)) :
  fdict_of fd (p ++ q) = fdict_of (fdict_of fd p) q.
Proof. apply foldl_app. Qed.

Lemma length_fdict_of (fd : fdict_t) (pairs : list (string * float)) :
  length (fdict_of fd pairs) <= length fd + length pairs.
Proof.
  revert fd; induction pairs as [|[f t] pairs IH]; intros fd; simpl; [lia |].
  specialize (IH (fdict_set fd t f)). rewrite length_fdict_set in IH.
  unfold fdict_of in *. simpl. destruct (fdict_lookup fd t); lia.
Qed.

(** A lookup after storing [pairs]: the last pair with an equal time wins. *)
Lemma fdict_lookup_of (fd : fdict_t) (pairs : list (string * float)) (t : float) :
  fdict_lookup (fdict_of fd pairs) t
  = foldl (fun acc p => if SFeqb p.2 t then Some p.1 else acc) (fdict_lookup fd t) pairs.
Proof.
  revert fd; induction pairs as [|[f t'] pairs IH]; intros fd; [done |].
  unfold fdict_of in *. simpl. by rewrite IH, fdict_lookup_set.
Qed.

Lemma foldl_last_Some {A B} (P : A -> bool) (v : A -> B) (acc : option B) (l : list A) :
  is_Some acc -> is_Some (foldl (fun acc p => if P p then Some (v p) else acc) acc l).
Proof.
  revert acc; induction l as [|x l IH]; intros acc Hacc; simpl; [done |].
  apply IH. by destruct (P x).
Qed.

Lemma foldl_last_none {A B} (P : A -> bool) (v : A -> B) (acc : option B) (l : list A) :
  Forall (fun p => P p = false) l ->
  foldl (fun acc p => if P p then Some (v p) else acc) acc l = acc.
Proof.
  intros Hl. revert acc. induction Hl as [|x l Hx _ IH]; intros acc; simpl; [done |].
  by rewrite Hx, IH.
Qed.

Lemma foldl_last_match {A B} (P : A -> bool) (v : A -> B) (acc : option B)
    (l1 l2 : list A) (x : A) :
  P x = true -> Forall (fun p => P p = false) l2 ->
  foldl (fun acc p => if P p then Some (v p) else acc) acc (l1 ++ x :: l2) = Some (v x).
Proof.
  intros Hx Hl2. rewrite foldl_app. simpl. rewrite Hx. by apply foldl_last_none.
Qed.

Lemma last_match_exists {A} (P : A -> bool) (l : list A) (j : nat) (x : A) :
  l !! j = Some x -> P x = true ->
  exists l1 y l2, l = l1 ++ y :: l2 /\ P y = true /\
    Forall (fun p => P p = false) l2 /\ j <= length l1.
Proof.
  revert j x; induction l as [|a l IH]; intros j x Hj Hx; [done |].
  destruct (existsb P l) eqn:E.
  - apply existsb_exists in E as (y & Hy & HPy).
    apply list_elem_of_In, list_elem_of_lookup in Hy as [k Hk].
    destruct (IH k y Hk HPy) as (l1 & z & l2 & -> & Hz & Hl2 & _).
    exists (a :: l1), z, l2. repeat split; try done.
    destruct j as [|j]; simpl; [lia |]. simpl in Hj.
    destruct (decide (j <= length l1)) as [|Hgt]; [lia |].
    exfalso. rewrite lookup_app_r in Hj by lia.
    destruct (j - length l1) as [|m] eqn:Em; [lia |]. simpl in Hj.
    apply list_elem_of_lookup_2 in Hj.
    apply (proj1 (Forall_forall _ _) Hl2) in Hj. congruence.
  - destruct j as [|j]; simpl in Hj.
    + injection Hj as ->. exists [], x, l.
      split; [done |]. split; [done |]. split; [| simpl; lia].
      apply Forall_forall. intros y Hy.
      destruct (P y) eqn:HPy; [| done].
      assert (existsb P l = true); [| congruence].
      apply existsb_exists. exists y. split; [by apply list_elem_of_In | done].
    + apply list_elem_of_lookup_2 in Hj.
      assert (existsb P l = true); [| congruence].
      apply existsb_exists. exists x. split; [by apply list_elem_of_In | done].
Qed.

Lemma insert_sorted_Permutation (x : float) (l : list float) :
  insert_sorted x l ≡ₚ x :: l.
Proof.
  induction l as [|y l IH]; simpl; [done |].
  destruct (sort_le x y); [done |]. rewrite IH. apply Permutation_swap.
Qed.

Lemma np_sort_Permutation (l : list float) : np_sort l ≡ₚ l.
Proof.
  induction l as [|x l IH]; simpl; [done |].
  by rewrite insert_sorted_Permutation, IH.
Qed.

(** The loop of [__init__]: the times read, in file order, and the dict. *)
Lemma read_times_Ok (fs : filesystem) (fnames : list string)
    (ts ts' : list float) (fd fd' : fdict_t) :
  read_times fs fnames ts fd = Ok (ts', fd') ->
  exists pairs : list (string * float),
    map fst pairs = fnames /\
    Forall (fun p => get_file_time fs p.1 time_col_name = Ok p.2) pairs /\
    ts' = ts ++ map snd pairs /\
    fd' = fdict_of fd pairs.
Proof.
  revert ts fd; induction fnames as [|f fnames IH]; intros ts fd H; simpl in H.
  - injection H as <- <-. exists []. by rewrite app_nil_r.
  - bind_inv H as t Ht. apply IH in H as (pairs & Hfst & Hall & -> & ->).
    exists ((f, t) :: pairs). simpl. rewrite Hfst, <- app_assoc.
    repeat split; try done. by constructor.
Qed.

(** ** C10: two files with the same time *)

(** C10.  When construction succeeds on a list of files in which the files
    at positions [i < j] report equal times in their first data row, then
    [num_times] and the length of [times] both equal the number of files,
    [times] is a rearrangement of all the times read (the duplicate stays),
    the time-to-file dict has fewer entries than [num_times], that time maps
    to the last-processed file reporting it, and of two distinct such files
    one is returned by no lookup at all. *)
Theorem duplicate_time_keeps_last_file
    (fs : filesystem) (filenames : list string) (cf : CactusField)
    (i j : nat) (fi fj : string) (ti tj : float) :
  CactusField_init fs filenames = Ok cf ->
  i < j ->
  filenames !! i = Some fi -> filenames !! j = Some fj ->
  get_file_time fs fi time_col_name = Ok ti ->
  get_file_time fs fj time_col_name = Ok tj ->
  SFeqb ti tj = true ->
  num_times cf = length filenames /\
  length (times cf) = length filenames /\
  (exists raw,
     Forall2 (fun f t => get_file_time fs f time_col_name = Ok t) filenames raw /\
     times cf ≡ₚ raw /\ raw !! i = Some ti /\ raw !! j = Some tj) /\
  length (fdict cf) < num_times cf /\
  (exists k f_last t_last,
     j <= k /\ filenames !! k = Some f_last /\
     get_file_time fs f_last time_col_name = Ok t_last /\
     SFeqb t_last ti = true /\
     (forall k' f' t', k < k' -> filenames !! k' = Some f' ->
        get_file_time fs f' time_col_name = Ok t' -> SFeqb t' ti = false) /\
     fdict_lookup (fdict cf) ti = Some f_last /\
     fdict_lookup (fdict cf) tj = Some f_last) /\
  (fi <> fj ->
     exists f, f ∈ [fi; fj] /\ forall t, fdict_lookup (fdict cf) t <> Some f).
Proof.
  intros Hinit Hij Hi Hj Hti Htj Heq.
  unfold CactusField_init in Hinit.
  bind_inv Hinit as r Hr. destruct r as [raw fd].
  bind_inv Hinit as fname0 Hf0. bind_inv Hinit as df Hdf.
  bind_inv Hinit as gr Hgr. destruct gr as [gd0 gdims]. injection Hinit as <-. simpl.
  apply read_times_Ok in Hr as (pairs & Hfst & Hall & -> & ->). simpl.
  assert (Hlen : length pairs = length filenames) by (by rewrite <- Hfst, length_map).
  (* the pairs at positions i and j *)
  assert (Hpi : pairs !! i = Some (fi, ti)).
  { rewrite <- Hfst, list_lookup_fmap in Hi.
    destruct (pairs !! i) as [[f t]|] eqn:E; [| done]. injection Hi as ->.
    apply list_elem_of_lookup_2 in E. apply (proj1 (Forall_forall _ _) Hall) in E.
    simpl in E. congruence. }
  assert (Hpj : pairs !! j = Some (fj, tj)).
  { rewrite <- Hfst, list_lookup_fmap in Hj.
    destruct (pairs !! j) as [[f t]|] eqn:E; [| done]. injection Hj as ->.
    apply list_elem_of_lookup_2 in E. apply (proj1 (Forall_forall _ _) Hall) in E.
    simpl in E. congruence. }
  (* the last pair whose time equals ti *)
  destruct (last_match_exists (fun p : string * float => SFeqb p.2 ti) pairs j (fj, tj) Hpj)
    as (l1 & [fl tl] & l2 & Hsplit & Hl & Hl2 & Hjl1); [by apply SFeqb_sym |].
  simpl in Hl.
  assert (Hlook : forall t, SFeqb ti t = true ->
            fdict_lookup (fdict_of [] pairs) t = Some fl).
  { intros t Ht. rewrite fdict_lookup_of, Hsplit.
    rewrite (foldl_last_match (fun p : string * float => SFeqb p.2 t) fst); try done.
    - simpl. by rewrite <- (SFeqb_congr_r ti t tl Ht).
    - eapply Forall_impl; [exact Hl2 |]. intros p Hp. simpl in *.
      by rewrite <- (SFeqb_congr_r ti t p.2 Ht). }
  assert (Hreach : forall t f, fdict_lookup (fdict_of [] pairs) t = Some f ->
            exists tf, (f, tf) ∈ pairs /\ SFeqb tf t = true).
  { intros t f. rewrite fdict_lookup_of. simpl.
    assert (Hgen : forall l acc,
      foldl (fun acc (p : string * float) => if SFeqb p.2 t then Some p.1 else acc) acc l
        = Some f ->
      acc = Some f \/ exists tf, (f, tf) ∈ l /\ SFeqb tf t = true).
    { clear. induction l as [|[f' t'] l IH]; intros acc H; simpl in *; [by left |].
      apply IH in H as [H|(tf & Hin & Htf)].
      - destruct (SFeqb t' t) eqn:E; [| by left].
        injection H as <-. right. exists t'. split; [left | done].
      - right. exists tf. split; [by right | done]. }
    intros H. apply Hgen in H as [H|H]; done. }
  assert (Htime : forall f tf, (f, tf) ∈ pairs -> get_file_time fs f time_col_name = Ok tf).
  { intros f tf Hin. by apply (proj1 (Forall_forall _ _) Hall) in Hin. }
  split; [done |]. split.
  { by rewrite (Permutation_length (np_sort_Permutation _)), length_map. }
  split.
  { exists (map snd pairs). split; [| split; [| split]].
    - rewrite <- Hfst. clear -Hall. induction Hall as [|[f t] l H _ IH]; simpl; by constructor.
    - apply np_sort_Permutation.
    - by rewrite list_lookup_fmap, Hpi.
    - by rewrite list_lookup_fmap, Hpj. }
  split.
  { (* fewer entries than files *)
    rewrite <- Hlen.
    assert (Hi' : i < length l1 \/ i = length l1) by lia.
    destruct (lookup_lt_is_Some_2 pairs j) as [? _]; [by eapply lookup_lt_Some |].
    (* split the pairs around positions i and j *)
    pose proof (take_drop_middle pairs i (fi, ti) Hpi) as Ei.
    assert (Hpj' : drop (S i) pairs !! (j - S i) = Some (fj, tj)).
    { rewrite lookup_drop. replace (S i + (j - S i)) with j by lia. done. }
    pose proof (take_drop_middle _ _ _ Hpj') as Ej.
    rewrite <- Ej in Ei. rewrite <- Ei at 1.
    rewrite fdict_of_app. simpl.
    set (fd1 := fdict_of [] (take i pairs)).
    change (fdict_of fd1 ((fi, ti) :: ?q)) with (fdict_of (fdict_set fd1 ti fi) q).
    rewrite fdict_of_app.
    set (fd3 := fdict_of (fdict_set fd1 ti fi) (take (j - S i) (drop (S i) pairs))).
    change (fdict_of fd3 ((fj, tj) :: ?q)) with (fdict_of (fdict_set fd3 tj fj) q).
    assert (H1 : length fd1 <= i).
    { pose proof (length_fdict_of [] (take i pairs)) as L. unfold fd1.
      rewrite length_take in L. simpl in L. lia. }
    assert (H2 : length (fdict_set fd1 ti fi) <= S i).
    { rewrite length_fdict_set. destruct (fdict_lookup fd1 ti); lia. }
    assert (H3 : length fd3 <= S i + (j - S i)).
    { pose proof (length_fdict_of (fdict_set fd1 ti fi) (take (j - S i) (drop (S i) pairs))) as L.
      rewrite length_take in L. unfold fd3. lia. }
    assert (K3 : is_Some (fdict_lookup fd3 tj)).
    { unfold fd3. rewrite fdict_lookup_of. apply foldl_last_Some.
      rewrite fdict_lookup_set, Heq. done. }
    assert (H4 : length (fdict_set fd3 tj fj) <= S i + (j - S i)).
    { rewrite length_fdict_set. destruct K3 as [? ->]. lia. }
    pose proof (length_fdict_of (fdict_set fd3 tj fj) (drop (S (j - S i)) (drop (S i) pairs))) as L.
    rewrite !length_drop in L.
    apply lookup_lt_Some in Hpj. lia. }
  split.
  { (* the last file with that time *)
    exists (length l1), fl, tl.
    assert (Hk : pairs !! length l1 = Some (fl, tl)).
    { rewrite Hsplit, lookup_app_r by lia. by rewrite Nat.sub_diag. }
    split; [done |]. split.
    { by rewrite <- Hfst, list_lookup_fmap, Hk. }
    split; [apply Htime; by eapply list_elem_of_lookup_2 |].
    split; [done |]. split; [| split].
    - intros k' f' t' Hk' Hf' Ht'.
      rewrite <- Hfst, list_lookup_fmap in Hf'.
      destruct (pairs !! k') as [[f'' t'']|] eqn:E; [| done]. injection Hf' as ->.
      assert (t'' = t') as ->.
      { apply list_elem_of_lookup_2, Htime in E. congruence. }
      rewrite Hsplit, lookup_app_r in E by lia.
      destruct (k' - length l1) as [|m] eqn:Em; [lia |]. simpl in E.
      apply list_elem_of_lookup_2 in E.
      by apply (proj1 (Forall_forall _ _) Hl2) in E.
    - apply Hlook. apply SFeqb_refl.
      destruct (SFeqb_true_cases _ _ Heq) as [[[s ->] _]|[_ Hn]]; done.
    - by apply Hlook. }
  (* one of two distinct files is unreachable *)
  intros Hne.
  assert (Hun : forall f tf, get_file_time fs f time_col_name = Ok tf ->
            SFeqb ti tf = true -> f <> fl ->
            forall t, fdict_lookup (fdict_of [] pairs) t <> Some f).
  { intros f tf Hf Htf Hfl t Ht.
    destruct (Hreach t f Ht) as (tf' & Hin & Htf').
    apply Htime in Hin. assert (tf' = tf) as -> by congruence.
    rewrite (Hlook t) in Ht; [congruence |]. by eapply SFeqb_trans. }
  destruct (decide (fi = fl)) as [->|Hfi].
  - exists fj. split; [set_solver |]. by apply (Hun fj tj).
  - exists fi. split; [set_solver |]. apply (Hun fi ti); try done.
    apply SFeqb_refl. destruct (SFeqb_true_cases _ _ Heq) as [[[s ->] _]|[_ Hn]]; done.
Qed.

Lemma duplicate_time_keeps_last_file_witness :
  exists cf,
    CactusField_init fs_example ["a.csv"; "b.csv"; "c.csv"] = Ok cf /\
    num_times cf = 3 /\ length (times cf) = 3 /\
    length (fdict cf) < num_times cf /\
    (exists f_last, fdict_lookup (fdict cf) (f64 1) = Some f_last) /\
    (exists f, f ∈ ["a.csv"; "b.csv"] /\ forall t, fdict_lookup (fdict cf) t <> Some f).
Proof.
  eexists. split; [vm_compute; reflexivity |].
  match goal with |- num_times ?c = _ /\ _ => set (cf := c) end.
  destruct (duplicate_time_keeps_last_file fs_example ["a.csv"; "b.csv"; "c.csv"] cf
              0 1 "a.csv" "b.csv" (f64 1) (f64 1))
    as (H1 & H2 & _ & H4 & (k & f_last & t_last & _ & _ & _ & _ & _ & H5 & _) & H6);
    [vm_compute; reflexivity | lia | reflexivity | reflexivity
    | vm_compute; reflexivity | vm_compute; reflexivity | reflexivity |].
  split; [exact H1 |]. split; [exact H2 |]. split; [exact H4 |].
  split; [by exists f_last |]. apply H6. discriminate.
Defined.

(** ** Rounding produces well-formed numbers *)

Section Rounding.
Variables prec emax : Z.
Hypothesis prec_pos : (1 <= prec)%Z.

Lemma Zdigits2_nonneg (m : Z) : (0 <= Zdigits2 m)%Z.
Proof. destruct m; simpl; lia. Qed.

Lemma Zdigits2_shr_1 (mrs : shr_record) :
  Zdigits2 (shr_m (shr_1 mrs)) = Z.max (Zdigits2 (shr_m mrs) - 1) 0
  /\ ((0 <= shr_m mrs)%Z -> (0 <= shr_m (shr_1 mrs))%Z).
Proof.
  destruct mrs as [m r s]. unfold shr_1.
  destruct m as [|[p|p|]|[p|p|]]; simpl; lia.
Qed.

Lemma Zdigits2_iter_shr_1 (p : positive) (mrs : shr_record) :
  Zdigits2 (shr_m (SpecFloat.iter_pos shr_1 p mrs)) = Z.max (Zdigits2 (shr_m mrs) - Zpos p) 0
  /\ ((0 <= shr_m mrs)%Z -> (0 <= shr_m (SpecFloat.iter_pos shr_1 p mrs))%Z).
Proof.
  revert mrs; induction p as [p IH|p IH|]; intros mrs; simpl.
  - destruct (Zdigits2_shr_1 mrs) as [H1 P1].
    destruct (IH (shr_1 mrs)) as [H2 P2].
    destruct (IH (SpecFloat.iter_pos shr_1 p (shr_1 mrs))) as [H3 P3].
    split; [lia | auto].
  - destruct (IH mrs) as [H2 P2].
    destruct (IH (SpecFloat.iter_pos shr_1 p mrs)) as [H3 P3].
    split; [lia | auto].
  - apply Zdigits2_shr_1.
Qed.

Lemma shr_spec (mrs : shr_record) (e n : Z) :
  snd (shr mrs e n) = (e + Z.max n 0)%Z
  /\ Zdigits2 (shr_m (fst (shr mrs e n)))
     = Z.max (Zdigits2 (shr_m mrs) - Z.max n 0) 0
  /\ ((0 <= shr_m mrs)%Z -> (0 <= shr_m (fst (shr mrs e n)))%Z).
Proof.
  pose proof (Zdigits2_nonneg (shr_m mrs)).
  destruct n as [|p|p]; simpl.
  - split; [lia |]. split; [lia | done].
  - destruct (Zdigits2_iter_shr_1 p mrs) as [H1 P1]. split; [lia |]. split; [lia | done].
  - split; [lia |]. split; [lia | done].
Qed.

Lemma shr_m_record_of_loc (m : Z) (l : location) : shr_m (shr_record_of_loc m l) = m.
Proof. by destruct l as [|[]]. Qed.

Lemma digits2_pos_succ (p : positive) :
  (Zpos (digits2_pos p) <= Zpos (digits2_pos (Pos.succ p)))%Z.
Proof. induction p as [p IH|p IH|]; simpl; lia. Qed.

Lemma round_nearest_even_digits (m : Z) (l : location) :
  (0 <= m)%Z ->
  (0 <= round_nearest_even m l)%Z
  /\ (Zdigits2 m <= Zdigits2 (round_nearest_even m l))%Z
  /\ (m = 0%Z -> Zdigits2 (round_nearest_even m l) <= 1)%Z.
Proof.
  intros Hm.
  assert (Hsucc : (0 <= m + 1)%Z /\ (Zdigits2 m <= Zdigits2 (m + 1))%Z
                  /\ (m = 0%Z -> Zdigits2 (m + 1) <= 1)%Z).
  { destruct m as [|p|p]; [simpl; lia | | lia].
    split; [lia |]. split; [| lia].
    replace (Zpos p + 1)%Z with (Zpos (Pos.succ p)) by lia. apply digits2_pos_succ. }
  unfold round_nearest_even.
  destruct l as [|[]]; try (split; [lia |]; split; [lia |]; intros ->; simpl; lia);
    try done.
  destruct (Z.even m); [split; [lia |]; split; [lia |]; intros ->; simpl; lia | done].
Qed.

Lemma binary_round_aux_valid (s : bool) (m e : Z) (l : location) :
  (0 <= m)%Z -> (e <= fexp prec emax (Zdigits2 m + e))%Z ->
  valid_binary prec emax (binary_round_aux prec emax s m e l) = true.
Proof.
  intros Hm He. unfold binary_round_aux, shr_fexp.
  pose proof (shr_spec (shr_record_of_loc m l) e (fexp prec emax (Zdigits2 m + e) - e))
    as (E1 & D1 & P1).
  rewrite shr_m_record_of_loc in D1, P1.
  destruct (shr (shr_record_of_loc m l) e (fexp prec emax (Zdigits2 m + e) - e))
    as [mrs' e'] eqn:S1.
  simpl in E1, D1, P1. specialize (P1 Hm).
  set (m2 := round_nearest_even (shr_m mrs') (loc_of_shr_record mrs')).
  destruct (round_nearest_even_digits (shr_m mrs') (loc_of_shr_record mrs') P1)
    as (P2 & D2 & Z2). fold m2 in P2, D2, Z2.
  pose proof (shr_spec (shr_record_of_loc m2 loc_Exact) e'
                (fexp prec emax (Zdigits2 m2 + e') - e')) as (E3 & D3 & P3).
  rewrite shr_m_record_of_loc in D3, P3.
  destruct (shr (shr_record_of_loc m2 loc_Exact) e'
              (fexp prec emax (Zdigits2 m2 + e') - e')) as [mrs'' e''] eqn:S3.
  simpl in E3, D3, P3. specialize (P3 P2).
  destruct (shr_m mrs'') as [|m3|m3] eqn:M3; try done.
  destruct (Z.leb e'' (emax - prec)) eqn:L; [| done].
  unfold valid_binary, bounded, canonical_mantissa. rewrite L, andb_true_r.
  apply Z.eqb_eq.
  change (Zpos (digits2_pos m3)) with (Zdigits2 (Zpos m3)).
  pose proof (Zdigits2_nonneg m). pose proof (Zdigits2_nonneg m2).
  assert (Hd3 : (1 <= Zdigits2 (Zpos m3))%Z) by (simpl; lia).
  assert (Hz : shr_m mrs' = 0%Z \/ shr_m mrs' <> 0%Z) by lia.
  unfold fexp, emin in *.
  destruct Hz as [Hz|Hz].
  - specialize (Z2 Hz). rewrite Hz in D1. simpl in D1. lia.
  - assert (1 <= Zdigits2 (shr_m mrs'))%Z by (destruct (shr_m mrs'); simpl; lia).
    lia.
Qed.

Lemma digits2_pos_iter_xO (m d : positive) :
  Zpos (digits2_pos (Pos.iter xO m d)) = (Zpos (digits2_pos m) + Zpos d)%Z.
Proof.
  induction d as [|d IH] using Pos.peano_ind.
  - simpl. lia.
  - rewrite Pos.iter_succ. simpl digits2_pos. lia.
Qed.

Lemma binary_round_valid (s : bool) (m : positive) (e : Z) :
  valid_binary prec emax (binary_round prec emax s m e) = true.
Proof.
  unfold binary_round, shl_align.
  destruct (fexp prec emax (Zpos (digits2_pos m) + e) - e)%Z as [|d|d] eqn:E.
  - apply binary_round_aux_valid; [lia |]. simpl Zdigits2. lia.
  - apply binary_round_aux_valid; [lia |]. simpl Zdigits2. lia.
  - apply binary_round_aux_valid; [lia |]. simpl Zdigits2.
    rewrite digits2_pos_iter_xO.
    replace (Zpos (digits2_pos m) + Zpos d + fexp prec emax (Zpos (digits2_pos m) + e))%Z
      with (Zpos (digits2_pos m) + e)%Z by lia.
    lia.
Qed.
End Rounding.

Lemma astype_valid (d : dtype) (x : float) : valid d (astype d x) = true.
Proof.
  destruct x as [s|s| |s m e]; try done.
  unfold valid, astype. apply binary_round_valid. by destruct d.
Qed.

(** ** Division by one in single precision *)

Lemma digits2_pos_xO (m : positive) :
  Zpos (digits2_pos m~0) = (Zpos (digits2_pos m) + 1)%Z.
Proof. simpl. lia. Qed.

Lemma div_eucl_exact (a b : Z) :
  (0 < b)%Z -> Z.div_eucl (a * b) b = (a, 0%Z).
Proof.
  intros Hb. pose proof (Z.div_eucl_eq (a * b) b) as H.
  pose proof (Z.mod_pos_bound (a * b) b Hb) as Hr.
  unfold Z.modulo in Hr.
  destruct (Z.div_eucl (a * b) b) as [q r].
  assert (Hbne : b <> 0%Z) by lia. specialize (H Hbne).
  assert (r = 0 /\ q = a)%Z as [-> ->]; [| done].
  assert ((a - q) * b = r)%Z by lia.
  assert (a - q = 0)%Z by nia. split; nia.
Qed.

Lemma fdiv_one_float32 (x : float) :
  valid float32 x = true -> fdiv float32 x (of_int float32 1) = x.
Proof.
  destruct x as [s|s| |s m e]; try done.
  - by destruct s.
  - by destruct s.
  - unfold valid, valid_binary, bounded, canonical_mantissa. simpl prec. simpl emax.
    intros [Hcan Hle]%andb_true_iff.
    apply Z.eqb_eq in Hcan. apply Z.leb_le in Hle.
    unfold fexp, emin in Hcan.
    change (of_int float32 1) with (S754_finite false 8388608 (-23)).
    unfold fdiv. simpl prec. simpl emax.
    unfold SFdiv, SFdiv_core_binary.
    change (Zdigits2 (Zpos m)) with (Zpos (digits2_pos m)).
    change (Zdigits2 8388608) with 24%Z.
    set (d := Zpos (digits2_pos m)) in *.
    assert (Hd : (1 <= d)%Z) by lia.
    unfold fexp, emin.
    assert (Hcases : ((d = 24 /\ -148 <= e) \/ (e = -149 /\ d <= 24))%Z) by lia.
    destruct Hcases as [[Hd24 He]|[He Hd24]].
    + replace (Z.min (Z.max (d + e - (24 + -23) - 24) (3 - 128 - 24)) (e - -23))%Z
        with (e - 1)%Z by lia.
      replace (e - -23 - (e - 1))%Z with 24%Z by lia.
      replace (Z.shiftl (Zpos m) 24) with (Zpos m~0 * 8388608)%Z
        by (rewrite Z.shiftl_mul_pow2 by lia; lia).
      rewrite div_eucl_exact by lia.
      change (new_location 8388608 0) with loc_Exact.
      unfold binary_round_aux, shr_fexp, shr_record_of_loc.
      change (Zdigits2 (Zpos m~0)) with (Zpos (digits2_pos m~0)).
      rewrite digits2_pos_xO. fold d. unfold fexp, emin.
      replace (Z.max (d + 1 + (e - 1) - 24) (3 - 128 - 24) - (e - 1))%Z with 1%Z by lia.
      simpl shr. cbv [loc_of_shr_record shr_m shr_r shr_s round_nearest_even].
      change (Zdigits2 (Zpos m)) with d.
      replace (e - 1 + 1)%Z with e by lia.
      replace (Z.max (d + e - 24) (3 - 128 - 24) - e)%Z with 0%Z by lia.
      simpl. destruct s; simpl; by rewrite (proj2 (Z.leb_le _ _)) by lia.
    + replace (Z.min (Z.max (d + e - (24 + -23) - 24) (3 - 128 - 24)) (e - -23))%Z
        with e by lia.
      replace (e - -23 - e)%Z with 23%Z by lia.
      replace (Z.shiftl (Zpos m) 23) with (Zpos m * 8388608)%Z
        by (rewrite Z.shiftl_mul_pow2 by lia; lia).
      rewrite div_eucl_exact by lia.
      change (new_location 8388608 0) with loc_Exact.
      unfold binary_round_aux, shr_fexp, shr_record_of_loc.
      change (Zdigits2 (Zpos m)) with d. unfold fexp, emin.
      replace (Z.max (d + e - 24) (3 - 128 - 24) - e)%Z with 0%Z by lia.
      simpl shr. cbv [loc_of_shr_record shr_m shr_r shr_s round_nearest_even].
      change (Zdigits2 (Zpos m)) with d. unfold fexp, emin.
      replace (Z.max (d + e - 24) (3 - 128 - 24) - e)%Z with 0%Z by lia.
      simpl. destruct s; simpl; by rewrite (proj2 (Z.leb_le _ _)) by lia.
Qed.

(** ** Datasets without freestream columns *)

Lemma fdict_lookup_elem (fd : fdict_t) (t : float) (f : string) :
  fdict_lookup fd t = Some f -> exists k, (k, f) ∈ fd.
Proof.
  induction fd as [|[k f'] fd IH]; simpl; [done |].
  destruct (SFeqb k t).
  - intros [= ->]. exists k. left.
  - intros [k' Hk']%IH. exists k'. by right.
Qed.

Lemma lacks_freestream_get_df_inst (fs : filesystem) (self : CactusField)
    (t : float) (df : DataFrame) :
  lacks_freestream fs self = true ->
  get_df_inst fs self (Some t) None = Ok df ->
  has_vel_fs df = false.
Proof.
  intros Hlack H. unfold get_df_inst in H.
  bind_inv H as fname Hf. fmap_inv Hf as f Hf'. subst fname.
  unfold fdict_getitem in Hf'.
  destruct (fdict_lookup (fdict self) t) as [f'|] eqn:E; [| done].
  injection Hf' as ->. apply fdict_lookup_elem in E as [k Hk].
  unfold lacks_freestream in Hlack. rewrite forallb_forall in Hlack.
  apply list_elem_of_In, Hlack in Hk. simpl in Hk. rewrite H in Hk.
  by apply negb_true_iff.
Qed.

Lemma fielddata_from_df_lacking (df : DataFrame) (gd : gmap string arr3) (dims : grid_dims) :
  fielddata_from_df df = Ok (gd, dims) -> has_vel_fs df = false ->
  exists X Y Z U V W,
    gd !! "X" = Some X /\ gd !! "Y" = Some Y /\ gd !! "Z" = Some Z /\
    gd !! "U" = Some U /\ gd !! "V" = Some V /\ gd !! "W" = Some W /\
    gd !! "Ufs" = None.
Proof.
  intros Hok Hfs.
  destruct (fielddata_from_df_Ok _ _ _ Hok)
    as (x & y & z & u & v & w & ymin & ymax & zmin & zmax
        & X & Y & Z & U & V & W & _ & _ & _ & _ & _ & _ & _ & _ & _ & _
        & _ & _ & _ & _ & _ & _ & _ & GX & GY & GZ & GU & GV & GW & GFS).
  rewrite Hfs in GFS. destruct GFS as (GFS & _).
  eexists _, _, _, _, _, _. repeat split; done.
Qed.

Lemma average_step_first_lacking (fs : filesystem) (self : CactusField)
    (acc : option mean_fields) (t : float) :
  lacks_freestream fs self = true ->
  (exists e, average_step fs self acc 0 t = Raise e) /\
  (forall df gd dims,
     get_df_inst fs self (Some t) None = Ok df ->
     fielddata_from_df df = Ok (gd, dims) ->
     average_step fs self acc 0 t = Raise (KeyError (KStr "Ufs"))).
Proof.
  intros Hlack.
  assert (H : forall df gd dims,
     get_df_inst fs self (Some t) None = Ok df ->
     fielddata_from_df df = Ok (gd, dims) ->
     average_step fs self acc 0 t = Raise (KeyError (KStr "Ufs"))).
  { intros df gd dims Hdf Hgd. unfold average_step. rewrite Hdf. simpl. rewrite Hgd. simpl.
    destruct (fielddata_from_df_lacking _ _ _ Hgd)
      as (X & Y & Z & U & V & W & GX & GY & GZ & GU & GV & GW & GFS);
      [by eapply lacks_freestream_get_df_inst |].
    unfold dict_getitem. rewrite GX, GY, GZ, GU, GV, GW, GFS. done. }
  split; [| done].
  destruct (get_df_inst fs self (Some t) None) as [df|e] eqn:Hdf.
  - destruct (fielddata_from_df df) as [[gd dims]|e] eqn:Hgd.
    + eexists. by eapply H.
    + exists e. unfold average_step. rewrite Hdf. simpl. by rewrite Hgd.
  - exists e. unfold average_step. by rewrite Hdf.
Qed.

Lemma extract_point_lacking (gd : gmap string arr3) (ti pi : nat)
    (acc : point_series) (coords : Z * Z * Z) :
  gd !! "Ufs" = None ->
  (exists e, extract_point gd ti acc pi coords = Raise e) /\
  ((forall name F, name ∈ ["U"; "V"; "W"] -> gd !! name = Some F ->
      is_Ok (getitem3 F coords) = true) ->
   is_Some (gd !! "U") -> is_Some (gd !! "V") -> is_Some (gd !! "W") ->
   extract_point gd ti acc pi coords = Raise (KeyError (KStr "Ufs"))).
Proof.
  intros GFS. unfold extract_point, dict_getitem. rewrite GFS. split.
  - destruct (gd !! "U") as [U|]; simpl; [| eauto].
    destruct (getitem3 U coords); simpl; [| eauto].
    destruct (gd !! "V") as [V|]; simpl; [| eauto].
    destruct (getitem3 V coords); simpl; [| eauto].
    destruct (gd !! "W") as [W|]; simpl; [| eauto].
    destruct (getitem3 W coords); simpl; eauto.
  - intros Hread [U GU] [V GV] [W GW]. rewrite GU, GV, GW. simpl.
    pose proof (Hread "U" U ltac:(set_solver) GU) as HU.
    pose proof (Hread "V" V ltac:(set_solver) GV) as HV.
    pose proof (Hread "W" W ltac:(set_solver) GW) as HW.
    destruct (getitem3 U coords); [| done]. destruct (getitem3 V coords); [| done].
    destruct (getitem3 W coords); [| done]. done.
Qed.

Lemma nearest_nodes_length (fs : filesystem) (self : CactusField)
    (p_list : list (float * float * float)) (kji : list (Z * Z * Z)) :
  nearest_nodes fs self p_list = Ok kji -> length kji = length p_list.
Proof.
  unfold nearest_nodes. intros H.
  bind_inv H as t0 Ht0. bind_inv H as df Hdf. bind_inv H as r Hr. destruct r as [gd dims].
  bind_inv H as x Hx. bind_inv H as y Hy. bind_inv H as z Hz.
  by apply length_traverse in H.
Qed.

(** ** C7: operations on freestream data when it is absent *)

(** C7 (as amended).  On a dataset whose source tables lack the freestream
    columns, [field_time_average] never returns arrays: it raises
    KeyError 'Ufs' as soon as the first timestep of the window is
    reconstructed.  [pointdata_time_series] never returns arrays when the
    window and the point list are both non-empty, and raises KeyError 'Ufs'
    once U, V and W of the first point are read at the first timestep; with
    an empty window it returns arrays that hold no time sample. *)
Theorem freestream_absent_operations_fail (fs : filesystem) (self : CactusField) :
  lacks_freestream fs self = true ->
  (forall ti_start ti_end,
     exists e, field_time_average fs self ti_start ti_end = Raise e) /\
  (forall ti_start ti_end t rest df gd dims,
     py_slice ti_start ti_end (times self) = t :: rest ->
     get_df_inst fs self (Some t) None = Ok df ->
     fielddata_from_df df = Ok (gd, dims) ->
     field_time_average fs self ti_start ti_end = Raise (KeyError (KStr "Ufs"))) /\
  (forall p_list ti_start ti_end,
     p_list <> [] -> py_slice ti_start ti_end (times self) <> [] ->
     exists e, pointdata_time_series fs self p_list ti_start ti_end = Raise e) /\
  (forall p_list ti_start ti_end coords others t rest df gd dims,
     nearest_nodes fs self p_list = Ok (coords :: others) ->
     py_slice ti_start ti_end (times self) = t :: rest ->
     get_df_inst fs self (Some t) None = Ok df ->
     fielddata_from_df df = Ok (gd, dims) ->
     (forall name F, name ∈ ["U"; "V"; "W"] -> gd !! name = Some F ->
        is_Ok (getitem3 F coords) = true) ->
     pointdata_time_series fs self p_list ti_start ti_end
     = Raise (KeyError (KStr "Ufs"))) /\
  (forall p_list ti_start ti_end kji_nearest,
     nearest_nodes fs self p_list = Ok kji_nearest ->
     py_slice ti_start ti_end (times self) = [] ->
     pointdata_time_series fs self p_list ti_start ti_end
     = Ok {| ps_t := [];
             ps_u := np_zeros2 (length p_list) 0; ps_v := np_zeros2 (length p_list) 0;
             ps_w := np_zeros2 (length p_list) 0; ps_ufs := np_zeros2 (length p_list) 0;
             ps_vfs := np_zeros2 (length p_list) 0;
             ps_wfs := np_zeros2 (length p_list) 0 |}).
Proof.
  intros Hlack. split; [| split; [| split; [| split]]].
  - intros ti_start ti_end. unfold field_time_average.
    destruct (py_slice ti_start ti_end (times self)) as [|t rest]; simpl; [eauto |].
    destruct (average_step_first_lacking fs self None t Hlack) as [[e ->] _]. simpl. eauto.
  - intros ti_start ti_end t rest df gd dims Hwin Hdf Hgd.
    unfold field_time_average. rewrite Hwin. simpl.
    destruct (average_step_first_lacking fs self None t Hlack) as [_ H].
    by rewrite (H df gd dims).
  - intros p_list ti_start ti_end Hp Hwin. unfold pointdata_time_series.
    destruct (nearest_nodes fs self p_list) as [kji|e] eqn:Hkji; simpl; [| eauto].
    apply nearest_nodes_length in Hkji.
    destruct kji as [|coords others]; [by destruct p_list |].
    destruct (py_slice ti_start ti_end (times self)) as [|t rest]; [done |]. simpl.
    destruct (get_df_inst fs self (Some t) None) as [df|e] eqn:Hdf; simpl; [| eauto].
    destruct (fielddata_from_df df) as [[gd dims]|e] eqn:Hgd; simpl; [| eauto].
    destruct (fielddata_from_df_lacking _ _ _ Hgd) as (? & ? & ? & ? & ? & ? & _ & _ & _ & _ & _ & _ & GFS);
      [by eapply lacks_freestream_get_df_inst |].
    match goal with
    | |- context [extract_point gd 0 ?acc 0 coords] =>
        destruct (extract_point_lacking gd 0 0 acc coords GFS) as [[e ->] _]
    end.
    simpl. eauto.
  - intros p_list ti_start ti_end coords others t rest df gd dims Hkji Hwin Hdf Hgd Hread.
    unfold pointdata_time_series. rewrite Hkji, Hwin. simpl. rewrite Hdf. simpl.
    rewrite Hgd. simpl.
    destruct (fielddata_from_df_lacking _ _ _ Hgd)
      as (? & ? & ? & U & V & W & _ & _ & _ & GU & GV & GW & GFS);
      [by eapply lacks_freestream_get_df_inst |].
    match goal with
    | |- context [extract_point gd 0 ?acc 0 coords] =>
        destruct (extract_point_lacking gd 0 0 acc coords GFS) as [_ H]
    end.
    rewrite H; eauto.
  - intros p_list ti_start ti_end kji_nearest Hkji Hwin.
    unfold pointdata_time_series. by rewrite Hkji, Hwin.
Qed.

(** The one-file dataset c.csv, which has no freestream columns. *)
Lemma freestream_absent_operations_fail_witness :
  exists cf,
    CactusField_init fs_example ["c.csv"] = Ok cf /\
    lacks_freestream fs_example cf = true /\
    field_time_average fs_example cf 0 1 = Raise (KeyError (KStr "Ufs")) /\
    exists e, pointdata_time_series fs_example cf [(f64 0, f64 0, f64 0)] 0 1 = Raise e.
Proof.
  eexists. split; [vm_compute; reflexivity |].
  match goal with |- lacks_freestream _ ?c = true /\ _ => set (cf := c) end.
  assert (Hlack : lacks_freestream fs_example cf = true) by (vm_compute; reflexivity).
  split; [exact Hlack |].
  destruct (freestream_absent_operations_fail fs_example cf Hlack) as (_ & H2 & H3 & _ & _).
  split.
  - destruct (fielddata_from_df_intro
      {| df_columns := csv_header; df_rows := map (map read_csv_of) (body (file_at 2 30)) |}
      [f64 0] [f64 0] [f64 0] [f64 30] [f64 0] [f64 0])
      as (gd & dims & Hok);
      [vm_compute; reflexivity .. | discriminate | vm_compute; reflexivity |].
    apply (H2 0%Z 1%Z (f64 2) []
             {| df_columns := csv_header; df_rows := map (map read_csv_of) (body (file_at 2 30)) |} gd dims);
      [vm_compute; reflexivity | vm_compute; reflexivity | exact Hok].
  - apply H3; [discriminate | vm_compute; discriminate].
Defined.

(** C7 (counterexample).  The dataset of the single file c.csv has no
    freestream columns; with the default window [0:-1], which is empty for
    one timestep, [pointdata_time_series] does not fail: it returns its
    (empty) arrays. *)
Lemma pointdata_empty_window_returns :
  exists cf,
    CactusField_init fs_example ["c.csv"] = Ok cf /\
    lacks_freestream fs_example cf = true /\
    pointdata_time_series fs_example cf [(f64 0, f64 0, f64 0)] 0 (-1)
    = Ok {| ps_t := []; ps_u := [[]]; ps_v := [[]]; ps_w := [[]];
            ps_ufs := [[]]; ps_vfs := [[]]; ps_wfs := [[]] |}.
Proof.
  eexists. split; [vm_compute; reflexivity |].
  split; vm_compute; reflexivity.
Qed.

(** ** C8: the average over one timestep *)

Lemma div3_one_float32 (a : arr3) : div3 (np_float32 a) 1 = np_float32 a.
Proof.
  unfold div3, np_float32. rewrite List.map_map.
  apply List.map_ext. intros p. rewrite List.map_map.
  apply List.map_ext. intros r. rewrite List.map_map.
  apply List.map_ext. intros x.
  apply fdiv_one_float32, astype_valid.
Qed.

(** C8 (as amended).  When the averaging window holds exactly one timestep
    whose table is reconstructed and has the freestream columns,
    [field_time_average] returns that timestep's three coordinate arrays
    and six field arrays unchanged, with the window's single time. *)
Theorem time_average_of_one_timestep
    (fs : filesystem) (self : CactusField) (ti_start ti_end : Z) (t : float)
    (df : DataFrame) (gd : gmap string arr3) (dims : grid_dims) :
  py_slice ti_start ti_end (times self) = [t] ->
  get_df_inst fs self (Some t) None = Ok df ->
  fielddata_from_df df = Ok (gd, dims) ->
  has_vel_fs df = true ->
  exists X Y Z U V W Ufs Vfs Wfs,
    gd !! "X" = Some X /\ gd !! "Y" = Some Y /\ gd !! "Z" = Some Z /\
    gd !! "U" = Some U /\ gd !! "V" = Some V /\ gd !! "W" = Some W /\
    gd !! "Ufs" = Some Ufs /\ gd !! "Vfs" = Some Vfs /\ gd !! "Wfs" = Some Wfs /\
    field_time_average fs self ti_start ti_end
    = Ok ([t], {| mX := X; mY := Y; mZ := Z; mU := U; mV := V; mW := W;
                  mUfs := Ufs; mVfs := Vfs; mWfs := Wfs |}).
Proof.
  intros Hwin Hdf Hgd Hfs.
  destruct (fielddata_from_df_Ok _ _ _ Hgd)
    as (x & y & z & u & v & w & ymin & ymax & zmin & zmax
        & X & Y & Z & U & V & W & _ & _ & _ & _ & _ & _ & _ & _ & _ & _
        & _ & _ & _ & _ & _ & _ & _ & GX & GY & GZ & GU & GV & GW & GFS).
  rewrite Hfs in GFS.
  destruct GFS as (ufs & vfs & wfs & Ufs & Vfs & Wfs & _ & _ & _ & _ & _ & _ & GUfs & GVfs & GWfs).
  exists (np_float32 X), (np_float32 Y), (np_float32 Z), (np_float32 U), (np_float32 V),
    (np_float32 W), (np_float32 Ufs), (np_float32 Vfs), (np_float32 Wfs).
  repeat (split; [done |]).
  unfold field_time_average. rewrite Hwin. simpl.
  unfold average_step. rewrite Hdf. simpl. rewrite Hgd. simpl.
  unfold dict_getitem. rewrite GX, GY, GZ, GU, GV, GW, GUfs, GVfs, GWfs. simpl.
  by rewrite !div3_one_float32.
Qed.

(** The one-file dataset d.csv, which has the freestream columns. *)
Lemma time_average_of_one_timestep_witness :
  exists cf,
    CactusField_init fs_example ["d.csv"] = Ok cf /\
    exists X Y Z U V W Ufs Vfs Wfs,
      field_time_average fs_example cf 0 1
      = Ok ([f64 3], {| mX := X; mY := Y; mZ := Z; mU := U; mV := V; mW := W;
                        mUfs := Ufs; mVfs := Vfs; mWfs := Wfs |}) /\
      U = [[[of_int float32 40]]] /\ Ufs = [[[of_int float32 1]]].
Proof.
  eexists. split; [vm_compute; reflexivity |].
  match goal with |- context [field_time_average _ ?c _ _] => set (cf := c) end.
  destruct (fielddata_from_df_intro
      {| df_columns := csv_header ++ freestream_columns; df_rows := map (map read_csv_of) (body (file_fs_at 3 40)) |}
      [f64 0] [f64 0] [f64 0] [f64 40] [f64 0] [f64 0])
      as (gd & dims & Hok);
      [vm_compute; reflexivity .. | discriminate | vm_compute; reflexivity |].
  destruct (time_average_of_one_timestep fs_example cf 0 1 (f64 3)
              {| df_columns := csv_header ++ freestream_columns;
                 df_rows := map (map read_csv_of) (body (file_fs_at 3 40)) |} gd dims)
    as (X & Y & Z & U & V & W & Ufs & Vfs & Wfs & _ & _ & _ & _ & _ & _ & _ & _ & _ & H);
    [vm_compute; reflexivity | vm_compute; reflexivity | exact Hok | vm_compute; reflexivity |].
  exists X, Y, Z, U, V, W, Ufs, Vfs, Wfs.
  split; [exact H |].
  assert (E : field_time_average fs_example cf 0 1
              = Ok ([f64 3],
                    {| mX := [[[fzero]]]; mY := [[[fzero]]]; mZ := [[[fzero]]];
                       mU := [[[of_int float32 40]]]; mV := [[[fzero]]]; mW := [[[fzero]]];
                       mUfs := [[[of_int float32 1]]]; mVfs := [[[fzero]]];
                       mWfs := [[[fzero]]] |}))
    by (vm_compute; reflexivity).
  rewrite E in H. injection H as <- <- <- <- <- <- <- <- <-. split; reflexivity.
Defined.

(** C8 (counterexample).  On the dataset of the single file c.csv the window
    [0:1] holds exactly one timestep and its table is reconstructed, but
    the table has no freestream columns and [field_time_average] raises
    KeyError 'Ufs' instead of returning the snapshot. *)
Lemma one_timestep_average_needs_freestream :
  exists cf,
    CactusField_init fs_example ["c.csv"] = Ok cf /\
    py_slice 0 1 (times cf) = [f64 2] /\
    field_time_average fs_example cf 0 1 = Raise (KeyError (KStr "Ufs")) /\
    exists df gd dims,
      get_df_inst fs_example cf (Some (f64 2)) None = Ok df /\
      fielddata_from_df df = Ok (gd, dims).
Proof.
  eexists. split; [vm_compute; reflexivity |].
  split; [vm_compute; reflexivity |]. split; [vm_compute; reflexivity |].
  destruct (fielddata_from_df_intro
      {| df_columns := csv_header; df_rows := map (map read_csv_of) (body (file_at 2 30)) |}
      [f64 0] [f64 0] [f64 0] [f64 30] [f64 0] [f64 0])
      as (gd & dims & Hok);
      [vm_compute; reflexivity .. | discriminate | vm_compute; reflexivity |].
  exists {| df_columns := csv_header; df_rows := map (map read_csv_of) (body (file_at 2 30)) |}, gd, dims.
  split; [vm_compute; reflexivity | exact Hok].
Qed.

(** A 2 x 2 plane of ones. *)


(** * Further properties *)

(** ** The order [<=] on IEEE values *)

Lemma SFleb_not_nan (a b : float) :
  SFleb a b = true -> isnan a = false /\ isnan b = false.
Proof. destruct a, b; simpl; auto; discriminate. Qed.

Lemma SFleb_refl (a : float) : isnan a = false -> SFleb a a = true.
Proof.
  destruct a as [s|s| |s m e]; try discriminate; intros _;
    unfold SFleb, SFcompare; destruct s; try reflexivity;
    rewrite Z.compare_refl; fold (Pos.compare m m); rewrite Pos.compare_refl; reflexivity.
Qed.

Ltac order_cases :=
  repeat match goal with
  | |- context [Z.compare ?a ?b] => destruct (Z.compare_spec a b)
  | H : context [Z.compare ?a ?b] |- _ => destruct (Z.compare_spec a b)
  | |- context [Pos.compare_cont Eq ?a ?b] =>
      change (Pos.compare_cont Eq a b) with (Pos.compare a b);
      destruct (Pos.compare_spec a b)
  | H : context [Pos.compare_cont Eq ?a ?b] |- _ =>
      change (Pos.compare_cont Eq a b) with (Pos.compare a b) in H;
      destruct (Pos.compare_spec a b)
  end; simpl in *; try discriminate; try reflexivity; try lia.

Lemma SFleb_total (a b : float) :
  isnan a = false -> isnan b = false -> SFleb a b = false -> SFltb b a = true.
Proof.
  destruct a as [sa|sa| |sa ma ea], b as [sb|sb| |sb mb eb]; try discriminate;
    intros _ _; unfold SFleb, SFltb, SFcompare;
    try destruct sa; try destruct sb; try discriminate; try reflexivity; order_cases.
Qed.

Lemma SFltb_SFleb (a b : float) : SFltb a b = true -> SFleb a b = true.
Proof. unfold SFltb, SFleb. destruct (SFcompare a b) as [[]|]; auto. Qed.

Lemma SFltb_not_SFleb (a b : float) : SFltb a b = true -> SFleb b a = false.
Proof.
  destruct a as [sa|sa| |sa ma ea], b as [sb|sb| |sb mb eb]; try discriminate;
    unfold SFleb, SFltb, SFcompare;
    try destruct sa; try destruct sb; try discriminate; try reflexivity; order_cases.
Qed.

Lemma SFleb_trans (a b c : float) :
  SFleb a b = true -> SFleb b c = true -> SFleb a c = true.
Proof.
  destruct a as [sa|sa| |sa ma ea], b as [sb|sb| |sb mb eb], c as [sc|sc| |sc mc ec];
    try discriminate; unfold SFleb, SFcompare;
    try destruct sa; try destruct sb; try destruct sc;
    try discriminate; try reflexivity; intros H1 H2; order_cases.
Qed.

Lemma SFleb_antisym (a b : float) :
  SFleb a b = true -> SFleb b a = true -> SFeqb a b = true.
Proof.
  destruct a as [sa|sa| |sa ma ea], b as [sb|sb| |sb mb eb];
    try discriminate; unfold SFleb, SFeqb, SFcompare;
    try destruct sa; try destruct sb;
    try discriminate; try reflexivity; intros H1 H2; order_cases.
Qed.

Lemma SFeqb_SFleb (a b : float) : SFeqb a b = true -> SFleb a b = true.
Proof. unfold SFeqb, SFleb. destruct (SFcompare a b) as [[]|]; auto. Qed.

(** ** [np.sort] *)

Lemma sort_le_total (a b : float) : sort_le a b = false -> sort_le b a = true.
Proof.
  unfold sort_le. intros H. apply orb_false_iff in H as [Hb H].
  destruct (isnan a) eqn:Ha; [reflexivity|]. simpl.
  apply SFltb_SFleb, SFleb_total; assumption.
Qed.

Lemma sort_le_trans (a b c : float) :
  sort_le a b = true -> sort_le b c = true -> sort_le a c = true.
Proof.
  unfold sort_le. intros H1 H2.
  destruct (isnan c) eqn:Hc; [reflexivity|]. simpl in *.
  destruct (SFleb_not_nan _ _ H2) as [Hb _]. rewrite Hb in H1. simpl in H1.
  eapply SFleb_trans; eassumption.
Qed.

Lemma insert_sorted_sorted (x : float) (l : list float) :
  sorted_from l -> sorted_from (insert_sorted x l).
Proof.
  induction l as [|y l IH]; simpl; [by repeat constructor |].
  intros [Hy Hs]. destruct (sort_le x y) eqn:E; simpl.
  - split; [| done]. constructor; [done |].
    eapply Forall_impl; [exact Hy |]. intros c Hc. by eapply sort_le_trans.
  - split; [| by apply IH]. rewrite insert_sorted_Permutation.
    constructor; [by apply sort_le_total | done].
Qed.

Lemma np_sort_sorted (l : list float) : sorted_from (np_sort l).
Proof.
  induction l as [|x l IH]; simpl; [done |].
  by apply insert_sorted_sorted.
Qed.

Lemma sorted_from_ascending (l : list float) : sorted_from l -> ascending l.
Proof.
  induction l as [|y l IH]; [by intros _ i j a b _ Hi |].
  intros [Hy Hs] i j a b Hij Hi Hj.
  destruct j as [|j]; [lia |]. simpl in Hj.
  destruct i as [|i]; simpl in Hi.
  - injection Hi as <-. apply list_elem_of_lookup_2 in Hj.
    by apply (proj1 (Forall_forall _ _) Hy).
  - apply (IH Hs i j); [lia | done | done].
Qed.

Lemma np_sort_ascending (l : list float) : ascending (np_sort l).
Proof. apply sorted_from_ascending, np_sort_sorted. Qed.

(** What a successful [__init__] has done. *)
Lemma CactusField_init_Ok (fs : filesystem) (fnames : list string) (cf : CactusField) :
  CactusField_init fs fnames = Ok cf ->
  exists (pairs : list (string * float)) f0 df gd,
    map fst pairs = fnames /\
    Forall (fun p => get_file_time fs p.1 time_col_name = Ok p.2) pairs /\
    filenames cf = fnames /\ num_times cf = length fnames /\
    times cf = np_sort (map snd pairs) /\
    fdict cf = fdict_of [] pairs /\
    fnames !! 0 = Some f0 /\ load_data fs f0 = Ok df /\
    fielddata_from_df df = Ok (gd, cf_grid_dims cf).
Proof.
  intros Hinit. unfold CactusField_init in Hinit.
  bind_inv Hinit as r Hr. destruct r as [raw fd].
  bind_inv Hinit as fname0 Hf0. bind_inv Hinit as df Hdf.
  bind_inv Hinit as gr Hgr. destruct gr as [gd0 gdims]. injection Hinit as <-. simpl.
  apply read_times_Ok in Hr as (pairs & Hfst & Hall & -> & ->). simpl.
  exists pairs, fname0, df, gd0. repeat split; try done.
  destruct fnames as [|f fnames]; [done |].
  change (getitem (f :: fnames) 0) with (Ok (A := string) f) in Hf0.
  by injection Hf0 as ->.
Qed.

Lemma pairs_Forall2 (fs : filesystem) (pairs : list (string * float)) :
  Forall (fun p => get_file_time fs p.1 time_col_name = Ok p.2) pairs ->
  Forall2 (fun f t => get_file_time fs f time_col_name = Ok t)
          (map fst pairs) (map snd pairs).
Proof. induction 1; simpl; by constructor. Qed.

Lemma get_file_time_load_data (fs : filesystem) (f col : string) (t : float) :
  get_file_time fs f col = Ok t -> exists df, load_data fs f = Ok df.
Proof.
  unfold get_file_time, load_data. destruct (fs !! f); [eauto | done].
Qed.

Lemma fdict_lookup_nan (fd : fdict_t) (t : float) :
  isnan t = true -> fdict_lookup fd t = None.
Proof.
  intros Ht. destruct t; try done.
  induction fd as [|[k f] fd IH]; simpl; [done |].
  by replace (SFeqb k S754_nan) with false by (by destruct k).
Qed.

(** The entry a lookup returns is the last file stored under an equal
    time. *)
Lemma fdict_lookup_of_last (pairs : list (string * float)) (t : float) (j : nat)
    (p : string * float) :
  pairs !! j = Some p -> SFeqb p.2 t = true ->
  exists l1 f tf l2,
    pairs = l1 ++ (f, tf) :: l2 /\ j <= length l1 /\ SFeqb tf t = true /\
    Forall (fun q : string * float => SFeqb q.2 t = false) l2 /\
    fdict_lookup (fdict_of [] pairs) t = Some f.
Proof.
  intros Hj Hp.
  destruct (last_match_exists (fun q : string * float => SFeqb q.2 t) pairs j p Hj Hp)
    as (l1 & [f tf] & l2 & Hsplit & Hl & Hl2 & Hjl1).
  exists l1, f, tf, l2. repeat split; try done.
  rewrite fdict_lookup_of, Hsplit.
  by rewrite (foldl_last_match (fun q : string * float => SFeqb q.2 t) fst).
Qed.

(** X1.  After a successful construction of a [CactusField], [times] is in
    ascending order (the order of [np.sort], NaN last): every earlier entry
    is [<=] every later one.  It is a rearrangement of the times read from
    the files, one per file, duplicates kept. *)
Theorem init_times_ascending (fs : filesystem) (fnames : list string) (cf : CactusField) :
  CactusField_init fs fnames = Ok cf ->
  ascending (times cf) /\
  (forall i j a b, i < j -> times cf !! i = Some a -> times cf !! j = Some b ->
     isnan b = false -> SFleb a b = true) /\
  exists raw,
    Forall2 (fun f t => get_file_time fs f time_col_name = Ok t) fnames raw /\
    times cf ≡ₚ raw.
Proof.
  intros Hinit.
  apply CactusField_init_Ok in Hinit
    as (pairs & f0 & df & gd & Hfst & Hall & _ & _ & Ht & _).
  rewrite Ht. split; [apply np_sort_ascending |]. split.
  - intros i j a b Hij Hi Hj Hb.
    pose proof (np_sort_ascending _ i j a b Hij Hi Hj) as H.
    unfold sort_le in H. by rewrite Hb in H.
  - exists (map snd pairs). split; [| apply np_sort_Permutation].
    rewrite <- Hfst. by apply pairs_Forall2.
Qed.

(** Files c.csv (time 2) and a.csv (time 1), listed in that order. *)
Lemma init_times_ascending_witness :
  exists cf,
    CactusField_init fs_example ["c.csv"; "a.csv"] = Ok cf /\
    times cf = [f64 1; f64 2] /\
    ascending (times cf).
Proof.
  eexists. split; [vm_compute; reflexivity |].
  match goal with |- times ?c = _ /\ _ => set (cf := c) end.
  destruct (init_times_ascending fs_example ["c.csv"; "a.csv"] cf) as (H & _);
    [vm_compute; reflexivity |].
  split; [vm_compute; reflexivity | exact H].
Defined.

(** X2.  After a successful construction, every time in [times] that is not
    NaN is a key of the time-to-file dict: [get_df_inst(time=t)] returns the
    table of one of the listed files, a file whose own time equals [t]; the
    [fname] argument is ignored when a time is given.  A NaN time is never a
    key: [get_df_inst] raises KeyError for it. *)
Theorem init_times_are_catalogued
    (fs : filesystem) (fnames : list string) (cf : CactusField) (t : float) :
  CactusField_init fs fnames = Ok cf ->
  t ∈ times cf ->
  (isnan t = false ->
     exists f tf df,
       f ∈ fnames /\ get_file_time fs f time_col_name = Ok tf /\ SFeqb tf t = true /\
       fdict_getitem (fdict cf) t = Ok f /\ load_data fs f = Ok df /\
       forall fname, get_df_inst fs cf (Some t) fname = Ok df) /\
  (isnan t = true ->
     forall fname, get_df_inst fs cf (Some t) fname = Raise (KeyError (KFloat t))).
Proof.
  intros Hinit Ht.
  apply CactusField_init_Ok in Hinit
    as (pairs & f0 & df0 & gd & Hfst & Hall & _ & _ & Hts & Hfd & _).
  split.
  - intros Hnan. rewrite Hts, np_sort_Permutation in Ht.
    apply list_elem_of_fmap in Ht as (p & -> & Hp).
    apply list_elem_of_lookup_1 in Hp as (j & Hj).
    destruct (fdict_lookup_of_last pairs p.2 j p Hj (SFeqb_refl _ Hnan))
      as (l1 & f & tf & l2 & Hsplit & _ & Heq & _ & Hlook).
    assert (Hin : (f, tf) ∈ pairs) by (rewrite Hsplit; set_solver).
    pose proof (proj1 (Forall_forall _ _) Hall _ Hin) as Hft. simpl in Hft.
    destruct (get_file_time_load_data _ _ _ _ Hft) as (df & Hdf).
    exists f, tf, df. repeat split; try done.
    + rewrite <- Hfst. apply list_elem_of_fmap. by exists (f, tf).
    + unfold fdict_getitem. by rewrite Hfd, Hlook.
    + intros fname. unfold get_df_inst, fdict_getitem. rewrite Hfd, Hlook. simpl. done.
  - intros Hnan fname. unfold get_df_inst, fdict_getitem.
    by rewrite (fdict_lookup_nan _ _ Hnan).
Qed.

Lemma init_times_are_catalogued_witness :
  exists cf,
    CactusField_init fs_example ["c.csv"; "a.csv"] = Ok cf /\
    exists f df, fdict_getitem (fdict cf) (f64 2) = Ok f /\
      get_df_inst fs_example cf (Some (f64 2)) None = Ok df.
Proof.
  eexists. split; [vm_compute; reflexivity |].
  match goal with |- context [fdict ?c] => set (cf := c) end.
  destruct (init_times_are_catalogued fs_example ["c.csv"; "a.csv"] cf (f64 2))
    as (H & _); [vm_compute; reflexivity | |].
  - apply list_elem_of_In. right. left. vm_compute. reflexivity.
  - destruct H as (f & tf & df & _ & _ & _ & Hf & _ & Hdf); [reflexivity |].
    exists f, df. split; [exact Hf | apply Hdf].
Defined.

Lemma fdict_lookup_of_none (pairs : list (string * float)) (t : float) :
  Forall (fun p : string * float => SFeqb p.2 t = false) pairs ->
  fdict_lookup (fdict_of [] pairs) t = None.
Proof.
  intros H. rewrite fdict_lookup_of.
  by rewrite (foldl_last_none (fun p : string * float => SFeqb p.2 t) fst).
Qed.

Lemma length_fdict_of_distinct (pairs : list (string * float)) :
  (forall i j p q, i < j -> pairs !! i = Some p -> pairs !! j = Some q ->
     SFeqb p.2 q.2 = false) ->
  length (fdict_of [] pairs) = length pairs.
Proof.
  induction pairs as [|q l IH] using rev_ind; intros Hd; [done |].
  rewrite fdict_of_app. simpl. rewrite length_fdict_set, length_app. simpl.
  rewrite fdict_lookup_of_none.
  - rewrite IH; [lia |]. intros i j p q' Hij Hi Hj.
    apply (Hd i j); [done | |].
    + rewrite lookup_app_l; [done |]. by eapply lookup_lt_Some.
    + rewrite lookup_app_l; [done |]. by eapply lookup_lt_Some.
  - apply Forall_forall. intros p Hp.
    apply list_elem_of_lookup_1 in Hp as (i & Hi).
    apply (Hd i (length l)).
    + by eapply lookup_lt_Some.
    + rewrite lookup_app_l; [done |]. by eapply lookup_lt_Some.
    + by rewrite list_lookup_middle.
Qed.

Lemma pairs_lookup (fs : filesystem) (pairs : list (string * float))
    (i : nat) (f : string) (t : float) :
  Forall (fun p => get_file_time fs p.1 time_col_name = Ok p.2) pairs ->
  map fst pairs !! i = Some f -> get_file_time fs f time_col_name = Ok t ->
  pairs !! i = Some (f, t).
Proof.
  intros Hall Hi Ht. rewrite list_lookup_fmap in Hi.
  destruct (pairs !! i) as [[f' t']|] eqn:E; [| done]. injection Hi as ->.
  apply list_elem_of_lookup_2 in E. apply (proj1 (Forall_forall _ _) Hall) in E.
  simpl in E. congruence.
Qed.

(** X3.  When the files report pairwise different times, the time-to-file
    dict built by the constructor has one entry per file, and looking up the
    (non-NaN) time of any listed file returns that very file. *)
Theorem distinct_times_catalogue_every_file
    (fs : filesystem) (fnames : list string) (cf : CactusField) :
  CactusField_init fs fnames = Ok cf ->
  (forall i j fi fj ti tj, i < j ->
     fnames !! i = Some fi -> fnames !! j = Some fj ->
     get_file_time fs fi time_col_name = Ok ti ->
     get_file_time fs fj time_col_name = Ok tj ->
     SFeqb ti tj = false) ->
  length (fdict cf) = num_times cf /\
  forall f t, f ∈ fnames -> get_file_time fs f time_col_name = Ok t ->
    isnan t = false ->
    fdict_getitem (fdict cf) t = Ok f /\
    get_df_inst fs cf (Some t) None = load_data fs f.
Proof.
  intros Hinit Hd.
  apply CactusField_init_Ok in Hinit
    as (pairs & f0 & df0 & gd & Hfst & Hall & _ & Hn & _ & Hfd & _).
  assert (Hlen : length pairs = length fnames) by (by rewrite <- Hfst, length_map).
  assert (Hdp : forall i j p q, i < j -> pairs !! i = Some p -> pairs !! j = Some q ->
            SFeqb p.2 q.2 = false).
  { intros i j [fi ti] [fj tj] Hij Hi Hj. simpl.
    apply (Hd i j fi fj); try done.
    - by rewrite <- Hfst, list_lookup_fmap, Hi.
    - by rewrite <- Hfst, list_lookup_fmap, Hj.
    - apply list_elem_of_lookup_2 in Hi. by apply (proj1 (Forall_forall _ _) Hall) in Hi.
    - apply list_elem_of_lookup_2 in Hj. by apply (proj1 (Forall_forall _ _) Hall) in Hj. }
  split.
  - rewrite Hfd, Hn, <- Hlen. by apply length_fdict_of_distinct.
  - intros f t Hf Ht Hnan.
    apply list_elem_of_lookup_1 in Hf as (i & Hi). rewrite <- Hfst in Hi.
    pose proof (pairs_lookup fs pairs i f t Hall Hi Ht) as Hp.
    destruct (fdict_lookup_of_last pairs t i (f, t) Hp (SFeqb_refl _ Hnan))
      as (l1 & f' & tf & l2 & Hsplit & Hle & Heq & _ & Hlook).
    assert (Hl1 : pairs !! length l1 = Some (f', tf))
      by (by rewrite Hsplit, list_lookup_middle).
    destruct (decide (i = length l1)) as [-> | Hne].
    + rewrite Hp in Hl1. injection Hl1 as <- <-.
      unfold get_df_inst, fdict_getitem. by rewrite Hfd, Hlook.
    + pose proof (Hdp i (length l1) (f, t) (f', tf) ltac:(lia) Hp Hl1) as Hneq.
      simpl in Hneq. apply SFeqb_sym in Heq. congruence.
Qed.

(** Files a.csv (time 1) and c.csv (time 2). *)
Lemma distinct_times_catalogue_every_file_witness :
  exists cf,
    CactusField_init fs_example ["a.csv"; "c.csv"] = Ok cf /\
    length (fdict cf) = num_times cf /\
    fdict_getitem (fdict cf) (f64 1) = Ok "a.csv" /\
    fdict_getitem (fdict cf) (f64 2) = Ok "c.csv".
Proof.
  eexists. split; [vm_compute; reflexivity |].
  match goal with |- context [fdict ?c] => set (cf := c) end.
  destruct (distinct_times_catalogue_every_file fs_example ["a.csv"; "c.csv"] cf)
    as (Hlen & Hget); [vm_compute; reflexivity | |].
  - intros i j fi fj ti tj Hij Hi Hj Hti Htj.
    destruct i as [|[|i]], j as [|[|j]]; try lia; try discriminate.
    injection Hi as <-. injection Hj as <-.
    vm_compute in Hti, Htj. injection Hti as <-. injection Htj as <-. reflexivity.
  - split; [exact Hlen |]. split.
    + apply (Hget "a.csv" (f64 1)); [apply list_elem_of_In; left; reflexivity
                                   | vm_compute; reflexivity | reflexivity].
    + apply (Hget "c.csv" (f64 2)); [apply list_elem_of_In; right; left; reflexivity
                                   | vm_compute; reflexivity | reflexivity].
Defined.

Lemma read_times_intro (fs : filesystem) (fnames : list string)
    (ts : list float) (fd : fdict_t) :
  Forall (fun g => is_Ok (get_file_time fs g time_col_name) = true) fnames ->
  exists r, read_times fs fnames ts fd = Ok r.
Proof.
  intros H. revert ts fd. induction H as [|f l Hf Hl IH]; intros ts fd; simpl; [eauto |].
  destruct (get_file_time fs f time_col_name) as [t|e]; [| done]. simpl. apply IH.
Qed.

Lemma read_times_Raise (fs : filesystem) (pre post : list string) (f : string)
    (e : exception) (ts : list float) (fd : fdict_t) :
  Forall (fun g => is_Ok (get_file_time fs g time_col_name) = true) pre ->
  get_file_time fs f time_col_name = Raise e ->
  read_times fs (pre ++ f :: post) ts fd = Raise e.
Proof.
  intros H Hf. revert ts fd. induction H as [|g l Hg Hl IH]; intros ts fd; simpl.
  - by rewrite Hf.
  - destruct (get_file_time fs g time_col_name) as [t|e']; [| done]. simpl. apply IH.
Qed.

(** X4.  The constructor reads the time of every file before it loads any
    table: it fails with the exception of the first file, in list order,
    whose time cannot be read.  When every time can be read, an empty list
    raises IndexError at [filenames[0]]; otherwise the first LISTED file
    (not the file of the earliest time) is loaded, its reconstruction error
    is the constructor's error, and on success its grid dimensions are the
    dataset's. *)
Theorem init_reads_times_then_first_file (fs : filesystem) (fnames : list string) :
  (forall pre f post e,
     fnames = pre ++ f :: post ->
     Forall (fun g => is_Ok (get_file_time fs g time_col_name) = true) pre ->
     get_file_time fs f time_col_name = Raise e ->
     CactusField_init fs fnames = Raise e) /\
  (Forall (fun g => is_Ok (get_file_time fs g time_col_name) = true) fnames ->
     match fnames with
     | [] => CactusField_init fs fnames = Raise IndexError
     | f0 :: _ =>
         exists df, load_data fs f0 = Ok df /\
           match fielddata_from_df df with
           | Ok (_, dims) =>
               exists cf, CactusField_init fs fnames = Ok cf /\
                 cf_grid_dims cf = dims /\ num_times cf = length fnames
           | Raise e => CactusField_init fs fnames = Raise e
           end
     end).
Proof.
  split.
  - intros pre f post e -> Hpre Hf. unfold CactusField_init.
    by rewrite (read_times_Raise fs pre post f e [] [] Hpre Hf).
  - intros Hall. destruct (read_times_intro fs fnames [] [] Hall) as ([ts fd] & Hr).
    unfold CactusField_init. rewrite Hr. simpl.
    destruct fnames as [|f0 rest]; [done |].
    change (getitem (f0 :: rest) 0) with (Ok (A := string) f0). simpl.
    apply Forall_cons in Hall as [Hf0 _].
    destruct (get_file_time fs f0 time_col_name) as [t|e] eqn:Ht; [| done].
    destruct (get_file_time_load_data _ _ _ _ Ht) as (df & Hdf).
    exists df. split; [done |]. rewrite Hdf. simpl.
    destruct (fielddata_from_df df) as [[gd dims]|e]; simpl; [| done].
    eexists. split; [reflexivity |]. done.
Qed.

(** ** [fielddata_from_df]: when it returns and how it fails *)

Lemma df_loc_missing (df : DataFrame) (name : string) :
  df_contains df name = false -> df_loc df name = Raise (KeyError (KStr name)).
Proof.
  unfold df_contains, df_loc. intros H.
  destruct (index_of name (df_columns df)); [| done].
  apply bool_decide_eq_false in H. destruct H. eauto.
Qed.

(** The optional freestream columns are read without error. *)
Lemma freestream_columns_Ok (df : DataFrame) :
  exists fs,
    (if has_vel_fs df
     then ufs ← df_loc df ufs_col_name; vfs ← df_loc df vfs_col_name;
          wfs ← df_loc df wfs_col_name; Ok (Some (ufs, vfs, wfs))
     else Ok None) = Ok fs /\
    match fs with
    | Some (ufs, vfs, wfs) =>
        length ufs = length (df_rows df) /\ length vfs = length (df_rows df)
        /\ length wfs = length (df_rows df)
    | None => True
    end.
Proof.
  destruct (has_vel_fs df) eqn:E; [| by exists None].
  unfold has_vel_fs in E. apply andb_true_iff in E as [[E1 E2]%andb_true_iff E3].
  apply df_contains_loc in E1 as [ufs E1], E2 as [vfs E2], E3 as [wfs E3].
  exists (Some (ufs, vfs, wfs)). rewrite E1, E2, E3. simpl.
  split; [done |]. repeat split; by eapply length_df_loc.
Qed.

Lemma ndarray_min_is_Ok (a : arr1) (m : float) : ndarray_min a = Ok m -> a <> [].
Proof. by destruct a. Qed.

(** X5.  [fielddata_from_df] returns exactly for the non-empty tables that
    have the six coordinate and velocity columns and whose number of rows is
    the product of the numbers of distinct x, y and z values; the freestream
    columns play no part in whether it returns. *)
Theorem fielddata_from_df_succeeds_iff (df : DataFrame) :
  is_Ok (fielddata_from_df df) = true <->
  exists x y z,
    df_loc df x_col_name = Ok x /\ df_loc df y_col_name = Ok y /\
    df_loc df z_col_name = Ok z /\
    df_contains df u_col_name = true /\ df_contains df v_col_name = true /\
    df_contains df w_col_name = true /\
    df_rows df <> [] /\
    length (df_rows df)
      = length (np_unique z) * length (np_unique y) * length (np_unique x).
Proof.
  split.
  - destruct (fielddata_from_df df) as [[gd dims]|e] eqn:E; [intros _ | done].
    apply fielddata_from_df_Ok in E
      as (x & y & z & u & v & w & ymin & ymax & zmin & zmax & X & Y & Z & U & V & W
          & Hx & Hy & Hz & Hu & Hv & Hw & Hymin & _ & _ & _ & HX & _ & _ & _ & _ & _
          & Hdims & _).
    exists x, y, z. repeat split; try done; try by eapply df_loc_contains.
    + apply ndarray_min_is_Ok in Hymin. intros Hr.
      apply length_df_loc in Hy. rewrite Hr in Hy. by destruct y.
    + apply reshape3_Ok in HX as [HX _]. rewrite Hdims in HX. simpl in HX.
      apply length_df_loc in Hx. congruence.
  - intros (x & y & z & Hx & Hy & Hz & Hu & Hv & Hw & Hne & Hlen).
    apply df_contains_loc in Hu as [u Hu], Hv as [v Hv], Hw as [w Hw].
    destruct (fielddata_from_df_intro df x y z u v w) as (gd & dims & ->); done.
Qed.

(** X6.  When the table lacks one of the six columns X/R, Y/R, Z/R, U/Uinf,
    V/Uinf, W/Uinf, [fielddata_from_df] raises KeyError naming the first
    missing one in that order. *)
Theorem fielddata_from_df_missing_column
    (df : DataFrame) (pre post : list string) (name : string) :
  field_columns = pre ++ name :: post ->
  Forall (fun c => df_contains df c = true) pre ->
  df_contains df name = false ->
  fielddata_from_df df = Raise (KeyError (KStr name)).
Proof.
  intros Hsplit Hpre Hname. apply df_loc_missing in Hname.
  unfold field_columns in Hsplit. unfold fielddata_from_df.
  repeat (destruct pre as [|c pre];
          [ injection Hsplit as <- _; by rewrite Hname
          | injection Hsplit as <- Hsplit;
            apply Forall_cons in Hpre as [[? ->]%df_contains_loc Hpre]; simpl ]).
  by destruct pre.
Qed.

(** A table with the x column only: the y column is the first missing. *)
Lemma fielddata_from_df_missing_column_witness :
  fielddata_from_df {| df_columns := [x_col_name]; df_rows := [[f64 0]] |}
  = Raise (KeyError (KStr y_col_name)).
Proof.
  apply (fielddata_from_df_missing_column _ [x_col_name] [z_col_name; u_col_name; v_col_name; w_col_name]).
  - reflexivity.
  - repeat constructor.
  - reflexivity.
Defined.

(** X7.  On a table that has the six columns, [fielddata_from_df] raises
    ValueError when the table has no rows (at the minimum of an empty
    array) and when the number of rows is not the product of the numbers of
    distinct x, y and z values (at the reshape). *)
Theorem fielddata_from_df_bad_row_count (df : DataFrame) (x y z : arr1) :
  df_loc df x_col_name = Ok x -> df_loc df y_col_name = Ok y ->
  df_loc df z_col_name = Ok z ->
  df_contains df u_col_name = true -> df_contains df v_col_name = true ->
  df_contains df w_col_name = true ->
  df_rows df = [] \/
  length (df_rows df)
    <> length (np_unique z) * length (np_unique y) * length (np_unique x) ->
  fielddata_from_df df = Raise ValueError.
Proof.
  intros Hx Hy Hz Hu Hv Hw Hbad.
  apply df_contains_loc in Hu as [u Hu], Hv as [v Hv], Hw as [w Hw].
  destruct (freestream_columns_Ok df) as (fs & Hfs & _).
  unfold fielddata_from_df.
  rewrite Hx, Hy, Hz, Hu, Hv, Hw. simpl. rewrite Hfs. simpl.
  destruct (decide (df_rows df = [])) as [He | Hne].
  - apply length_df_loc in Hy. rewrite He in Hy. by destruct y.
  - destruct Hbad as [? | Hbad]; [done |].
    destruct (ndarray_min_Ok y) as [ymin ->]; [by eapply df_loc_nonempty |].
    destruct (ndarray_max_Ok y) as [ymax ->]; [by eapply df_loc_nonempty |].
    destruct (ndarray_min_Ok z) as [zmin ->]; [by eapply df_loc_nonempty |].
    destruct (ndarray_max_Ok z) as [zmax ->]; [by eapply df_loc_nonempty |].
    cbv zeta. apply length_df_loc in Hx.
    destruct (reshape3 x (length (np_unique z)) (length (np_unique y))
                (length (np_unique x))) as [X|e] eqn:E.
    + apply reshape3_Ok in E as [E _]. congruence.
    + unfold reshape3 in E. case_decide; [done |]. by injection E as <-.
Qed.

(** Three of the four corners of a square: 2 x 2 x 1 distinct values, 3 rows. *)
Lemma fielddata_from_df_bad_row_count_witness :
  fielddata_from_df
    {| df_columns := field_columns;
       df_rows := [node 0 0 0; node 1 0 0; node 0 1 0] |}
  = Raise ValueError.
Proof.
  eapply fielddata_from_df_bad_row_count;
    [reflexivity | reflexivity | reflexivity | reflexivity | reflexivity | reflexivity |].
  right. vm_compute. discriminate.
Defined.

(** ** The arrays and dimensions [fielddata_from_df] returns *)

Ltac in_list := repeat first [by apply list_elem_of_here | apply list_elem_of_further].

Lemma shape3_np_float32 (n2 n1 n0 : nat) (a : arr3) :
  shape3 n2 n1 n0 a -> shape3 n2 n1 n0 (np_float32 a).
Proof.
  unfold np_float32, shape3, shape2. intros [Hl Ha]. split; [by rewrite length_map |].
  apply Forall_map. eapply Forall_impl; [exact Ha |]. intros p [Hp Hr]. simpl.
  split; [by rewrite length_map |].
  apply Forall_map. eapply Forall_impl; [exact Hr |]. intros r Hlen. simpl.
  by rewrite length_map.
Qed.

Lemma valid_np_float32 (a : arr3) :
  Forall (fun v => valid float32 v = true) (ravel3 (np_float32 a)).
Proof.
  unfold np_float32. rewrite ravel3_map. apply Forall_map, Forall_forall.
  intros v _. apply astype_valid.
Qed.

(** Every entry of the returned dict is the float32 reshape of its column. *)
Lemma fielddata_from_df_entries (df : DataFrame) (gd : gmap string arr3) (dims : grid_dims)
    (key : string) (A : arr3) :
  fielddata_from_df df = Ok (gd, dims) -> gd !! key = Some A ->
  exists col c A0,
    (key, col) ∈ [("X", x_col_name); ("Y", y_col_name); ("Z", z_col_name);
                  ("U", u_col_name); ("V", v_col_name); ("W", w_col_name);
                  ("Ufs", ufs_col_name); ("Vfs", vfs_col_name); ("Wfs", wfs_col_name)] /\
    df_loc df col = Ok c /\
    reshape3 c (nz dims) (ny dims) (nx dims) = Ok A0 /\ A = np_float32 A0.
Proof.
  unfold fielddata_from_df. intros H.
  bind_inv H as x Hx; bind_inv H as y Hy; bind_inv H as z Hz.
  bind_inv H as u Hu; bind_inv H as v Hv; bind_inv H as w Hw.
  bind_inv H as fs Hfs.
  bind_inv H as ymin Hymin; bind_inv H as ymax Hymax.
  bind_inv H as zmin Hzmin; bind_inv H as zmax Hzmax.
  cbv zeta in H.
  bind_inv H as X' HX; fmap_inv HX as X HX'; subst X'.
  bind_inv H as Y' HY; fmap_inv HY as Y HY'; subst Y'.
  bind_inv H as Z' HZ; fmap_inv HZ as Z HZ'; subst Z'.
  bind_inv H as U' HU; fmap_inv HU as U HU'; subst U'.
  bind_inv H as V' HV; fmap_inv HV as V HV'; subst V'.
  bind_inv H as W' HW; fmap_inv HW as W HW'; subst W'.
  bind_inv H as FS HFS.
  assert (Hsix : forall g : gmap string arr3,
    g = <["W" := np_float32 W]> (<["V" := np_float32 V]> (<["U" := np_float32 U]>
          (<["Z" := np_float32 Z]> (<["Y" := np_float32 Y]> (<["X" := np_float32 X]> ∅))))) ->
    g !! key = Some A ->
    exists col c A0,
      (key, col) ∈ [("X", x_col_name); ("Y", y_col_name); ("Z", z_col_name);
                    ("U", u_col_name); ("V", v_col_name); ("W", w_col_name);
                    ("Ufs", ufs_col_name); ("Vfs", vfs_col_name); ("Wfs", wfs_col_name)] /\
      df_loc df col = Ok c /\
      reshape3 c (length (np_unique z)) (length (np_unique y)) (length (np_unique x)) = Ok A0 /\
      A = np_float32 A0).
  { intros g -> Hk.
    repeat (apply lookup_insert_Some in Hk as [[<- <-] | [? Hk]];
            [eexists _, _, _; split; [| split; [| split]];
             [> | | | reflexivity]; [> | | eassumption]; [> | eassumption];
             in_list |]).
    by rewrite lookup_empty in Hk. }
  destruct FS as [[[Ufs Vfs] Wfs]|]; injection H as <- <-; simpl; intros Hk.
  - destruct fs as [[[ufs vfs] wfs]|]; [| done].
    bind_inv HFS as Ufs' HUfs; fmap_inv HUfs as Ufs0 HUfs'; subst Ufs'.
    bind_inv HFS as Vfs' HVfs; fmap_inv HVfs as Vfs0 HVfs'; subst Vfs'.
    bind_inv HFS as Wfs' HWfs; fmap_inv HWfs as Wfs0 HWfs'; subst Wfs'.
    injection HFS as <- <- <-.
    destruct (has_vel_fs df); [| done].
    bind_inv Hfs as ufs' Hufs; bind_inv Hfs as vfs' Hvfs; bind_inv Hfs as wfs' Hwfs.
    injection Hfs as <- <- <-.
    repeat (apply lookup_insert_Some in Hk as [[<- <-] | [? Hk]];
            [eexists _, _, _; split; [| split; [| split]];
             [> | | | reflexivity]; [> | | eassumption]; [> | eassumption];
             in_list |]).
    by apply (Hsix _ eq_refl).
  - by apply (Hsix _ eq_refl).
Qed.

(** X8.  Every array of the dict [fielddata_from_df] returns is stored under
    one of the nine names X, Y, Z, U, V, W, Ufs, Vfs, Wfs, has the shape
    [nz, ny, nx] of the returned dimensions, and holds only well-formed
    single-precision values.  The six coordinate and velocity arrays are
    always there; the freestream arrays are there all three or not at all:
    exactly when the table has all three freestream columns. *)
Theorem grid_data_arrays (df : DataFrame) (gd : gmap string arr3) (dims : grid_dims) :
  fielddata_from_df df = Ok (gd, dims) ->
  (forall key A, gd !! key = Some A ->
     key ∈ ["X"; "Y"; "Z"; "U"; "V"; "W"; "Ufs"; "Vfs"; "Wfs"] /\
     shape3 (nz dims) (ny dims) (nx dims) A /\
     Forall (fun v => valid float32 v = true) (ravel3 A)) /\
  (forall key, key ∈ ["X"; "Y"; "Z"; "U"; "V"; "W"] -> is_Some (gd !! key)) /\
  (forall key, key ∈ ["Ufs"; "Vfs"; "Wfs"] ->
     (is_Some (gd !! key) <-> has_vel_fs df = true)).
Proof.
  intros H. split; [| split].
  - intros key A Hk.
    destruct (fielddata_from_df_entries df gd dims key A H Hk)
      as (col & c & A0 & Hin & Hc & HA0 & ->).
    split; [| split].
    + clear -Hin. apply list_elem_of_fmap_2 with (f := fst) in Hin. exact Hin.
    + by apply shape3_np_float32, (reshape3_shape3 c).
    + apply valid_np_float32.
  - apply fielddata_from_df_Ok in H
      as (x & y & z & u & v & w & ymin & ymax & zmin & zmax & X & Y & Z & U & V & W
          & _ & _ & _ & _ & _ & _ & _ & _ & _ & _ & _ & _ & _ & _ & _ & _
          & _ & HX & HY & HZ & HU & HV & HW & _).
    intros key Hkey.
    repeat (apply elem_of_cons in Hkey as [-> | Hkey]; [eauto |]).
    by apply elem_of_nil in Hkey.
  - apply fielddata_from_df_Ok in H
      as (x & y & z & u & v & w & ymin & ymax & zmin & zmax & X & Y & Z & U & V & W
          & _ & _ & _ & _ & _ & _ & _ & _ & _ & _ & _ & _ & _ & _ & _ & _
          & _ & _ & _ & _ & _ & _ & _ & Hfs).
    intros key Hkey. destruct (has_vel_fs df).
    + destruct Hfs as (ufs & vfs & wfs & Ufs & Vfs & Wfs & _ & _ & _ & _ & _ & _
                       & H1 & H2 & H3).
      repeat (apply elem_of_cons in Hkey as [-> | Hkey]; [split; eauto |]).
      by apply elem_of_nil in Hkey.
    + destruct Hfs as (H1 & H2 & H3).
      repeat (apply elem_of_cons in Hkey as [-> | Hkey];
              [split; [intros [? ?]; congruence | done] |]).
      by apply elem_of_nil in Hkey.
Qed.

Lemma grid_data_arrays_witness :
  exists gd dims,
    fielddata_from_df df_cube = Ok (gd, dims) /\
    (forall key A, gd !! key = Some A -> shape3 2 2 2 A) /\
    is_Some (gd !! "U") /\ ~ is_Some (gd !! "Ufs").
Proof.
  destruct (fielddata_from_df_intro df_cube
              [f64 0; f64 1; f64 0; f64 1; f64 0; f64 1; f64 0; f64 1]
              [f64 0; f64 0; f64 1; f64 1; f64 0; f64 0; f64 1; f64 1]
              [f64 0; f64 0; f64 0; f64 0; f64 1; f64 1; f64 1; f64 1]
              (replicate 8 (f64 1)) (replicate 8 (f64 1)) (replicate 8 (f64 1)))
    as (gd & dims & Hgd);
    [vm_compute; reflexivity .. | discriminate | vm_compute; reflexivity |].
  exists gd, dims. split; [exact Hgd |].
  destruct (grid_data_arrays df_cube gd dims Hgd) as (Harr & Hsix & Hfs).
  assert (Hdims : (nz dims, ny dims, nx dims) = (2, 2, 2)).
  { destruct (fielddata_from_df_Ok df_cube gd dims Hgd)
      as (x & y & z & u & v & w & ymin & ymax & zmin & zmax & X & Y & Z & U & V & W
          & Hx & Hy & Hz & _ & _ & _ & _ & _ & _ & _ & _ & _ & _ & _ & _ & _
          & Hd & _).
    vm_compute in Hx, Hy, Hz. injection Hx as <-. injection Hy as <-. injection Hz as <-.
    rewrite Hd. vm_compute. reflexivity. }
  injection Hdims as Hz Hy Hx.
  split; [| split].
  - intros key A Hk. destruct (Harr key A Hk) as (_ & Hs & _).
    by rewrite Hz, Hy, Hx in Hs.
  - apply Hsix. apply list_elem_of_In. do 3 right. left. reflexivity.
  - intros Hsome. apply (Hfs "Ufs") in Hsome; [discriminate |].
    apply list_elem_of_In. left. reflexivity.
Defined.

(** ** Rounding never loses a number that is not tiny *)

Section RoundingSign.
Variables prec emax : Z.
Hypothesis prec_pos : (1 <= prec)%Z.

(** The result of rounding carries the sign it was given. *)
Lemma binary_round_aux_sign (s : bool) (m e : Z) (l : location) :
  (0 <= m)%Z ->
  match binary_round_aux prec emax s m e l with
  | S754_nan => False
  | S754_zero s' | S754_infinity s' | S754_finite s' _ _ => s' = s
  end.
Proof.
  intros Hm. unfold binary_round_aux, shr_fexp.
  pose proof (shr_spec (shr_record_of_loc m l) e (fexp prec emax (Zdigits2 m + e) - e))
    as (E1 & D1 & P1).
  rewrite shr_m_record_of_loc in D1, P1.
  destruct (shr (shr_record_of_loc m l) e (fexp prec emax (Zdigits2 m + e) - e))
    as [mrs' e'] eqn:S1.
  simpl in E1, D1, P1. specialize (P1 Hm).
  set (m2 := round_nearest_even (shr_m mrs') (loc_of_shr_record mrs')).
  destruct (round_nearest_even_digits (shr_m mrs') (loc_of_shr_record mrs') P1)
    as (P2 & D2 & Z2). fold m2 in P2, D2, Z2.
  pose proof (shr_spec (shr_record_of_loc m2 loc_Exact) e'
                (fexp prec emax (Zdigits2 m2 + e') - e')) as (E3 & D3 & P3).
  rewrite shr_m_record_of_loc in D3, P3.
  destruct (shr (shr_record_of_loc m2 loc_Exact) e'
              (fexp prec emax (Zdigits2 m2 + e') - e')) as [mrs'' e''] eqn:S3.
  simpl in E3, D3, P3. specialize (P3 P2).
  destruct (shr_m mrs'') as [|m3|m3] eqn:M3; [done | | lia].
  by destruct (Z.leb e'' (emax - prec)).
Qed.

(** A positive mantissa above the underflow threshold does not round to
    zero. *)
Lemma binary_round_aux_nonzero (s : bool) (m e : Z) (l : location) :
  (0 < m)%Z -> (emin prec emax < Zdigits2 m + e)%Z ->
  match binary_round_aux prec emax s m e l with
  | S754_infinity s' | S754_finite s' _ _ => s' = s
  | _ => False
  end.
Proof.
  intros Hm He. unfold binary_round_aux, shr_fexp.
  pose proof (shr_spec (shr_record_of_loc m l) e (fexp prec emax (Zdigits2 m + e) - e))
    as (E1 & D1 & P1).
  rewrite shr_m_record_of_loc in D1, P1.
  destruct (shr (shr_record_of_loc m l) e (fexp prec emax (Zdigits2 m + e) - e))
    as [mrs' e'] eqn:S1.
  simpl in E1, D1, P1. specialize (P1 ltac:(lia)).
  set (m2 := round_nearest_even (shr_m mrs') (loc_of_shr_record mrs')).
  destruct (round_nearest_even_digits (shr_m mrs') (loc_of_shr_record mrs') P1)
    as (P2 & D2 & Z2). fold m2 in P2, D2, Z2.
  pose proof (shr_spec (shr_record_of_loc m2 loc_Exact) e'
                (fexp prec emax (Zdigits2 m2 + e') - e')) as (E3 & D3 & P3).
  rewrite shr_m_record_of_loc in D3, P3.
  destruct (shr (shr_record_of_loc m2 loc_Exact) e'
              (fexp prec emax (Zdigits2 m2 + e') - e')) as [mrs'' e''] eqn:S3.
  simpl in E3, D3, P3. specialize (P3 P2).
  assert (Hdm : (1 <= Zdigits2 m)%Z) by (destruct m; simpl; lia).
  pose proof (Zdigits2_nonneg m2).
  destruct (shr_m mrs'') as [|m3|m3] eqn:M3; [| by destruct (Z.leb e'' (emax - prec)) | lia].
  simpl in D3. unfold fexp in *. lia.
Qed.

Lemma binary_round_nonzero (s : bool) (m : positive) (e : Z) :
  (emin prec emax < Zpos (digits2_pos m) + e)%Z ->
  match binary_round prec emax s m e with
  | S754_infinity s' | S754_finite s' _ _ => s' = s
  | _ => False
  end.
Proof.
  intros He. unfold binary_round, shl_align.
  destruct (fexp prec emax (Zpos (digits2_pos m) + e) - e)%Z as [|d|d] eqn:E.
  - apply binary_round_aux_nonzero; [lia |]. simpl Zdigits2. lia.
  - apply binary_round_aux_nonzero; [lia |]. simpl Zdigits2. lia.
  - apply binary_round_aux_nonzero; [lia |]. simpl Zdigits2.
    rewrite digits2_pos_iter_xO. lia.
Qed.
End RoundingSign.

(** A positive Python int converts to a positive number (possibly [inf]). *)
Lemma of_int_positive (d : dtype) (z : Z) :
  (0 < z)%Z ->
  match of_int d z with
  | S754_infinity s | S754_finite s _ _ => s = false
  | _ => False
  end.
Proof.
  intros Hz. destruct z as [|p|p]; try lia. unfold of_int, binary_normalize.
  apply binary_round_nonzero; [by destruct d |].
  pose proof (Pos2Z.is_pos (digits2_pos p)). destruct d; unfold emin; simpl; lia.
Qed.

(** ** [np.sort] and [np.unique] keep within the data *)

Lemma length_np_sort (l : list float) : length (np_sort l) = length l.
Proof. apply Permutation_length, np_sort_Permutation. Qed.

Lemma length_drop_repeats (p : float) (l : list float) :
  length (drop_repeats p l) <= length l.
Proof.
  revert p; induction l as [|x l IH]; intros p; simpl; [lia |].
  destruct (SFeqb x p); simpl; specialize (IH x); lia.
Qed.

Lemma length_np_unique (l : list float) :
  l <> [] -> 1 <= length (np_unique l) <= length l.
Proof.
  intros Hl. unfold np_unique. pose proof (length_np_sort l) as Hs.
  destruct (np_sort l) as [|x rest]; [by destruct l |].
  simpl in *. pose proof (length_drop_repeats x rest). lia.
Qed.

(** X9.  On success every reported dimension nx, ny, nz is at least 1 and
    at most the number of rows, so the divisor of each grid spacing is a
    positive number: the spacing is never a division by zero. *)
Theorem grid_dims_bounds
    (df : DataFrame) (gd : gmap string arr3) (dims : grid_dims) (n : nat) :
  fielddata_from_df df = Ok (gd, dims) ->
  n ∈ [nx dims; ny dims; nz dims] ->
  1 <= n <= length (df_rows df) /\
  is_zero (of_int float64 (Z.of_nat n)) = false /\
  isnan (of_int float64 (Z.of_nat n)) = false /\
  SFltb fzero (of_int float64 (Z.of_nat n)) = true.
Proof.
  intros H Hn.
  assert (Hb : 1 <= n <= length (df_rows df)).
  { apply fielddata_from_df_Ok in H
      as (x & y & z & u & v & w & ymin & ymax & zmin & zmax & X & Y & Z & U & V & W
          & Hx & Hy & Hz & _ & _ & _ & Hymin & _ & _ & _ & _ & _ & _ & _ & _ & _
          & Hdims & _).
    apply ndarray_min_is_Ok in Hymin.
    assert (Hne : df_rows df <> []).
    { intros Hr. apply length_df_loc in Hy. rewrite Hr in Hy. by destruct y. }
    rewrite Hdims in Hn. simpl in Hn.
    pose proof (length_df_loc _ _ _ Hx) as Lx. pose proof (length_df_loc _ _ _ Hy) as Ly.
    pose proof (length_df_loc _ _ _ Hz) as Lz.
    repeat (apply elem_of_cons in Hn as [-> | Hn];
            [ first
                [ rewrite <- Lx; apply length_np_unique; by eapply df_loc_nonempty
                | rewrite <- Ly; apply length_np_unique; by eapply df_loc_nonempty
                | rewrite <- Lz; apply length_np_unique; by eapply df_loc_nonempty ] |]).
    by apply elem_of_nil in Hn. }
  split; [done |].
  pose proof (of_int_positive float64 (Z.of_nat n) ltac:(lia)) as Hp.
  destruct (of_int float64 (Z.of_nat n)) as [s|s| |s m e]; try done; by subst s.
Qed.

Lemma grid_dims_bounds_witness :
  exists gd dims,
    fielddata_from_df df_cube = Ok (gd, dims) /\
    1 <= nx dims <= 8 /\ is_zero (of_int float64 (Z.of_nat (nx dims))) = false.
Proof.
  destruct (fielddata_from_df_intro df_cube
              [f64 0; f64 1; f64 0; f64 1; f64 0; f64 1; f64 0; f64 1]
              [f64 0; f64 0; f64 1; f64 1; f64 0; f64 0; f64 1; f64 1]
              [f64 0; f64 0; f64 0; f64 0; f64 1; f64 1; f64 1; f64 1]
              (replicate 8 (f64 1)) (replicate 8 (f64 1)) (replicate 8 (f64 1)))
    as (gd & dims & Hgd);
    [vm_compute; reflexivity .. | discriminate | vm_compute; reflexivity |].
  exists gd, dims. split; [exact Hgd |].
  destruct (grid_dims_bounds df_cube gd dims (nx dims) Hgd) as (Hb & Hz & _).
  - apply list_elem_of_here.
  - split; [exact Hb | exact Hz].
Defined.

(** ** Minimum and maximum reductions *)

Lemma foldl_np_minimum_spec (rest : list float) (acc : float) :
  isnan acc = false -> Forall (fun a => isnan a = false) rest ->
  foldl np_minimum acc rest ∈ acc :: rest /\
  Forall (fun a => SFleb (foldl np_minimum acc rest) a = true) (acc :: rest).
Proof.
  revert acc. induction rest as [|x rest IH]; intros acc Ha Hr; simpl.
  - split; [apply list_elem_of_here |]. constructor; [by apply SFleb_refl | done].
  - apply Forall_cons in Hr as [Hx Hr]. unfold np_minimum at 2 4. rewrite Ha, orb_false_r.
    destruct (SFleb acc x) eqn:E.
    + destruct (IH acc Ha Hr) as [Hin Hle]. apply Forall_cons in Hle as [Hacc Hle].
      split.
      * apply elem_of_cons in Hin as [-> | Hin];
          [apply list_elem_of_here | by do 2 apply list_elem_of_further].
      * constructor; [done |]. constructor; [by eapply SFleb_trans | done].
    + destruct (IH x Hx Hr) as [Hin Hle]. apply Forall_cons in Hle as [Hxm Hle].
      split; [by apply list_elem_of_further |].
      constructor; [| by constructor].
      eapply SFleb_trans; [exact Hxm |]. by apply SFltb_SFleb, SFleb_total.
Qed.

Lemma foldl_np_maximum_spec (rest : list float) (acc : float) :
  isnan acc = false -> Forall (fun a => isnan a = false) rest ->
  foldl np_maximum acc rest ∈ acc :: rest /\
  Forall (fun a => SFleb a (foldl np_maximum acc rest) = true) (acc :: rest).
Proof.
  revert acc. induction rest as [|x rest IH]; intros acc Ha Hr; simpl.
  - split; [apply list_elem_of_here |]. constructor; [by apply SFleb_refl | done].
  - apply Forall_cons in Hr as [Hx Hr]. unfold np_maximum at 2 4. rewrite Ha, orb_false_r.
    destruct (SFleb x acc) eqn:E.
    + destruct (IH acc Ha Hr) as [Hin Hle]. apply Forall_cons in Hle as [Hacc Hle].
      split.
      * apply elem_of_cons in Hin as [-> | Hin];
          [apply list_elem_of_here | by do 2 apply list_elem_of_further].
      * constructor; [done |]. constructor; [by eapply SFleb_trans | done].
    + destruct (IH x Hx Hr) as [Hin Hle]. apply Forall_cons in Hle as [Hxm Hle].
      split; [by apply list_elem_of_further |].
      constructor; [| by constructor].
      eapply SFleb_trans; [| exact Hxm]. by apply SFltb_SFleb, SFleb_total.
Qed.

(** Once NaN is met the reduction stays NaN. *)
Lemma foldl_np_minimum_nan (rest : list float) (acc : float) :
  S754_nan ∈ acc :: rest -> foldl np_minimum acc rest = S754_nan.
Proof.
  revert acc. induction rest as [|x rest IH]; intros acc Hin; simpl.
  - apply elem_of_cons in Hin as [<- | Hin]; [done | by apply elem_of_nil in Hin].
  - apply IH. apply elem_of_cons in Hin as [<- | Hin]; [apply list_elem_of_here |].
    apply elem_of_cons in Hin as [<- | Hin]; [| by apply list_elem_of_further].
    unfold np_minimum. replace (SFleb acc S754_nan) with false by (by destruct acc).
    destruct acc; apply list_elem_of_here.
Qed.

Lemma foldl_np_maximum_nan (rest : list float) (acc : float) :
  S754_nan ∈ acc :: rest -> foldl np_maximum acc rest = S754_nan.
Proof.
  revert acc. induction rest as [|x rest IH]; intros acc Hin; simpl.
  - apply elem_of_cons in Hin as [<- | Hin]; [done | by apply elem_of_nil in Hin].
  - apply IH. apply elem_of_cons in Hin as [<- | Hin].
    { replace (np_maximum S754_nan x) with S754_nan by (by destruct x).
      apply list_elem_of_here. }
    apply elem_of_cons in Hin as [<- | Hin]; [| by apply list_elem_of_further].
    unfold np_maximum. simpl. destruct acc; apply list_elem_of_here.
Qed.

Lemma ndarray_min_spec (a : arr1) (m : float) :
  ndarray_min a = Ok m -> Forall (fun c => isnan c = false) a ->
  m ∈ a /\ Forall (fun c => SFleb m c = true) a.
Proof.
  destruct a as [|x rest]; [done |]. intros [= <-] [Hx Hr]%Forall_cons.
  by apply foldl_np_minimum_spec.
Qed.

Lemma ndarray_max_spec (a : arr1) (m : float) :
  ndarray_max a = Ok m -> Forall (fun c => isnan c = false) a ->
  m ∈ a /\ Forall (fun c => SFleb c m = true) a.
Proof.
  destruct a as [|x rest]; [done |]. intros [= <-] [Hx Hr]%Forall_cons.
  by apply foldl_np_maximum_spec.
Qed.

Lemma filter_not_nan (a : arr1) :
  Forall (fun c => isnan c = false) (filter (fun x => isnan x = false) a).
Proof. apply Forall_forall. intros c Hc. by apply list_elem_of_filter in Hc as [Hc _]. Qed.

(** [Series.min()] and [Series.max()] bound the entries that are not NaN. *)
Lemma series_min_spec (a : arr1) (c : float) :
  c ∈ a -> isnan c = false ->
  series_min a ∈ a /\ isnan (series_min a) = false /\ SFleb (series_min a) c = true.
Proof.
  intros Hc Hn. unfold series_min.
  assert (Hf : c ∈ filter (fun x => isnan x = false) a) by (by apply list_elem_of_filter).
  pose proof (filter_not_nan a) as Hall.
  destruct (filter (fun x => isnan x = false) a) as [|x rest] eqn:E;
    [by apply elem_of_nil in Hf |].
  apply Forall_cons in Hall as [Hx Hr].
  destruct (foldl_np_minimum_spec rest x Hx Hr) as [Hin Hle].
  rewrite <- E in Hin. apply list_elem_of_filter in Hin as [Hmn Hin].
  repeat split; try done. by apply (proj1 (Forall_forall _ _) Hle).
Qed.

Lemma series_max_spec (a : arr1) (c : float) :
  c ∈ a -> isnan c = false ->
  series_max a ∈ a /\ isnan (series_max a) = false /\ SFleb c (series_max a) = true.
Proof.
  intros Hc Hn. unfold series_max.
  assert (Hf : c ∈ filter (fun x => isnan x = false) a) by (by apply list_elem_of_filter).
  pose proof (filter_not_nan a) as Hall.
  destruct (filter (fun x => isnan x = false) a) as [|x rest] eqn:E;
    [by apply elem_of_nil in Hf |].
  apply Forall_cons in Hall as [Hx Hr].
  destruct (foldl_np_maximum_spec rest x Hx Hr) as [Hin Hle].
  rewrite <- E in Hin. apply list_elem_of_filter in Hin as [Hmn Hin].
  repeat split; try done. by apply (proj1 (Forall_forall _ _) Hle).
Qed.

(** What a successful [fielddata_from_df] reports as limits. *)
Lemma fielddata_from_df_limits (df : DataFrame) (gd : gmap string arr3) (dims : grid_dims)
    (x y z : arr1) :
  fielddata_from_df df = Ok (gd, dims) ->
  df_loc df x_col_name = Ok x -> df_loc df y_col_name = Ok y ->
  df_loc df z_col_name = Ok z ->
  xlim dims = (series_min x, series_max x) /\
  ndarray_min y = Ok (ylim dims).1 /\ ndarray_max y = Ok (ylim dims).2 /\
  ndarray_min z = Ok (zlim dims).1 /\ ndarray_max z = Ok (zlim dims).2 /\
  dy dims = fdiv float64 (fsub float64 (ylim dims).2 (ylim dims).1)
              (of_int float64 (Z.of_nat (ny dims))) /\
  dz dims = fdiv float64 (fsub float64 (zlim dims).2 (zlim dims).1)
              (of_int float64 (Z.of_nat (nz dims))).
Proof.
  intros H Hx Hy Hz.
  apply fielddata_from_df_Ok in H
    as (x' & y' & z' & u & v & w & ymin & ymax & zmin & zmax & X & Y & Z & U & V & W
        & Hx' & Hy' & Hz' & _ & _ & _ & Hymin & Hymax & Hzmin & Hzmax
        & _ & _ & _ & _ & _ & _ & Hdims & _).
  rewrite Hx in Hx'. rewrite Hy in Hy'. rewrite Hz in Hz'.
  injection Hx' as <-. injection Hy' as <-. injection Hz' as <-.
  rewrite Hdims. simpl. done.
Qed.

(** X10.  The reported limits bound the coordinates.  [xlim] is computed on
    the pandas column and skips NaN: it holds two non-NaN entries of the x
    column that bound every non-NaN entry.  [ylim] and [zlim] are computed
    on plain arrays: when the column has no NaN they hold two of its entries
    that bound all of them. *)
Theorem grid_limits_bound_coordinates
    (df : DataFrame) (gd : gmap string arr3) (dims : grid_dims) (x y z : arr1) :
  fielddata_from_df df = Ok (gd, dims) ->
  df_loc df x_col_name = Ok x -> df_loc df y_col_name = Ok y ->
  df_loc df z_col_name = Ok z ->
  (forall c, c ∈ x -> isnan c = false ->
     (xlim dims).1 ∈ x /\ (xlim dims).2 ∈ x /\
     isnan (xlim dims).1 = false /\ isnan (xlim dims).2 = false /\
     SFleb (xlim dims).1 c = true /\ SFleb c (xlim dims).2 = true) /\
  (forall (lim : float * float) (col : arr1),
     (lim, col) ∈ [(ylim dims, y); (zlim dims, z)] ->
     Forall (fun c => isnan c = false) col ->
     lim.1 ∈ col /\ lim.2 ∈ col /\
     forall c, c ∈ col -> SFleb lim.1 c = true /\ SFleb c lim.2 = true).
Proof.
  intros H Hx Hy Hz.
  destruct (fielddata_from_df_limits df gd dims x y z H Hx Hy Hz)
    as (Hxl & Hy1 & Hy2 & Hz1 & Hz2 & _).
  split.
  - intros c Hc Hn. rewrite Hxl. simpl.
    destruct (series_min_spec x c Hc Hn) as (? & ? & ?).
    destruct (series_max_spec x c Hc Hn) as (? & ? & ?). done.
  - intros lim col Hin Hnan.
    apply elem_of_cons in Hin as [[= -> ->] | Hin];
      [| apply elem_of_cons in Hin as [[= -> ->] | Hin]; [| by apply elem_of_nil in Hin]].
    + destruct (ndarray_min_spec _ _ Hy1 Hnan) as [? Hle1].
      destruct (ndarray_max_spec _ _ Hy2 Hnan) as [? Hle2].
      repeat split; try done.
      * by apply (proj1 (Forall_forall _ _) Hle1).
      * by apply (proj1 (Forall_forall _ _) Hle2).
    + destruct (ndarray_min_spec _ _ Hz1 Hnan) as [? Hle1].
      destruct (ndarray_max_spec _ _ Hz2 Hnan) as [? Hle2].
      repeat split; try done.
      * by apply (proj1 (Forall_forall _ _) Hle1).
      * by apply (proj1 (Forall_forall _ _) Hle2).
Qed.

Lemma grid_limits_bound_coordinates_witness :
  exists gd dims,
    fielddata_from_df df_cube = Ok (gd, dims) /\
    SFleb (xlim dims).1 (f64 1) = true /\ SFleb (f64 0) (ylim dims).2 = true.
Proof.
  destruct (fielddata_from_df_intro df_cube
              [f64 0; f64 1; f64 0; f64 1; f64 0; f64 1; f64 0; f64 1]
              [f64 0; f64 0; f64 1; f64 1; f64 0; f64 0; f64 1; f64 1]
              [f64 0; f64 0; f64 0; f64 0; f64 1; f64 1; f64 1; f64 1]
              (replicate 8 (f64 1)) (replicate 8 (f64 1)) (replicate 8 (f64 1)))
    as (gd & dims & Hgd);
    [vm_compute; reflexivity .. | discriminate | vm_compute; reflexivity |].
  exists gd, dims. split; [exact Hgd |].
  destruct (grid_limits_bound_coordinates df_cube gd dims
              [f64 0; f64 1; f64 0; f64 1; f64 0; f64 1; f64 0; f64 1]
              [f64 0; f64 0; f64 1; f64 1; f64 0; f64 0; f64 1; f64 1]
              [f64 0; f64 0; f64 0; f64 0; f64 1; f64 1; f64 1; f64 1] Hgd)
    as (Hx & Hyz); [vm_compute; reflexivity .. |].
  split.
  - destruct (Hx (f64 1)) as (_ & _ & _ & _ & H & _);
      [apply list_elem_of_further, list_elem_of_here | reflexivity | exact H].
  - destruct (Hyz (ylim dims) [f64 0; f64 0; f64 1; f64 1; f64 0; f64 0; f64 1; f64 1])
      as (_ & _ & H); [apply list_elem_of_here | repeat constructor |].
    apply (H (f64 0)). apply list_elem_of_here.
Defined.

(** X11.  A NaN anywhere in the y (or z) column makes both limits and the
    spacing of that axis NaN, because these are reduced as plain arrays;
    the x limits, reduced by pandas, stay numbers as long as the x column
    has one. *)
Theorem grid_limits_nan
    (df : DataFrame) (gd : gmap string arr3) (dims : grid_dims) (x y z : arr1) :
  fielddata_from_df df = Ok (gd, dims) ->
  df_loc df x_col_name = Ok x -> df_loc df y_col_name = Ok y ->
  df_loc df z_col_name = Ok z ->
  (S754_nan ∈ y -> ylim dims = (NaN, NaN) /\ dy dims = NaN) /\
  (S754_nan ∈ z -> zlim dims = (NaN, NaN) /\ dz dims = NaN) /\
  ((exists c, c ∈ x /\ isnan c = false) ->
     isnan (xlim dims).1 = false /\ isnan (xlim dims).2 = false).
Proof.
  intros H Hx Hy Hz.
  destruct (fielddata_from_df_limits df gd dims x y z H Hx Hy Hz)
    as (Hxl & Hy1 & Hy2 & Hz1 & Hz2 & Hdy & Hdz).
  assert (Hnan : forall a lo hi, ndarray_min a = Ok lo -> ndarray_max a = Ok hi ->
            S754_nan ∈ a -> lo = NaN /\ hi = NaN).
  { intros a lo hi Hlo Hhi Hin. destruct a as [|c rest]; [done |].
    injection Hlo as <-. injection Hhi as <-.
    by rewrite foldl_np_minimum_nan, foldl_np_maximum_nan. }
  split; [| split].
  - intros Hin. destruct (Hnan y _ _ Hy1 Hy2 Hin) as [E1 E2].
    rewrite Hdy. destruct (ylim dims) as [lo hi]. simpl in *. by subst.
  - intros Hin. destruct (Hnan z _ _ Hz1 Hz2 Hin) as [E1 E2].
    rewrite Hdz. destruct (zlim dims) as [lo hi]. simpl in *. by subst.
  - intros (c & Hc & Hn). rewrite Hxl. simpl.
    destruct (series_min_spec x c Hc Hn) as (? & ? & ?).
    destruct (series_max_spec x c Hc Hn) as (? & ? & ?). done.
Qed.

(** One node whose y coordinate is NaN. *)
Lemma grid_limits_nan_witness :
  exists gd dims,
    fielddata_from_df
      {| df_columns := field_columns;
         df_rows := [[f64 0; NaN; f64 0; f64 1; f64 1; f64 1]] |} = Ok (gd, dims) /\
    ylim dims = (NaN, NaN) /\ dy dims = NaN /\ isnan (xlim dims).1 = false.
Proof.
  set (df := {| df_columns := field_columns;
                df_rows := [[f64 0; NaN; f64 0; f64 1; f64 1; f64 1]] |}).
  destruct (fielddata_from_df_intro df [f64 0] [NaN] [f64 0] [f64 1] [f64 1] [f64 1])
    as (gd & dims & Hgd);
    [vm_compute; reflexivity .. | discriminate | vm_compute; reflexivity |].
  exists gd, dims. split; [exact Hgd |].
  destruct (grid_limits_nan df gd dims [f64 0] [NaN] [f64 0] Hgd)
    as (Hy & _ & Hx); [vm_compute; reflexivity .. |].
  destruct Hy as [Hy1 Hy2]; [apply list_elem_of_here |].
  destruct Hx as [Hx1 _]; [exists (f64 0); split; [apply list_elem_of_here | reflexivity] |].
  split; [exact Hy1 |]. split; [exact Hy2 | exact Hx1].
Defined.

(** ** Windows of timesteps *)

Lemma lookup_py_slice {A} (start stop : Z) (l : list A) (k : nat) (x : A) :
  py_slice start stop l !! k = Some x <->
  slice_bound start (length l) + k < slice_bound stop (length l) /\
  l !! (slice_bound start (length l) + k) = Some x.
Proof.
  unfold py_slice.
  set (s := slice_bound start (length l)). set (e := slice_bound stop (length l)).
  split.
  - intros H. assert (k < e - s).
    { apply lookup_lt_Some in H. rewrite length_take in H. lia. }
    rewrite lookup_take_lt, lookup_drop in H by done. split; [lia | done].
  - intros [Hk Hx]. rewrite lookup_take_lt, lookup_drop by lia. done.
Qed.

Lemma length_py_slice {A} (start stop : Z) (l : list A) :
  length (py_slice start stop l)
  = slice_bound stop (length l) - slice_bound start (length l).
Proof.
  unfold py_slice. rewrite length_take, length_drop.
  pose proof (slice_bound_le stop (length l)). lia.
Qed.

(** X13.  [field_time_average] over an empty window of timesteps raises
    UnboundLocalError (the sums are never assigned) without reading a file;
    when it returns, the times it returns are the window
    [times[ti_start:ti_end]], which is not empty.  With the default
    arguments (-5, -1) it returns at most four timesteps and never the last
    one, and it raises on a dataset of fewer than two timesteps. *)
Theorem field_time_average_window (fs : filesystem) (self : CactusField) :
  (forall ti_start ti_end,
     py_slice ti_start ti_end (times self) = [] ->
     field_time_average fs self ti_start ti_end = Raise (UnboundLocalError "U")) /\
  (forall ti_start ti_end ts m,
     field_time_average fs self ti_start ti_end = Ok (ts, m) ->
     ts = py_slice ti_start ti_end (times self) /\ ts <> []) /\
  (length (times self) <= 1 ->
     field_time_average fs self (-5) (-1) = Raise (UnboundLocalError "U")) /\
  (forall ts m,
     field_time_average fs self (-5) (-1) = Ok (ts, m) ->
     1 <= length ts <= 4 /\
     forall k t, ts !! k = Some t ->
       length (times self) - 5 + k < length (times self) - 1 /\
       times self !! (length (times self) - 5 + k) = Some t).
Proof.
  assert (Hempty : forall ti_start ti_end,
     py_slice ti_start ti_end (times self) = [] ->
     field_time_average fs self ti_start ti_end = Raise (UnboundLocalError "U")).
  { intros s e Hw. unfold field_time_average. by rewrite Hw. }
  assert (Hok : forall ti_start ti_end ts m,
     field_time_average fs self ti_start ti_end = Ok (ts, m) ->
     ts = py_slice ti_start ti_end (times self) /\ ts <> []).
  { intros s e ts m H.
    destruct (py_slice s e (times self)) as [|t0 rest] eqn:Hw.
    - by rewrite (Hempty s e Hw) in H.
    - unfold field_time_average in H. rewrite Hw in H.
      bind_inv H as acc Hacc. destruct acc as [a|]; [| done].
      by injection H as <- _. }
  assert (Hs : slice_bound (-5) (length (times self)) = length (times self) - 5).
  { unfold slice_bound. simpl. lia. }
  assert (He : slice_bound (-1) (length (times self)) = length (times self) - 1).
  { unfold slice_bound. simpl. lia. }
  split; [exact Hempty |]. split; [exact Hok |]. split.
  - intros Hn. apply Hempty. apply length_zero_iff_nil.
    rewrite length_py_slice, Hs, He. lia.
  - intros ts m H. apply Hok in H as [-> Hne]. split.
    + rewrite length_py_slice, Hs, He.
      assert (length (py_slice (-5) (-1) (times self)) <> 0)
        by (by intros ?%length_zero_iff_nil).
      rewrite length_py_slice, Hs, He in H. lia.
    + intros k t Hk. apply lookup_py_slice in Hk as [Hk Hx].
      rewrite Hs, He in Hk. rewrite Hs in Hx. done.
Qed.

(** ** Element-wise arithmetic on arrays of one shape *)

Lemma lookup_map {A B} (f : A -> B) (l : list A) (i : nat) :
  map f l !! i = f <$> l !! i.
Proof. revert i; induction l as [|x l IH]; intros [|i]; simpl; auto. Qed.

Lemma getitem3_at3 (a : arr3) (k j i : nat) (v : float) :
  at3 a k j i = Some v ->
  getitem3 a (Z.of_nat k, Z.of_nat j, Z.of_nat i) = Ok v.
Proof.
  unfold at3, getitem3. intros H.
  destruct (a !! k) as [plane|] eqn:Hk; [| done]. simpl in H.
  destruct (plane !! j) as [row|] eqn:Hj; [| done]. simpl in H.
  rewrite (getitem_lookup _ _ _ Hk). simpl.
  rewrite (getitem_lookup _ _ _ Hj). simpl.
  by apply getitem_lookup.
Qed.

Lemma at3_shape3 (n2 n1 n0 : nat) (a : arr3) (k j i : nat) :
  shape3 n2 n1 n0 a -> k < n2 -> j < n1 -> i < n0 ->
  exists v, at3 a k j i = Some v.
Proof.
  intros [Hl Ha] Hk Hj Hi. unfold at3.
  destruct (lookup_lt_is_Some_2 a k) as [plane Hp]; [lia |]. rewrite Hp. simpl.
  pose proof (proj1 (Forall_lookup _ _) Ha k plane Hp) as [Hl1 Hrows].
  destruct (lookup_lt_is_Some_2 plane j) as [row Hr]; [lia |]. rewrite Hr. simpl.
  pose proof (proj1 (Forall_lookup _ _) Hrows j row Hr) as Hl0. simpl in Hl0.
  destruct (lookup_lt_is_Some_2 row i) as [v Hv]; [lia |]. eauto.
Qed.

Lemma at3_zip3 (f : float -> float -> float) (a b : arr3) (k j i : nat) (va vb : float) :
  at3 a k j i = Some va -> at3 b k j i = Some vb ->
  at3 (zip3 f a b) k j i = Some (f va vb).
Proof.
  unfold at3, zip3. intros Ha Hb.
  destruct (a !! k) as [pa|] eqn:Hka; [| done]. simpl in Ha.
  destruct (b !! k) as [pb|] eqn:Hkb; [| done]. simpl in Hb.
  destruct (pa !! j) as [ra|] eqn:Hja; [| done]. simpl in Ha.
  destruct (pb !! j) as [rb|] eqn:Hjb; [| done]. simpl in Hb.
  rewrite lookup_zip_with, Hka, Hkb. simpl.
  rewrite lookup_zip_with, Hja, Hjb. simpl.
  by rewrite lookup_zip_with, Ha, Hb.
Qed.

Lemma shape3_zip3 (f : float -> float -> float) (n2 n1 n0 : nat) (a b : arr3) :
  shape3 n2 n1 n0 a -> shape3 n2 n1 n0 b -> shape3 n2 n1 n0 (zip3 f a b).
Proof.
  unfold shape3, shape2, zip3. intros [La Ha] [Lb Hb].
  split; [rewrite length_zip_with; lia |].
  eapply (Forall_zip_with _ _ _ _ a b); [| exact Ha | exact Hb].
  intros pa pb [Lpa Hpa] [Lpb Hpb]. split; [rewrite length_zip_with; lia |].
  eapply (Forall_zip_with _ _ _ _ pa pb); [| exact Hpa | exact Hpb].
  intros ra rb Lra Lrb. simpl in *. rewrite length_zip_with. lia.
Qed.

Lemma broadcast2_zip {A} (f : A -> A -> result A) (g : A -> A -> A)
    (P Q : A -> Prop) (a b : list A) :
  length a = length b -> Forall P a -> Forall Q b ->
  (forall x y, P x -> Q y -> f x y = Ok (g x y)) ->
  broadcast2 f a b = Ok (zip_with g a b).
Proof.
  intros Hl Ha Hb Hf. unfold broadcast2. rewrite decide_True by done.
  clear Hl. revert b Hb. induction Ha as [|x a Hx Ha IH]; intros b Hb; [done |].
  destruct Hb as [|y b Hy Hb]; [done |]. simpl.
  rewrite (Hf x y Hx Hy). simpl. by rewrite (IH b Hb).
Qed.

(** [a + b] on two float32 arrays of one shape adds entry by entry. *)
Lemma add3_same_shape (n2 n1 n0 : nat) (a b : arr3) :
  shape3 n2 n1 n0 a -> shape3 n2 n1 n0 b ->
  add3 a b = Ok (zip3 (fadd float32) a b).
Proof.
  intros [La Ha] [Lb Hb]. unfold add3, zip3.
  apply (broadcast2_zip _ _ (shape2 n1 n0) (shape2 n1 n0)); [lia | done | done |].
  intros pa pb [Lpa Hpa] [Lpb Hpb].
  apply (broadcast2_zip _ _ (fun r => length r = n0) (fun r => length r = n0));
    [lia | done | done |].
  intros ra rb Lra Lrb.
  apply (broadcast2_zip _ _ (fun _ => True) (fun _ => True));
    [lia | by apply Forall_true | by apply Forall_true | done].
Qed.

Lemma at3_div3 (a : arr3) (n : nat) (k j i : nat) (v : float) :
  at3 a k j i = Some v ->
  at3 (div3 a n) k j i = Some (fdiv float32 v (of_int float32 (Z.of_nat n))).
Proof.
  unfold at3, div3. intros H.
  destruct (a !! k) as [plane|] eqn:Hk; [| done]. simpl in H.
  destruct (plane !! j) as [row|] eqn:Hj; [| done]. simpl in H.
  rewrite lookup_map, Hk. simpl. rewrite lookup_map, Hj. simpl.
  by rewrite lookup_map, H.
Qed.

Lemma shape3_div3 (n2 n1 n0 : nat) (a : arr3) (n : nat) :
  shape3 n2 n1 n0 a -> shape3 n2 n1 n0 (div3 a n).
Proof.
  unfold div3, shape3, shape2. intros [Hl Ha]. split; [by rewrite length_map |].
  apply Forall_map. eapply Forall_impl; [exact Ha |]. intros p [Hp Hr]. simpl.
  split; [by rewrite length_map |].
  apply Forall_map. eapply Forall_impl; [exact Hr |]. intros r Hlen. simpl.
  by rewrite length_map.
Qed.

Lemma shape3_foldl_zip3 (f : float -> float -> float) (n2 n1 n0 : nat)
    (Fs : list arr3) (F0 : arr3) :
  shape3 n2 n1 n0 F0 -> Forall (shape3 n2 n1 n0) Fs ->
  shape3 n2 n1 n0 (foldl (zip3 f) F0 Fs).
Proof.
  intros H0 H. revert F0 H0. induction H as [|F Fs HF HFs IH]; intros F0 H0; [done |].
  simpl. apply IH. by apply shape3_zip3.
Qed.

Lemma at3_foldl_zip3 (f : float -> float -> float) (k j i : nat)
    (Fs : list arr3) (vs : list float) (F0 : arr3) (v0 : float) :
  at3 F0 k j i = Some v0 ->
  Forall2 (fun F v => at3 F k j i = Some v) Fs vs ->
  at3 (foldl (zip3 f) F0 Fs) k j i = Some (foldl f v0 vs).
Proof.
  intros H0 H. revert F0 v0 H0. induction H as [|F v Fs vs HF HFs IH]; intros F0 v0 H0; [done |].
  simpl. apply IH. by apply at3_zip3.
Qed.

(** ** [field_time_average] over several timesteps *)

Lemma fielddata_from_df_full_grid (df : DataFrame) (gd : gmap string arr3) (dims : grid_dims) :
  fielddata_from_df df = Ok (gd, dims) -> has_vel_fs df = true ->
  full_grid (nz dims) (ny dims) (nx dims) gd.
Proof.
  intros H Hfs name Hname.
  assert (Hsome : is_Some (gd !! name)).
  { apply fielddata_from_df_Ok in H
      as (x & y & z & u & v & w & ymin & ymax & zmin & zmax & X & Y & Z & U & V & W
          & _ & _ & _ & _ & _ & _ & _ & _ & _ & _ & _ & _ & _ & _ & _ & _
          & _ & HX & HY & HZ & HU & HV & HW & HFS).
    rewrite Hfs in HFS.
    destruct HFS as (ufs & vfs & wfs & Ufs & Vfs & Wfs & _ & _ & _ & _ & _ & _
                     & H1 & H2 & H3).
    repeat (apply elem_of_cons in Hname as [-> | Hname]; [eauto |]).
    by apply elem_of_nil in Hname. }
  destruct Hsome as [F HF]. exists F. split; [done |].
  destruct (fielddata_from_df_entries df gd dims name F H HF)
    as (col & c & A0 & _ & _ & HA0 & ->).
  by apply shape3_np_float32, (reshape3_shape3 c).
Qed.

Tactic Notation "grid_lookup" constr(HG) constr(name) "as" ident(F) ident(HF) ident(HS) :=
  destruct (HG name) as (F & HF & HS); [in_list |].

Lemma average_step_first (fs : filesystem) (self : CactusField)
    (acc : option mean_fields) (t : float) (df : DataFrame)
    (gd : gmap string arr3) (dims : grid_dims) (n2 n1 n0 : nat) :
  get_df_inst fs self (Some t) None = Ok df ->
  fielddata_from_df df = Ok (gd, dims) -> full_grid n2 n1 n0 gd ->
  average_step fs self acc 0 t
  = Ok (Some {| mX := grid_field "X" gd; mY := grid_field "Y" gd; mZ := grid_field "Z" gd;
                mU := grid_field "U" gd; mV := grid_field "V" gd; mW := grid_field "W" gd;
                mUfs := grid_field "Ufs" gd; mVfs := grid_field "Vfs" gd;
                mWfs := grid_field "Wfs" gd |}).
Proof.
  intros Hdf Hgd HG. unfold average_step. rewrite Hdf. simpl. rewrite Hgd. simpl.
  grid_lookup HG "X" as X HX SX. grid_lookup HG "Y" as Y HY SY. grid_lookup HG "Z" as Z HZ SZ.
  grid_lookup HG "U" as U HU SU. grid_lookup HG "V" as V HV SV. grid_lookup HG "W" as W HW SW.
  grid_lookup HG "Ufs" as Ufs HUfs SUfs. grid_lookup HG "Vfs" as Vfs HVfs SVfs.
  grid_lookup HG "Wfs" as Wfs HWfs SWfs.
  unfold dict_getitem, grid_field.
  by rewrite HX, HY, HZ, HU, HV, HW, HUfs, HVfs, HWfs.
Qed.

Lemma average_step_next (fs : filesystem) (self : CactusField)
    (a : mean_fields) (ti : nat) (t : float) (df : DataFrame)
    (gd : gmap string arr3) (dims : grid_dims) (n2 n1 n0 : nat) :
  ti <> 0 ->
  get_df_inst fs self (Some t) None = Ok df ->
  fielddata_from_df df = Ok (gd, dims) -> full_grid n2 n1 n0 gd ->
  Forall (shape3 n2 n1 n0) (velocity_fields a) ->
  average_step fs self (Some a) ti t
  = Ok (Some {| mX := mX a; mY := mY a; mZ := mZ a;
                mU := zip3 (fadd float32) (mU a) (grid_field "U" gd);
                mV := zip3 (fadd float32) (mV a) (grid_field "V" gd);
                mW := zip3 (fadd float32) (mW a) (grid_field "W" gd);
                mUfs := zip3 (fadd float32) (mUfs a) (grid_field "Ufs" gd);
                mVfs := zip3 (fadd float32) (mVfs a) (grid_field "Vfs" gd);
                mWfs := zip3 (fadd float32) (mWfs a) (grid_field "Wfs" gd) |}).
Proof.
  intros Hti Hdf Hgd HG Ha. unfold average_step. rewrite Hdf. simpl. rewrite Hgd. simpl.
  rewrite decide_False by done.
  grid_lookup HG "U" as U HU SU. grid_lookup HG "V" as V HV SV. grid_lookup HG "W" as W HW SW.
  grid_lookup HG "Ufs" as Ufs HUfs SUfs. grid_lookup HG "Vfs" as Vfs HVfs SVfs.
  grid_lookup HG "Wfs" as Wfs HWfs SWfs.
  unfold velocity_fields in Ha.
  apply Forall_cons in Ha as [A1 Ha]. apply Forall_cons in Ha as [A2 Ha].
  apply Forall_cons in Ha as [A3 Ha]. apply Forall_cons in Ha as [A4 Ha].
  apply Forall_cons in Ha as [A5 Ha]. apply Forall_cons in Ha as [A6 _].
  unfold dict_getitem, grid_field.
  rewrite HU, HV, HW, HUfs, HVfs, HWfs. simpl.
  rewrite (add3_same_shape n2 n1 n0 _ _ A1 SU). simpl.
  rewrite (add3_same_shape n2 n1 n0 _ _ A2 SV). simpl.
  rewrite (add3_same_shape n2 n1 n0 _ _ A3 SW). simpl.
  rewrite (add3_same_shape n2 n1 n0 _ _ A4 SUfs). simpl.
  rewrite (add3_same_shape n2 n1 n0 _ _ A5 SVfs). simpl.
  by rewrite (add3_same_shape n2 n1 n0 _ _ A6 SWfs).
Qed.

Lemma full_grid_field (n2 n1 n0 : nat) (gd : gmap string arr3) (name : string) :
  full_grid n2 n1 n0 gd ->
  name ∈ ["X"; "Y"; "Z"; "U"; "V"; "W"; "Ufs"; "Vfs"; "Wfs"] ->
  gd !! name = Some (grid_field name gd) /\ shape3 n2 n1 n0 (grid_field name gd).
Proof.
  intros HG Hn. destruct (HG name Hn) as (F & HF & HS).
  unfold grid_field. by rewrite HF.
Qed.

(** The summing passes after the first one. *)
Lemma average_loop_sum (fs : filesystem) (self : CactusField) (n2 n1 n0 : nat)
    (window : list float) (grids : list (gmap string arr3)) :
  Forall2 (fun t gd => exists df dims,
             get_df_inst fs self (Some t) None = Ok df /\
             fielddata_from_df df = Ok (gd, dims) /\ full_grid n2 n1 n0 gd)
          window grids ->
  forall (a : mean_fields) (ti : nat),
  ti <> 0 -> Forall (shape3 n2 n1 n0) (velocity_fields a) ->
  average_loop fs self (Some a) ti window
  = Ok (Some {| mX := mX a; mY := mY a; mZ := mZ a;
                mU := foldl (zip3 (fadd float32)) (mU a) (map (grid_field "U") grids);
                mV := foldl (zip3 (fadd float32)) (mV a) (map (grid_field "V") grids);
                mW := foldl (zip3 (fadd float32)) (mW a) (map (grid_field "W") grids);
                mUfs := foldl (zip3 (fadd float32)) (mUfs a) (map (grid_field "Ufs") grids);
                mVfs := foldl (zip3 (fadd float32)) (mVfs a) (map (grid_field "Vfs") grids);
                mWfs := foldl (zip3 (fadd float32)) (mWfs a) (map (grid_field "Wfs") grids) |}).
Proof.
  induction 1 as [|t gd window grids (df & dims & Hdf & Hgd & HG) Hrest IH];
    intros a ti Hti Ha.
  - simpl. by destruct a.
  - simpl. rewrite (average_step_next fs self a ti t df gd dims n2 n1 n0) by done.
    simpl. rewrite IH; [done | lia |].
    unfold velocity_fields in Ha |- *. simpl.
    apply Forall_cons in Ha as [A1 Ha]. apply Forall_cons in Ha as [A2 Ha].
    apply Forall_cons in Ha as [A3 Ha]. apply Forall_cons in Ha as [A4 Ha].
    apply Forall_cons in Ha as [A5 Ha]. apply Forall_cons in Ha as [A6 _].
    repeat (apply Forall_cons; split;
            [apply shape3_zip3; [done | apply (full_grid_field n2 n1 n0 gd); [done | in_list]] |]).
    constructor.
Qed.

Lemma grids_values (n2 n1 n0 : nat) (name : string) (grids : list (gmap string arr3))
    (k j i : nat) :
  name ∈ ["X"; "Y"; "Z"; "U"; "V"; "W"; "Ufs"; "Vfs"; "Wfs"] ->
  Forall (full_grid n2 n1 n0) grids -> k < n2 -> j < n1 -> i < n0 ->
  exists vals, Forall2 (fun gd v => at3 (grid_field name gd) k j i = Some v) grids vals.
Proof.
  intros Hn HG Hk Hj Hi. induction HG as [|gd grids Hgd HG IH]; [by exists [] |].
  destruct IH as (vals & IH).
  destruct (full_grid_field n2 n1 n0 gd name Hgd Hn) as [_ Hs].
  destruct (at3_shape3 n2 n1 n0 _ k j i Hs Hk Hj Hi) as (v & Hv).
  exists (v :: vals). by constructor.
Qed.

(** One averaged field at one node. *)
Lemma mean_field_at (n2 n1 n0 : nat) (name : string)
    (gd0 : gmap string arr3) (rest : list (gmap string arr3)) :
  name ∈ ["X"; "Y"; "Z"; "U"; "V"; "W"; "Ufs"; "Vfs"; "Wfs"] ->
  full_grid n2 n1 n0 gd0 -> Forall (full_grid n2 n1 n0) rest ->
  shape3 n2 n1 n0
    (div3 (foldl (zip3 (fadd float32)) (grid_field name gd0) (map (grid_field name) rest))
          (S (length rest))) /\
  forall k j i, k < n2 -> j < n1 -> i < n0 ->
    exists vals,
      Forall2 (fun gd v => exists G, gd !! name = Some G /\
                 getitem3 G (Z.of_nat k, Z.of_nat j, Z.of_nat i) = Ok v)
              (gd0 :: rest) vals /\
      getitem3
        (div3 (foldl (zip3 (fadd float32)) (grid_field name gd0) (map (grid_field name) rest))
              (S (length rest)))
        (Z.of_nat k, Z.of_nat j, Z.of_nat i)
      = Ok (fdiv float32 (sum_in_order float32 vals)
              (of_int float32 (Z.of_nat (S (length rest))))).
Proof.
  intros Hn H0 Hrest.
  destruct (full_grid_field n2 n1 n0 gd0 name H0 Hn) as [HF0 HS0].
  split.
  - apply shape3_div3, shape3_foldl_zip3; [done |].
    apply Forall_map. eapply Forall_impl; [exact Hrest |].
    intros gd Hgd. simpl. by apply (full_grid_field n2 n1 n0 gd name).
  - intros k j i Hk Hj Hi.
    destruct (at3_shape3 n2 n1 n0 _ k j i HS0 Hk Hj Hi) as (v0 & Hv0).
    destruct (grids_values n2 n1 n0 name rest k j i Hn Hrest Hk Hj Hi) as (vs & Hvs).
    exists (v0 :: vs). split.
    + constructor.
      * exists (grid_field name gd0). split; [done | by apply getitem3_at3].
      * clear -Hvs Hrest Hn.
        induction Hvs as [|gd v rest vs Hv Hvs IH]; [constructor |].
        apply Forall_cons in Hrest as [Hgd Hrest].
        constructor; [| by apply IH].
        exists (grid_field name gd). split; [| by apply getitem3_at3].
        by apply (full_grid_field n2 n1 n0 gd name).
    + apply getitem3_at3, at3_div3. simpl.
      apply at3_foldl_zip3; [done |].
      clear -Hvs. induction Hvs; simpl; by constructor.
Qed.

(** X14.  Over a window of one or more timesteps whose tables all have the
    freestream columns and the same grid dimensions, [field_time_average]
    returns the window's times, the coordinate arrays X, Y, Z of the FIRST
    timestep of the window, and six arrays of the common shape in which
    every entry is the single-precision sum of that entry over the
    timesteps, accumulated in window order, divided by the number of
    timesteps. *)
Theorem field_time_average_is_mean
    (fs : filesystem) (self : CactusField) (ti_start ti_end : Z)
    (grids : list (gmap string arr3)) (n2 n1 n0 : nat) :
  grids <> [] ->
  Forall2 (fun t gd => exists df dims,
             get_df_inst fs self (Some t) None = Ok df /\
             fielddata_from_df df = Ok (gd, dims) /\ has_vel_fs df = true /\
             nz dims = n2 /\ ny dims = n1 /\ nx dims = n0)
          (py_slice ti_start ti_end (times self)) grids ->
  exists m,
    field_time_average fs self ti_start ti_end
      = Ok (py_slice ti_start ti_end (times self), m) /\
    (exists gd0, grids !! 0 = Some gd0 /\
       gd0 !! "X" = Some (mX m) /\ gd0 !! "Y" = Some (mY m) /\ gd0 !! "Z" = Some (mZ m)) /\
    forall (name : string) (F : arr3),
      (name, F) ∈ [("U", mU m); ("V", mV m); ("W", mW m);
                   ("Ufs", mUfs m); ("Vfs", mVfs m); ("Wfs", mWfs m)] ->
      shape3 n2 n1 n0 F /\
      forall k j i, k < n2 -> j < n1 -> i < n0 ->
        exists vals,
          Forall2 (fun gd v => exists G, gd !! name = Some G /\
                     getitem3 G (Z.of_nat k, Z.of_nat j, Z.of_nat i) = Ok v)
                  grids vals /\
          getitem3 F (Z.of_nat k, Z.of_nat j, Z.of_nat i)
          = Ok (fdiv float32 (sum_in_order float32 vals)
                  (of_int float32 (Z.of_nat (length grids)))).
Proof.
  intros Hne Hall.
  assert (Hfull : Forall2 (fun t gd => exists df dims,
             get_df_inst fs self (Some t) None = Ok df /\
             fielddata_from_df df = Ok (gd, dims) /\ full_grid n2 n1 n0 gd)
          (py_slice ti_start ti_end (times self)) grids).
  { eapply Forall2_impl; [exact Hall |].
    intros t gd (df & dims & Hdf & Hgd & Hfs & <- & <- & <-).
    exists df, dims. repeat split; try done. by apply (fielddata_from_df_full_grid df). }
  assert (HG : Forall (full_grid n2 n1 n0) grids).
  { clear -Hfull. induction Hfull as [|t gd w g (df & dims & _ & _ & H) _ IH]; by constructor. }
  pose proof (Forall2_length _ _ _ Hfull) as Hlen.
  unfold field_time_average.
  destruct Hfull as [|t0 gd0 window rest (df & dims & Hdf & Hgd & HG0) Hrest]; [done |].
  apply Forall_cons in HG as [_ HGrest].
  cbn [average_loop].
  rewrite (average_step_first fs self None t0 df gd0 dims n2 n1 n0 Hdf Hgd HG0). simpl.
  rewrite (average_loop_sum fs self n2 n1 n0 window rest Hrest); [| lia |].
  2:{ unfold velocity_fields. simpl.
      repeat (apply Forall_cons; split;
              [apply (full_grid_field n2 n1 n0 gd0); [done | in_list] |]).
      constructor. }
  simpl. eexists. split; [reflexivity |]. simpl.
  assert (Hn : length window = length rest) by (simpl in Hlen; lia).
  rewrite Hn. split.
  - exists gd0. split; [done |].
    repeat split; apply (full_grid_field n2 n1 n0 gd0); try done; in_list.
  - intros name F Hin.
    repeat (apply elem_of_cons in Hin as [[= -> ->] | Hin];
            [apply (mean_field_at n2 n1 n0); [in_list | done | done] |]).
    by apply elem_of_nil in Hin.
Qed.

(** Two one-node files with the freestream columns: U is 40 at time 3 and
    50 at time 4, so the mean is 45. *)
Lemma field_time_average_is_mean_witness :
  exists cf m,
    CactusField_init fs_freestream ["d.csv"; "e.csv"] = Ok cf /\
    field_time_average fs_freestream cf 0 2 = Ok ([f64 3; f64 4], m) /\
    shape3 1 1 1 (mU m) /\
    mU m = [[[of_int float32 45]]].
Proof.
  eexists. 
  assert (Hinit : CactusField_init fs_freestream ["d.csv"; "e.csv"]
                  = Ok {| filenames := ["d.csv"; "e.csv"]; num_times := 2;
                          times := [f64 3; f64 4];
                          fdict := [(f64 3, "d.csv"); (f64 4, "e.csv")];
                          cf_grid_dims :=
                            {| nx := 1; ny := 1; nz := 1;
                               dx := fzero; dy := fzero; dz := fzero;
                               xlim := (fzero, fzero); ylim := (fzero, fzero);
                               zlim := (fzero, fzero) |} |})
    by (vm_compute; reflexivity).
  set (cf := {| filenames := ["d.csv"; "e.csv"]; num_times := 2;
                times := [f64 3; f64 4];
                fdict := [(f64 3, "d.csv"); (f64 4, "e.csv")];
                cf_grid_dims :=
                  {| nx := 1; ny := 1; nz := 1;
                     dx := fzero; dy := fzero; dz := fzero;
                     xlim := (fzero, fzero); ylim := (fzero, fzero);
                     zlim := (fzero, fzero) |} |}) in *.
  set (df_d := {| df_columns := csv_header ++ freestream_columns;
                  df_rows := map (map read_csv_of) (body (file_fs_at 3 40)) |}).
  set (df_e := {| df_columns := csv_header ++ freestream_columns;
                  df_rows := map (map read_csv_of) (body (file_fs_at 4 50)) |}).
  destruct (fielddata_from_df_intro df_d [f64 0] [f64 0] [f64 0] [f64 40] [f64 0] [f64 0])
    as (gd_d & dims_d & Hd);
    [vm_compute; reflexivity .. | discriminate | vm_compute; reflexivity |].
  destruct (fielddata_from_df_intro df_e [f64 0] [f64 0] [f64 0] [f64 50] [f64 0] [f64 0])
    as (gd_e & dims_e & He);
    [vm_compute; reflexivity .. | discriminate | vm_compute; reflexivity |].
  assert (Dd : nz dims_d = 1 /\ ny dims_d = 1 /\ nx dims_d = 1).
  { destruct (fielddata_from_df_Ok df_d gd_d dims_d Hd)
      as (x & y & z & u & v & w & ymin & ymax & zmin & zmax & X & Y & Z & U & V & W
          & Hx & Hy & Hz & _ & _ & _ & _ & _ & _ & _ & _ & _ & _ & _ & _ & _
          & Hdims & _).
    vm_compute in Hx, Hy, Hz. injection Hx as <-. injection Hy as <-. injection Hz as <-.
    rewrite Hdims. vm_compute. done. }
  assert (De : nz dims_e = 1 /\ ny dims_e = 1 /\ nx dims_e = 1).
  { destruct (fielddata_from_df_Ok df_e gd_e dims_e He)
      as (x & y & z & u & v & w & ymin & ymax & zmin & zmax & X & Y & Z & U & V & W
          & Hx & Hy & Hz & _ & _ & _ & _ & _ & _ & _ & _ & _ & _ & _ & _ & _
          & Hdims & _).
    vm_compute in Hx, Hy, Hz. injection Hx as <-. injection Hy as <-. injection Hz as <-.
    rewrite Hdims. vm_compute. done. }
  destruct (field_time_average_is_mean fs_freestream cf 0 2 [gd_d; gd_e] 1 1 1)
    as (m & Hm & _ & Hfields); [discriminate | |].
  - change (py_slice 0 2 (times cf)) with [f64 3; f64 4].
    constructor; [| constructor; [| constructor]].
    + exists df_d, dims_d. split; [vm_compute; reflexivity |]. split; [exact Hd |].
      split; [vm_compute; reflexivity | exact Dd].
    + exists df_e, dims_e. split; [vm_compute; reflexivity |]. split; [exact He |].
      split; [vm_compute; reflexivity | exact De].
  - exists m. split; [exact Hinit |].
    change (py_slice 0 2 (times cf)) with [f64 3; f64 4] in Hm.
    split; [exact Hm |].
    destruct (Hfields "U" (mU m)) as [Hs _]; [apply list_elem_of_here |].
    split; [exact Hs |].
    assert (E : field_time_average fs_freestream cf 0 2
                = Ok ([f64 3; f64 4],
                      {| mX := [[[fzero]]]; mY := [[[fzero]]]; mZ := [[[fzero]]];
                         mU := [[[of_int float32 45]]]; mV := [[[fzero]]];
                         mW := [[[fzero]]];
                         mUfs := [[[of_int float32 1]]]; mVfs := [[[fzero]]];
                         mWfs := [[[fzero]]] |}))
      by (vm_compute; reflexivity).
    rewrite E in Hm. injection Hm as <-. reflexivity.
Defined.

(** ** [argmin] finds the first minimum *)

Lemma argmin_from_spec (l : list float) (mp : float) (mi i : nat) :
  isnan mp = false -> Forall (fun x => isnan x = false) l -> mi < i ->
  (argmin_from mp mi i l = mi /\ Forall (fun x => SFleb mp x = true) l) \/
  (exists v, i <= argmin_from mp mi i l /\
     l !! (argmin_from mp mi i l - i) = Some v /\
     SFleb mp v = false /\
     Forall (fun x => SFleb v x = true) l /\
     forall j y, j < argmin_from mp mi i l - i -> l !! j = Some y -> SFleb y v = false).
Proof.
  revert mp mi i. induction l as [|x l IH]; intros mp mi i Hmp Hl Hlt; simpl.
  - left. by split.
  - apply Forall_cons in Hl as [Hx Hl]. rewrite Hmp.
    destruct (SFleb mp x) eqn:E; simpl.
    + destruct (IH mp mi (S i) Hmp Hl ltac:(lia)) as [[Hr Hall] | (v & Hi & Hv & Hlt' & Hall & Hfirst)].
      * left. split; [done | by constructor].
      * right. exists v.
        assert (Hvmp : SFleb v mp = true).
        { apply SFltb_SFleb, SFleb_total; try done.
          apply list_elem_of_lookup_2 in Hv.
          by apply (proj1 (Forall_forall _ _) Hl). }
        replace (argmin_from mp mi (S i) l - i)
          with (S (argmin_from mp mi (S i) l - S i)) by lia.
        repeat split; try done; try lia.
        -- constructor; [by eapply SFleb_trans | done].
        -- intros [|j] y Hj Hy; simpl in Hy.
           ++ injection Hy as <-. destruct (SFleb x v) eqn:Exv; [| done].
              by rewrite (SFleb_trans _ _ _ E Exv) in Hlt'.
           ++ apply (Hfirst j); [lia | done].
    + assert (Hxmp : SFleb x mp = true) by (by apply SFltb_SFleb, SFleb_total).
      right.
      destruct (IH x i (S i) Hx Hl ltac:(lia)) as [[Hr Hall] | (v & Hi & Hv & Hlt' & Hall & Hfirst)].
      * exists x. rewrite Hr, Nat.sub_diag. simpl. repeat split; try done.
        -- constructor; [by apply SFleb_refl | done].
        -- intros j y Hj. lia.
      * exists v.
        assert (Hvx : SFleb v x = true).
        { apply SFltb_SFleb, SFleb_total; try done.
          apply list_elem_of_lookup_2 in Hv.
          by apply (proj1 (Forall_forall _ _) Hl). }
        replace (argmin_from x i (S i) l - i)
          with (S (argmin_from x i (S i) l - S i)) by lia.
        repeat split; try done; try lia.
        -- destruct (SFleb mp v) eqn:Emv; [| done].
           by rewrite (SFleb_trans _ _ _ Emv Hvx) in E.
        -- by constructor.
        -- intros [|j] y Hj Hy; simpl in Hy.
           ++ by injection Hy as <-.
           ++ apply (Hfirst j); [lia | done].
Qed.

Lemma argmin_spec (a : arr1) (k : nat) :
  argmin a = Ok k -> Forall (fun x => isnan x = false) a ->
  exists v, a !! k = Some v /\
    (forall x, x ∈ a -> SFleb v x = true) /\
    (forall j y, j < k -> a !! j = Some y -> SFleb y v = false).
Proof.
  destruct a as [|x rest]; [done |]. intros [= <-] [Hx Hr]%Forall_cons.
  destruct (argmin_from_spec rest x 0 1 Hx Hr ltac:(lia))
    as [[Hr' Hall] | (v & Hi & Hv & Hlt & Hall & Hfirst)].
  - rewrite Hr'. exists x. repeat split; try done; [| lia].
    intros y [-> | Hy]%elem_of_cons; [by apply SFleb_refl |].
    by apply (proj1 (Forall_forall _ _) Hall).
  - exists v.
    assert (Hvx : SFleb v x = true).
    { apply SFltb_SFleb, SFleb_total; try done.
      apply list_elem_of_lookup_2 in Hv. by apply (proj1 (Forall_forall _ _) Hr). }
    destruct (argmin_from x 0 1 rest) as [|r] eqn:Er; [lia |].
    simpl in *. rewrite Nat.sub_0_r in *. repeat split; try done.
    + intros y [-> | Hy]%elem_of_cons; [done |].
      by apply (proj1 (Forall_forall _ _) Hall).
    + intros [|j] y Hj Hy; simpl in Hy.
      * by injection Hy as <-.
      * apply (Hfirst j); [lia | done].
Qed.

Lemma isnan_fabs (x : float) : isnan (fabs x) = isnan x.
Proof. by destruct x. Qed.

(** The index [argmin] picks among the distances to [p]. *)
Lemma argmin_nearest_to (d : dtype) (axis : arr1) (p : float) (n : nat) :
  argmin (map (fun g => fabs (fsub d g p)) axis) = Ok n ->
  n < length axis /\ nearest_to d axis p n.
Proof.
  intros H.
  assert (Hn : n < length axis).
  { destruct (argmin_Ok (map (fun g => fabs (fsub d g p)) axis)) as (k & Hk & Hlt).
    - destruct axis; [done | discriminate].
    - rewrite H in Hk. injection Hk as <-. by rewrite length_map in Hlt. }
  split; [done |].
  destruct (lookup_lt_is_Some_2 axis n Hn) as [g Hg]. exists g. split; [done |].
  intros Hnan.
  destruct (argmin_spec _ n H) as (v & Hv & Hmin & Hfirst).
  { apply Forall_map. eapply Forall_impl; [exact Hnan |]. intros a Ha. simpl.
    by rewrite isnan_fabs. }
  rewrite lookup_map, Hg in Hv. injection Hv as <-. split.
  - intros a Ha. apply Hmin. apply list_elem_of_In.
    apply (in_map (fun g => fabs (fsub d g p))). by apply list_elem_of_In.
  - intros j a Hj Ha. apply (Hfirst j); [done |]. by rewrite lookup_map, Ha.
Qed.

(** X15.  [find_nearest] returns an index into the array and the entry at
    that index.  When no distance to the value is NaN, that entry is the
    nearest one: its distance is the smallest, and of several entries at the
    smallest distance the first is returned.  An empty array raises
    ValueError; a NaN value selects index 0. *)
Theorem find_nearest_is_nearest (array : arr1) (value : float) :
  (array = [] -> Wake.find_nearest array value = Raise ValueError) /\
  (forall v k, Wake.find_nearest array value = Ok (v, k) ->
     k < length array /\ array !! k = Some v /\ nearest_to float64 array value k /\
     (isnan value = true -> k = 0)).
Proof.
  split; [by intros -> |].
  intros v k H. unfold Wake.find_nearest in H.
  bind_inv H as index Hi. bind_inv H as nv Hnv. injection H as <- <-.
  destruct (argmin_nearest_to float64 array value index Hi) as [Hlt Hnear].
  destruct (getitem_nat_Ok array index Hlt) as (x & Hx & Hlook).
  rewrite Hx in Hnv. injection Hnv as <-.
  repeat split; try done.
  intros Hnan. destruct value; try done.
  destruct array as [|a rest]; [done |]. simpl in Hi.
  replace (fsub float64 a S754_nan) with S754_nan in Hi by (by destruct a).
  simpl in Hi. destruct (map _ rest); by injection Hi as <-.
Qed.

(** ** [pointdata_time_series]: the nearest nodes *)

Lemma np_unique_nonempty (l : list float) : l <> [] -> np_unique l <> [].
Proof.
  intros Hl Hu. pose proof (length_np_unique l Hl) as H. rewrite Hu in H. simpl in H. lia.
Qed.

(** The coordinate axes of a reconstructed grid are not empty. *)
Lemma grid_axis_nonempty (df : DataFrame) (gd : gmap string arr3) (dims : grid_dims)
    (name : string) :
  fielddata_from_df df = Ok (gd, dims) -> name ∈ ["X"; "Y"; "Z"] ->
  exists A, gd !! name = Some A /\ np_unique (ravel3 A) <> [].
Proof.
  intros H Hname.
  destruct (fielddata_from_df_Ok df gd dims H)
    as (x & y & z & u & v & w & ymin & ymax & zmin & zmax & X & Y & Z & U & V & W
        & Hx & Hy & Hz & _ & _ & _ & Hymin & _ & _ & _ & RX & RY & RZ & _ & _ & _
        & _ & HX & HY & HZ & _).
  apply ndarray_min_is_Ok in Hymin.
  assert (Hne : df_rows df <> []).
  { intros Hr. apply length_df_loc in Hy. rewrite Hr in Hy. by destruct y. }
  assert (Hgen : forall col c C, df_loc df col = Ok c ->
            reshape3 c (nz dims) (ny dims) (nx dims) = Ok C ->
            np_unique (ravel3 (np_float32 C)) <> []).
  { intros col c C Hc HC. apply np_unique_nonempty.
    unfold np_float32. rewrite ravel3_map, (ravel3_reshape3 _ _ _ _ _ HC).
    pose proof (df_loc_nonempty df col c Hc Hne). by destruct c. }
  repeat (apply elem_of_cons in Hname as [-> | Hname];
          [eexists; split; [eassumption | eapply Hgen; [| eassumption]; eassumption] |]).
  by apply elem_of_nil in Hname.
Qed.

Lemma nearest_index_Ok (grid : arr1) (p : float) :
  grid <> [] ->
  exists n, nearest_index grid p = Ok n /\ nearest_node grid p n.
Proof.
  intros Hg. unfold nearest_index, nearest_node, single_precision_scalar.
  destruct (fits_float32 p) eqn:E; unfold fits_float32 in E.
  - destruct (argmin_Ok (map (fun g => fabs (fsub float32 g (astype float32 p))) grid))
      as (n & Hn & _); [by destruct grid |].
    exists n. split; [done |]. left. split; [| by apply argmin_nearest_to].
    apply orb_prop in E as [E | E]; [left; by apply negb_true_iff | by right].
  - destruct (argmin_Ok (map (fun g => fabs (fsub float64 g p)) grid))
      as (n & Hn & _); [by destruct grid |].
    exists n. split; [done |]. right. split; [| by apply argmin_nearest_to].
    apply orb_false_elim in E as [E1 E2]. apply negb_false_iff in E1.
    intros [H | H]; congruence.
Qed.

(** A point beyond the single-precision range is compared in double
    precision: of the nodes 0 and 2^126 the second is nearer to 2^130,
    whereas rounded to single precision the point would be infinitely far
    from both and the first node would be picked. *)
Example nearest_index_far_point :
  let axis := [astype float32 (f64 0); astype float32 (f64 (2 ^ 126))] in
  nearest_index axis (f64 (2 ^ 130)) = Ok 1 /\
  argmin (map (fun g => fabs (fsub float32 g (astype float32 (f64 (2 ^ 130))))) axis) = Ok 0 /\
  nearest_index axis (f64 (2 ^ 100)) = Ok 0.
Proof. repeat split; vm_compute; reflexivity. Qed.

(** X16.  The search for the nearest nodes in [pointdata_time_series] never
    fails on the points: once the table of the first timestep is
    reconstructed, every list of points (inside or outside the grid, NaN
    included) gets one index triple (zi, yi, xi) per point.  Each index is a
    position in the sorted distinct single-precision coordinates of its
    axis, and when no distance is NaN it is the first position at the
    smallest distance from the point.  The distance is taken in single
    precision, with the point rounded to it, for a point coordinate that is
    not finite or lies strictly between -3.4e38 and 3.4e38, and in double
    precision for a coordinate beyond that (NumPy 1.x casts the Python
    float by value). *)
Theorem nearest_nodes_total
    (fs : filesystem) (self : CactusField) (t0 : float) (df : DataFrame)
    (gd : gmap string arr3) (dims : grid_dims) (p_list : list (float * float * float)) :
  times self !! 0 = Some t0 ->
  get_df_inst fs self (Some t0) None = Ok df ->
  fielddata_from_df df = Ok (gd, dims) ->
  exists kji,
    nearest_nodes fs self p_list = Ok kji /\
    Forall2 (fun (p : float * float * float) (c : Z * Z * Z) =>
       exists xi yi zi, c = (Z.of_nat zi, Z.of_nat yi, Z.of_nat xi) /\
         nearest_node (np_unique (ravel3 (grid_field "X" gd))) p.1.1 xi /\
         nearest_node (np_unique (ravel3 (grid_field "Y" gd))) p.1.2 yi /\
         nearest_node (np_unique (ravel3 (grid_field "Z" gd))) p.2 zi)
      p_list kji.
Proof.
  intros Ht0 Hdf Hgd.
  destruct (grid_axis_nonempty df gd dims "X" Hgd) as (X & HX & NX); [in_list |].
  destruct (grid_axis_nonempty df gd dims "Y" Hgd) as (Y & HY & NY); [in_list |].
  destruct (grid_axis_nonempty df gd dims "Z" Hgd) as (Z & HZ & NZ); [in_list |].
  assert (Hnn : nearest_nodes fs self p_list
                = traverse (nearest_kji (np_unique (ravel3 X)) (np_unique (ravel3 Y))
                                        (np_unique (ravel3 Z))) p_list).
  { unfold nearest_nodes.
    pose proof (getitem_lookup _ 0 _ Ht0) as Hg0. change (Z.of_nat 0) with 0%Z in Hg0.
    rewrite Hg0. simpl. rewrite Hdf. simpl. rewrite Hgd. simpl.
    unfold dict_getitem. by rewrite HX, HY, HZ. }
  rewrite Hnn. unfold grid_field. rewrite HX, HY, HZ. simpl. clear Hnn.
  induction p_list as [|[[xp yp] zp] p_list IH]; [by exists [] |].
  destruct IH as (kji & Hk & Hall). simpl.
  destruct (nearest_index_Ok _ xp NX) as (xi & -> & Hxi).
  destruct (nearest_index_Ok _ yp NY) as (yi & -> & Hyi).
  destruct (nearest_index_Ok _ zp NZ) as (zi & -> & Hzi).
  simpl. rewrite Hk. simpl. eexists. split; [reflexivity |].
  constructor; [| done]. by exists xi, yi, zi.
Qed.


(** The one-node dataset c.csv and a point far from the node. *)
Lemma nearest_nodes_total_witness :
  exists cf,
    CactusField_init fs_example ["c.csv"] = Ok cf /\
    nearest_nodes fs_example cf [(f64 5, f64 5, f64 5)] = Ok [(0, 0, 0)%Z].
Proof.
  eexists. split; [vm_compute; reflexivity |].
  match goal with |- nearest_nodes _ ?c _ = _ => set (cf := c) end.
  set (df := {| df_columns := csv_header; df_rows := map (map read_csv_of) (body (file_at 2 30)) |}).
  destruct (fielddata_from_df_intro df [f64 0] [f64 0] [f64 0] [f64 30] [f64 0] [f64 0])
    as (gd & dims & Hgd);
    [vm_compute; reflexivity .. | discriminate | vm_compute; reflexivity |].
  destruct (nearest_nodes_total fs_example cf (f64 2) df gd dims [(f64 5, f64 5, f64 5)])
    as (kji & Hk & _); [reflexivity | vm_compute; reflexivity | exact Hgd |].
  assert (E : nearest_nodes fs_example cf [(f64 5, f64 5, f64 5)] = Ok [(0, 0, 0)%Z])
    by (vm_compute; reflexivity).
  rewrite Hk in E |- *. exact E.
Defined.

(** ** [pointdata_time_series]: the values stored *)

Lemma getitem3_inside (n2 n1 n0 : nat) (F : arr3) (c : Z * Z * Z) :
  shape3 n2 n1 n0 F -> inside n2 n1 n0 c ->
  getitem3 F c = Ok (node_value F c).
Proof.
  intros HF (Hk & Hj & Hi). destruct c as [[k j] i]. simpl in *.
  destruct (at3_shape3 n2 n1 n0 F (Z.to_nat k) (Z.to_nat j) (Z.to_nat i) HF)
    as (v & Hv); [lia .. |].
  apply getitem3_at3 in Hv. rewrite !Z2Nat.id in Hv by lia.
  unfold node_value. by rewrite Hv.
Qed.

Lemma at2_setitem2 (a : arr2) (i j : nat) (x : float) (i' j' : nat) (n : nat) :
  Forall (fun row => length row = n) a -> i < length a -> j < n ->
  at2 (setitem2 a i j x) i' j'
  = if decide (i = i' /\ j = j') then Some (astype float64 x) else at2 a i' j'.
Proof.
  intros Ha Hi Hj. unfold at2, setitem2. rewrite list_lookup_alter.
  destruct (decide (i = i')) as [<- | Hne].
  - destruct (lookup_lt_is_Some_2 a i Hi) as [row Hrow]. rewrite Hrow. simpl.
    pose proof (proj1 (Forall_lookup _ _) Ha i row Hrow) as Hlen. simpl in Hlen.
    rewrite list_lookup_insert.
    destruct (decide (j = j')) as [<- | Hnej].
    + rewrite decide_True by lia. by rewrite decide_True.
    + rewrite decide_False by lia. rewrite decide_False by lia. done.
  - rewrite decide_False by lia. done.
Qed.

Lemma rect_setitem2 (a : arr2) (i j : nat) (x : float) (n : nat) :
  Forall (fun row => length row = n) a ->
  Forall (fun row => length row = n) (setitem2 a i j x) /\
  length (setitem2 a i j x) = length a.
Proof.
  intros Ha. unfold setitem2. split; [| by rewrite length_alter].
  apply Forall_lookup. intros k row Hk. rewrite list_lookup_alter in Hk.
  destruct (decide (i = k)) as [<- | Hne].
  - destruct (a !! i) as [r|] eqn:Hr; [| done]. simpl in Hk. injection Hk as <-.
    rewrite length_insert. by apply (proj1 (Forall_lookup _ _) Ha i r).
  - by apply (proj1 (Forall_lookup _ _) Ha k row).
Qed.

(** The stores of one timestep. *)
Lemma store_points_spec (F : arr3) (ti n : nat) (kji : list (Z * Z * Z))
    (a : arr2) (pi0 : nat) :
  Forall (fun row => length row = n) a -> ti < n -> pi0 + length kji <= length a ->
  Forall (fun row => length row = n) (store_points F ti a pi0 kji) /\
  length (store_points F ti a pi0 kji) = length a /\
  forall pi tj,
    at2 (store_points F ti a pi0 kji) pi tj
    = match kji !! (pi - pi0) with
      | Some c => if decide (pi0 <= pi /\ tj = ti)
                  then Some (astype float64 (node_value F c)) else at2 a pi tj
      | None => at2 a pi tj
      end.
Proof.
  revert a pi0. induction kji as [|c kji IH]; intros a pi0 Ha Hti Hlen; simpl.
  - split; [done |]. split; [done |]. intros pi tj. by rewrite ?lookup_nil.
  - simpl in Hlen.
    destruct (rect_setitem2 a pi0 ti (node_value F c) n Ha) as [Ha' Hl'].
    destruct (IH (setitem2 a pi0 ti (node_value F c)) (S pi0) Ha' Hti ltac:(lia))
      as (Hr & Hl & Hat).
    split; [done |]. split; [lia |].
    intros pi tj. rewrite Hat.
    rewrite (at2_setitem2 a pi0 ti _ pi tj n Ha) by lia.
    destruct (decide (pi = pi0)) as [-> | Hne].
    + replace (pi0 - S pi0) with 0 by lia. rewrite Nat.sub_diag. simpl.
      destruct kji as [|c' kji']; simpl; repeat case_decide; try done; lia.
    + destruct (decide (pi < pi0)) as [Hlt | Hge].
      * replace (pi - S pi0) with 0 by lia. replace (pi - pi0) with 0 by lia. simpl.
        destruct kji as [|c' kji']; simpl; repeat case_decide; try done; lia.
      * replace (pi - pi0) with (S (pi - S pi0)) by lia. simpl.
        destruct (kji !! (pi - S pi0)); repeat case_decide; try done; lia.
Qed.

(** The stores of all timesteps. *)
Lemma store_times_spec (name : string) (kji : list (Z * Z * Z)) (n : nat)
    (grids : list (gmap string arr3)) (a : arr2) (ti0 : nat) :
  Forall (fun row => length row = n) a -> ti0 + length grids <= n ->
  length kji <= length a ->
  Forall (fun row => length row = n) (store_times name kji a ti0 grids) /\
  length (store_times name kji a ti0 grids) = length a /\
  forall pi tj,
    at2 (store_times name kji a ti0 grids) pi tj
    = match kji !! pi, grids !! (tj - ti0) with
      | Some c, Some gd =>
          if decide (ti0 <= tj)
          then Some (astype float64 (node_value (grid_field name gd) c))
          else at2 a pi tj
      | _, _ => at2 a pi tj
      end.
Proof.
  revert a ti0. induction grids as [|gd grids IH]; intros a ti0 Ha Hlen Hk; simpl.
  - split; [done |]. split; [done |]. intros pi tj. rewrite ?lookup_nil.
    by destruct (kji !! pi).
  - simpl in Hlen.
    destruct (store_points_spec (grid_field name gd) ti0 n kji a 0 Ha ltac:(lia) ltac:(lia))
      as (Ha' & Hl' & Hat').
    destruct (IH (store_points (grid_field name gd) ti0 a 0 kji) (S ti0) Ha'
                ltac:(lia) ltac:(lia)) as (Hr & Hl & Hat).
    split; [done |]. split; [lia |].
    intros pi tj. rewrite Hat, Hat'. rewrite Nat.sub_0_r.
    destruct (kji !! pi) as [c|] eqn:Hc; [| done].
    destruct (decide (tj = ti0)) as [-> | Hne].
    + replace (ti0 - S ti0) with 0 by lia. rewrite Nat.sub_diag. simpl.
      destruct grids as [|gd' grids']; simpl; repeat case_decide; try done; lia.
    + destruct (decide (tj < ti0)) as [Hlt | Hge].
      * replace (tj - S ti0) with 0 by lia. replace (tj - ti0) with 0 by lia. simpl.
        destruct grids as [|gd' grids']; simpl; repeat case_decide; try done; lia.
      * replace (tj - ti0) with (S (tj - S ti0)) by lia. simpl.
        destruct (grids !! (tj - S ti0)); repeat case_decide; try done; lia.
Qed.

Lemma extract_point_Ok (gd : gmap string arr3) (n2 n1 n0 : nat) (ti pi : nat)
    (acc : point_series) (c : Z * Z * Z) :
  full_grid n2 n1 n0 gd -> inside n2 n1 n0 c ->
  extract_point gd ti acc pi c
  = Ok {| ps_t := ps_t acc;
          ps_u := setitem2 (ps_u acc) pi ti (node_value (grid_field "U" gd) c);
          ps_v := setitem2 (ps_v acc) pi ti (node_value (grid_field "V" gd) c);
          ps_w := setitem2 (ps_w acc) pi ti (node_value (grid_field "W" gd) c);
          ps_ufs := setitem2 (ps_ufs acc) pi ti (node_value (grid_field "Ufs" gd) c);
          ps_vfs := setitem2 (ps_vfs acc) pi ti (node_value (grid_field "Vfs" gd) c);
          ps_wfs := setitem2 (ps_wfs acc) pi ti (node_value (grid_field "Wfs" gd) c) |}.
Proof.
  intros HG Hc. unfold extract_point, dict_getitem.
  destruct (full_grid_field n2 n1 n0 gd "U" HG) as [-> SU]; [in_list |].
  destruct (full_grid_field n2 n1 n0 gd "V" HG) as [-> SV]; [in_list |].
  destruct (full_grid_field n2 n1 n0 gd "W" HG) as [-> SW]; [in_list |].
  destruct (full_grid_field n2 n1 n0 gd "Ufs" HG) as [-> SUfs]; [in_list |].
  destruct (full_grid_field n2 n1 n0 gd "Vfs" HG) as [-> SVfs]; [in_list |].
  destruct (full_grid_field n2 n1 n0 gd "Wfs" HG) as [-> SWfs]; [in_list |].
  simpl.
  rewrite (getitem3_inside n2 n1 n0 _ c SU Hc). simpl.
  rewrite (getitem3_inside n2 n1 n0 _ c SV Hc). simpl.
  rewrite (getitem3_inside n2 n1 n0 _ c SW Hc). simpl.
  rewrite (getitem3_inside n2 n1 n0 _ c SUfs Hc). simpl.
  rewrite (getitem3_inside n2 n1 n0 _ c SVfs Hc). simpl.
  by rewrite (getitem3_inside n2 n1 n0 _ c SWfs Hc).
Qed.

Lemma extract_points_Ok (gd : gmap string arr3) (n2 n1 n0 : nat) (ti : nat)
    (kji : list (Z * Z * Z)) (acc : point_series) (pi : nat) :
  full_grid n2 n1 n0 gd -> Forall (inside n2 n1 n0) kji ->
  extract_points gd ti acc pi kji
  = Ok {| ps_t := ps_t acc;
          ps_u := store_points (grid_field "U" gd) ti (ps_u acc) pi kji;
          ps_v := store_points (grid_field "V" gd) ti (ps_v acc) pi kji;
          ps_w := store_points (grid_field "W" gd) ti (ps_w acc) pi kji;
          ps_ufs := store_points (grid_field "Ufs" gd) ti (ps_ufs acc) pi kji;
          ps_vfs := store_points (grid_field "Vfs" gd) ti (ps_vfs acc) pi kji;
          ps_wfs := store_points (grid_field "Wfs" gd) ti (ps_wfs acc) pi kji |}.
Proof.
  intros HG Hk. revert acc pi. induction Hk as [|c kji Hc Hk IH]; intros acc pi; simpl.
  - by destruct acc.
  - rewrite (extract_point_Ok gd n2 n1 n0 ti pi acc c HG Hc). simpl. by rewrite IH.
Qed.

Lemma extract_times_Ok (fs : filesystem) (self : CactusField) (n2 n1 n0 : nat)
    (kji : list (Z * Z * Z)) (window : list float) (grids : list (gmap string arr3)) :
  Forall (inside n2 n1 n0) kji ->
  Forall2 (fun t gd => exists df dims,
             get_df_inst fs self (Some t) None = Ok df /\
             fielddata_from_df df = Ok (gd, dims) /\ full_grid n2 n1 n0 gd)
          window grids ->
  forall (acc : point_series) (ti : nat),
  extract_times fs self kji acc ti window
  = Ok {| ps_t := ps_t acc;
          ps_u := store_times "U" kji (ps_u acc) ti grids;
          ps_v := store_times "V" kji (ps_v acc) ti grids;
          ps_w := store_times "W" kji (ps_w acc) ti grids;
          ps_ufs := store_times "Ufs" kji (ps_ufs acc) ti grids;
          ps_vfs := store_times "Vfs" kji (ps_vfs acc) ti grids;
          ps_wfs := store_times "Wfs" kji (ps_wfs acc) ti grids |}.
Proof.
  intros Hk. induction 1 as [|t gd window grids (df & dims & Hdf & Hgd & HG) Hrest IH];
    intros acc ti; simpl.
  - by destruct acc.
  - rewrite Hdf. simpl. rewrite Hgd. simpl.
    rewrite (extract_points_Ok gd n2 n1 n0 ti kji acc 0 HG Hk). simpl. by rewrite IH.
Qed.

Lemma np_zeros2_rect (n m : nat) :
  Forall (fun row : list float => length row = m) (np_zeros2 n m) /\
  length (np_zeros2 n m) = n.
Proof.
  unfold np_zeros2. split; [| by rewrite length_replicate].
  apply Forall_replicate. by rewrite length_replicate.
Qed.

(** X17.  When the nearest nodes lie inside the arrays and every timestep
    of the window has a table with the freestream columns and the same grid
    dimensions, [pointdata_time_series] returns the window's times and six
    arrays of shape [number of points, number of timesteps]; entry
    [pi, ti] of each is the value of that field, in the table of timestep
    [ti] of the window, at the node nearest to point [pi], converted to
    double precision. *)
Theorem pointdata_time_series_values
    (fs : filesystem) (self : CactusField) (p_list : list (float * float * float))
    (ti_start ti_end : Z) (kji : list (Z * Z * Z))
    (grids : list (gmap string arr3)) (n2 n1 n0 : nat) :
  nearest_nodes fs self p_list = Ok kji ->
  Forall (inside n2 n1 n0) kji ->
  Forall2 (fun t gd => exists df dims,
             get_df_inst fs self (Some t) None = Ok df /\
             fielddata_from_df df = Ok (gd, dims) /\ has_vel_fs df = true /\
             nz dims = n2 /\ ny dims = n1 /\ nx dims = n0)
          (py_slice ti_start ti_end (times self)) grids ->
  exists ps,
    pointdata_time_series fs self p_list ti_start ti_end = Ok ps /\
    ps_t ps = py_slice ti_start ti_end (times self) /\
    forall (name : string) (A : arr2),
      (name, A) ∈ [("U", ps_u ps); ("V", ps_v ps); ("W", ps_w ps);
                   ("Ufs", ps_ufs ps); ("Vfs", ps_vfs ps); ("Wfs", ps_wfs ps)] ->
      shape2 (length p_list) (length grids) A /\
      forall pi ti c gd, kji !! pi = Some c -> grids !! ti = Some gd ->
        exists G v,
          gd !! name = Some G /\ getitem3 G c = Ok v /\
          at2 A pi ti = Some (astype float64 v).
Proof.
  intros Hnn Hin Hall.
  assert (Hfull : Forall2 (fun t gd => exists df dims,
             get_df_inst fs self (Some t) None = Ok df /\
             fielddata_from_df df = Ok (gd, dims) /\ full_grid n2 n1 n0 gd)
          (py_slice ti_start ti_end (times self)) grids).
  { eapply Forall2_impl; [exact Hall |].
    intros t gd (df & dims & Hdf & Hgd & Hfs & <- & <- & <-).
    exists df, dims. repeat split; try done. by apply (fielddata_from_df_full_grid df). }
  assert (HG : Forall (full_grid n2 n1 n0) grids).
  { clear -Hfull. induction Hfull as [|t gd w g (df & dims & _ & _ & H) _ IH]; by constructor. }
  pose proof (Forall2_length _ _ _ Hfull) as Hlen.
  pose proof (nearest_nodes_length _ _ _ _ Hnn) as Hkl.
  unfold pointdata_time_series. rewrite Hnn. simpl.
  rewrite (extract_times_Ok fs self n2 n1 n0 kji _ grids Hin Hfull). simpl.
  eexists. split; [reflexivity |]. simpl. split; [done |].
  rewrite Hlen, <- Hkl.
  assert (Hgen : forall name,
    name ∈ ["X"; "Y"; "Z"; "U"; "V"; "W"; "Ufs"; "Vfs"; "Wfs"] ->
    shape2 (length kji) (length grids)
      (store_times name kji (np_zeros2 (length kji) (length grids)) 0 grids) /\
    forall pi ti c gd, kji !! pi = Some c -> grids !! ti = Some gd ->
      exists G v,
        gd !! name = Some G /\ getitem3 G c = Ok v /\
        at2 (store_times name kji (np_zeros2 (length kji) (length grids)) 0 grids) pi ti
        = Some (astype float64 v)).
  { intros name Hname.
    destruct (np_zeros2_rect (length kji) (length grids)) as [Hz Hzl].
    destruct (store_times_spec name kji (length grids) grids
                (np_zeros2 (length kji) (length grids)) 0 Hz ltac:(lia) ltac:(lia))
      as (Hr & Hl & Hat).
    split; [split; [lia | done] |].
    intros pi ti c gd Hc Hgd.
    pose proof (proj1 (Forall_lookup _ _) HG ti gd Hgd) as HGgd.
    pose proof (proj1 (Forall_lookup _ _) Hin pi c Hc) as Hcin.
    destruct (full_grid_field n2 n1 n0 gd name HGgd Hname) as [HF HS].
    exists (grid_field name gd), (node_value (grid_field name gd) c).
    split; [done |]. split; [by apply (getitem3_inside n2 n1 n0) |].
    rewrite Hat, Hc, Nat.sub_0_r, Hgd. by rewrite decide_True by lia. }
  intros name A HA.
  repeat (apply elem_of_cons in HA as [[= -> ->] | HA]; [apply Hgen; in_list |]).
  by apply elem_of_nil in HA.
Qed.

(** The two one-node files of times 3 and 4 and one point: U is 40, then 50. *)
Lemma pointdata_time_series_values_witness :
  exists cf ps,
    CactusField_init fs_freestream ["d.csv"; "e.csv"] = Ok cf /\
    pointdata_time_series fs_freestream cf [(f64 0, f64 0, f64 0)] 0 2 = Ok ps /\
    ps_t ps = [f64 3; f64 4] /\
    shape2 1 2 (ps_u ps) /\
    ps_u ps = [[astype float64 (of_int float32 40); astype float64 (of_int float32 50)]].
Proof.
  eexists.
  assert (Hinit : CactusField_init fs_freestream ["d.csv"; "e.csv"]
                  = Ok {| filenames := ["d.csv"; "e.csv"]; num_times := 2;
                          times := [f64 3; f64 4];
                          fdict := [(f64 3, "d.csv"); (f64 4, "e.csv")];
                          cf_grid_dims :=
                            {| nx := 1; ny := 1; nz := 1;
                               dx := fzero; dy := fzero; dz := fzero;
                               xlim := (fzero, fzero); ylim := (fzero, fzero);
                               zlim := (fzero, fzero) |} |})
    by (vm_compute; reflexivity).
  set (cf := {| filenames := ["d.csv"; "e.csv"]; num_times := 2;
                times := [f64 3; f64 4];
                fdict := [(f64 3, "d.csv"); (f64 4, "e.csv")];
                cf_grid_dims :=
                  {| nx := 1; ny := 1; nz := 1;
                     dx := fzero; dy := fzero; dz := fzero;
                     xlim := (fzero, fzero); ylim := (fzero, fzero);
                     zlim := (fzero, fzero) |} |}) in *.
  set (df_d := {| df_columns := csv_header ++ freestream_columns;
                  df_rows := map (map read_csv_of) (body (file_fs_at 3 40)) |}).
  set (df_e := {| df_columns := csv_header ++ freestream_columns;
                  df_rows := map (map read_csv_of) (body (file_fs_at 4 50)) |}).
  destruct (fielddata_from_df_intro df_d [f64 0] [f64 0] [f64 0] [f64 40] [f64 0] [f64 0])
    as (gd_d & dims_d & Hd);
    [vm_compute; reflexivity .. | discriminate | vm_compute; reflexivity |].
  destruct (fielddata_from_df_intro df_e [f64 0] [f64 0] [f64 0] [f64 50] [f64 0] [f64 0])
    as (gd_e & dims_e & He);
    [vm_compute; reflexivity .. | discriminate | vm_compute; reflexivity |].
  assert (Dd : nz dims_d = 1 /\ ny dims_d = 1 /\ nx dims_d = 1).
  { destruct (fielddata_from_df_Ok df_d gd_d dims_d Hd)
      as (x & y & z & u & v & w & ymin & ymax & zmin & zmax & X & Y & Z & U & V & W
          & Hx & Hy & Hz & _ & _ & _ & _ & _ & _ & _ & _ & _ & _ & _ & _ & _
          & Hdims & _).
    vm_compute in Hx, Hy, Hz. injection Hx as <-. injection Hy as <-. injection Hz as <-.
    rewrite Hdims. vm_compute. done. }
  assert (De : nz dims_e = 1 /\ ny dims_e = 1 /\ nx dims_e = 1).
  { destruct (fielddata_from_df_Ok df_e gd_e dims_e He)
      as (x & y & z & u & v & w & ymin & ymax & zmin & zmax & X & Y & Z & U & V & W
          & Hx & Hy & Hz & _ & _ & _ & _ & _ & _ & _ & _ & _ & _ & _ & _ & _
          & Hdims & _).
    vm_compute in Hx, Hy, Hz. injection Hx as <-. injection Hy as <-. injection Hz as <-.
    rewrite Hdims. vm_compute. done. }
  destruct (pointdata_time_series_values fs_freestream cf [(f64 0, f64 0, f64 0)] 0 2
              [(0, 0, 0)%Z] [gd_d; gd_e] 1 1 1)
    as (ps & Hps & Ht & Hfields).
  - vm_compute. reflexivity.
  - constructor; [| constructor]. unfold inside. simpl. lia.
  - change (py_slice 0 2 (times cf)) with [f64 3; f64 4].
    constructor; [| constructor; [| constructor]].
    + exists df_d, dims_d. split; [vm_compute; reflexivity |]. split; [exact Hd |].
      split; [vm_compute; reflexivity | exact Dd].
    + exists df_e, dims_e. split; [vm_compute; reflexivity |]. split; [exact He |].
      split; [vm_compute; reflexivity | exact De].
  - exists ps. split; [exact Hinit |]. split; [exact Hps |].
    split; [exact Ht |].
    destruct (Hfields "U" (ps_u ps)) as [Hs _]; [apply list_elem_of_here |].
    split; [exact Hs |].
    assert (E : ps_u <$> pointdata_time_series fs_freestream cf [(f64 0, f64 0, f64 0)] 0 2
                = Ok [[astype float64 (of_int float32 40);
                       astype float64 (of_int float32 50)]])
      by (vm_compute; reflexivity).
    rewrite Hps in E. simpl in E. by injection E.
Defined.

(** ** [CactusWakeGrid.__init__] *)

Lemma split_n_concat {A} (c s : nat) (l : list (list A)) :
  length l = c -> Forall (fun b => length b = s) l -> split_n c s (concat l) = l.
Proof.
  intros <- H. induction H as [|b l Hb Hl IH]; simpl; [done |].
  rewrite take_app_length' by done. rewrite drop_app_length' by done. by rewrite IH.
Qed.

Lemma concat_concat_map {A} (a : list (list (list A))) :
  concat (concat a) = concat (map (@concat A) a).
Proof. induction a as [|p a IH]; simpl; [done |]. by rewrite concat_app, IH. Qed.

(** Reshaping the flattening of an array to its own shape gives it back. *)
Lemma reshape3_ravel3 (n2 n1 n0 : nat) (a : arr3) :
  shape3 n2 n1 n0 a -> reshape3 (ravel3 a) n2 n1 n0 = Ok a.
Proof.
  intros Ha. pose proof (length_ravel3_shape3 _ _ _ _ Ha) as Hl.
  rewrite reshape3_intro by done. f_equal.
  destruct Ha as [La Ha]. unfold ravel3. rewrite concat_concat_map.
  rewrite split_n_concat.
  - clear La Hl. induction Ha as [|p a [Lp Hp] Ha IH]; simpl; [done |].
    rewrite IH. f_equal. by apply split_n_concat.
  - by rewrite length_map.
  - apply Forall_map. eapply Forall_impl; [exact Ha |]. intros p Hp. simpl.
    by apply length_concat_shape2.
Qed.

Lemma ravel4_reshape4 (l : list float) (nt nz ny nx : nat) (a : arr4) :
  reshape4 l nt nz ny nx = Ok a -> ravel4 a = l.
Proof.
  intros H. apply reshape4_Ok in H as [Hl ->]. unfold ravel4.
  assert (Hb : Forall (fun b : list float => length b = nz * (ny * nx))
                      (split_n nt (nz * ny * nx) l)).
  { replace (nz * (ny * nx)) with (nz * ny * nx) by lia.
    apply Forall_length_split_n. lia. }
  rewrite <- (concat_split_n nt (nz * ny * nx) l) at 2 by lia.
  induction Hb as [|b bs Hb Hbs IH]; simpl; [done |].
  rewrite !concat_app. f_equal; [| done].
  by rewrite concat_map_split_n.
Qed.

(** The first time block of a 4-D reshape. *)
Lemma reshape4_first_block (l : list float) (nt nz ny nx : nat) (a : arr4) (b : arr3) :
  reshape4 l nt nz ny nx = Ok a -> getitem a 0 = Ok b ->
  ravel3 b = take (nz * ny * nx) l /\ shape3 nz ny nx b.
Proof.
  intros H Hb. pose proof (reshape4_shape4 _ _ _ _ _ _ H) as [La Ha].
  apply reshape4_Ok in H as [Hl ->].
  destruct nt as [|nt]; [done |]. simpl in Hb, Ha.
  change (getitem (?x :: ?r) 0) with (Ok (A := arr3) x) in Hb. injection Hb as <-.
  apply Forall_cons in Ha as [Hs _]. split; [| done].
  unfold ravel3. rewrite concat_map_split_n; [done |].
  rewrite length_take. nia.
Qed.

(** X18.  A [CactusWakeGrid] keeps the table's values exactly, in row
    order: each velocity field, flattened in row-major order, is its column
    (no conversion to single precision takes place), and the coordinate
    arrays X, Y, Z, of shape [nz, ny, nx], hold the first nz*ny*nx entries
    of their columns, that is the coordinates of the first time block. *)
Theorem wake_grid_keeps_columns (df : DataFrame) (g : Wake.CactusWakeGrid) :
  Wake.CactusWakeGrid_init df = Ok g ->
  exists x y z u v w U V W,
    df_loc df x_col_name = Ok x /\ df_loc df y_col_name = Ok y /\
    df_loc df z_col_name = Ok z /\ df_loc df u_col_name = Ok u /\
    df_loc df v_col_name = Ok v /\ df_loc df w_col_name = Ok w /\
    Wake.U g = Wake.Field4 U /\ Wake.V g = Wake.Field4 V /\ Wake.W g = Wake.Field4 W /\
    ravel4 U = u /\ ravel4 V = v /\ ravel4 W = w /\
    ravel3 (Wake.X_ g) = take (Wake.nz g * Wake.ny g * Wake.nx g) x /\
    ravel3 (Wake.Y_ g) = take (Wake.nz g * Wake.ny g * Wake.nx g) y /\
    ravel3 (Wake.Z_ g) = take (Wake.nz g * Wake.ny g * Wake.nx g) z /\
    shape3 (Wake.nz g) (Wake.ny g) (Wake.nx g) (Wake.X_ g) /\
    shape3 (Wake.nz g) (Wake.ny g) (Wake.nx g) (Wake.Y_ g) /\
    shape3 (Wake.nz g) (Wake.ny g) (Wake.nx g) (Wake.Z_ g).
Proof.
  unfold Wake.CactusWakeGrid_init. intros H.
  bind_inv H as t Ht. cbv zeta in H.
  bind_inv H as x Hx; bind_inv H as y Hy; bind_inv H as z Hz.
  bind_inv H as u Hu; bind_inv H as v Hv; bind_inv H as w Hw.
  bind_inv H as dx Hdx; bind_inv H as dy Hdy; bind_inv H as dz Hdz.
  bind_inv H as X HX; bind_inv H as Y HY; bind_inv H as Z HZ.
  bind_inv H as X0 HX0; bind_inv H as Y0 HY0; bind_inv H as Z0 HZ0.
  bind_inv H as U HU; bind_inv H as V HV; bind_inv H as W HW.
  injection H as <-. simpl.
  bind_inv HX0 as bx Hbx. bind_inv HY0 as by_ Hby. bind_inv HZ0 as bz Hbz.
  destruct (reshape4_first_block _ _ _ _ _ _ _ HX Hbx) as [Rx Sx].
  destruct (reshape4_first_block _ _ _ _ _ _ _ HY Hby) as [Ry Sy].
  destruct (reshape4_first_block _ _ _ _ _ _ _ HZ Hbz) as [Rz Sz].
  rewrite (reshape3_ravel3 _ _ _ _ Sx) in HX0. injection HX0 as <-.
  rewrite (reshape3_ravel3 _ _ _ _ Sy) in HY0. injection HY0 as <-.
  rewrite (reshape3_ravel3 _ _ _ _ Sz) in HZ0. injection HZ0 as <-.
  exists x, y, z, u, v, w, U, V, W.
  repeat split; try done; try by eapply ravel4_reshape4.
  all: by (apply Sx || apply Sy || apply Sz).
Qed.

(** Two nodes on a line at two times. *)
Lemma wake_grid_keeps_columns_witness :
  exists g U,
    Wake.CactusWakeGrid_init df_line = Ok g /\
    Wake.U g = Wake.Field4 U /\
    ravel4 U = [f64 10; f64 11; f64 20; f64 21] /\
    ravel3 (Wake.X_ g) = [f64 0; f64 1].
Proof.
  assert (Hinit : is_Ok (Wake.CactusWakeGrid_init df_line) = true) by (vm_compute; reflexivity).
  destruct (Wake.CactusWakeGrid_init df_line) as [g|e] eqn:E; [| discriminate].
  destruct (wake_grid_keeps_columns df_line g E)
    as (x & y & z & u & v & w & U & V & W & Hx & _ & _ & Hu & _ & _ & HU & _ & _
        & RU & _ & _ & RX & _).
  exists g, U. split; [reflexivity |]. split; [exact HU |].
  vm_compute in Hx, Hu. injection Hx as <-. injection Hu as <-.
  split; [exact RU |]. rewrite RX.
  assert (Hn : Wake.nz <$> Wake.CactusWakeGrid_init df_line = Ok 1
               /\ Wake.ny <$> Wake.CactusWakeGrid_init df_line = Ok 1
               /\ Wake.nx <$> Wake.CactusWakeGrid_init df_line = Ok 2)
    by (vm_compute; done).
  rewrite E in Hn. simpl in Hn. destruct Hn as ([= ->] & [= ->] & [= ->]). reflexivity.
Defined.

Lemma reshape4_intro (l : list float) (nt nz ny nx : nat) :
  length l = nt * nz * ny * nx -> exists a, reshape4 l nt nz ny nx = Ok a.
Proof. intros H. unfold reshape4. rewrite decide_True by done. eauto. Qed.

Lemma reshape4_Raise (l : list float) (nt nz ny nx : nat) :
  length l <> nt * nz * ny * nx -> reshape4 l nt nz ny nx = Raise ValueError.
Proof. intros H. unfold reshape4. by rewrite decide_False. Qed.

(** The coordinate array of the first time block is always obtained. *)
Lemma first_block_Ok (l : list float) (nt nz ny nx : nat) (a : arr4) :
  reshape4 l nt nz ny nx = Ok a -> nt <> 0 ->
  exists b, (a0 ← getitem a 0; reshape3 (ravel3 a0) nz ny nx) = Ok b.
Proof.
  intros H Hnt. pose proof (reshape4_shape4 _ _ _ _ _ _ H) as [La Ha].
  destruct a as [|a0 a]; [simpl in La; lia |].
  change (getitem (a0 :: a) 0) with (Ok (A := arr3) a0). simpl.
  apply Forall_cons in Ha as [Ha0 _]. rewrite (reshape3_ravel3 _ _ _ _ Ha0). eauto.
Qed.

Lemma series_spacing_nonempty (col : arr1) (n : nat) :
  col <> [] ->
  Wake.series_spacing col n
  = Ok (fdiv float64 (fsub float64 (series_max col) (series_min col))
          (of_int float64 (Z.of_nat n))).
Proof. by destruct col. Qed.

(** X19.  The outcome of constructing a [CactusWakeGrid] from a table.  A
    missing column raises KeyError naming the first missing one of time, x,
    y, z, u, v, w.  With all seven columns: a table without rows raises
    ZeroDivisionError (at dx, where the extrema of the empty column, the
    Python float nan, are divided by the count 0); a table whose
    number of rows is not nt*nz*ny*nx, the product of the numbers of
    distinct times and coordinates, raises ValueError; every other table is
    accepted. *)
Theorem wake_grid_init_outcome (df : DataFrame) :
  (forall pre name post,
     time_col_name :: field_columns = pre ++ name :: post ->
     Forall (fun c => df_contains df c = true) pre ->
     df_contains df name = false ->
     Wake.CactusWakeGrid_init df = Raise (KeyError (KStr name))) /\
  (forall t x y z,
     Forall (fun c => df_contains df c = true) (time_col_name :: field_columns) ->
     df_loc df time_col_name = Ok t -> df_loc df x_col_name = Ok x ->
     df_loc df y_col_name = Ok y -> df_loc df z_col_name = Ok z ->
     (df_rows df = [] -> Wake.CactusWakeGrid_init df = Raise ZeroDivisionError) /\
     (df_rows df <> [] ->
      length (df_rows df)
        <> length (pd_unique t) * length (pd_unique z) * length (pd_unique y)
           * length (pd_unique x) ->
      Wake.CactusWakeGrid_init df = Raise ValueError) /\
     (df_rows df <> [] ->
      length (df_rows df)
        = length (pd_unique t) * length (pd_unique z) * length (pd_unique y)
          * length (pd_unique x) ->
      is_Ok (Wake.CactusWakeGrid_init df) = true)).
Proof.
  split.
  - intros pre name post Hsplit Hpre Hname. apply df_loc_missing in Hname.
    unfold field_columns in Hsplit. unfold Wake.CactusWakeGrid_init.
    repeat (destruct pre as [|c pre];
            [ injection Hsplit as <- _; by rewrite Hname
            | injection Hsplit as <- Hsplit;
              apply Forall_cons in Hpre as [[? ->]%df_contains_loc Hpre]; simpl ]).
    by destruct pre.
  - intros t x y z Hall Ht Hx Hy Hz.
    unfold field_columns in Hall.
    apply Forall_cons in Hall as [_ Hall]. apply Forall_cons in Hall as [_ Hall].
    apply Forall_cons in Hall as [_ Hall]. apply Forall_cons in Hall as [_ Hall].
    apply Forall_cons in Hall as [[u Hu]%df_contains_loc Hall].
    apply Forall_cons in Hall as [[v Hv]%df_contains_loc Hall].
    apply Forall_cons in Hall as [[w Hw]%df_contains_loc _].
    pose proof (length_df_loc _ _ _ Ht) as Lt. pose proof (length_df_loc _ _ _ Hx) as Lx.
    pose proof (length_df_loc _ _ _ Hy) as Ly. pose proof (length_df_loc _ _ _ Hz) as Lz.
    pose proof (length_df_loc _ _ _ Hu) as Lu. pose proof (length_df_loc _ _ _ Hv) as Lv.
    pose proof (length_df_loc _ _ _ Hw) as Lw.
    unfold Wake.CactusWakeGrid_init. rewrite Ht. simpl.
    rewrite Hx, Hy, Hz, Hu, Hv, Hw. simpl.
    split; [| split].
    + intros Hr. rewrite Hr in Lt, Lx, Ly, Lz.
      destruct t, x, y, z; try done.
    + intros Hne Hlen.
      rewrite !series_spacing_nonempty by (by eapply df_loc_nonempty). simpl.
      rewrite (reshape4_Raise x) by congruence. done.
    + intros Hne Hlen.
      rewrite !series_spacing_nonempty by (by eapply df_loc_nonempty). simpl.
      assert (Hnt : length (pd_unique t) <> 0).
      { intros E%length_zero_iff_nil. revert E. apply pd_unique_nonempty.
        by eapply df_loc_nonempty. }
      destruct (reshape4_intro x (length (pd_unique t)) (length (pd_unique z))
                  (length (pd_unique y)) (length (pd_unique x))) as [X HX]; [congruence |].
      destruct (reshape4_intro y (length (pd_unique t)) (length (pd_unique z))
                  (length (pd_unique y)) (length (pd_unique x))) as [Y HY]; [congruence |].
      destruct (reshape4_intro z (length (pd_unique t)) (length (pd_unique z))
                  (length (pd_unique y)) (length (pd_unique x))) as [Z HZ]; [congruence |].
      destruct (reshape4_intro u (length (pd_unique t)) (length (pd_unique z))
                  (length (pd_unique y)) (length (pd_unique x))) as [U HU]; [congruence |].
      destruct (reshape4_intro v (length (pd_unique t)) (length (pd_unique z))
                  (length (pd_unique y)) (length (pd_unique x))) as [V HV]; [congruence |].
      destruct (reshape4_intro w (length (pd_unique t)) (length (pd_unique z))
                  (length (pd_unique y)) (length (pd_unique x))) as [W HW]; [congruence |].
      rewrite HX, HY, HZ. simpl.
      destruct (first_block_Ok _ _ _ _ _ _ HX Hnt) as [X0 ->].
      destruct (first_block_Ok _ _ _ _ _ _ HY Hnt) as [Y0 ->].
      destruct (first_block_Ok _ _ _ _ _ _ HZ Hnt) as [Z0 ->].
      simpl. by rewrite HU, HV, HW.
Qed.

(** ** [Series.unique] *)

Lemma pd_eqb_refl (a : float) : pd_eqb a a = true.
Proof.
  unfold pd_eqb. destruct (isnan a) eqn:E; [by rewrite orb_true_r |].
  by rewrite SFeqb_refl.
Qed.

Lemma pd_unique_aux_sublist (l seen : list float) : sublist (pd_unique_aux seen l) l.
Proof.
  revert seen. induction l as [|x l IH]; intros seen; simpl; [constructor |].
  destruct (existsb (pd_eqb x) seen); [apply sublist_cons, IH | apply sublist_skip, IH].
Qed.

Lemma pd_unique_aux_covers (l seen : list float) (a : float) :
  a ∈ l ->
  existsb (pd_eqb a) seen = true \/
  exists b, b ∈ pd_unique_aux seen l /\ pd_eqb a b = true.
Proof.
  revert seen. induction l as [|x l IH]; intros seen Ha; [by apply elem_of_nil in Ha |].
  simpl. apply elem_of_cons in Ha as [-> | Ha].
  - destruct (existsb (pd_eqb x) seen) eqn:E; [by left |].
    right. exists x. split; [apply list_elem_of_here | apply pd_eqb_refl].
  - destruct (existsb (pd_eqb x) seen) eqn:E; [by apply IH |].
    destruct (IH (x :: seen) Ha) as [Hs | (b & Hb & Hab)].
    + simpl in Hs. apply orb_true_iff in Hs as [Hax | Hs]; [| by left].
      right. exists x. split; [apply list_elem_of_here | done].
    + right. exists b. split; [by apply list_elem_of_further | done].
Qed.

Lemma pd_unique_aux_fresh (l seen : list float) :
  Forall (fun b => existsb (pd_eqb b) seen = false) (pd_unique_aux seen l).
Proof.
  revert seen. induction l as [|x l IH]; intros seen; simpl; [constructor |].
  destruct (existsb (pd_eqb x) seen) eqn:E; [apply IH |].
  constructor; [done |]. eapply Forall_impl; [apply (IH (x :: seen)) |].
  intros b Hb. simpl in Hb. by apply orb_false_iff in Hb as [_ Hb].
Qed.

Lemma pd_unique_aux_distinct (l seen : list float) (i j : nat) (a b : float) :
  i < j -> pd_unique_aux seen l !! i = Some a -> pd_unique_aux seen l !! j = Some b ->
  pd_eqb b a = false.
Proof.
  revert seen i j. induction l as [|x l IH]; intros seen i j Hij Hi Hj; [done |].
  simpl in Hi, Hj. destruct (existsb (pd_eqb x) seen) eqn:E; [by apply (IH seen i j) |].
  destruct j as [|j]; [lia |]. simpl in Hj.
  destruct i as [|i]; simpl in Hi.
  - injection Hi as <-. apply list_elem_of_lookup_2 in Hj.
    pose proof (proj1 (Forall_forall _ _) (pd_unique_aux_fresh l (x :: seen)) b Hj) as Hb.
    simpl in Hb. by apply orb_false_iff in Hb as [Hb _].
  - apply (IH (x :: seen) i j); [lia | done | done].
Qed.

(** X20.  The [times] of a [CactusWakeGrid] are the distinct values of the
    time column in the order they appear there (they are not sorted): they
    form a subsequence of the column that starts with its first entry,
    every time of the column equals one of them, and no two of them are
    equal; [num_times] and [nt] count them. *)
Theorem wake_grid_times_distinct (df : DataFrame) (g : Wake.CactusWakeGrid) (t : arr1) :
  Wake.CactusWakeGrid_init df = Ok g -> df_loc df time_col_name = Ok t ->
  sublist (Wake.times g) t /\
  head (Wake.times g) = head t /\
  (forall a, a ∈ t -> exists b, b ∈ Wake.times g /\ pd_eqb a b = true) /\
  (forall i j a b, i < j -> Wake.times g !! i = Some a -> Wake.times g !! j = Some b ->
     pd_eqb b a = false) /\
  Wake.num_times g = length (Wake.times g) /\ Wake.nt g = length (Wake.times g).
Proof.
  intros H Ht.
  destruct (CactusWakeGrid_init_Ok df g H)
    as (t' & x & y & z & u & v & w & U & V & W & Ht' & _ & _ & _ & _ & _ & _
        & Htimes & Hnum & Hnt & _).
  rewrite Ht in Ht'. injection Ht' as <-. rewrite Htimes, Hnum, Hnt.
  split; [apply pd_unique_aux_sublist |]. split; [by destruct t |].
  split; [| split; [| done]].
  - intros a Ha. destruct (pd_unique_aux_covers t [] a Ha) as [Hs | Hb]; [done | exact Hb].
  - intros i j a b. apply pd_unique_aux_distinct.
Qed.

(** A table that lists time 1 before time 0. *)
Lemma wake_grid_times_distinct_witness :
  exists g,
    Wake.CactusWakeGrid_init
      {| df_columns := time_col_name :: field_columns;
         df_rows := [f64 1 :: node 0 0 0; f64 0 :: node 0 0 0] |} = Ok g /\
    Wake.times g = [f64 1; f64 0] /\ Wake.nt g = 2.
Proof.
  set (df := {| df_columns := time_col_name :: field_columns;
                df_rows := [f64 1 :: node 0 0 0; f64 0 :: node 0 0 0] |}).
  assert (Hinit : is_Ok (Wake.CactusWakeGrid_init df) = true) by (vm_compute; reflexivity).
  destruct (Wake.CactusWakeGrid_init df) as [g|e] eqn:E; [| discriminate].
  exists g. split; [reflexivity |].
  destruct (wake_grid_times_distinct df g [f64 1; f64 0] E) as (_ & _ & _ & _ & _ & Hnt);
    [vm_compute; reflexivity |].
  assert (Ht : Wake.times <$> Wake.CactusWakeGrid_init df = Ok [f64 1; f64 0])
    by (vm_compute; reflexivity).
  rewrite E in Ht. simpl in Ht. injection Ht as Ht. rewrite Hnt, Ht. done.
Defined.

(** ** What a spatial slice holds *)

Lemma traverse_Forall2 {A B} (f : A -> result B) (l : list A) (l' : list B) :
  traverse f l = Ok l' -> Forall2 (fun x y => f x = Ok y) l l'.
Proof.
  revert l'. induction l as [|x l IH]; intros l' H; simpl in H.
  - injection H as <-. constructor.
  - bind_inv H as y Hy. bind_inv H as ys Hys. injection H as <-.
    constructor; [done | by apply IH].
Qed.

Lemma Forall2_shape {A B} (R : A -> B -> Prop) (P : A -> Prop) (Q : B -> Prop)
    (l : list A) (l' : list B) (n : nat) :
  Forall2 R l l' -> length l = n -> Forall P l ->
  (forall x y, R x y -> P x -> Q y) ->
  length l' = n /\ Forall Q l'.
Proof.
  intros HR <- HP HPQ. split; [by rewrite (Forall2_length _ _ _ HR) |].
  induction HR as [|x y l l' Hxy HR IH]; [constructor |].
  apply Forall_cons in HP as [Hx HP]. constructor; [by eapply HPQ | by apply IH].
Qed.

Lemma getitem_elem {A} (l : list A) (i : Z) (x : A) : getitem l i = Ok x -> x ∈ l.
Proof.
  unfold getitem. intros H. bind_inv H as k Hk.
  destruct (l !! k) eqn:E; [| done]. injection H as <-. by eapply list_elem_of_lookup_2.
Qed.

(** Slicing a 4-D array of shape [nt, nz, ny, nx] along one axis. *)
Lemma slice_reshape_selects (axis : string) (a : arr4) (i : Z)
    (nt nz ny nx n1 n2 : nat) (F' : Wake.field) :
  shape4 nt nz ny nx a ->
  (axis, n1, n2) ∈ [("x", ny, nz); ("y", nx, nz); ("z", nx, ny)] ->
  Wake.slice_reshape axis (Wake.Field4 a) i nt n1 n2 = Ok F' ->
  exists s, F' = Wake.Field3 s /\ shape3 nt n2 n1 s /\
    (axis = "x" ->
       Forall2 (Forall2 (Forall2 (fun (row : arr1) v => getitem row i = Ok v))) a s) /\
    (axis = "y" ->
       Forall2 (Forall2 (fun (plane : arr2) r => getitem plane i = Ok r)) a s) /\
    (axis = "z" -> Forall2 (fun (vol : arr3) p => getitem vol i = Ok p) a s).
Proof.
  intros [Hlen Ha] Hin H.
  rewrite !elem_of_cons, elem_of_nil in Hin.
  destruct Hin as [Hin|[Hin|[Hin|[]]]]; injection Hin as -> -> ->;
    unfold Wake.slice_reshape in H; simpl in H.
  - (* x *)
    bind_inv H as s Hs. apply traverse_Forall2 in Hs.
    assert (Hrel : Forall2 (Forall2 (Forall2 (fun (row : arr1) v => getitem row i = Ok v))) a s).
    { eapply Forall2_impl; [exact Hs |]. intros vol p Hp. apply traverse_Forall2 in Hp.
      eapply Forall2_impl; [exact Hp |]. intros plane r Hr. by apply traverse_Forall2 in Hr. }
    assert (Hshape : shape3 nt nz ny s).
    { eapply (Forall2_shape _ (shape3 nz ny nx) (shape2 nz ny)); [exact Hrel | done | done |].
      intros vol p Hp [Lv Hv].
      eapply (Forall2_shape _ (shape2 ny nx) (fun r => length r = ny)); [exact Hp | done | done |].
      intros plane r Hr [Lp _]. by rewrite <- (Forall2_length _ _ _ Hr). }
    rewrite (reshape3_ravel3 _ _ _ _ Hshape) in H. injection H as <-.
    exists s. repeat split; try done; by apply Hshape.
  - (* y *)
    bind_inv H as s Hs. apply traverse_Forall2 in Hs.
    assert (Hrel : Forall2 (Forall2 (fun (plane : arr2) r => getitem plane i = Ok r)) a s).
    { eapply Forall2_impl; [exact Hs |]. intros vol p Hp. by apply traverse_Forall2 in Hp. }
    assert (Hshape : shape3 nt nz nx s).
    { eapply (Forall2_shape _ (shape3 nz ny nx) (shape2 nz nx)); [exact Hrel | done | done |].
      intros vol p Hp [Lv Hv].
      eapply (Forall2_shape _ (shape2 ny nx) (fun r => length r = nx)); [exact Hp | done | done |].
      intros plane r Hr [_ Hrows]. apply getitem_elem in Hr.
      by apply (proj1 (Forall_forall _ _) Hrows). }
    rewrite (reshape3_ravel3 _ _ _ _ Hshape) in H. injection H as <-.
    exists s. repeat split; try done; by apply Hshape.
  - (* z *)
    bind_inv H as s Hs. apply traverse_Forall2 in Hs.
    assert (Hshape : shape3 nt ny nx s).
    { eapply (Forall2_shape _ (shape3 nz ny nx) (shape2 ny nx)); [exact Hs | done | done |].
      intros vol p Hp [_ Hplanes]. apply getitem_elem in Hp.
      by apply (proj1 (Forall_forall _ _) Hplanes). }
    rewrite (reshape3_ravel3 _ _ _ _ Hshape) in H. injection H as <-.
    exists s. repeat split; try done; by apply Hshape.
Qed.

(** X21.  A spatial slice of a reconstructed grid holds exactly the
    selected entries, in their order.  Along x, entry [t, k, j] of the
    result is entry [t, k, j, i] of the field and the shape is
    [nt, nz, ny]; along y, row [t, k] of the result is row [t, k, i] and the
    shape is [nt, nz, nx]; along z, plane [t] of the result is plane [t, i]
    and the shape is [nt, ny, nx].  Any other axis name does not return. *)
Theorem slice_in_space_selects
    (df : DataFrame) (g g' : Wake.CactusWakeGrid) (axis : string) (i : Z)
    (inplace : bool) (FU FV FW : Wake.field) :
  Wake.CactusWakeGrid_init df = Ok g ->
  Wake.slice_in_space g axis i inplace = Ok (FU, FV, FW, g') ->
  axis ∈ ["x"; "y"; "z"] /\
  forall F F', (F, F') ∈ [(Wake.U g, FU); (Wake.V g, FV); (Wake.W g, FW)] ->
    exists a s, F = Wake.Field4 a /\ F' = Wake.Field3 s /\
      (axis = "x" ->
         shape3 (Wake.nt g) (Wake.nz g) (Wake.ny g) s /\
         Forall2 (Forall2 (Forall2 (fun (row : arr1) v => getitem row i = Ok v))) a s) /\
      (axis = "y" ->
         shape3 (Wake.nt g) (Wake.nz g) (Wake.nx g) s /\
         Forall2 (Forall2 (fun (plane : arr2) r => getitem plane i = Ok r)) a s) /\
      (axis = "z" ->
         shape3 (Wake.nt g) (Wake.ny g) (Wake.nx g) s /\
         Forall2 (fun (vol : arr3) p => getitem vol i = Ok p) a s).
Proof.
  intros Hok H.
  destruct (CactusWakeGrid_init_shape _ _ Hok)
    as (U & V & W & GU & GV & GW & SU & SV & SW & _).
  unfold Wake.slice_in_space in H. rewrite GU, GV, GW in H |- *.
  assert (Hax : exists n1 n2,
    (axis, n1, n2) ∈ [("x", Wake.ny g, Wake.nz g); ("y", Wake.nx g, Wake.nz g);
                      ("z", Wake.nx g, Wake.ny g)] /\
    exists U' V' W',
      Wake.slice_reshape axis (Wake.Field4 U) i (Wake.nt g) n1 n2 = Ok U' /\
      Wake.slice_reshape axis (Wake.Field4 V) i (Wake.nt g) n1 n2 = Ok V' /\
      Wake.slice_reshape axis (Wake.Field4 W) i (Wake.nt g) n1 n2 = Ok W' /\
      FU = U' /\ FV = V' /\ FW = W').
  { destruct (decide (axis = "z")) as [-> | Hz].
    { simpl in H. bind_inv H as U' HU. bind_inv H as V' HV. bind_inv H as W' HW.
      injection H as <- <- <- _. exists (Wake.nx g), (Wake.ny g).
      split; [in_list |]. by exists U', V', W'. }
    destruct (decide (axis = "y")) as [-> | Hy].
    { simpl in H. bind_inv H as U' HU. bind_inv H as V' HV. bind_inv H as W' HW.
      injection H as <- <- <- _. exists (Wake.nx g), (Wake.nz g).
      split; [in_list |]. by exists U', V', W'. }
    destruct (decide (axis = "x")) as [-> | Hx]; [| done].
    simpl in H. bind_inv H as U' HU. bind_inv H as V' HV. bind_inv H as W' HW.
    injection H as <- <- <- _. exists (Wake.ny g), (Wake.nz g).
    split; [in_list |]. by exists U', V', W'. }
  destruct Hax as (n1 & n2 & Hcase & U' & V' & W' & HU & HV & HW & -> & -> & ->).
  split.
  { clear -Hcase. apply list_elem_of_fmap_2 with (f := fun p => p.1.1) in Hcase. exact Hcase. }
  assert (Hgen : forall a F', shape4 (Wake.nt g) (Wake.nz g) (Wake.ny g) (Wake.nx g) a ->
    Wake.slice_reshape axis (Wake.Field4 a) i (Wake.nt g) n1 n2 = Ok F' ->
    exists a0 s, Wake.Field4 a = Wake.Field4 a0 /\ F' = Wake.Field3 s /\
      (axis = "x" ->
         shape3 (Wake.nt g) (Wake.nz g) (Wake.ny g) s /\
         Forall2 (Forall2 (Forall2 (fun (row : arr1) v => getitem row i = Ok v))) a0 s) /\
      (axis = "y" ->
         shape3 (Wake.nt g) (Wake.nz g) (Wake.nx g) s /\
         Forall2 (Forall2 (fun (plane : arr2) r => getitem plane i = Ok r)) a0 s) /\
      (axis = "z" ->
         shape3 (Wake.nt g) (Wake.ny g) (Wake.nx g) s /\
         Forall2 (fun (vol : arr3) p => getitem vol i = Ok p) a0 s)).
  { intros a F' Sa HF.
    destruct (slice_reshape_selects axis a i _ _ _ _ n1 n2 F' Sa Hcase HF)
      as (s & -> & Hs & Rx & Ry & Rz).
    exists a, s. split; [done |]. split; [done |].
    rewrite !elem_of_cons, elem_of_nil in Hcase.
    destruct Hcase as [Hc|[Hc|[Hc|[]]]]; injection Hc as -> -> ->;
      (split; [| split]); intros E; try discriminate E; split; auto. }
  intros F F' Hin.
  repeat (apply elem_of_cons in Hin as [[= -> ->] | Hin]; [by apply Hgen |]).
  by apply elem_of_nil in Hin.
Qed.

(** The slice at x-index 1 of the two-node line. *)
Lemma slice_in_space_selects_witness :
  exists g FU FV FW g',
    Wake.CactusWakeGrid_init df_line = Ok g /\
    Wake.slice_in_space g "x" 1 false = Ok (FU, FV, FW, g') /\
    FU = Wake.Field3 [[[f64 11]]; [[f64 21]]].
Proof.
  assert (Hinit : is_Ok (Wake.CactusWakeGrid_init df_line) = true) by (vm_compute; reflexivity).
  destruct (Wake.CactusWakeGrid_init df_line) as [g|e] eqn:E; [| discriminate].
  assert (Hs : (g0 ← Wake.CactusWakeGrid_init df_line;
                r ← Wake.slice_in_space g0 "x" 1 false; Ok r.1.1.1)
               = Ok (Wake.Field3 [[[f64 11]]; [[f64 21]]])) by (vm_compute; reflexivity).
  rewrite E in Hs. simpl in Hs.
  destruct (Wake.slice_in_space g "x" 1 false) as [[[[FU FV] FW] g']|e] eqn:Es; [| discriminate].
  simpl in Hs. injection Hs as Hs.
  destruct (slice_in_space_selects df_line g g' "x" 1 false FU FV FW E Es) as [_ Hsel].
  destruct (Hsel (Wake.U g) FU) as (a & s & _ & HF & _); [apply list_elem_of_here |].
  exists g, FU, FV, FW, g'. split; [reflexivity |]. split; [exact Es | exact Hs].
Defined.

(** ** Slicing in place *)

Lemma slice_reshape_Field3 (axis : string) (F F' : Wake.field) (i : Z) (nt n1 n2 : nat) :
  axis ∈ ["x"; "y"; "z"] ->
  Wake.slice_reshape axis F i nt n1 n2 = Ok F' -> exists s, F' = Wake.Field3 s.
Proof.
  intros Hax H. rewrite !elem_of_cons, elem_of_nil in Hax.
  destruct Hax as [-> | [-> | [-> | []]]]; unfold Wake.slice_reshape in H; simpl in H;
    destruct F as [a|a]; try done;
    bind_inv H as s Hs; fmap_inv H as s' Hs'; by exists s'.
Qed.

Lemma slice_in_space_unknown_axis (g : Wake.CactusWakeGrid) (axis : string) (i : Z)
    (inplace : bool) :
  axis ∉ ["x"; "y"; "z"] ->
  Wake.slice_in_space g axis i inplace = Raise (UnboundLocalError "n1").
Proof.
  intros Hax. unfold Wake.slice_in_space.
  rewrite !decide_False by (intros ->; apply Hax; in_list). done.
Qed.

Lemma slice_in_space_Ok (g g' : Wake.CactusWakeGrid) (axis : string) (i : Z)
    (inplace : bool) (FU FV FW : Wake.field) :
  Wake.slice_in_space g axis i inplace = Ok (FU, FV, FW, g') ->
  axis ∈ ["x"; "y"; "z"] /\
  exists n1 n2,
    Wake.slice_reshape axis (Wake.U g) i (Wake.nt g) n1 n2 = Ok FU /\
    Wake.slice_reshape axis (Wake.V g) i (Wake.nt g) n1 n2 = Ok FV /\
    Wake.slice_reshape axis (Wake.W g) i (Wake.nt g) n1 n2 = Ok FW /\
    g' = (if inplace
          then {| Wake.times := Wake.times g; Wake.num_times := Wake.num_times g;
                  Wake.nt := Wake.nt g; Wake.nx := Wake.nx g; Wake.ny := Wake.ny g;
                  Wake.nz := Wake.nz g; Wake.dx := Wake.dx g; Wake.dy := Wake.dy g;
                  Wake.dz := Wake.dz g; Wake.X_ := Wake.X_ g; Wake.Y_ := Wake.Y_ g;
                  Wake.Z_ := Wake.Z_ g; Wake.U := FU; Wake.V := FV; Wake.W := FW |}
          else g) /\
    forall b, Wake.slice_in_space g axis i b
      = Ok (FU, FV, FW,
            if b
            then {| Wake.times := Wake.times g; Wake.num_times := Wake.num_times g;
                    Wake.nt := Wake.nt g; Wake.nx := Wake.nx g; Wake.ny := Wake.ny g;
                    Wake.nz := Wake.nz g; Wake.dx := Wake.dx g; Wake.dy := Wake.dy g;
                    Wake.dz := Wake.dz g; Wake.X_ := Wake.X_ g; Wake.Y_ := Wake.Y_ g;
                    Wake.Z_ := Wake.Z_ g; Wake.U := FU; Wake.V := FV; Wake.W := FW |}
            else g).
Proof.
  intros H.
  destruct (decide (axis ∈ ["x"; "y"; "z"])) as [Hax | Hax];
    [| by rewrite slice_in_space_unknown_axis in H].
  split; [done |]. unfold Wake.slice_in_space in H |- *.
  rewrite !elem_of_cons, elem_of_nil in Hax.
  destruct Hax as [-> | [-> | [-> | []]]]; simpl in H |- *;
    bind_inv H as U' HU; bind_inv H as V' HV; bind_inv H as W' HW;
    injection H as <- <- <- <-; eexists _, _;
    (split; [exact HU |]); (split; [exact HV |]); (split; [exact HW |]);
    (split; [done |]); intros b; by rewrite HU, HV, HW.
Qed.

(** X22.  [slice_in_space] with [inplace=False] leaves the grid as it was,
    and with [inplace=True] returns the same three arrays and stores them
    as the grid's U, V, W, every other attribute unchanged.  After an
    in-place slice the fields are 3-D, and every further call to
    [slice_in_space] fails: IndexError for the axes x, y, z.  An axis name
    other than x, y, z raises UnboundLocalError on any grid. *)
Theorem slice_in_space_inplace
    (g : Wake.CactusWakeGrid) (axis : string) (i : Z) :
  (forall inplace, axis ∉ ["x"; "y"; "z"] ->
     Wake.slice_in_space g axis i inplace = Raise (UnboundLocalError "n1")) /\
  (forall FU FV FW g',
     Wake.slice_in_space g axis i false = Ok (FU, FV, FW, g') -> g' = g) /\
  (forall FU FV FW g',
     Wake.slice_in_space g axis i true = Ok (FU, FV, FW, g') ->
     Wake.slice_in_space g axis i false = Ok (FU, FV, FW, g) /\
     Wake.U g' = FU /\ Wake.V g' = FV /\ Wake.W g' = FW /\
     Wake.times g' = Wake.times g /\ Wake.nt g' = Wake.nt g /\
     Wake.nx g' = Wake.nx g /\ Wake.ny g' = Wake.ny g /\ Wake.nz g' = Wake.nz g /\
     Wake.X_ g' = Wake.X_ g /\ Wake.Y_ g' = Wake.Y_ g /\ Wake.Z_ g' = Wake.Z_ g /\
     forall axis' i' inplace',
       axis' ∈ ["x"; "y"; "z"] ->
       Wake.slice_in_space g' axis' i' inplace' = Raise IndexError).
Proof.
  split; [intros inplace; apply slice_in_space_unknown_axis |]. split.
  - intros FU FV FW g' H.
    by destruct (slice_in_space_Ok _ _ _ _ _ _ _ _ H) as (_ & n1 & n2 & _ & _ & _ & -> & _).
  - intros FU FV FW g' H.
    destruct (slice_in_space_Ok _ _ _ _ _ _ _ _ H)
      as (Hax & n1 & n2 & HU & HV & HW & -> & Hb).
    split; [apply (Hb false) |]. simpl. repeat split.
    intros axis' i' inplace' Hax'.
    destruct (slice_reshape_Field3 _ _ _ _ _ _ _ Hax HU) as [s ->].
    unfold Wake.slice_in_space. simpl.
    rewrite !elem_of_cons, elem_of_nil in Hax'.
    by destruct Hax' as [-> | [-> | [-> | []]]].
Qed.

(** ** [field_time_stats]: the end of the window *)

Lemma getitem_Ok_nonempty {A} (l : list A) (i : Z) (x : A) : getitem l i = Ok x -> l <> [].
Proof. intros H ->. unfold getitem, norm_index in H. simpl in H. by repeat case_decide. Qed.

Lemma resolve_start_Ok (times : arr1) (t_start : float) :
  times <> [] ->
  exists w index_start,
    Wake.resolve_start times t_start = Ok (w, index_start) /\
    (0 <= index_start < Z.of_nat (length times))%Z.
Proof.
  intros Hne. unfold Wake.resolve_start.
  destruct times as [|t0 rest] eqn:E; [done |]. rewrite <- E in *.
  replace (getitem times 0) with (Ok (A := float) t0) by (by rewrite E).
  simpl. destruct (SFltb t_start t0).
  - eexists _, _. split; [reflexivity |]. rewrite E. simpl. lia.
  - destruct (find_nearest_Ok times t_start Hne) as (v & k & -> & Hk). simpl.
    eexists _, _. split; [reflexivity |]. lia.
Qed.

(** The index [resolve_end] gives, read as an exclusive bound of a slice of
    [n] samples, stops before the last sample. *)
Lemma resolve_end_bound (times : arr1) (t_end : float) (w : list Wake.warning) (ie : Z) :
  Wake.resolve_end times t_end = Ok (w, ie) ->
  slice_bound ie (length times) <= length times - 1.
Proof.
  unfold Wake.resolve_end. intros H. bind_inv H as last_t Hlast.
  assert (Hm1 : slice_bound (-1) (length times) <= length times - 1).
  { unfold slice_bound. simpl. lia. }
  destruct (SFltb last_t t_end); [by injection H as <- <- |].
  destruct (SFeqb t_end _); [by injection H as <- <- |].
  bind_inv H as r Hr. destruct r as [v k]. injection H as <- <-.
  apply getitem_Ok_nonempty in Hlast.
  destruct (find_nearest_Ok times t_end Hlast) as (v' & k' & Hk' & Hlt).
  rewrite Hr in Hk'. injection Hk' as <- <-.
  unfold slice_bound. destruct (Z.of_nat k <? 0)%Z eqn:E; lia.
Qed.

(** X23.  When [t_end] is beyond the last time (a warning is issued) or
    equals -1 (no warning), the end index is -1: the statistics run over
    the samples from the start index up to, but not including, the last
    sample of the field. *)
Theorem field_time_stats_end_clamped
    (field : arr2) (times : arr1) (t_start t_end last_t : float) :
  getitem times (-1) = Ok last_t ->
  SFltb last_t t_end = true \/ SFeqb t_end (of_int float64 (-1)) = true ->
  exists w_start index_start,
    Wake.resolve_start times t_start = Ok (w_start, index_start) /\
    Wake.resolve_end times t_end
      = Ok (if SFltb last_t t_end then [Wake.EndOutOfRange t_end] else [], (-1)%Z) /\
    let s := slice_bound index_start (length field) in
    let window := py_slice index_start (-1) field in
    (forall k row, window !! k = Some row <->
       s + k < length field - 1 /\ field !! (s + k) = Some row) /\
    Wake.field_time_stats field times t_start t_end
    = (w_start ++ (if SFltb last_t t_end then [Wake.EndOutOfRange t_end] else []),
       minf ← Wake.np_min0 window;
       maxf ← Wake.np_max0 window;
       Ok (Wake.np_mean0 window, Wake.np_std0 window, minf, maxf)).
Proof.
  intros Hlast Hend.
  pose proof (getitem_Ok_nonempty _ _ _ Hlast) as Hne.
  destruct (resolve_start_Ok times t_start Hne) as (w_start & index_start & Hstart & _).
  assert (He : Wake.resolve_end times t_end
               = Ok (if SFltb last_t t_end then [Wake.EndOutOfRange t_end] else [], (-1)%Z)).
  { unfold Wake.resolve_end. rewrite Hlast.
    cbv beta iota delta [mbind result_bind].
    destruct (SFltb last_t t_end); [done |].
    destruct Hend as [? | ->]; done. }
  exists w_start, index_start. split; [done |]. split; [done |]. simpl. split.
  - intros k row. rewrite lookup_py_slice.
    replace (slice_bound (-1) (length field)) with (length field - 1); [done |].
    unfold slice_bound. simpl. lia.
  - unfold Wake.field_time_stats. by rewrite Hstart, He.
Qed.

(** Three samples at times 0, 1, 2 with [t_end = 5]: the statistics cover
    samples 0 and 1 only. *)
Lemma field_time_stats_end_clamped_witness :
  Wake.field_time_stats field_3x2 times_012 (f64 0) (f64 5) =
    ([Wake.EndOutOfRange (f64 5)],
     Ok ([f64 2; f64 3], [f64 1; f64 1], [f64 1; f64 2], [f64 3; f64 4])).
Proof.
  destruct (field_time_stats_end_clamped field_3x2 times_012 (f64 0) (f64 5) (f64 2))
    as (w_start & index_start & Hstart & _ & _ & ->);
    [reflexivity | left; reflexivity |].
  vm_compute in Hstart. injection Hstart as <- <-. vm_compute. reflexivity.
Defined.

(** X24.  The last time sample is never part of the statistics: the
    resolved end index, an exclusive bound, is at most n-1 for n times.
    Hence [field_time_stats] raises ValueError (at the minimum of an empty
    window) whenever the window is empty, in particular when [t_start] and
    [t_end] are the same in-range time and on every series of a single
    sample; an empty [times] raises IndexError before that. *)
Theorem field_time_stats_empty_window
    (field : arr2) (times : arr1) (t_start t_end : float) :
  (times = [] ->
     Wake.field_time_stats field times t_start t_end = ([], Raise IndexError)) /\
  (forall w2 index_end,
     Wake.resolve_end times t_end = Ok (w2, index_end) ->
     slice_bound index_end (length times) <= length times - 1) /\
  (forall w1 w2 index_start index_end,
     Wake.resolve_start times t_start = Ok (w1, index_start) ->
     Wake.resolve_end times t_end = Ok (w2, index_end) ->
     py_slice index_start index_end field = [] ->
     Wake.field_time_stats field times t_start t_end = (w1 ++ w2, Raise ValueError)) /\
  (forall first last_t,
     times !! 0 = Some first -> getitem times (-1) = Ok last_t ->
     t_start = t_end ->
     SFltb t_start first = false -> SFltb last_t t_end = false ->
     SFeqb t_end (of_int float64 (-1)) = false ->
     Wake.field_time_stats field times t_start t_end = ([], Raise ValueError)) /\
  (length times = 1 -> length field = 1 ->
     exists ws, Wake.field_time_stats field times t_start t_end = (ws, Raise ValueError)).
Proof.
  assert (Hempty : forall w1 w2 index_start index_end,
     Wake.resolve_start times t_start = Ok (w1, index_start) ->
     Wake.resolve_end times t_end = Ok (w2, index_end) ->
     py_slice index_start index_end field = [] ->
     Wake.field_time_stats field times t_start t_end = (w1 ++ w2, Raise ValueError)).
  { intros w1 w2 index_start index_end Hs He Hw.
    unfold Wake.field_time_stats, Wake.window_stats. by rewrite Hs, He, Hw. }
  split; [by intros -> |]. split; [intros w2 ie; apply resolve_end_bound |].
  split; [exact Hempty |]. split.
  - intros first last_t Hfirst Hlast <- Hs He Hm1.
    pose proof (getitem_Ok_nonempty _ _ _ Hlast) as Hne.
    destruct (find_nearest_Ok times t_start Hne) as (v & k & Hk & _).
    apply (Hempty [] [] (Z.of_nat k) (Z.of_nat k)).
    + unfold Wake.resolve_start.
      replace (getitem times 0) with (Ok (A := float) first)
        by (symmetry; apply (getitem_lookup times 0 first Hfirst)).
      simpl. by rewrite Hs, Hk.
    + unfold Wake.resolve_end. rewrite Hlast.
      cbv beta iota delta [mbind result_bind]. by rewrite He, Hm1, Hk.
    + apply length_zero_iff_nil. rewrite length_py_slice. lia.
  - intros Ht Hf.
    assert (Hne : times <> []) by (by destruct times).
    destruct (resolve_start_Ok times t_start Hne) as (w1 & ks & Hs & His).
    destruct (resolve_end_Ok times t_end Hne) as (w2 & ie & He).
    exists (w1 ++ w2). apply (Hempty w1 w2 ks ie Hs He).
    apply length_zero_iff_nil. rewrite length_py_slice.
    pose proof (resolve_end_bound times t_end w2 ie He) as Hb.
    rewrite Ht in Hb, His. rewrite Hf.
    assert (slice_bound ie 1 = 0) by lia. lia.
Qed.

(** ** Signs of sums, quotients and roots *)

Lemma prec_pos (d : dtype) : (1 <= prec d)%Z.
Proof. by destruct d. Qed.

Lemma binary_round_sign (p e : Z) (s : bool) (m : positive) (ex : Z) :
  (1 <= p)%Z ->
  match binary_round p e s m ex with
  | S754_nan => False
  | S754_zero s' | S754_infinity s' | S754_finite s' _ _ => s' = s
  end.
Proof.
  intros Hp. unfold binary_round.
  destruct (shl_align m ex (fexp p e (Zpos (digits2_pos m) + ex))) as [mz ez].
  by apply binary_round_aux_sign.
Qed.

Lemma sign_clear_not_negative (x : float) : sign_clear x -> not_negative x = true.
Proof. destruct x as [s|s| |s m e]; simpl; try done; by intros ->. Qed.

Lemma sign_clear_round_aux (p e : Z) (m ex : Z) (l : location) :
  (1 <= p)%Z -> (0 <= m)%Z -> sign_clear (binary_round_aux p e false m ex l).
Proof.
  intros Hp Hm. pose proof (binary_round_aux_sign p e false m ex l Hm) as H.
  by destruct (binary_round_aux p e false m ex l).
Qed.

Lemma fmul_square_sign_clear (d : dtype) (x : float) : sign_clear (fmul d x x).
Proof.
  destruct x as [s|s| |s m e]; simpl; try done; try by destruct s.
  unfold fmul. simpl. rewrite xorb_nilpotent.
  apply sign_clear_round_aux; [apply prec_pos | lia].
Qed.

Lemma fmul_sign_clear (d : dtype) (x y : float) :
  sign_clear x -> sign_clear y -> sign_clear (fmul d x y).
Proof.
  destruct x as [sx|sx| |sx mx ex], y as [sy|sy| |sy my ey]; simpl; try done;
    intros -> ->; try done.
  unfold fmul. simpl. apply sign_clear_round_aux; [apply prec_pos | lia].
Qed.

Lemma fadd_sign_clear (d : dtype) (x y : float) :
  sign_clear x -> sign_clear y -> sign_clear (fadd d x y).
Proof.
  destruct x as [sx|sx| |sx mx ex], y as [sy|sy| |sy my ey]; simpl; try done;
    intros -> ->; try done.
  unfold fadd, SFadd. cbn [cond_Zopp]. 
  set (a := fst (shl_align mx ex (Z.min ex ey))).
  set (b := fst (shl_align my ey (Z.min ex ey))).
  change (Zpos a + Zpos b)%Z with (Zpos (a + b)). unfold binary_normalize.
  pose proof (binary_round_sign (prec d) (emax d) false (a + b) (Z.min ex ey) (prec_pos d)) as H.
  by destruct (binary_round (prec d) (emax d) false (a + b) (Z.min ex ey)).
Qed.

Lemma fdiv_sign_clear (d : dtype) (x y : float) :
  sign_clear x ->
  match y with S754_infinity s | S754_finite s _ _ => s = false | _ => False end ->
  sign_clear (fdiv d x y).
Proof.
  destruct x as [sx|sx| |sx mx ex], y as [sy|sy| |sy my ey]; simpl; try done;
    intros -> ->; try done.
  unfold fdiv, SFdiv.
  destruct (SFdiv_core_binary (prec d) (emax d) (Zpos mx) ex (Zpos my) ey)
    as [[mz ez] lz] eqn:E.
  simpl. apply sign_clear_round_aux; [apply prec_pos |].
  unfold SFdiv_core_binary in E.
  set (m' := match _ with Zpos _ => _ | Z0 => _ | Zneg _ => _ end) in E.
  assert (Hm' : (0 <= m')%Z).
  { subst m'. destruct (_ - _ - _)%Z; [lia | | lia]. apply Z.shiftl_nonneg. lia. }
  pose proof (Z_div_mod m' (Zpos my) ltac:(lia)) as Hdm.
  destruct (Z.div_eucl m' (Zpos my)) as [q r]. injection E as <- _ _.
  destruct Hdm as [Hq Hr]. nia.
Qed.

Lemma fsqrt_sign_clear (d : dtype) (x : float) : sign_clear x -> sign_clear (fsqrt d x).
Proof.
  destruct x as [s|s| |s m e]; simpl; try done; intros ->; try done.
  unfold fsqrt, SFsqrt.
  destruct (SFsqrt_core_binary (prec d) (emax d) (Zpos m) e) as [[mz ez] lz] eqn:E.
  apply sign_clear_round_aux; [apply prec_pos |].
  unfold SFsqrt_core_binary in E.
  set (m' := match _ with Zpos _ => _ | Z0 => _ | Zneg _ => _ end) in E.
  pose proof (Z.sqrtrem_sqrt m') as Hs.
  destruct (Z.sqrtrem m') as [q r]. injection E as <- _ _.
  simpl in Hs. subst q. apply Z.sqrt_nonneg.
Qed.

(** ** Statistics that cannot be negative *)

Lemma foldl_zip_with_sign_clear (rest : arr2) (row : arr1) :
  Forall sign_clear row -> Forall (Forall sign_clear) rest ->
  Forall sign_clear (foldl (zip_with (fadd float64)) row rest).
Proof.
  intros Hrow Hrest. revert row Hrow.
  induction Hrest as [|r rest Hr Hrest IH]; intros row Hrow; simpl; [done |].
  apply IH. eapply (Forall_zip_with _ _ _ _ row r); [| exact Hrow | exact Hr].
  intros a b. apply fadd_sign_clear.
Qed.

Lemma np_sum0_sign_clear (a : arr2) :
  Forall (Forall sign_clear) a -> Forall sign_clear (Wake.np_sum0 a).
Proof.
  intros Ha. unfold Wake.np_sum0.
  destruct a as [|row rest]; [constructor |]. case_decide.
  - constructor; [| constructor].
    apply add_reduce_closed; [done | apply fadd_sign_clear |].
    by apply Forall_concat.
  - apply foldl_zip_with_sign_clear; [| done].
    apply Forall_replicate. done.
Qed.

Lemma np_mean0_sign_clear (a : arr2) :
  Forall (Forall sign_clear) a -> Forall sign_clear (Wake.np_mean0 a).
Proof.
  intros Ha. unfold Wake.np_mean0.
  destruct a as [|row rest]; [constructor |].
  apply Forall_map. eapply Forall_impl; [by apply np_sum0_sign_clear |].
  intros s Hs. cbv beta. apply fdiv_sign_clear; [done |].
  apply (of_int_positive float64). simpl length. lia.
Qed.

Lemma squares_sign_clear (a : arr2) :
  Forall (Forall sign_clear) (map (map (fun d => fmul float64 d d)) a).
Proof.
  apply Forall_map, Forall_forall. intros row _. simpl.
  apply Forall_map, Forall_forall. intros d _. apply fmul_square_sign_clear.
Qed.

Lemma np_std0_sign_clear (a : arr2) : Forall sign_clear (Wake.np_std0 a).
Proof.
  unfold Wake.np_std0. apply Forall_map.
  eapply Forall_impl; [apply np_mean0_sign_clear, squares_sign_clear |].
  intros s. apply fsqrt_sign_clear.
Qed.

(** X25.  The standard deviation [field_time_stats] returns is never
    negative: every entry is NaN, zero or positive. *)
Theorem field_time_stats_std_not_negative
    (field : arr2) (times : arr1) (t_start t_end : float)
    (ws : list Wake.warning) (mean stdf minf maxf : arr1) :
  Wake.field_time_stats field times t_start t_end = (ws, Ok (mean, stdf, minf, maxf)) ->
  Forall (fun s => not_negative s = true) stdf.
Proof.
  unfold Wake.field_time_stats.
  destruct (Wake.resolve_start times t_start) as [[w1 index_start]|]; [| by intros [=]].
  destruct (Wake.resolve_end times t_end) as [[w2 index_end]|]; [| by intros [=]].
  intros [= <- H]. unfold Wake.window_stats in H.
  bind_inv H as mn Hmn. bind_inv H as mx Hmx. injection H as <- <- <- <-.
  eapply Forall_impl; [apply np_std0_sign_clear |].
  intros s. apply sign_clear_not_negative.
Qed.

Lemma field_time_stats_std_not_negative_witness :
  Wake.field_time_stats field_3x2 times_012 (f64 (-5)) (f64 2)
  = ([Wake.StartOutOfRange (f64 (-5))],
     Ok ([f64 2; f64 3], [f64 1; f64 1], [f64 1; f64 2], [f64 3; f64 4])) /\
  Forall (fun s => not_negative s = true) [f64 1; f64 1].
Proof.
  assert (E : Wake.field_time_stats field_3x2 times_012 (f64 (-5)) (f64 2)
              = ([Wake.StartOutOfRange (f64 (-5))],
                 Ok ([f64 2; f64 3], [f64 1; f64 1], [f64 1; f64 2], [f64 3; f64 4])))
    by (vm_compute; reflexivity).
  split; [exact E |].
  exact (field_time_stats_std_not_negative _ _ _ _ _ _ _ _ _ E).
Defined.

Lemma mean_square_fluc_sign_clear (F_mean : arr1) (F : arr2) :
  Forall sign_clear (Wake.mean_square_fluc F_mean F).
Proof. unfold Wake.mean_square_fluc. apply np_mean0_sign_clear, squares_sign_clear. Qed.

Lemma map_fadd_sign_clear_l (x : float) (b : arr1) :
  sign_clear x -> Forall sign_clear b -> Forall sign_clear (map (fadd float64 x) b).
Proof. intros Hx. induction 1; simpl; constructor; [by apply fadd_sign_clear | done]. Qed.

Lemma map_fadd_sign_clear_r (y : float) (a : arr1) :
  sign_clear y -> Forall sign_clear a ->
  Forall sign_clear (map (fun x => fadd float64 x y) a).
Proof. intros Hy. induction 1; simpl; constructor; [by apply fadd_sign_clear | done]. Qed.

Lemma zip_fadd_sign_clear (a b : arr1) :
  Forall sign_clear a -> Forall sign_clear b ->
  Forall sign_clear (map (fun p : float * float => fadd float64 p.1 p.2) (zip a b)).
Proof.
  intros Ha. revert b. induction Ha as [|x a Hx Ha IH]; intros b Hb; [constructor |].
  destruct Hb as [|y b Hy Hb]; [constructor |]. simpl.
  constructor; [by apply fadd_sign_clear | by apply IH].
Qed.

Lemma badd_sign_clear (a b c : arr1) :
  Wake.badd a b = Ok c -> Forall sign_clear a -> Forall sign_clear b ->
  Forall sign_clear c.
Proof.
  unfold Wake.badd, broadcast2. intros H Ha Hb.
  case_decide.
  { rewrite (traverse_Ok_map (fun p : float * float => fadd float64 p.1 p.2)) in H.
    assert (E : c = map (fun p : float * float => fadd float64 p.1 p.2) (zip a b))
      by congruence.
    rewrite E. by apply zip_fadd_sign_clear. }
  assert (Hl : forall x, sign_clear x -> traverse (fun y => Ok (fadd float64 x y)) b = Ok c ->
            Forall sign_clear c).
  { intros x Hx E. rewrite (traverse_Ok_map (fadd float64 x)) in E.
    assert (E' : c = map (fadd float64 x) b) by congruence.
    rewrite E'. by apply map_fadd_sign_clear_l. }
  assert (Hr : forall y, sign_clear y -> traverse (fun x => Ok (fadd float64 x y)) a = Ok c ->
            Forall sign_clear c).
  { intros y Hy E. rewrite (traverse_Ok_map (fun x => fadd float64 x y)) in E.
    assert (E' : c = map (fun x => fadd float64 x y) a) by congruence.
    rewrite E'. by apply map_fadd_sign_clear_r. }
  destruct a as [|x [|x' a]].
  - destruct b as [|y [|y' b]]; try done.
    apply (Hr y); [by apply Forall_cons in Hb as [Hy _] | done].
  - apply (Hl x); [by apply Forall_cons in Ha as [Hx _] | done].
  - destruct b as [|y [|y' b]]; try done.
    apply (Hr y); [by apply Forall_cons in Hb as [Hy _] | done].
Qed.

(** X26.  The turbulent kinetic energy [calc_tke] returns is never
    negative: every entry is NaN, zero or positive, for all inputs. *)
Theorem calc_tke_not_negative
    (U V W : arr2) (times : arr1) (t_start t_end : float)
    (ws : list Wake.warning) (tke : arr1) :
  Wake.calc_tke U V W times t_start t_end = (ws, Ok tke) ->
  Forall (fun e => not_negative e = true) tke.
Proof.
  unfold Wake.calc_tke.
  destruct (Wake.field_time_stats U times t_start t_end) as [w1 [[[[Um ?] ?] ?]|]];
    [| by intros [=]].
  destruct (Wake.field_time_stats V times t_start t_end) as [w2 [[[[Vm ?] ?] ?]|]];
    [| by intros [=]].
  destruct (Wake.field_time_stats W times t_start t_end) as [w3 [[[[Wm ?] ?] ?]|]];
    [| by intros [=]].
  intros [= <- H]. bind_inv H as uv Huv. bind_inv H as uvw Huvw. injection H as <-.
  pose proof (badd_sign_clear _ _ _ Huv (mean_square_fluc_sign_clear Um U)
                (mean_square_fluc_sign_clear Vm V)) as Suv.
  pose proof (badd_sign_clear _ _ _ Huvw Suv (mean_square_fluc_sign_clear Wm W)) as Suvw.
  apply Forall_map. eapply Forall_impl; [exact Suvw |].
  intros e He. cbv beta. apply sign_clear_not_negative, fmul_sign_clear; [| done].
  vm_compute. reflexivity.
Qed.

Lemma calc_tke_not_negative_witness :
  exists ws tke,
    Wake.calc_tke field_3x2 field_3x2 field_3x2 times_012 (f64 0) (f64 2) = (ws, Ok tke) /\
    Forall (fun e => not_negative e = true) tke.
Proof.
  assert (E : exists ws tke,
    Wake.calc_tke field_3x2 field_3x2 field_3x2 times_012 (f64 0) (f64 2) = (ws, Ok tke)).
  { eexists _, _. vm_compute. reflexivity. }
  destruct E as (ws & tke & E). exists ws, tke. split; [exact E |].
  exact (calc_tke_not_negative _ _ _ _ _ _ _ _ E).
Defined.

(** ** Minimum and maximum over the window *)

(** X27.  The minimum and maximum [field_time_stats] returns have one entry
    per point.  At a point whose samples in the window are all numbers,
    they are two of those samples and bound all of them; at a point with a
    NaN sample in the window both are NaN. *)
Theorem field_time_stats_min_max
    (field : arr2) (times : arr1) (t_start t_end : float) (n : nat)
    (ws : list Wake.warning) (mean stdf minf maxf : arr1) :
  Wake.field_time_stats field times t_start t_end = (ws, Ok (mean, stdf, minf, maxf)) ->
  rect n field ->
  exists w1 w2 index_start index_end,
    Wake.resolve_start times t_start = Ok (w1, index_start) /\
    Wake.resolve_end times t_end = Ok (w2, index_end) /\
    length minf = n /\ length maxf = n /\
    forall j, j < n ->
      exists lo hi,
        minf !! j = Some lo /\ maxf !! j = Some hi /\
        let samples := sample (py_slice index_start index_end field) j in
        (Forall (fun x => isnan x = false) samples ->
           lo ∈ samples /\ hi ∈ samples /\
           forall x, x ∈ samples -> SFleb lo x = true /\ SFleb x hi = true) /\
        (S754_nan ∈ samples -> lo = NaN /\ hi = NaN).
Proof.
  unfold Wake.field_time_stats. intros H Hrect.
  destruct (Wake.resolve_start times t_start) as [[w1 index_start]|]; [| by injection H].
  destruct (Wake.resolve_end times t_end) as [[w2 index_end]|]; [| by injection H].
  injection H as <- H. unfold Wake.window_stats in H.
  bind_inv H as mn Hmn. bind_inv H as mx Hmx. injection H as <- <- <- <-.
  exists w1, w2, index_start, index_end. split; [done |]. split; [done |].
  pose proof (rect_py_slice n index_start index_end field Hrect) as Hw.
  set (window := py_slice index_start index_end field) in *.
  assert (Hne : window <> []) by (intros E; by rewrite E in Hmn).
  destruct window as [|row rest] eqn:Ew; [done |].
  apply Forall_cons in Hw as [Hrow Hrest]. simpl in Hrow.
  simpl in Hmn, Hmx. injection Hmn as <-. injection Hmx as <-.
  split; [by apply length_foldl_zip_with |]. split; [by apply length_foldl_zip_with |].
  intros j Hj.
  destruct (lookup_lt_is_Some_2 row j) as [x Hx]; [lia |].
  exists (foldl np_minimum x (sample rest j)), (foldl np_maximum x (sample rest j)).
  split; [by apply (lookup_foldl_zip_with _ n) |].
  split; [by apply (lookup_foldl_zip_with _ n) |].
  cbv zeta. rewrite sample_cons, Hx. simpl default. split.
  - intros [Hxn Hr]%Forall_cons.
    destruct (foldl_np_minimum_spec (sample rest j) x Hxn Hr) as [Hin1 Hle1].
    destruct (foldl_np_maximum_spec (sample rest j) x Hxn Hr) as [Hin2 Hle2].
    repeat split; try done.
    + by apply (proj1 (Forall_forall _ _) Hle1).
    + by apply (proj1 (Forall_forall _ _) Hle2).
  - intros Hin. by rewrite foldl_np_minimum_nan, foldl_np_maximum_nan.
Qed.

Lemma field_time_stats_min_max_witness :
  Wake.field_time_stats field_3x2 times_012 (f64 (-5)) (f64 2)
  = ([Wake.StartOutOfRange (f64 (-5))],
     Ok ([f64 2; f64 3], [f64 1; f64 1], [f64 1; f64 2], [f64 3; f64 4])) /\
  exists lo hi, [f64 1; f64 2] !! 0 = Some lo /\ [f64 3; f64 4] !! 0 = Some hi /\
    SFleb lo (f64 3) = true /\ SFleb (f64 1) hi = true.
Proof.
  assert (E : Wake.field_time_stats field_3x2 times_012 (f64 (-5)) (f64 2)
              = ([Wake.StartOutOfRange (f64 (-5))],
                 Ok ([f64 2; f64 3], [f64 1; f64 1], [f64 1; f64 2], [f64 3; f64 4])))
    by (vm_compute; reflexivity).
  split; [exact E |].
  destruct (field_time_stats_min_max _ _ _ _ 2 _ _ _ _ _ E)
    as (w1 & w2 & index_start & index_end & Hs & He & _ & _ & Hj);
    [repeat constructor |].
  vm_compute in Hs, He. injection Hs as <- <-. injection He as <- <-.
  destruct (Hj 0) as (lo & hi & Hlo & Hhi & Hb & _); [lia |].
  exists lo, hi. split; [exact Hlo |]. split; [exact Hhi |].
  destruct Hb as (_ & _ & Hall); [vm_compute; repeat constructor |].
  split.
  - apply (Hall (f64 3)). vm_compute. apply list_elem_of_further, list_elem_of_here.
  - apply (Hall (f64 1)). vm_compute. apply list_elem_of_here.
Defined.

(** ** Quantities on a vertical line *)

Lemma getitem_nat_inv {A} (l : list A) (k : nat) (x : A) :
  getitem l (Z.of_nat k) = Ok x -> l !! k = Some x.
Proof.
  unfold getitem, norm_index. intros H.
  case_decide; [| case_decide; [lia | done]].
  simpl in H. rewrite Nat2Z.id in H. by destruct (l !! k); [injection H as -> |].
Qed.

Lemma getitem_nat_short {A} (l : list A) (k : nat) :
  length l <= k -> getitem l (Z.of_nat k) = Raise IndexError.
Proof. intros H. apply getitem_out_of_range. lia. Qed.

Lemma column_Forall2 (a : arr2) (idx : nat) (c : arr1) :
  Wake.column a idx = Ok c -> Forall2 (fun row u => row !! idx = Some u) a c.
Proof.
  intros H. apply traverse_Forall2 in H.
  eapply Forall2_impl; [exact H |]. intros row u. apply getitem_nat_inv.
Qed.

Lemma column_short (a : arr2) (idx : nat) :
  Exists (fun row => length row <= idx) a -> Wake.column a idx = Raise IndexError.
Proof.
  unfold Wake.column. induction a as [|row a IH]; intros H; [by apply Exists_nil in H |].
  simpl. destruct (decide (length row <= idx)) as [Hs | Hl].
  - by rewrite getitem_nat_short.
  - apply Exists_cons in H as [? | H]; [done |].
    destruct (getitem_nat_Ok row idx ltac:(lia)) as (x & -> & _). simpl.
    by rewrite (IH H).
Qed.

(** X28.  [get_line_quantity] finds the distinct X value nearest to
    [x_loc], returns it with its position among the sorted distinct values,
    and returns column number "that position" of U: one entry per row of
    U.  The argument Y is not used.  An empty X raises ValueError; a row of
    U too short for that position raises IndexError. *)
Theorem get_line_quantity_column (x_loc : float) (X Y U : arr2) :
  (ravel2 X = [] -> Wake.get_line_quantity x_loc X Y U = Raise ValueError) /\
  (forall U_line x_nearest idx,
     Wake.get_line_quantity x_loc X Y U = Ok (U_line, x_nearest, idx) ->
     np_unique (ravel2 X) !! idx = Some x_nearest /\
     nearest_to float64 (np_unique (ravel2 X)) x_loc idx /\
     Forall2 (fun row u => row !! idx = Some u) U U_line /\
     forall Y', Wake.get_line_quantity x_loc X Y' U = Ok (U_line, x_nearest, idx)) /\
  (forall x_nearest idx,
     Wake.find_nearest (np_unique (ravel2 X)) x_loc = Ok (x_nearest, idx) ->
     Exists (fun row => length row <= idx) U ->
     Wake.get_line_quantity x_loc X Y U = Raise IndexError).
Proof.
  split; [| split].
  - intros HX. unfold Wake.get_line_quantity. by rewrite HX.
  - intros U_line x_nearest idx H. pose proof H as H'.
    unfold Wake.get_line_quantity in H.
    bind_inv H as r Hr. destruct r as [xn k]. bind_inv H as ul Hul.
    injection H as <- <- <-.
    unfold Wake.find_nearest in Hr.
    bind_inv Hr as index Hi. bind_inv Hr as nv Hnv. injection Hr as <- <-.
    destruct (argmin_nearest_to float64 _ x_loc index Hi) as [Hlt Hnear].
    split; [by apply getitem_nat_inv |]. split; [done |].
    split; [by apply column_Forall2 |]. intros Y'. exact H'.
  - intros x_nearest idx Hf Hshort. unfold Wake.get_line_quantity.
    rewrite Hf. simpl. by rewrite column_short.
Qed.

(** ** The VTK export of a [CactusField] *)

Section VtkSeries.
Variable import_writer : result unit.
Variable gridToVTK : vtk_grid -> result string.
Variable str_int : nat -> string.
Variable basename : string -> string.
Variable abspath : string -> string.
Variable tree_write : string -> list (float * string) -> result unit.

Lemma vtk_step_Ok (fs : filesystem) (self : CactusField) (path name : string)
    (i : nat) (time : float) (call : vtk_grid) (r : result (float * string)) :
  vtk_step gridToVTK str_int basename fs self path name i time = Ok (call, r) ->
  r = (data_filename ← gridToVTK call; Ok (time, basename data_filename)) /\
  vtk_path call = path +:+ "/" +:+ name +:+ "_" +:+ str_int i /\
  exists df gd dims U V W,
    get_df_inst fs self (Some time) None = Ok df /\
    fielddata_from_df df = Ok (gd, dims) /\
    gd !! "X" = Some (vtk_X call) /\ gd !! "Y" = Some (vtk_Y call) /\
    gd !! "Z" = Some (vtk_Z call) /\
    gd !! "U" = Some U /\ gd !! "V" = Some V /\ gd !! "W" = Some W /\
    if has_vel_fs df
    then exists Ufs Vfs Wfs,
           gd !! "Ufs" = Some Ufs /\ gd !! "Vfs" = Some Vfs /\ gd !! "Wfs" = Some Wfs /\
           vtk_point_data call = [("velocity", (U, V, W)); ("velocity_fs", (Ufs, Vfs, Wfs))]
    else vtk_point_data call = [("velocity", (U, V, W))].
Proof.
  unfold vtk_step. intros H.
  bind_inv H as fname Hf. bind_inv H as df Hdf. bind_inv H as p Hp.
  destruct p as [gd dims].
  pose proof (fielddata_from_df_Ok _ _ _ Hp)
    as (x & y & z & u & v & w & ymin & ymax & zmin & zmax & X & Y & Z & U & V & W
        & _ & _ & _ & _ & _ & _ & _ & _ & _ & _ & _ & _ & _ & _ & _ & _
        & _ & HX & HY & HZ & HU & HV & HW & HFS).
  unfold dict_getitem, dict_contains in H. rewrite HX, HY, HZ, HU, HV, HW in H.
  cbv beta iota zeta delta [mbind result_bind] in H.
  destruct (has_vel_fs df) eqn:Hfs.
  - destruct HFS as (ufs & vfs & wfs & Ufs & Vfs & Wfs & _ & _ & _ & _ & _ & _
                     & H1 & H2 & H3).
    rewrite H1, H2, H3 in H.
    rewrite !bool_decide_eq_true_2 in H by eauto.
    cbv beta iota zeta delta [andb app] in H.
    injection H as <- <-. split; [done |]. split; [done |].
    exists df, gd, dims, (np_float32 U), (np_float32 V), (np_float32 W).
    do 8 (split; [done |]). rewrite Hfs.
    by exists (np_float32 Ufs), (np_float32 Vfs), (np_float32 Wfs).
  - destruct HFS as (H1 & H2 & H3). rewrite H1 in H.
    rewrite (bool_decide_eq_false_2 (is_Some None)) in H by (intros [? ?]; done).
    cbv beta iota zeta delta [andb] in H.
    injection H as <- <-. split; [done |]. split; [done |].
    exists df, gd, dims, (np_float32 U), (np_float32 V), (np_float32 W).
    do 8 (split; [done |]). by rewrite Hfs.
Qed.

Lemma vtk_step_Raise (fs : filesystem) (self : CactusField) (path name : string)
    (i : nat) (time : float) (e : exception) :
  vtk_step gridToVTK str_int basename fs self path name i time = Raise e ->
  (get_df_inst fs self (Some time) None ≫= fielddata_from_df) = Raise e.
Proof.
  unfold vtk_step. intros H.
  destruct (get_df_inst fs self (Some time) None) as [df|e'] eqn:Hdf.
  - assert (Hf : exists fname, fdict_getitem (fdict self) time = Ok fname).
    { unfold get_df_inst in Hdf.
      destruct (fdict_getitem (fdict self) time); [eauto | done]. }
    destruct Hf as [fname Hf]. rewrite Hf in H.
    cbv beta iota delta [mbind result_bind] in H |- *.
    destruct (fielddata_from_df df) as [[gd dims]|e'] eqn:Hp; [| congruence].
    exfalso.
    pose proof (fielddata_from_df_Ok _ _ _ Hp)
      as (x & y & z & u & v & w & ymin & ymax & zmin & zmax & X & Y & Z & U & V & W
          & _ & _ & _ & _ & _ & _ & _ & _ & _ & _ & _ & _ & _ & _ & _ & _
          & _ & HX & HY & HZ & HU & HV & HW & HFS).
    unfold dict_getitem, dict_contains in H.
    rewrite HX, HY, HZ, HU, HV, HW in H.
    cbv beta iota zeta delta [mbind result_bind] in H.
    destruct (has_vel_fs df).
    + destruct HFS as (ufs & vfs & wfs & Ufs & Vfs & Wfs & _ & _ & _ & _ & _ & _
                       & H1 & H2 & H3).
      rewrite H1, H2, H3 in H.
      rewrite !bool_decide_eq_true_2 in H by eauto.
      cbv beta iota zeta delta [andb app] in H. discriminate.
    + destruct HFS as (H1 & H2 & H3). rewrite H1 in H.
      rewrite (bool_decide_eq_false_2 (is_Some None)) in H by (intros [? ?]; done).
      cbv beta iota zeta delta [andb] in H. discriminate.
  - unfold get_df_inst in Hdf.
    destruct (fdict_getitem (fdict self) time) as [fname|e''] eqn:Hf;
      cbv beta iota delta [mbind result_bind fmap result_fmap] in Hdf, H |- *; congruence.
Qed.

Abbreviation loop fs self path name i times :=
  (vtk_loop gridToVTK str_int basename fs self path name i times).

Lemma vtk_loop_cons (fs : filesystem) (self : CactusField) (path name : string)
    (i : nat) (time : float) (rest : list float) :
  loop fs self path name i (time :: rest)
  = match vtk_step gridToVTK str_int basename fs self path name i time with
    | Raise e => ([], Raise e)
    | Ok (call, Raise e) => ([call], Raise e)
    | Ok (call, Ok dataset) =>
        (call :: (loop fs self path name (S i) rest).1,
         cons dataset <$> (loop fs self path name (S i) rest).2)
    end.
Proof.
  simpl. destruct (vtk_step _ _ _ _ _ _ _ _ _) as [[call [ds|e]]|e]; try done.
  by destruct (vtk_loop _ _ _ _ _ _ _ _ _).
Qed.

Lemma vtk_loop_calls (fs : filesystem) (self : CactusField) (path name : string)
    (times : list float) (i k : nat) (call : vtk_grid) :
  (loop fs self path name i times).1 !! k = Some call ->
  (exists time r,
     times !! k = Some time /\
     vtk_step gridToVTK str_int basename fs self path name (i + k) time = Ok (call, r)) /\
  ((exists file, gridToVTK call = Ok file) \/
   (S k = length (loop fs self path name i times).1 /\
    exists e, gridToVTK call = Raise e /\ (loop fs self path name i times).2 = Raise e)).
Proof.
  revert i k. induction times as [|time rest IH]; intros i k; [done |].
  rewrite vtk_loop_cons.
  destruct (vtk_step gridToVTK str_int basename fs self path name i time)
    as [[c r]|e] eqn:Hs; [| done].
  pose proof (vtk_step_Ok _ _ _ _ _ _ _ _ Hs) as [Hr _].
  destruct r as [ds|e]; cbn [fst snd].
  - destruct k as [|k]; simpl.
    + intros [= <-]. split; [exists time, (Ok ds); by rewrite Nat.add_0_r |].
      left. destruct (gridToVTK c); [eauto | done].
    + intros Hk. destruct (IH (S i) k Hk) as [(t & r' & Ht & Hstep) Hret].
      split; [exists t, r'; by rewrite Nat.add_succ_r |].
      destruct Hret as [Hret | (Hlen & e & He & Hout)]; [by left |].
      right. split; [by rewrite Hlen |]. exists e. by rewrite Hout.
  - destruct k as [|k]; simpl; [| done].
    intros [= <-]. split; [exists time, (Raise e); by rewrite Nat.add_0_r |].
    right. split; [done |]. exists e. split; [| done].
    destruct (gridToVTK c); [done | by injection Hr as ->].
Qed.

Lemma vtk_loop_Ok (fs : filesystem) (self : CactusField) (path name : string)
    (times : list float) (i : nat) (pvd : list (float * string)) :
  (loop fs self path name i times).2 = Ok pvd ->
  length (loop fs self path name i times).1 = length times /\
  exists files,
    Forall2 (fun call file => gridToVTK call = Ok file)
            (loop fs self path name i times).1 files /\
    pvd = zip times (map basename files).
Proof.
  revert i pvd. induction times as [|time rest IH]; intros i pvd.
  - intros [= <-]. split; [done |]. exists []. by split; [constructor |].
  - rewrite vtk_loop_cons.
    destruct (vtk_step gridToVTK str_int basename fs self path name i time)
      as [[c r]|e] eqn:Hs; [| done].
    pose proof (vtk_step_Ok _ _ _ _ _ _ _ _ Hs) as [Hr _].
    destruct r as [ds|e]; cbn [fst snd]; [| done].
    intros H. fmap_inv H as pvd' Hp. subst pvd.
    destruct (IH _ _ Hp) as (Hlen & files & Hfiles & ->).
    split; [simpl; by rewrite Hlen |].
    destruct (gridToVTK c) as [file|] eqn:Hc; [| done]. injection Hr as ->.
    exists (file :: files). split; [by constructor | done].
Qed.

Lemma vtk_loop_Raise (fs : filesystem) (self : CactusField) (path name : string)
    (times : list float) (i : nat) (e : exception) :
  (loop fs self path name i times).2 = Raise e ->
  (length (loop fs self path name i times).1 < length times /\
   exists time,
     times !! length (loop fs self path name i times).1 = Some time /\
     vtk_step gridToVTK str_int basename fs self path name
       (i + length (loop fs self path name i times).1) time = Raise e) \/
  (length (loop fs self path name i times).1 <= length times /\
   exists call,
     last (loop fs self path name i times).1 = Some call /\ gridToVTK call = Raise e).
Proof.
  revert i. induction times as [|time rest IH]; intros i; [done |].
  rewrite vtk_loop_cons.
  destruct (vtk_step gridToVTK str_int basename fs self path name i time)
    as [[c r]|e'] eqn:Hs.
  - pose proof (vtk_step_Ok _ _ _ _ _ _ _ _ Hs) as [Hr _].
    destruct r as [ds|e']; cbn [fst snd].
    + intros H.
      destruct ((loop fs self path name (S i) rest).2) as [pvd|e'] eqn:E; [done |].
      injection H as ->.
      destruct (IH (S i) E) as [(Hlt & t & Ht & Hstep) | (Hle & call & Hlast & Hcall)].
      * left. split; [simpl; lia |]. exists t. split; [done |].
        simpl length. by rewrite Nat.add_succ_r.
      * right. split; [simpl; lia |]. exists call. split; [| done].
        destruct ((loop fs self path name (S i) rest).1); [done | exact Hlast].
    + intros [= ->]. right. split; [simpl; lia |]. exists c. split; [done |].
      destruct (gridToVTK c); [done | by injection Hr as ->].
  - cbn [fst snd]. intros [= ->]. left. split; [simpl; lia |].
    exists time. split; [done |]. by rewrite Nat.add_0_r.
Qed.

Lemma write_vtk_series_unfold (fs : filesystem) (self : CactusField) (path name : string)
    (u : unit) :
  import_writer = Ok u ->
  write_vtk_series import_writer gridToVTK str_int basename abspath tree_write
    fs self path name
  = ((loop fs self path name 0 (np_sort (times self))).1,
     datasets ← (loop fs self path name 0 (np_sort (times self))).2;
     _ ← tree_write (abspath (path +:+ "/" +:+ name +:+ ".pvd")) datasets;
     Ok datasets).
Proof.
  intros H. unfold write_vtk_series. rewrite H.
  by destruct (vtk_loop _ _ _ _ _ _ _ _ _).
Qed.

End VtkSeries.

(** X29.  [write_vtk_series] hands the work to the VTK writer in the order
    of the sorted [times]: the k-th call writes to [path/name_k] the arrays
    X, Y, Z of the table stored for the k-th time, with the point data
    [velocity] = (U, V, W), followed by [velocity_fs] exactly when the
    table has all three freestream columns.  Every call but the last has
    returned.  The export returns only after one call per timestep, all
    returned, and a successful write of the collection, which lists each
    time with the base name of its file.  When it raises, the exception is
    that of the imports (no call made), of the table of the first timestep
    that cannot be loaded or unpacked (fewer calls than timesteps), of the
    last call of the writer, or of the write of the collection (after all
    calls).  It returns whenever the imports, the writer and the write of
    the collection do and every time of [times] has a table that unpacks. *)
Theorem write_vtk_series_calls
    (import_writer : result unit) (gridToVTK : vtk_grid -> result string)
    (str_int : nat -> string) (basename abspath : string -> string)
    (tree_write : string -> list (float * string) -> result unit)
    (fs : filesystem) (self : CactusField) (path name : string) :
  let sorted := np_sort (times self) in
  let pvd_filename := abspath (path +:+ "/" +:+ name +:+ ".pvd") in
  let out := write_vtk_series import_writer gridToVTK str_int basename abspath tree_write
               fs self path name in
  (forall e, import_writer = Raise e -> out = ([], Raise e)) /\
  (forall k call, out.1 !! k = Some call ->
     (exists time df gd dims U V W,
        sorted !! k = Some time /\
        get_df_inst fs self (Some time) None = Ok df /\
        fielddata_from_df df = Ok (gd, dims) /\
        vtk_path call = path +:+ "/" +:+ name +:+ "_" +:+ str_int k /\
        gd !! "X" = Some (vtk_X call) /\ gd !! "Y" = Some (vtk_Y call) /\
        gd !! "Z" = Some (vtk_Z call) /\
        gd !! "U" = Some U /\ gd !! "V" = Some V /\ gd !! "W" = Some W /\
        if has_vel_fs df
        then exists Ufs Vfs Wfs,
               gd !! "Ufs" = Some Ufs /\ gd !! "Vfs" = Some Vfs /\ gd !! "Wfs" = Some Wfs /\
               vtk_point_data call
                 = [("velocity", (U, V, W)); ("velocity_fs", (Ufs, Vfs, Wfs))]
        else vtk_point_data call = [("velocity", (U, V, W))]) /\
     ((exists file, gridToVTK call = Ok file) \/
      (S k = length out.1 /\ exists e, gridToVTK call = Raise e /\ out.2 = Raise e))) /\
  (forall pvd, out.2 = Ok pvd ->
     length out.1 = length (times self) /\
     (exists files,
        Forall2 (fun call file => gridToVTK call = Ok file) out.1 files /\
        pvd = zip sorted (map basename files)) /\
     tree_write pvd_filename pvd = Ok tt) /\
  (forall e, out.2 = Raise e ->
     import_writer = Raise e \/
     (length out.1 < length (times self) /\
      exists time,
        sorted !! length out.1 = Some time /\
        (get_df_inst fs self (Some time) None ≫= fielddata_from_df) = Raise e) \/
     (exists call, last out.1 = Some call /\ gridToVTK call = Raise e) \/
     (length out.1 = length (times self) /\
      exists pvd, tree_write pvd_filename pvd = Raise e)) /\
  (is_Ok import_writer = true ->
   (forall time, time ∈ times self ->
      exists df gd dims,
        get_df_inst fs self (Some time) None = Ok df /\
        fielddata_from_df df = Ok (gd, dims)) ->
   (forall call, is_Ok (gridToVTK call) = true) ->
   (forall file pvd, is_Ok (tree_write file pvd) = true) ->
   exists pvd, out.2 = Ok pvd).
Proof.
  intros sorted pvd_filename out.
  assert (Hlen : length sorted = length (times self)) by apply length_np_sort.
  assert (Hperm : forall time k, sorted !! k = Some time -> time ∈ times self).
  { intros time k Hk. rewrite <- (np_sort_Permutation (times self)).
    by eapply list_elem_of_lookup_2. }
  destruct import_writer as [u|e0] eqn:Himp.
  2:{ assert (Hout : out = ([], Raise e0)) by (subst out; done).
      rewrite Hout. cbn [fst snd]. split; [by intros e [= ->] |].
      split; [done |]. split; [done |]. split; [intros e [= ->]; by left |]. done. }
  assert (Hout : out
    = ((vtk_loop gridToVTK str_int basename fs self path name 0 sorted).1,
       datasets ← (vtk_loop gridToVTK str_int basename fs self path name 0 sorted).2;
       _ ← tree_write pvd_filename datasets; Ok datasets)).
  { subst out. by apply write_vtk_series_unfold with (u := u). }
  clearbody out sorted. subst out. cbn [fst snd].
  set (L := vtk_loop gridToVTK str_int basename fs self path name 0 sorted) in *.
  assert (Hraise : forall e,
     (datasets ← L.2; _ ← tree_write pvd_filename datasets; Ok datasets) = Raise e ->
     (length L.1 < length (times self) /\
      exists time,
        sorted !! length L.1 = Some time /\
        (get_df_inst fs self (Some time) None ≫= fielddata_from_df) = Raise e) \/
     (exists call, last L.1 = Some call /\ gridToVTK call = Raise e) \/
     (length L.1 = length (times self) /\
      exists pvd, tree_write pvd_filename pvd = Raise e)).
  { intros e He. destruct (L.2) as [pvd|e'] eqn:EL.
    - right. right. cbv beta iota delta [mbind result_bind] in He.
      apply (vtk_loop_Ok gridToVTK str_int basename) in EL as [Hl _].
      split; [by rewrite <- Hlen |]. exists pvd.
      destruct (tree_write pvd_filename pvd); [done | by injection He as ->].
    - cbv beta iota delta [mbind result_bind] in He. injection He as ->.
      apply (vtk_loop_Raise gridToVTK str_int basename) in EL
        as [(Hlt & time & Ht & Hs) | (_ & call & Hlast & Hcall)].
      + left. split; [by rewrite <- Hlen |]. exists time. split; [exact Ht |].
        by apply vtk_step_Raise in Hs.
      + right. left. by exists call. }
  split; [done |]. split; [| split; [| split]].
  - intros k call Hk.
    destruct (vtk_loop_calls gridToVTK str_int basename _ _ _ _ _ _ _ _ Hk)
      as [(time & r & Ht & Hs) Hret].
    split.
    + apply vtk_step_Ok in Hs
        as (_ & Hpath & df & gd & dims & U & V & W & Hdf & Hgd & HX & HY & HZ & HU & HV & HW & Hpd).
      exists time, df, gd, dims, U, V, W. by do 10 (split; [done |]).
    + destruct Hret as [Hret | (Hl & e & He & Hout)]; [by left |].
      right. split; [done |]. exists e. split; [done |]. fold L in Hout. by rewrite Hout.
  - intros pvd Hp. destruct (L.2) as [pvd'|e'] eqn:EL; [| done].
    cbv beta iota delta [mbind result_bind] in Hp.
    destruct (tree_write pvd_filename pvd') as [[]|] eqn:Hw; [| done]. injection Hp as <-.
    apply (vtk_loop_Ok gridToVTK str_int basename) in EL as (Hl & files & Hfiles & Hpvd).
    split; [by rewrite <- Hlen |]. split; [by exists files | done].
  - intros e He. right. by apply Hraise.
  - intros _ Hall Hcalls Hwrite.
    destruct (datasets ← L.2; _ ← tree_write pvd_filename datasets; Ok datasets)
      as [pvd|e] eqn:E; [by exists pvd |].
    exfalso. destruct (Hraise e eq_refl)
      as [(_ & time & Ht & Hs) | [(call & _ & Hcall) | (_ & pvd & Hw)]].
    + destruct (Hall time (Hperm _ _ Ht)) as (df & gd & dims & Hdf & Hgd).
      rewrite Hdf in Hs. cbv beta iota delta [mbind result_bind] in Hs. congruence.
    + specialize (Hcalls call). by rewrite Hcall in Hcalls.
    + specialize (Hwrite pvd_filename pvd). by rewrite Hw in Hwrite.
Qed.

(** ** The VTK export of a wake grid *)

Lemma slice_reshape_length (axis : string) (F F' : Wake.field) (i : Z) (nt n1 n2 : nat) :
  axis ∈ ["x"; "y"; "z"] ->
  Wake.slice_reshape axis F i nt n1 n2 = Ok F' ->
  exists s, F' = Wake.Field3 s /\ length s = nt.
Proof.
  intros Hax H. rewrite !elem_of_cons, elem_of_nil in Hax.
  destruct Hax as [-> | [-> | [-> | []]]]; unfold Wake.slice_reshape in H; simpl in H;
    destruct F as [a|a]; try done;
    bind_inv H as s Hs; fmap_inv H as s' Hs'; exists s'; (split; [done |]);
    by apply reshape3_shape3 in Hs' as [? _].
Qed.

Section WakeVtkProofs.
Variable import_writer : result unit.
Variable gridToVTK : wake_vtk_grid -> result string.
Variable str_int : nat -> string.
Variable basename : string -> string.
Variable tree_write : string -> list (float * string) -> result unit.

Lemma wake_vtk_step_Ok (self : Wake.CactusWakeGrid) (path name : string)
    (ti : nat) (time : float) (call : wake_vtk_grid) (r : result (float * string)) :
  wake_vtk_step gridToVTK str_int basename self path name ti time = Ok (call, r) ->
  r = (data_filename ← gridToVTK call; Ok (time, basename data_filename)) /\
  wvtk_path call = path +:+ "/" +:+ name +:+ "_" +:+ str_int ti /\
  wvtk_X call = Wake.X_ self /\ wvtk_Y call = Wake.Y_ self /\
  wvtk_Z call = Wake.Z_ self /\
  exists u v w,
    field_at (Wake.U self) ti = Ok u /\ field_at (Wake.V self) ti = Ok v /\
    field_at (Wake.W self) ti = Ok w /\ wvtk_velocity call = (u, v, w).
Proof.
  unfold wake_vtk_step. intros H.
  bind_inv H as u Hu. bind_inv H as v Hv. bind_inv H as w Hw.
  injection H as <- <-. do 5 (split; [done |]). by exists u, v, w.
Qed.

Lemma wake_vtk_step_Raise (self : Wake.CactusWakeGrid) (path name : string)
    (ti : nat) (time : float) (e : exception) :
  wake_vtk_step gridToVTK str_int basename self path name ti time = Raise e ->
  is_Ok (field_at (Wake.U self) ti) && is_Ok (field_at (Wake.V self) ti)
    && is_Ok (field_at (Wake.W self) ti) = false.
Proof.
  unfold wake_vtk_step. intros H.
  destruct (field_at (Wake.U self) ti); [| done].
  destruct (field_at (Wake.V self) ti); [| done].
  by destruct (field_at (Wake.W self) ti).
Qed.

Abbreviation wloop self path name i times :=
  (wake_vtk_loop gridToVTK str_int basename self path name i times).

Lemma wake_vtk_loop_cons (self : Wake.CactusWakeGrid) (path name : string)
    (i : nat) (time : float) (rest : list float) :
  wloop self path name i (time :: rest)
  = match wake_vtk_step gridToVTK str_int basename self path name i time with
    | Raise e => ([], Raise e)
    | Ok (call, Raise e) => ([call], Raise e)
    | Ok (call, Ok dataset) =>
        (call :: (wloop self path name (S i) rest).1,
         cons dataset <$> (wloop self path name (S i) rest).2)
    end.
Proof.
  simpl. destruct (wake_vtk_step _ _ _ _ _ _ _ _) as [[call [ds|e]]|e]; try done.
  by destruct (wake_vtk_loop _ _ _ _ _ _ _ _).
Qed.

Lemma wake_vtk_loop_calls (self : Wake.CactusWakeGrid) (path name : string)
    (times : list float) (i k : nat) (call : wake_vtk_grid) :
  (wloop self path name i times).1 !! k = Some call ->
  (exists time r,
     times !! k = Some time /\
     wake_vtk_step gridToVTK str_int basename self path name (i + k) time = Ok (call, r)) /\
  ((exists file, gridToVTK call = Ok file) \/
   (S k = length (wloop self path name i times).1 /\
    exists e, gridToVTK call = Raise e /\ (wloop self path name i times).2 = Raise e)).
Proof.
  revert i k. induction times as [|time rest IH]; intros i k; [done |].
  rewrite wake_vtk_loop_cons.
  destruct (wake_vtk_step gridToVTK str_int basename self path name i time)
    as [[c r]|e] eqn:Hs; [| done].
  pose proof (wake_vtk_step_Ok _ _ _ _ _ _ _ Hs) as [Hr _].
  destruct r as [ds|e]; cbn [fst snd].
  - destruct k as [|k]; simpl.
    + intros [= <-]. split; [exists time, (Ok ds); by rewrite Nat.add_0_r |].
      left. destruct (gridToVTK c); [eauto | done].
    + intros Hk. destruct (IH (S i) k Hk) as [(t & r' & Ht & Hstep) Hret].
      split; [exists t, r'; by rewrite Nat.add_succ_r |].
      destruct Hret as [Hret | (Hlen & e & He & Hout)]; [by left |].
      right. split; [by rewrite Hlen |]. exists e. by rewrite Hout.
  - destruct k as [|k]; simpl; [| done].
    intros [= <-]. split; [exists time, (Raise e); by rewrite Nat.add_0_r |].
    right. split; [done |]. exists e. split; [| done].
    destruct (gridToVTK c); [done | by injection Hr as ->].
Qed.

Lemma wake_vtk_loop_Ok (self : Wake.CactusWakeGrid) (path name : string)
    (times : list float) (i : nat) (pvd : list (float * string)) :
  (wloop self path name i times).2 = Ok pvd ->
  length (wloop self path name i times).1 = length times /\
  exists files,
    Forall2 (fun call file => gridToVTK call = Ok file)
            (wloop self path name i times).1 files /\
    pvd = zip times (map basename files).
Proof.
  revert i pvd. induction times as [|time rest IH]; intros i pvd.
  - intros [= <-]. split; [done |]. exists []. by split; [constructor |].
  - rewrite wake_vtk_loop_cons.
    destruct (wake_vtk_step gridToVTK str_int basename self path name i time)
      as [[c r]|e] eqn:Hs; [| done].
    pose proof (wake_vtk_step_Ok _ _ _ _ _ _ _ Hs) as [Hr _].
    destruct r as [ds|e]; cbn [fst snd]; [| done].
    intros H. fmap_inv H as pvd' Hp. subst pvd.
    destruct (IH _ _ Hp) as (Hlen & files & Hfiles & ->).
    split; [simpl; by rewrite Hlen |].
    destruct (gridToVTK c) as [file|] eqn:Hc; [| done]. injection Hr as ->.
    exists (file :: files). split; [by constructor | done].
Qed.

Lemma wake_vtk_loop_Raise (self : Wake.CactusWakeGrid) (path name : string)
    (times : list float) (i : nat) (e : exception) :
  (wloop self path name i times).2 = Raise e ->
  (exists time,
     times !! length (wloop self path name i times).1 = Some time /\
     wake_vtk_step gridToVTK str_int basename self path name
       (i + length (wloop self path name i times).1) time = Raise e) \/
  (exists call,
     last (wloop self path name i times).1 = Some call /\ gridToVTK call = Raise e).
Proof.
  revert i. induction times as [|time rest IH]; intros i; [done |].
  rewrite wake_vtk_loop_cons.
  destruct (wake_vtk_step gridToVTK str_int basename self path name i time)
    as [[c r]|e'] eqn:Hs.
  - pose proof (wake_vtk_step_Ok _ _ _ _ _ _ _ Hs) as [Hr _].
    destruct r as [ds|e']; cbn [fst snd].
    + intros H.
      destruct ((wloop self path name (S i) rest).2) as [pvd|e'] eqn:E; [done |].
      injection H as ->.
      destruct (IH (S i) E) as [(t & Ht & Hstep) | (call & Hlast & Hcall)].
      * left. exists t. split; [done |]. simpl length. by rewrite Nat.add_succ_r.
      * right. exists call. split; [| done].
        destruct ((wloop self path name (S i) rest).1); [done | exact Hlast].
    + intros [= ->]. right. exists c. split; [done |].
      destruct (gridToVTK c); [done | by injection Hr as ->].
  - cbn [fst snd]. intros [= ->]. left.
    exists time. split; [done |]. by rewrite Nat.add_0_r.
Qed.

(** The export of a grid whose fields have a block for every time. *)
Lemma wake_write_vtk_spec (self : Wake.CactusWakeGrid) (path name : string)
    (comp : Wake.field -> nat -> option vtk_component) :
  (forall F k, F ∈ [Wake.U self; Wake.V self; Wake.W self] ->
     k < length (Wake.times self) ->
     exists c, comp F k = Some c /\ field_at F k = Ok c) ->
  let out := Wake_write_vtk import_writer gridToVTK str_int basename tree_write
               self path name in
  (forall e, import_writer = Raise e -> out = ([], Raise e)) /\
  (forall ti call, out.1 !! ti = Some call ->
     wvtk_path call = path +:+ "/" +:+ name +:+ "_" +:+ str_int ti /\
     wvtk_X call = Wake.X_ self /\ wvtk_Y call = Wake.Y_ self /\
     wvtk_Z call = Wake.Z_ self /\
     (exists u v w,
        comp (Wake.U self) ti = Some u /\ comp (Wake.V self) ti = Some v /\
        comp (Wake.W self) ti = Some w /\ wvtk_velocity call = (u, v, w)) /\
     ((exists file, gridToVTK call = Ok file) \/
      (S ti = length out.1 /\ exists e, gridToVTK call = Raise e /\ out.2 = Raise e))) /\
  (forall pvd, out.2 = Ok pvd ->
     length out.1 = length (Wake.times self) /\
     (exists files,
        Forall2 (fun call file => gridToVTK call = Ok file) out.1 files /\
        pvd = zip (Wake.times self) (map basename files)) /\
     tree_write (path +:+ "/" +:+ name +:+ ".pvd") pvd = Ok tt) /\
  (forall e, out.2 = Raise e ->
     import_writer = Raise e \/
     (exists call, last out.1 = Some call /\ gridToVTK call = Raise e) \/
     (length out.1 = length (Wake.times self) /\
      exists pvd, tree_write (path +:+ "/" +:+ name +:+ ".pvd") pvd = Raise e)) /\
  (is_Ok import_writer = true ->
   (forall call, is_Ok (gridToVTK call) = true) ->
   (forall file pvd, is_Ok (tree_write file pvd) = true) ->
   exists pvd, out.2 = Ok pvd).
Proof.
  intros Hcomp out.
  destruct import_writer as [u|e0] eqn:Himp.
  2:{ assert (Hout : out = ([], Raise e0)) by (subst out; done).
      rewrite Hout. cbn [fst snd]. split; [by intros e [= ->] |].
      split; [done |]. split; [done |]. split; [intros e [= ->]; by left |]. done. }
  set (pvd_filename := path +:+ "/" +:+ name +:+ ".pvd").
  set (L := wake_vtk_loop gridToVTK str_int basename self path name 0 (Wake.times self)).
  assert (Hout : out
    = (L.1, datasets ← L.2; _ ← tree_write pvd_filename datasets; Ok datasets)).
  { subst out L pvd_filename. unfold Wake_write_vtk.
    by destruct (wake_vtk_loop _ _ _ _ _ _ _ _). }
  clearbody out. subst out. cbn [fst snd].
  assert (Hraise : forall e,
     (datasets ← L.2; _ ← tree_write pvd_filename datasets; Ok datasets) = Raise e ->
     (exists call, last L.1 = Some call /\ gridToVTK call = Raise e) \/
     (length L.1 = length (Wake.times self) /\
      exists pvd, tree_write pvd_filename pvd = Raise e)).
  { intros e He. destruct (L.2) as [pvd|e'] eqn:EL.
    - right. cbv beta iota delta [mbind result_bind] in He.
      apply wake_vtk_loop_Ok in EL as [Hl _].
      split; [done |]. exists pvd.
      destruct (tree_write pvd_filename pvd); [done | by injection He as ->].
    - cbv beta iota delta [mbind result_bind] in He. injection He as ->.
      pose proof EL as EL'.
      apply wake_vtk_loop_Raise in EL as [(time & Ht & Hs) | (call & Hlast & Hcall)].
      + exfalso. apply wake_vtk_step_Raise in Hs. simpl in Hs. fold L in Ht, Hs.
        apply lookup_lt_Some in Ht.
        destruct (Hcomp (Wake.U self) (length L.1)) as (cu & _ & Hu); [in_list | done |].
        destruct (Hcomp (Wake.V self) (length L.1)) as (cv & _ & Hv); [in_list | done |].
        destruct (Hcomp (Wake.W self) (length L.1)) as (cw & _ & Hw); [in_list | done |].
        by rewrite Hu, Hv, Hw in Hs.
      + left. by exists call. }
  split; [done |]. split; [| split; [| split]].
  - intros ti call Hk.
    destruct (wake_vtk_loop_calls _ _ _ _ _ _ _ Hk) as [(time & r & Ht & Hs) Hret].
    apply wake_vtk_step_Ok in Hs
      as (_ & Hp & HX & HY & HZ & cu & cv & cw & Hu & Hv & Hw & Hvel).
    simpl in Hp, Hu, Hv, Hw. do 4 (split; [done |]).
    apply lookup_lt_Some in Ht. split.
    + destruct (Hcomp (Wake.U self) ti) as (cu' & Hcu & Hu'); [in_list | done |].
      destruct (Hcomp (Wake.V self) ti) as (cv' & Hcv & Hv'); [in_list | done |].
      destruct (Hcomp (Wake.W self) ti) as (cw' & Hcw & Hw'); [in_list | done |].
      exists cu, cv, cw. repeat split; try done; congruence.
    + destruct Hret as [Hret | (Hl & e & He & Hout)]; [by left |].
      right. split; [done |]. exists e. split; [done |]. fold L in Hout. by rewrite Hout.
  - intros pvd Hp. destruct (L.2) as [pvd'|e'] eqn:EL; [| done].
    cbv beta iota delta [mbind result_bind] in Hp.
    destruct (tree_write pvd_filename pvd') as [[]|] eqn:Hw; [| done]. injection Hp as <-.
    apply wake_vtk_loop_Ok in EL as (Hl & files & Hfiles & Hpvd).
    split; [done |]. split; [by exists files | done].
  - intros e He. right. by apply Hraise.
  - intros _ Hcalls Hwrite.
    destruct (datasets ← L.2; _ ← tree_write pvd_filename datasets; Ok datasets)
      as [pvd|e] eqn:E; [by exists pvd |].
    exfalso. destruct (Hraise e eq_refl) as [(call & _ & Hcall) | (_ & pvd & Hw)].
    + specialize (Hcalls call). by rewrite Hcall in Hcalls.
    + specialize (Hwrite pvd_filename pvd). by rewrite Hw in Hwrite.
Qed.

End WakeVtkProofs.


Lemma field_at_block (F : Wake.field) (k : nat) (n : nat) :
  match F with Wake.Field4 a => length a = n | Wake.Field3 a => length a = n end ->
  k < n -> exists c, block_at F k = Some c /\ field_at F k = Ok c.
Proof.
  intros Hlen Hk. destruct F as [a|a]; simpl.
  - destruct (lookup_lt_is_Some_2 a k) as [b Hb]; [lia |].
    rewrite Hb, (getitem_lookup _ _ _ Hb). by eexists.
  - destruct (lookup_lt_is_Some_2 a k) as [b Hb]; [lia |].
    rewrite Hb, (getitem_lookup _ _ _ Hb). by eexists.
Qed.

(** X30.  A grid built by the constructor, or such a grid after a slice was
    taken in place, is exported by [write_vtk] without an error of its own:
    the writer is called for the distinct times in the order of [times],
    the call for time index ti writing to [path/name_ti] the coordinate
    arrays of the grid and, as [velocity], the ti-th blocks of U, V, W.
    These blocks are 3-D on the grid as built and 2-D after an in-place
    slice, while the coordinate arrays stay the 3-D arrays of the grid as
    built.  Every call but the last has returned.  The export returns only
    after one call per time, all returned, and a successful write of the
    collection, which lists every time with the base name of its file.
    When it raises, the exception is that of the imports (no call made),
    of the last call of the writer, or of the write of the collection; it
    returns whenever these three do. *)
Theorem wake_write_vtk_calls
    (import_writer : result unit) (gridToVTK : wake_vtk_grid -> result string)
    (str_int : nat -> string) (basename : string -> string)
    (tree_write : string -> list (float * string) -> result unit)
    (df : DataFrame) (g self : Wake.CactusWakeGrid) (path name : string) :
  Wake.CactusWakeGrid_init df = Ok g ->
  self = g \/
  (exists axis i FU FV FW, Wake.slice_in_space g axis i true = Ok (FU, FV, FW, self)) ->
  let out := Wake_write_vtk import_writer gridToVTK str_int basename tree_write
               self path name in
  (self = g ->
     exists U V W, Wake.U self = Wake.Field4 U /\ Wake.V self = Wake.Field4 V /\
                   Wake.W self = Wake.Field4 W) /\
  (forall axis i FU FV FW,
     Wake.slice_in_space g axis i true = Ok (FU, FV, FW, self) ->
     exists SU SV SW, Wake.U self = Wake.Field3 SU /\ Wake.V self = Wake.Field3 SV /\
                      Wake.W self = Wake.Field3 SW) /\
  Wake.times self = Wake.times g /\
  (forall e, import_writer = Raise e -> out = ([], Raise e)) /\
  (forall ti call, out.1 !! ti = Some call ->
     wvtk_path call = path +:+ "/" +:+ name +:+ "_" +:+ str_int ti /\
     wvtk_X call = Wake.X_ g /\ wvtk_Y call = Wake.Y_ g /\ wvtk_Z call = Wake.Z_ g /\
     (exists u v w,
        block_at (Wake.U self) ti = Some u /\ block_at (Wake.V self) ti = Some v /\
        block_at (Wake.W self) ti = Some w /\ wvtk_velocity call = (u, v, w)) /\
     ((exists file, gridToVTK call = Ok file) \/
      (S ti = length out.1 /\ exists e, gridToVTK call = Raise e /\ out.2 = Raise e))) /\
  (forall pvd, out.2 = Ok pvd ->
     length out.1 = length (Wake.times g) /\
     (exists files,
        Forall2 (fun call file => gridToVTK call = Ok file) out.1 files /\
        pvd = zip (Wake.times g) (map basename files)) /\
     tree_write (path +:+ "/" +:+ name +:+ ".pvd") pvd = Ok tt) /\
  (forall e, out.2 = Raise e ->
     import_writer = Raise e \/
     (exists call, last out.1 = Some call /\ gridToVTK call = Raise e) \/
     (length out.1 = length (Wake.times g) /\
      exists pvd, tree_write (path +:+ "/" +:+ name +:+ ".pvd") pvd = Raise e)) /\
  (is_Ok import_writer = true ->
   (forall call, is_Ok (gridToVTK call) = true) ->
   (forall file pvd, is_Ok (tree_write file pvd) = true) ->
   exists pvd, out.2 = Ok pvd).
Proof.
  intros Hinit Hself out.
  destruct (CactusWakeGrid_init_Ok _ _ Hinit)
    as (t & x & y & z & u & v & w & U & V & W & _ & _ & _ & _ & _ & _ & _
        & Ht & _ & Hnt & _ & _ & _ & _ & _ & _ & HU & HV & HW & EU & EV & EW & _).
  assert (Hlen : length (Wake.times g) = Wake.nt g) by (by rewrite Ht, Hnt).
  apply reshape4_shape4 in HU as [LU _], HV as [LV _], HW as [LW _].
  assert (Hfacts :
    Wake.times self = Wake.times g /\ Wake.X_ self = Wake.X_ g /\
    Wake.Y_ self = Wake.Y_ g /\ Wake.Z_ self = Wake.Z_ g /\
    (self = g \/ exists SU SV SW, Wake.U self = Wake.Field3 SU /\
                   Wake.V self = Wake.Field3 SV /\ Wake.W self = Wake.Field3 SW) /\
    forall F, F ∈ [Wake.U self; Wake.V self; Wake.W self] ->
      match F with
      | Wake.Field4 a => length a = length (Wake.times self)
      | Wake.Field3 a => length a = length (Wake.times self)
      end).
  { destruct Hself as [-> | (axis & i & FU & FV & FW & Hs)].
    - do 4 (split; [done |]). split; [by left |].
      intros F HF. rewrite EU, EV, EW in HF.
      rewrite !elem_of_cons, elem_of_nil in HF.
      destruct HF as [-> | [-> | [-> | []]]]; lia.
    - destruct (slice_in_space_Ok _ _ _ _ _ _ _ _ Hs)
        as (Hax & n1 & n2 & SU & SV & SW & -> & _).
      destruct (slice_reshape_length _ _ _ _ _ _ _ Hax SU) as (su & -> & Lu).
      destruct (slice_reshape_length _ _ _ _ _ _ _ Hax SV) as (sv & -> & Lv).
      destruct (slice_reshape_length _ _ _ _ _ _ _ Hax SW) as (sw & -> & Lw).
      simpl. do 4 (split; [done |]). split; [right; by exists su, sv, sw |].
      intros F HF. rewrite !elem_of_cons, elem_of_nil in HF.
      destruct HF as [-> | [-> | [-> | []]]]; lia. }
  destruct Hfacts as (Htimes & EX & EY & EZ & Hkind & Hfields).
  split; [intros ->; by exists U, V, W |].
  split.
  { intros axis i FU FV FW Hs.
    destruct (slice_in_space_Ok _ _ _ _ _ _ _ _ Hs)
      as (Hax & n1 & n2 & SU & SV & SW & -> & _).
    destruct (slice_reshape_length _ _ _ _ _ _ _ Hax SU) as (su & -> & _).
    destruct (slice_reshape_length _ _ _ _ _ _ _ Hax SV) as (sv & -> & _).
    destruct (slice_reshape_length _ _ _ _ _ _ _ Hax SW) as (sw & -> & _).
    by exists su, sv, sw. }
  split; [done |].
  rewrite <- Htimes, <- EX, <- EY, <- EZ.
  apply (wake_write_vtk_spec import_writer gridToVTK str_int basename tree_write
           self path name block_at).
  intros F k HF Hk. eapply field_at_block; [by apply Hfields | done].
Qed.

(** Two nodes on a line at two times: two files are written. *)
Lemma wake_write_vtk_calls_witness :
  exists g calls pvd,
    Wake.CactusWakeGrid_init df_line = Ok g /\
    Wake_write_vtk (Ok tt) (fun call => Ok (wvtk_path call +:+ ".vts"))
                   (fun n => String (ascii_of_nat (48 + n)) EmptyString)
                   (fun file => file) (fun _ _ => Ok tt) g "out" "wake" = (calls, Ok pvd) /\
    length calls = 2.
Proof.
  assert (Hinit : is_Ok (Wake.CactusWakeGrid_init df_line) = true) by (vm_compute; reflexivity).
  destruct (Wake.CactusWakeGrid_init df_line) as [g|e] eqn:E; [| discriminate].
  destruct (wake_write_vtk_calls (Ok tt) (fun call => Ok (wvtk_path call +:+ ".vts"))
              (fun n => String (ascii_of_nat (48 + n)) EmptyString)
              (fun file => file) (fun _ _ => Ok tt) df_line g g "out" "wake" E)
    as (_ & _ & _ & _ & _ & Hok & _ & Hret); [by left |].
  destruct Hret as [pvd Hp]; [done .. |].
  destruct (Hok pvd Hp) as (Hl & _).
  match type of Hp with (?o).2 = _ => destruct o as [calls r] eqn:Eo end.
  simpl in Hp, Hl. subst r. exists g, calls, pvd. split; [reflexivity |].
  split; [exact Eo |].
  assert (Hn : (fun g0 => length (Wake.times g0)) <$> Wake.CactusWakeGrid_init df_line = Ok 2)
    by (vm_compute; reflexivity).
  rewrite E in Hn. simpl in Hn. injection Hn as Hn. by rewrite Hl.
Defined.


(** * Distinct values, extrema and windows *)

(** ** Extrema of a column *)

Lemma series_extrema (col : arr1) (c : float) :
  c ∈ col -> isnan c = false -> extrema_of col (series_min col) (series_max col).
Proof.
  intros Hc Hn.
  destruct (series_min_spec col c Hc Hn) as (H1 & H2 & _).
  destruct (series_max_spec col c Hc Hn) as (H3 & H4 & _).
  repeat split; try done.
  - by apply series_min_spec.
  - by apply series_max_spec.
Qed.

Lemma ndarray_extrema (col : arr1) (lo hi : float) :
  ndarray_min col = Ok lo -> ndarray_max col = Ok hi ->
  Forall (fun c => isnan c = false) col -> extrema_of col lo hi.
Proof.
  intros Hlo Hhi Hn.
  destruct (ndarray_min_spec col lo Hlo Hn) as [H1 H2].
  destruct (ndarray_max_spec col hi Hhi Hn) as [H3 H4].
  repeat split; try done.
  - by apply (proj1 (Forall_forall _ _) Hn).
  - by apply (proj1 (Forall_forall _ _) Hn).
  - by apply (proj1 (Forall_forall _ _) H2).
  - by apply (proj1 (Forall_forall _ _) H4).
Qed.

(** ** Distinct values *)

Lemma pd_eqb_sym (a b : float) : pd_eqb a b = pd_eqb b a.
Proof.
  unfold pd_eqb. rewrite (andb_comm (isnan a)). f_equal.
  destruct (SFeqb a b) eqn:E1, (SFeqb b a) eqn:E2; try done.
  - apply SFeqb_sym in E1. congruence.
  - apply SFeqb_sym in E2. congruence.
Qed.

Lemma pd_unique_distinct_values (col : arr1) :
  distinct_values pd_eqb col (pd_unique col).
Proof.
  split; [| split].
  - intros d Hd. eapply elem_of_sublist; [exact Hd | apply pd_unique_aux_sublist].
  - intros c Hc. by destruct (pd_unique_aux_covers col [] c Hc) as [? | ?].
  - intros i j a b Hij Hi Hj. rewrite pd_eqb_sym.
    by apply (pd_unique_aux_distinct col [] i j).
Qed.

Lemma drop_repeats_spec (l : list float) (prev : float) :
  isnan prev = false -> Forall (fun c => isnan c = false) l ->
  sorted_from (prev :: l) ->
  (forall d, d ∈ drop_repeats prev l -> d ∈ l) /\
  (forall c, c ∈ l ->
     SFeqb c prev = true \/ exists d, d ∈ drop_repeats prev l /\ SFeqb c d = true) /\
  Forall (fun d => SFleb d prev = false) (drop_repeats prev l) /\
  (forall i j a b, i < j ->
     drop_repeats prev l !! i = Some a -> drop_repeats prev l !! j = Some b ->
     SFleb b a = false).
Proof.
  revert prev. induction l as [|x l IH]; intros prev Hp Hl [Hall Hs].
  { simpl. repeat split; try done.
    - intros c Hc. by apply elem_of_nil in Hc. }
  apply Forall_cons in Hl as [Hx Hl].
  assert (Hpx : SFleb prev x = true).
  { apply Forall_cons in Hall as [H _]. unfold sort_le in H. by rewrite Hx in H. }
  destruct (IH x Hx Hl Hs) as (Hsub & Hcov & Hgt & Hpair).
  assert (Hgt' : Forall (fun d => SFleb d prev = false) (drop_repeats x l)).
  { eapply Forall_impl; [exact Hgt |]. intros d Hd. cbv beta in Hd.
    destruct (SFleb d prev) eqn:E; [| done].
    by rewrite (SFleb_trans _ _ _ E Hpx) in Hd. }
  simpl. destruct (SFeqb x prev) eqn:Exp.
  - split; [| split; [| split]]; try done.
    + intros d Hd. by apply list_elem_of_further, Hsub.
    + intros c [-> | Hc]%elem_of_cons; [by left |].
      destruct (Hcov c Hc) as [Hcx | ?]; [| by right].
      left. by eapply SFeqb_trans.
  - split; [| split; [| split]].
    + intros d [-> | Hd]%elem_of_cons;
        [apply list_elem_of_here | by apply list_elem_of_further, Hsub].
    + intros c [-> | Hc]%elem_of_cons.
      * right. exists x. split; [apply list_elem_of_here | by apply SFeqb_refl].
      * right. destruct (Hcov c Hc) as [Hcx | (d & Hd & Hcd)].
        -- exists x. split; [apply list_elem_of_here | done].
        -- exists d. split; [by apply list_elem_of_further | done].
    + constructor; [| done].
      destruct (SFleb x prev) eqn:E; [| done].
      by rewrite (SFleb_antisym _ _ E Hpx) in Exp.
    + intros i j a b Hij Hi Hj. destruct j as [|j]; [lia |]. simpl in Hj.
      destruct i as [|i]; simpl in Hi.
      * injection Hi as <-. apply list_elem_of_lookup_2 in Hj.
        by apply (proj1 (Forall_forall _ _) Hgt).
      * apply (Hpair i j); [lia | done | done].
Qed.

Lemma np_unique_distinct_values (col : arr1) :
  Forall (fun c => isnan c = false) col -> distinct_values SFeqb col (np_unique col).
Proof.
  intros Hn. unfold np_unique.
  pose proof (np_sort_sorted col) as Hs. pose proof (np_sort_Permutation col) as Hp.
  assert (Hn' : Forall (fun c => isnan c = false) (np_sort col)) by (by rewrite Hp).
  destruct (np_sort col) as [|x rest] eqn:E.
  { apply Permutation_nil_l in Hp as <-. repeat split; try done.
    intros c Hc. by apply elem_of_nil in Hc. }
  apply Forall_cons in Hn' as [Hx Hr].
  destruct (drop_repeats_spec rest x Hx Hr Hs) as (Hsub & Hcov & Hgt & Hpair).
  split; [| split].
  - intros d Hd. rewrite <- Hp. apply elem_of_cons in Hd as [-> | Hd];
      [apply list_elem_of_here | by apply list_elem_of_further, Hsub].
  - intros c Hc. rewrite <- Hp in Hc. apply elem_of_cons in Hc as [-> | Hc].
    + exists x. split; [apply list_elem_of_here | by apply SFeqb_refl].
    + destruct (Hcov c Hc) as [Hcx | (d & Hd & Hcd)].
      * exists x. split; [apply list_elem_of_here | done].
      * exists d. split; [by apply list_elem_of_further | done].
  - intros i j a b Hij Hi Hj.
    assert (Hba : SFleb b a = false).
    { destruct j as [|j]; [lia |]. simpl in Hj. destruct i as [|i]; simpl in Hi.
      - injection Hi as <-. apply list_elem_of_lookup_2 in Hj.
        by apply (proj1 (Forall_forall _ _) Hgt).
      - apply (Hpair i j); [lia | done | done]. }
    destruct (SFeqb a b) eqn:Eab; [| done].
    apply SFeqb_sym, SFeqb_SFleb in Eab. congruence.
Qed.

(** The number of distinct values does not depend on which representatives
    are listed. *)
Section DistinctCount.
Variable eqb : float -> float -> bool.
Hypothesis eqb_sym : forall a b, eqb a b = true -> eqb b a = true.
Hypothesis eqb_trans : forall a b c, eqb a b = true -> eqb b c = true -> eqb a c = true.

Lemma distinct_injects (ds1 ds2 : list float) :
  (forall i j a b, i < j -> ds1 !! i = Some a -> ds1 !! j = Some b -> eqb a b = false) ->
  (forall a, a ∈ ds1 -> exists d, d ∈ ds2 /\ eqb a d = true) ->
  length ds1 <= length ds2.
Proof.
  revert ds2. induction ds1 as [|a ds1 IH]; intros ds2 Hd Hc; simpl; [lia |].
  destruct (Hc a) as (d & Hin & Had); [apply list_elem_of_here |].
  apply list_elem_of_split in Hin as (l1 & l2 & ->).
  rewrite length_app. simpl.
  enough (length ds1 <= length (l1 ++ l2)) by (rewrite length_app in *; lia).
  apply IH.
  - intros i j x y Hij Hi Hj. apply (Hd (S i) (S j)); [lia | done | done].
  - intros b Hb. destruct (Hc b) as (d' & Hin' & Hbd); [by apply list_elem_of_further |].
    exists d'. split; [| done].
    rewrite elem_of_app in Hin'. rewrite elem_of_app.
    destruct Hin' as [? | [-> | ?]%elem_of_cons]; [by left | | by right].
    apply list_elem_of_lookup_1 in Hb as [j Hj].
    assert (eqb a b = false) as E by (by apply (Hd 0 (S j)); [lia | |]).
    rewrite (eqb_trans a d b Had (eqb_sym _ _ Hbd)) in E. done.
Qed.

Lemma distinct_values_length (col ds1 ds2 : list float) :
  distinct_values eqb col ds1 -> distinct_values eqb col ds2 ->
  length ds1 = length ds2.
Proof.
  intros (S1 & C1 & D1) (S2 & C2 & D2).
  apply Nat.le_antisymm; apply distinct_injects; try done.
  - intros a Ha. by apply C2, S1.
  - intros a Ha. by apply C1, S2.
Qed.
End DistinctCount.

Lemma pd_eqb_trans (a b c : float) :
  pd_eqb a b = true -> pd_eqb b c = true -> pd_eqb a c = true.
Proof.
  unfold pd_eqb. intros [Hab | [Ha Hb]%andb_prop]%orb_prop [Hbc | [Hb' Hc]%andb_prop]%orb_prop.
  - by rewrite (SFeqb_trans _ _ _ Hab Hbc).
  - apply SFeqb_true_cases in Hab as [[_ [s ->]] | [-> Hn]]; [done | congruence].
  - apply SFeqb_true_cases in Hbc as [[[s ->] _] | [-> Hn]]; [done | congruence].
  - rewrite Ha, Hc. apply orb_true_r.
Qed.

(** ** The window the requested times resolve to *)

Lemma getitem_last {A} (l : list A) (x : A) :
  getitem l (-1) = Ok x -> l !! (length l - 1) = Some x.
Proof.
  intros H. destruct l as [|y l]; [done |].
  rewrite getitem_negative in H by (simpl length; lia).
  replace (-1 + Z.of_nat (length (y :: l)))%Z
    with (Z.of_nat (length (y :: l) - 1)) in H by (simpl length; lia).
  by apply getitem_nat_inv.
Qed.

Lemma find_nearest_nearest_to (array : arr1) (value v : float) (k : nat) :
  Wake.find_nearest array value = Ok (v, k) ->
  k < length array /\ nearest_to float64 array value k.
Proof.
  unfold Wake.find_nearest. intros H.
  bind_inv H as index Hi. bind_inv H as nv Hnv. injection H as <- <-.
  by apply argmin_nearest_to.
Qed.

Lemma resolve_start_spec (times : arr1) (t_start : float) (w : list Wake.warning) (i : Z) :
  Wake.resolve_start times t_start = Ok (w, i) ->
  start_index_of times t_start i /\ w = start_warning times t_start.
Proof.
  unfold Wake.resolve_start, start_index_of, start_warning. intros H.
  bind_inv H as first Hf.
  change 0%Z with (Z.of_nat 0) in Hf. apply getitem_nat_inv in Hf. rewrite Hf.
  destruct (SFltb t_start first) eqn:E.
  - injection H as <- <-. split; [| done]. exists first. by rewrite E.
  - bind_inv H as p Hp. destruct p as [v k]. injection H as <- <-.
    split; [| done]. exists first. rewrite E. split; [done |].
    exists k. split; [done |]. by eapply find_nearest_nearest_to.
Qed.

Lemma resolve_end_spec (times : arr1) (t_end : float) (w : list Wake.warning) (i : Z) :
  Wake.resolve_end times t_end = Ok (w, i) ->
  end_index_of times t_end i /\ w = end_warning times t_end.
Proof.
  unfold Wake.resolve_end, end_index_of, end_warning. intros H.
  bind_inv H as last Hl. apply getitem_last in Hl. rewrite Hl.
  destruct (SFltb last t_end) eqn:E.
  - injection H as <- <-. split; [| done]. exists last. by rewrite E.
  - destruct (SFeqb t_end (of_int float64 (-1))) eqn:E1.
    + injection H as <- <-. split; [| done]. exists last. by rewrite E.
    + bind_inv H as p Hp. destruct p as [v k]. injection H as <- <-.
      split; [| done]. exists last. rewrite E. simpl orb. split; [done |].
      exists k. split; [done |]. by eapply find_nearest_nearest_to.
Qed.

(** ** The statistics of one point *)

(** Ten samples of 0.1.  Summed as a 1-D array they give 1.0; added one
    after the other they give 0.9999999999999999.  So the mean of a field
    with one point per sample is 0.1, and the mean at each point of a field
    with two points per sample is the double just below 0.1. *)
Example mean_of_ten_tenths :
  add_reduce float64 (replicate 10 tenth) = f64 1 /\
  foldl (fadd float64) fzero (replicate 10 tenth)
    = S754_finite false 9007199254740991 (-53) /\
  Wake.np_mean0 (replicate 10 [tenth]) = [tenth] /\
  Wake.np_mean0 (replicate 10 [tenth; tenth])
    = [S754_finite false 7205759403792793 (-56);
       S754_finite false 7205759403792793 (-56)].
Proof. repeat split; vm_compute; reflexivity. Qed.

Lemma np_min0_at (n : nat) (w : arr2) (minf : arr1) :
  rect n w -> Wake.np_min0 w = Ok minf ->
  length minf = n /\
  forall j, j < n ->
    exists lo, minf !! j = Some lo /\
      (Forall (fun x => isnan x = false) (sample w j) ->
         lo ∈ sample w j /\ forall x, x ∈ sample w j -> SFleb lo x = true) /\
      (S754_nan ∈ sample w j -> lo = NaN).
Proof.
  intros Hw H. destruct w as [|row rest]; [done |]. injection H as <-.
  apply Forall_cons in Hw as [Hrow Hrest]. simpl in Hrow.
  split; [by apply length_foldl_zip_with |]. intros j Hj.
  destruct (lookup_lt_is_Some_2 row j) as [x Hx]; [lia |].
  exists (foldl np_minimum x (sample rest j)).
  split; [by apply (lookup_foldl_zip_with _ n) |].
  rewrite sample_cons, Hx. simpl default. split.
  - intros [Hxn Hr]%Forall_cons.
    destruct (foldl_np_minimum_spec (sample rest j) x Hxn Hr) as [Hin Hle].
    split; [done |]. intros y Hy. by apply (proj1 (Forall_forall _ _) Hle).
  - intros Hin. by rewrite foldl_np_minimum_nan.
Qed.

Lemma np_max0_at (n : nat) (w : arr2) (maxf : arr1) :
  rect n w -> Wake.np_max0 w = Ok maxf ->
  length maxf = n /\
  forall j, j < n ->
    exists hi, maxf !! j = Some hi /\
      (Forall (fun x => isnan x = false) (sample w j) ->
         hi ∈ sample w j /\ forall x, x ∈ sample w j -> SFleb x hi = true) /\
      (S754_nan ∈ sample w j -> hi = NaN).
Proof.
  intros Hw H. destruct w as [|row rest]; [done |]. injection H as <-.
  apply Forall_cons in Hw as [Hrow Hrest]. simpl in Hrow.
  split; [by apply length_foldl_zip_with |]. intros j Hj.
  destruct (lookup_lt_is_Some_2 row j) as [x Hx]; [lia |].
  exists (foldl np_maximum x (sample rest j)).
  split; [by apply (lookup_foldl_zip_with _ n) |].
  rewrite sample_cons, Hx. simpl default. split.
  - intros [Hxn Hr]%Forall_cons.
    destruct (foldl_np_maximum_spec (sample rest j) x Hxn Hr) as [Hin Hle].
    split; [done |]. intros y Hy. by apply (proj1 (Forall_forall _ _) Hle).
  - intros Hin. by rewrite foldl_np_maximum_nan.
Qed.

(** The squared deviation from a broadcast mean, at point [j]. *)
Lemma sample_square_dev (n j : nat) (mean : arr1) (F : arr2) (m : float) :
  rect n F -> length mean = n -> mean !! j = Some m ->
  sample (map (map (fun d => fmul float64 d d))
              (map (fun row => zip_with (fsub float64) row mean) F)) j
  = map (fun f => let d := fsub float64 f m in fmul float64 d d) (sample F j).
Proof.
  intros HF Hlen Hm.
  assert (Hj : j < n) by (rewrite <- Hlen; by eapply lookup_lt_Some).
  induction HF as [|row F Hrow _ IH]; [done |].
  unfold sample in *. simpl. f_equal; [| exact IH].
  destruct (lookup_lt_is_Some_2 row j) as [x Hx]; [lia |].
  rewrite list_lookup_fmap, lookup_zip_with, Hm, Hx. done.
Qed.

Lemma rect_square_dev (n : nat) (mean : arr1) (F : arr2) :
  rect n F -> length mean = n ->
  rect n (map (map (fun d => fmul float64 d d))
              (map (fun row => zip_with (fsub float64) row mean) F)).
Proof.
  intros HF Hlen. induction HF as [|row F Hrow _ IH]; simpl; constructor; [| done].
  rewrite length_map, length_zip_with. lia.
Qed.

Lemma np_std0_at (n j : nat) (w : arr2) :
  rect n w -> w <> [] -> j < n ->
  Wake.np_std0 w !! j
  = Some (fsqrt float64
            (time_mean n
               (map (fun f => let d := fsub float64 f (time_mean n (sample w j)) in
                              fmul float64 d d)
                    (sample w j)))).
Proof.
  intros Hw Hne Hj. unfold Wake.np_std0.
  pose proof (length_np_mean0 n w Hw Hne) as Hlen.
  pose proof (lookup_np_mean0 n j w Hw Hne Hj) as Hm.
  rewrite list_lookup_fmap, (lookup_np_mean0 n);
    [| by apply rect_square_dev | by destruct w | done].
  by rewrite (sample_square_dev n j _ w _ Hw Hlen Hm).
Qed.

Lemma length_np_std0 (n : nat) (w : arr2) :
  rect n w -> w <> [] -> length (Wake.np_std0 w) = n.
Proof.
  intros Hw Hne. unfold Wake.np_std0. rewrite length_map.
  apply length_np_mean0; [| by destruct w].
  apply rect_square_dev; [done | by apply length_np_mean0].
Qed.

(** ** C3: spacing is span over count *)

Lemma series_all_nan (col : arr1) :
  (forall c, c ∈ col -> isnan c = true) -> series_min col = NaN /\ series_max col = NaN.
Proof.
  intros H. unfold series_min, series_max.
  destruct (filter (fun x => isnan x = false) col) as [|x rest] eqn:E; [done |].
  assert (Hx : x ∈ filter (fun x => isnan x = false) col) by (rewrite E; apply list_elem_of_here).
  apply list_elem_of_filter in Hx as [Hn Hx]. rewrite (H x Hx) in Hn. done.
Qed.

(** A column that takes two values. *)
Lemma distinct_values_two (col : list float) (i j : nat) (a b : float) :
  col !! i = Some a -> col !! j = Some b -> SFeqb a b = false ->
  forallb (fun c => SFeqb c a || SFeqb c b) col = true ->
  distinct_values SFeqb col [a; b].
Proof.
  intros Ha Hb Hab Hall. split; [| split].
  - intros d [-> | [-> | Hd%elem_of_nil]%elem_of_cons]%elem_of_cons; try done;
      by eapply list_elem_of_lookup_2.
  - intros c Hc. rewrite forallb_forall in Hall.
    apply list_elem_of_In in Hc. apply Hall in Hc.
    apply orb_prop in Hc as [Hc | Hc].
    + exists a. split; [apply list_elem_of_here | done].
    + exists b. split; [apply list_elem_of_further, list_elem_of_here | done].
  - intros [|[|i']] [|[|j']] x y Hij Hx Hy; try lia; try done.
    injection Hx as <-. injection Hy as <-. done.
Qed.

(** C3.  Every reconstructed grid reports, along each axis, the spacing
    (max - min) / count, with the count itself as divisor and not the count
    minus one.  For [fielddata_from_df] the maximum and minimum are the
    reported limits; for a column without NaN they are entries of the
    column that bound all its entries, and the count is the number of
    distinct values of the column.  For [CactusWakeGrid] the count is the
    number of distinct values (all NaN counting as one), and the maximum and
    minimum are entries of the column that bound all its entries other than
    NaN (NaN when there is no such entry).  In particular a table of 8 rows
    without NaN coordinates, with two distinct values along each axis and
    U = V = W = 1.0 in every row, reconstructs to three 2 x 2 x 2 arrays of
    ones with counts 2, 2, 2 and spacings equal to the coordinate range
    divided by 2. *)
Theorem spacing_is_span_over_count (df : DataFrame) :
  (forall gd dims x y z,
     fielddata_from_df df = Ok (gd, dims) ->
     df_loc df x_col_name = Ok x -> df_loc df y_col_name = Ok y ->
     df_loc df z_col_name = Ok z ->
     forall col lim n d,
       (col, lim, n, d) ∈ [(x, xlim dims, nx dims, dx dims);
                           (y, ylim dims, ny dims, dy dims);
                           (z, zlim dims, nz dims, dz dims)] ->
       d = fdiv float64 (fsub float64 lim.2 lim.1) (of_int float64 (Z.of_nat n)) /\
       (Forall (fun c => isnan c = false) col ->
          extrema_of col lim.1 lim.2 /\
          (exists ds, distinct_values SFeqb col ds) /\
          (forall ds, distinct_values SFeqb col ds -> length ds = n))) /\
  (forall g x y z,
     Wake.CactusWakeGrid_init df = Ok g ->
     df_loc df x_col_name = Ok x -> df_loc df y_col_name = Ok y ->
     df_loc df z_col_name = Ok z ->
     forall col n d,
       (col, n, d) ∈ [(x, Wake.nx g, Wake.dx g); (y, Wake.ny g, Wake.dy g);
                      (z, Wake.nz g, Wake.dz g)] ->
       (exists ds, distinct_values pd_eqb col ds) /\
       (forall ds, distinct_values pd_eqb col ds -> length ds = n) /\
       exists lo hi,
         d = fdiv float64 (fsub float64 hi lo) (of_int float64 (Z.of_nat n)) /\
         (forall c, c ∈ col -> isnan c = false -> extrema_of col lo hi) /\
         ((forall c, c ∈ col -> isnan c = true) -> lo = NaN /\ hi = NaN)) /\
  (forall x y z u v w dsx dsy dsz,
     df_loc df x_col_name = Ok x -> df_loc df y_col_name = Ok y ->
     df_loc df z_col_name = Ok z -> df_loc df u_col_name = Ok u ->
     df_loc df v_col_name = Ok v -> df_loc df w_col_name = Ok w ->
     length (df_rows df) = 8 ->
     Forall (fun c => isnan c = false) x ->
     Forall (fun c => isnan c = false) y ->
     Forall (fun c => isnan c = false) z ->
     distinct_values SFeqb x dsx -> length dsx = 2 ->
     distinct_values SFeqb y dsy -> length dsy = 2 ->
     distinct_values SFeqb z dsz -> length dsz = 2 ->
     Forall (fun c => c = f64 1) u -> Forall (fun c => c = f64 1) v ->
     Forall (fun c => c = f64 1) w ->
     exists gd dims,
       fielddata_from_df df = Ok (gd, dims) /\
       gd !! "U" = Some ones222 /\ gd !! "V" = Some ones222 /\
       gd !! "W" = Some ones222 /\
       nx dims = 2 /\ ny dims = 2 /\ nz dims = 2 /\
       extrema_of x (xlim dims).1 (xlim dims).2 /\
       extrema_of y (ylim dims).1 (ylim dims).2 /\
       extrema_of z (zlim dims).1 (zlim dims).2 /\
       dx dims = fdiv float64 (fsub float64 (xlim dims).2 (xlim dims).1) (f64 2) /\
       dy dims = fdiv float64 (fsub float64 (ylim dims).2 (ylim dims).1) (f64 2) /\
       dz dims = fdiv float64 (fsub float64 (zlim dims).2 (zlim dims).1) (f64 2)).
Proof.
  assert (Hcount : forall col ds,
    Forall (fun c => isnan c = false) col -> distinct_values SFeqb col ds ->
    length ds = length (np_unique col)).
  { intros col ds Hn Hds.
    apply (distinct_values_length SFeqb SFeqb_sym SFeqb_trans col); [done |].
    by apply np_unique_distinct_values. }
  assert (Hext : forall col, col <> [] -> Forall (fun c => isnan c = false) col ->
    extrema_of col (series_min col) (series_max col)).
  { intros [|c col] Hne Hn; [done |]. apply Forall_cons in Hn as [Hc _].
    apply (series_extrema _ c); [apply list_elem_of_here | done]. }
  split; [| split].
  - intros gd dims x y z Hok Hx Hy Hz col lim n d Hin.
    destruct (fielddata_from_df_Ok _ _ _ Hok)
      as (x' & y' & z' & u & v & w & ymin & ymax & zmin & zmax
          & X & Y & Z & U & V & W & Hx' & Hy' & Hz' & _ & _ & _ & H1 & H2 & H3 & H4
          & _ & _ & _ & _ & _ & _ & -> & _).
    assert (x' = x) as -> by congruence. assert (y' = y) as -> by congruence.
    assert (z' = z) as -> by congruence. simpl in Hin.
    assert (Hxne : x <> []).
    { intros ->. apply length_df_loc in Hx, Hy. simpl in Hx.
      destruct y; [done | simpl in Hy; lia]. }
    apply elem_of_cons in Hin as [[= -> -> -> ->] | Hin];
      [| apply elem_of_cons in Hin as [[= -> -> -> ->] | Hin];
         [| apply elem_of_cons in Hin as [[= -> -> -> ->] | Hin];
            [| by apply elem_of_nil in Hin]]];
      (split; [done |]); intros Hn; simpl.
    + split; [by apply Hext |]. split.
      * exists (np_unique x). by apply np_unique_distinct_values.
      * intros ds Hds. by apply Hcount.
    + split; [by apply ndarray_extrema |]. split.
      * exists (np_unique y). by apply np_unique_distinct_values.
      * intros ds Hds. by apply Hcount.
    + split; [by apply ndarray_extrema |]. split.
      * exists (np_unique z). by apply np_unique_distinct_values.
      * intros ds Hds. by apply Hcount.
  - intros g x y z Hok Hx Hy Hz col n d Hin.
    destruct (CactusWakeGrid_init_Ok _ _ Hok)
      as (t & x' & y' & z' & u & v & w & U & V & W & _ & Hx' & Hy' & Hz' & _ & _ & _
          & _ & _ & _ & Hnx & Hny & Hnz & Hdx & Hdy & Hdz & _).
    assert (x' = x) as -> by congruence. assert (y' = y) as -> by congruence.
    assert (z' = z) as -> by congruence.
    assert (Hgen : forall col n d,
      n = length (pd_unique col) ->
      d = fdiv float64 (fsub float64 (series_max col) (series_min col))
            (of_int float64 (Z.of_nat n)) ->
      (exists ds, distinct_values pd_eqb col ds) /\
      (forall ds, distinct_values pd_eqb col ds -> length ds = n) /\
      exists lo hi,
        d = fdiv float64 (fsub float64 hi lo) (of_int float64 (Z.of_nat n)) /\
        (forall c, c ∈ col -> isnan c = false -> extrema_of col lo hi) /\
        ((forall c, c ∈ col -> isnan c = true) -> lo = NaN /\ hi = NaN)).
    { intros col' n' d' -> ->. split; [| split].
      - exists (pd_unique col'). apply pd_unique_distinct_values.
      - intros ds Hds.
        apply (distinct_values_length pd_eqb) with (col := col'); try done.
        + intros a b. by rewrite pd_eqb_sym.
        + apply pd_eqb_trans.
        + apply pd_unique_distinct_values.
      - exists (series_min col'), (series_max col'). split; [done |]. split.
        + intros c Hc Hcn. by apply (series_extrema _ c).
        + apply series_all_nan. }
    apply elem_of_cons in Hin as [[= -> -> ->] | Hin];
      [| apply elem_of_cons in Hin as [[= -> -> ->] | Hin];
         [| apply elem_of_cons in Hin as [[= -> -> ->] | Hin];
            [| by apply elem_of_nil in Hin]]];
      by apply Hgen.
  - intros x y z u v w dsx dsy dsz Hx Hy Hz Hu Hv Hw Hrows Hxn Hyn Hzn
      Hdx Hlx Hdy Hly Hdz Hlz Hu1 Hv1 Hw1.
    assert (Hnx : length (np_unique x) = 2) by (by rewrite <- (Hcount x dsx)).
    assert (Hny : length (np_unique y) = 2) by (by rewrite <- (Hcount y dsy)).
    assert (Hnz : length (np_unique z) = 2) by (by rewrite <- (Hcount z dsz)).
    destruct (fielddata_from_df_intro df x y z u v w) as (gd & dims & Hok); try done.
    { intros E. by rewrite E in Hrows. }
    { rewrite Hnx, Hny, Hnz. done. }
    destruct (fielddata_from_df_Ok _ _ _ Hok)
      as (x' & y' & z' & u' & v' & w' & ymin & ymax & zmin & zmax
          & X & Y & Z & U & V & W & Hx' & Hy' & Hz' & Hu' & Hv' & Hw'
          & H1 & H2 & H3 & H4
          & _ & _ & _ & HU & HV & HW & Hdims & _ & _ & _ & GU & GV & GW & _).
    assert (x' = x) as -> by congruence. assert (y' = y) as -> by congruence.
    assert (z' = z) as -> by congruence. assert (u' = u) as -> by congruence.
    assert (v' = v) as -> by congruence. assert (w' = w) as -> by congruence.
    rewrite Hnx, Hny, Hnz in Hdims. subst dims. simpl in *.
    apply Forall_eq_replicate in Hu1, Hv1, Hw1.
    rewrite (length_df_loc _ _ _ Hu), Hrows in Hu1.
    rewrite (length_df_loc _ _ _ Hv), Hrows in Hv1.
    rewrite (length_df_loc _ _ _ Hw), Hrows in Hw1.
    subst u v w. vm_compute in HU, HV, HW.
    injection HU as <-. injection HV as <-. injection HW as <-.
    assert (Hxne : x <> []).
    { intros ->. apply length_df_loc in Hx. simpl in Hx. lia. }
    eexists gd, _.
    split; [exact Hok |]. simpl.
    do 6 (split; [done |]).
    split; [by apply Hext |].
    split; [by apply ndarray_extrema |].
    split; [by apply ndarray_extrema |].
    repeat split; done.
Qed.

(** The unit cube: three arrays of ones and spacings 1/2. *)
Lemma spacing_is_span_over_count_witness :
  exists gd dims,
    fielddata_from_df df_cube = Ok (gd, dims) /\
    gd !! "U" = Some ones222 /\ gd !! "V" = Some ones222 /\
    gd !! "W" = Some ones222 /\
    dx dims = fdiv float64 (f64 1) (f64 2) /\
    dy dims = fdiv float64 (f64 1) (f64 2) /\
    dz dims = fdiv float64 (f64 1) (f64 2).
Proof.
  destruct (proj2 (proj2 (spacing_is_span_over_count df_cube))
    [f64 0; f64 1; f64 0; f64 1; f64 0; f64 1; f64 0; f64 1]
    [f64 0; f64 0; f64 1; f64 1; f64 0; f64 0; f64 1; f64 1]
    [f64 0; f64 0; f64 0; f64 0; f64 1; f64 1; f64 1; f64 1]
    (replicate 8 (f64 1)) (replicate 8 (f64 1)) (replicate 8 (f64 1))
    [f64 0; f64 1] [f64 0; f64 1] [f64 0; f64 1])
    as (gd & dims & Hok & HU & HV & HW & _ & _ & _ & _ & _ & _ & Hdx & Hdy & Hdz);
    try (vm_compute; reflexivity);
    try (repeat constructor; fail).
  - by apply (distinct_values_two _ 0 1).
  - by apply (distinct_values_two _ 0 2).
  - by apply (distinct_values_two _ 0 4).
  - exists gd, dims. split; [done |]. split; [done |]. split; [done |]. split; [done |].
    rewrite Hdx, Hdy, Hdz.
    vm_compute in Hok. injection Hok as _ <-. vm_compute. done.
Defined.

(** ** C5: a start time before the data *)

Lemma sample_take (e : nat) (F : arr2) (j : nat) :
  sample (take e F) j = take e (sample F j).
Proof. unfold sample. by rewrite List.firstn_map. Qed.

(** C5 (as amended).  When [t_start] is strictly below the first available
    time, [field_time_stats] issues the start-out-of-range warning, starts
    at index 0, and resolves the end index [index_end]: -1 when [t_end] is
    beyond the last time (with a warning) or equals -1, else the index of
    the time nearest to [t_end].  With [e] that index read as an exclusive
    slice bound of the field: if [e = 0] the window is empty and the call
    raises ValueError after the warnings; if [0 < e] the call returns, and
    at every point [j] the four results are the statistics of the samples
    [0 <= k < e] of that point: their mean, the square root of the mean of
    their squared deviations from that mean, and their minimum and maximum
    (an entry that bounds all of them when none is NaN, NaN when one is). *)
Theorem field_time_stats_start_clamped
    (field : arr2) (times : arr1) (t_start t_end first : float) (n : nat) :
  times !! 0 = Some first ->
  SFltb t_start first = true ->
  rect n field ->
  exists index_end,
    end_index_of times t_end index_end /\
    let e := slice_bound index_end (length field) in
    let ws := Wake.StartOutOfRange t_start :: end_warning times t_end in
    (e = 0 ->
       Wake.field_time_stats field times t_start t_end = (ws, Raise ValueError)) /\
    (0 < e ->
       exists mean stdf minf maxf,
         Wake.field_time_stats field times t_start t_end
           = (ws, Ok (mean, stdf, minf, maxf)) /\
         length mean = n /\ length stdf = n /\ length minf = n /\ length maxf = n /\
         forall j, j < n ->
           let s := take e (sample field j) in
           let m := time_mean n s in
           mean !! j = Some m /\
           stdf !! j
             = Some (fsqrt float64
                       (time_mean n
                          (map (fun f => let d := fsub float64 f m in fmul float64 d d) s))) /\
           exists lo hi,
             minf !! j = Some lo /\ maxf !! j = Some hi /\
             (Forall (fun x => isnan x = false) s ->
                lo ∈ s /\ hi ∈ s /\
                forall x, x ∈ s -> SFleb lo x = true /\ SFleb x hi = true) /\
             (S754_nan ∈ s -> lo = NaN /\ hi = NaN)).
Proof.
  intros Hfirst Hlt Hrect.
  assert (Hne : times <> []) by (by destruct times).
  destruct (resolve_end_Ok times t_end Hne) as (w_end & index_end & Hend).
  destruct (resolve_end_spec _ _ _ _ Hend) as [Hidx ->].
  assert (Hstart : Wake.resolve_start times t_start
                   = Ok ([Wake.StartOutOfRange t_start], 0%Z)).
  { unfold Wake.resolve_start. destruct times as [|t0 rest]; [done |].
    injection Hfirst as ->. simpl. by rewrite Hlt. }
  exists index_end. split; [done |]. cbv zeta.
  assert (Hcall : Wake.field_time_stats field times t_start t_end
    = (Wake.StartOutOfRange t_start :: end_warning times t_end,
       minf ← Wake.np_min0 (take (slice_bound index_end (length field)) field);
       maxf ← Wake.np_max0 (take (slice_bound index_end (length field)) field);
       Ok (Wake.np_mean0 (take (slice_bound index_end (length field)) field),
           Wake.np_std0 (take (slice_bound index_end (length field)) field), minf, maxf))).
  { unfold Wake.field_time_stats. rewrite Hstart, Hend. simpl.
    unfold Wake.window_stats. by rewrite py_slice_from_0. }
  rewrite Hcall. clear Hcall.
  pose proof (slice_bound_le index_end (length field)) as Hle.
  set (e := slice_bound index_end (length field)) in *.
  split.
  - intros ->. done.
  - intros Hpos.
    assert (Hw : rect n (take e field)) by (by apply Forall_take).
    assert (Hwne : take e field <> []).
    { destruct field as [|row rest]; [simpl in Hle; lia |].
      destruct e; [lia | done]. }
    destruct (Wake.np_min0 (take e field)) as [minf|] eqn:Hmin;
      [| by destruct (take e field)].
    destruct (Wake.np_max0 (take e field)) as [maxf|] eqn:Hmax;
      [| by destruct (take e field)].
    destruct (np_min0_at n _ _ Hw Hmin) as [Lmin Amin].
    destruct (np_max0_at n _ _ Hw Hmax) as [Lmax Amax].
    exists (Wake.np_mean0 (take e field)), (Wake.np_std0 (take e field)), minf, maxf.
    split; [done |].
    split; [by apply length_np_mean0 |].
    split; [by apply length_np_std0 |].
    split; [done |]. split; [done |].
    intros j Hj. rewrite <- sample_take.
    split; [by apply lookup_np_mean0 |].
    split; [by apply np_std0_at |].
    destruct (Amin j Hj) as (lo & Hlo & Hlo1 & Hlo2).
    destruct (Amax j Hj) as (hi & Hhi & Hhi1 & Hhi2).
    exists lo, hi. split; [done |]. split; [done |]. split.
    + intros Hn. destruct (Hlo1 Hn) as [? ?]. destruct (Hhi1 Hn) as [? ?].
      split; [done |]. split; [done |]. intros x Hx. split; auto.
    + intros Hn. split; auto.
Qed.

(** Three samples at times 0, 1, 2 with [t_start = -5], [t_end = 2]: the
    statistics cover samples 0 and 1. *)
Lemma field_time_stats_start_clamped_witness :
  Wake.field_time_stats field_3x2 times_012 (f64 (-5)) (f64 2) =
    ([Wake.StartOutOfRange (f64 (-5))],
     Ok ([f64 2; f64 3], [f64 1; f64 1], [f64 1; f64 2], [f64 3; f64 4])).
Proof.
  destruct (field_time_stats_start_clamped field_3x2 times_012 (f64 (-5)) (f64 2) (f64 0) 2)
    as (index_end & _ & H); [reflexivity | reflexivity | repeat constructor |].
  cbv zeta in H. destruct H as [Hzero Hpos].
  destruct (slice_bound index_end (length field_3x2)) as [|e'].
  - specialize (Hzero eq_refl). vm_compute in Hzero. discriminate.
  - destruct (Hpos ltac:(lia)) as (mean & stdf & minf & maxf & Hcall & _).
    rewrite Hcall. vm_compute in Hcall. injection Hcall as <- <- <- <-.
    vm_compute. reflexivity.
Defined.

(** C5 (counterexample).  A series with a single sample, from before its
    time up to its time or up to the end (-1), and a series of three
    samples up to its first time: the warning is issued and the call raises
    ValueError, no statistics are computed. *)
Lemma start_clamped_single_sample_raises :
  [f64 0] !! 0 = Some (f64 0) /\
  SFltb (f64 (-5)) (f64 0) = true /\
  Wake.field_time_stats [[f64 1]] [f64 0] (f64 (-5)) (f64 0)
    = ([Wake.StartOutOfRange (f64 (-5))], Raise ValueError) /\
  Wake.field_time_stats [[f64 1]] [f64 0] (f64 (-5)) (f64 (-1))
    = ([Wake.StartOutOfRange (f64 (-5))], Raise ValueError) /\
  Wake.field_time_stats field_3x2 times_012 (f64 (-5)) (f64 0)
    = ([Wake.StartOutOfRange (f64 (-5))], Raise ValueError).
Proof. repeat split; vm_compute; reflexivity. Qed.

(** ** C4: turbulent kinetic energy *)

Lemma field_time_stats_window (field : arr2) (times : arr1) (t_start t_end : float)
    (w1 w2 : list Wake.warning) (index_start index_end : Z) :
  Wake.resolve_start times t_start = Ok (w1, index_start) ->
  Wake.resolve_end times t_end = Ok (w2, index_end) ->
  Wake.field_time_stats field times t_start t_end
  = (w1 ++ w2, Wake.window_stats field index_start index_end).
Proof. intros Hs He. unfold Wake.field_time_stats. by rewrite Hs, He. Qed.

Lemma window_stats_empty (field : arr2) (index_start index_end : Z) :
  py_slice index_start index_end field = [] ->
  Wake.window_stats field index_start index_end = Raise ValueError.
Proof. intros E. unfold Wake.window_stats. by rewrite E. Qed.

Lemma window_stats_nonempty (field : arr2) (index_start index_end : Z) :
  py_slice index_start index_end field <> [] ->
  exists stdf minf maxf,
    Wake.window_stats field index_start index_end
    = Ok (Wake.np_mean0 (py_slice index_start index_end field), stdf, minf, maxf).
Proof.
  intros Hne. unfold Wake.window_stats.
  destruct (py_slice index_start index_end field); [done |]. simpl. eauto.
Qed.

(** C4.  [calc_tke] takes the window from the two requested times: the
    start index is 0 when [t_start] is below the first time and else the
    index of the time nearest to it; the end index is -1 when [t_end] is
    beyond the last time or equals -1 and else the index of the time
    nearest to it.  The mean of each velocity component is taken over the
    samples of the slice [index_start:index_end], and the squared
    differences between that mean and the instantaneous values are averaged
    over ALL time samples of the component: for fields with [n] points per
    sample, the value returned at every point is half the sum over the three
    components of that average.  (Every mean is the sum NumPy forms along
    the time axis, divided by the number of samples.)  The call returns
    exactly when the window holds a sample of each component; otherwise it
    raises ValueError, and with no times at all IndexError. *)
Theorem calc_tke_averages_over_all_samples
    (U V W : arr2) (times : arr1) (t_start t_end : float) (n : nat) :
  rect n U -> rect n V -> rect n W ->
  (times = [] ->
     Wake.calc_tke U V W times t_start t_end = ([], Raise IndexError)) /\
  (times <> [] ->
     exists index_start index_end,
       start_index_of times t_start index_start /\
       end_index_of times t_end index_end /\
       (py_slice index_start index_end U = [] \/
        py_slice index_start index_end V = [] \/
        py_slice index_start index_end W = [] ->
          exists ws, Wake.calc_tke U V W times t_start t_end = (ws, Raise ValueError)) /\
       (py_slice index_start index_end U <> [] ->
        py_slice index_start index_end V <> [] ->
        py_slice index_start index_end W <> [] ->
          exists ws tke,
            Wake.calc_tke U V W times t_start t_end = (ws, Ok tke) /\
            length tke = n /\
            forall j, j < n ->
              tke !! j = Some (tke_at_point n U V W index_start index_end j))).
Proof.
  intros HU HV HW.
  assert (Hcore : forall index_start index_end,
    py_slice index_start index_end U <> [] ->
    py_slice index_start index_end V <> [] ->
    py_slice index_start index_end W <> [] ->
    exists tke,
      (uv ← Wake.badd
             (Wake.mean_square_fluc (Wake.np_mean0 (py_slice index_start index_end U)) U)
             (Wake.mean_square_fluc (Wake.np_mean0 (py_slice index_start index_end V)) V);
       uvw ← Wake.badd uv
             (Wake.mean_square_fluc (Wake.np_mean0 (py_slice index_start index_end W)) W);
       Ok (map (fmul float64 Wake.half) uvw)) = Ok tke /\
      length tke = n /\
      forall j, j < n -> tke !! j = Some (tke_at_point n U V W index_start index_end j)).
  { intros index_start index_end HneU HneV HneW.
    assert (LU : length (Wake.mean_square_fluc
                  (Wake.np_mean0 (py_slice index_start index_end U)) U) = n).
    { apply length_mean_square_fluc; [done | by eapply py_slice_nonempty |].
      apply length_np_mean0; [by apply rect_py_slice | done]. }
    assert (LV : length (Wake.mean_square_fluc
                  (Wake.np_mean0 (py_slice index_start index_end V)) V) = n).
    { apply length_mean_square_fluc; [done | by eapply py_slice_nonempty |].
      apply length_np_mean0; [by apply rect_py_slice | done]. }
    assert (LW : length (Wake.mean_square_fluc
                  (Wake.np_mean0 (py_slice index_start index_end W)) W) = n).
    { apply length_mean_square_fluc; [done | by eapply py_slice_nonempty |].
      apply length_np_mean0; [by apply rect_py_slice | done]. }
    rewrite badd_same_length by lia. simpl.
    rewrite badd_same_length by (rewrite length_zip_with; lia). simpl.
    eexists. split; [done |]. split.
    - rewrite length_map, !length_zip_with. lia.
    - intros j Hj. rewrite list_lookup_fmap, !lookup_zip_with.
      rewrite !(mean_square_fluc_at n) by done. done. }
  split.
  - intros ->. done.
  - intros Hne.
    destruct (resolve_start_Ok times t_start Hne) as (w1 & index_start & Hs & _).
    destruct (resolve_end_Ok times t_end Hne) as (w2 & index_end & He).
    destruct (resolve_start_spec _ _ _ _ Hs) as [Hi1 _].
    destruct (resolve_end_spec _ _ _ _ He) as [Hi2 _].
    exists index_start, index_end. split; [done |]. split; [done |].
    unfold Wake.calc_tke.
    rewrite !(field_time_stats_window _ times t_start t_end w1 w2 index_start index_end)
      by done.
    split.
    + intros Hempty.
      destruct (py_slice index_start index_end U) as [|u0 Uw] eqn:EU.
      { rewrite (window_stats_empty U) by done. eauto. }
      destruct (window_stats_nonempty U index_start index_end) as (? & ? & ? & ->);
        [by rewrite EU |].
      destruct (py_slice index_start index_end V) as [|v0 Vw] eqn:EV.
      { rewrite (window_stats_empty V) by done. eauto. }
      destruct (window_stats_nonempty V index_start index_end) as (? & ? & ? & ->);
        [by rewrite EV |].
      destruct (py_slice index_start index_end W) as [|w0 Ww] eqn:EW.
      { rewrite (window_stats_empty W) by done. eauto. }
      by destruct Hempty as [? | [? | ?]].
    + intros HneU HneV HneW.
      destruct (window_stats_nonempty U index_start index_end HneU) as (? & ? & ? & ->).
      destruct (window_stats_nonempty V index_start index_end HneV) as (? & ? & ? & ->).
      destruct (window_stats_nonempty W index_start index_end HneW) as (? & ? & ? & ->).
      destruct (Hcore index_start index_end HneU HneV HneW) as (tke & -> & Hlen & Hat).
      eauto.
Qed.

(** Three samples 1, 3, 5 with window [0, 2): the window mean is 2, the
    squared fluctuations 1, 1, 9 are averaged over all three samples, and
    the energy of three equal components is 0.5 * 3 * 11/3 = 5.5. *)
Lemma calc_tke_averages_over_all_samples_witness :
  exists ws tke,
    Wake.calc_tke field_3x2 field_3x2 field_3x2 times_012 (f64 0) (f64 2) = (ws, Ok tke) /\
    tke !! 0 = Some (tke_at_point 2 field_3x2 field_3x2 field_3x2 0 2 0) /\
    tke !! 1 = Some (tke_at_point 2 field_3x2 field_3x2 field_3x2 0 2 1) /\
    tke !! 0 = Some (fdiv float64 (f64 11) (f64 2)).
Proof.
  pose proof (calc_tke_averages_over_all_samples field_3x2 field_3x2 field_3x2
                times_012 (f64 0) (f64 2) 2) as [_ H];
    [repeat constructor .. |].
  destruct H as (i1 & i2 & _ & _ & Hraise & Hok); [discriminate |].
  destruct (py_slice i1 i2 field_3x2) as [|row rest] eqn:E.
  - destruct Hraise as [ws Hcall]; [by left |].
    vm_compute in Hcall. discriminate.
  - destruct Hok as (ws & tke & Hcall & _); [done .. |].
    exists ws, tke. split; [exact Hcall |].
    vm_compute in Hcall. injection Hcall as _ <-.
    repeat split; vm_compute; reflexivity.
Defined.
